(** * ENEM 2024 dashboard: the offline aggregation pipelines

    A shallow embedding of the preprocessing scripts of the repository
    ([src/data_loader.py], [preprocess_enem.py], [preprocess_redacao.py],
    [preprocess_schools.py], [preprocess_ideb.py]) and the checked
    statements of their specification, followed by the summary by region
    ([preprocess_map_uf.py]) and the computations of the dashboard tabs
    ([src/filters.py], [src/overview_tab.py], [src/map_tab.py],
    [src/redacao_tab.py], [src/schools_tab.py]) with properties of the
    code.

    Conventions of the embedding.
    - Numbers are exact rationals ([Qc], canonical fractions, so that equal
      numbers are equal terms). Floating-point rounding and the storage width
      of a column are not represented: the two [pd.to_numeric(.., downcast=..)]
      loops of the normalizer leave every value as it is.
    - A raw record is a flat mapping from field names to scalars of three
      kinds: numbers (scores), categorical codes (integers) and strings. A
      row keeps the cells of each kind in a finite map keyed by column name;
      a missing key is a null cell (NaN / None), and each column is read in
      the kind the scripts use it in. Which columns a frame has is the
      [columns] list, independent of the cells, as in pandas.
    - A Series computed from a frame is a function of the row.
    - Python exceptions are the [Raise] results of the [result] monad.
    - [groupby] lists its groups in order of first appearance; pandas sorts
      them by key, and no statement below depends on the order. *)

From Stdlib Require Import QArith Qcanon.
From stdpp Require Import gmap strings list fin_maps numbers sorting pretty.

#[local] Set Warnings "-clear-no-such-hyp".

Local Open Scope string_scope.
Local Open Scope list_scope.

(** ** Exceptions *)

Inductive exn :=
  | FileNotFoundError (msg : string)
  | ValueError (msg : string)
  | KeyError (col : string)
  | IndexError.

Inductive result (A : Type) :=
  | Ok (a : A)
  | Raise (e : exn).
Arguments Ok {A} a.
Arguments Raise {A} e.

#[global] Instance exn_eq_dec : EqDecision exn.
Proof. solve_decision. Defined.

#[global] Instance result_eq_dec `{EqDecision A} : EqDecision (result A).
Proof. solve_decision. Defined.

#[global] Instance result_bind : MBind result := λ A B k m,
  match m with
  | Ok a => k a
  | Raise e => Raise e
  end.
#[global] Instance result_ret : MRet result := λ A a, Ok a.

Definition raises {A} (m : result A) : Prop := ∃ e, m = Raise e.

(** ** Tables *)

Record row := Row {
  num : gmap string Qc;
  code : gmap string Z;
  txt : gmap string string
}.

Inductive value := VNum (q : Qc) | VInt (z : Z) | VStr (s : string).
Abbreviation cell := (option value).

#[global] Instance value_eq_dec : EqDecision value.
Proof. solve_decision. Defined.

#[global] Instance row_eq_dec : EqDecision row.
Proof. solve_decision. Defined.

Record DataFrame := DF { columns : list string; rows : list row }.

#[global] Instance DataFrame_eq_dec : EqDecision DataFrame.
Proof. solve_decision. Defined.

(** The cell of column [c], whatever its kind. *)
Definition cell_of (r : row) (c : string) : cell :=
  match num r !! c with
  | Some q => Some (VNum q)
  | None =>
      match code r !! c with
      | Some z => Some (VInt z)
      | None => VStr <$> txt r !! c
      end
  end.

Definition isnull (r : row) (c : string) : bool :=
  match cell_of r c with None => true | Some _ => false end.

Definition has_col (df : DataFrame) (c : string) : bool :=
  bool_decide (c ∈ columns df).

(** Writing one cell: the value goes to the map of its kind, and the column
    name is freed in the other two. *)
Definition set_cell (c : string) (x : cell) (r : row) : row :=
  match x with
  | Some (VNum q) => Row (<[c:=q]> (num r)) (delete c (code r)) (delete c (txt r))
  | Some (VInt z) => Row (delete c (num r)) (<[c:=z]> (code r)) (delete c (txt r))
  | Some (VStr s) => Row (delete c (num r)) (delete c (code r)) (<[c:=s]> (txt r))
  | None => Row (delete c (num r)) (delete c (code r)) (delete c (txt r))
  end.

Definition empty_row : row := Row ∅ ∅ ∅.

(** A Python dict literal used as a record: later keys win. *)
Definition from_record (fields : list (string * cell)) : row :=
  foldl (λ r kv, set_cell kv.1 kv.2 r) empty_row fields.

(** The value a record literal gives to the key [c]: its last binding. *)
Definition field (c : string) (fields : list (string * cell)) : cell :=
  foldl (λ acc kv, if decide (kv.1 = c) then kv.2 else acc) None fields.

(** [df[c] = s]: the column is appended when the frame lacks it. *)
Definition add_col (df : DataFrame) (c : string) : list string :=
  if has_col df c then columns df else columns df ++ [c].

Definition setitem (df : DataFrame) (c : string) (s : row → cell) : DataFrame :=
  DF (add_col df c) (map (λ r, set_cell c (s r) r) (rows df)).

Definition setitem_num (df : DataFrame) (c : string) (s : row → option Qc) : DataFrame :=
  setitem df c (λ r, VNum <$> s r).

Definition setitem_code (df : DataFrame) (c : string) (s : row → option Z) : DataFrame :=
  setitem df c (λ r, VInt <$> s r).

Definition setitem_txt (df : DataFrame) (c : string) (s : row → option string) : DataFrame :=
  setitem df c (λ r, VStr <$> s r).

(** [df[c]]: the column as a Series, [KeyError] when the frame lacks it. *)
Definition getitem_num (df : DataFrame) (c : string) : result (row → option Qc) :=
  if has_col df c then Ok (λ r, num r !! c) else Raise (KeyError c).

Definition getitem_code (df : DataFrame) (c : string) : result (row → option Z) :=
  if has_col df c then Ok (λ r, code r !! c) else Raise (KeyError c).

Definition getitem_txt (df : DataFrame) (c : string) : result (row → option string) :=
  if has_col df c then Ok (λ r, txt r !! c) else Raise (KeyError c).

Definition getitem (df : DataFrame) (c : string) : result (row → cell) :=
  if has_col df c then Ok (λ r, cell_of r c) else Raise (KeyError c).

(** The first of [cols] that the frame lacks. *)
Definition missing_col (df : DataFrame) (cols : list string) : option string :=
  head (filter (λ c, has_col df c = false) cols).

Definition restrict {V} (cols : list string) (m : gmap string V) : gmap string V :=
  filter (λ kv, kv.1 ∈ cols) m.

Definition restrict_row (cols : list string) (r : row) : row :=
  Row (restrict cols (num r)) (restrict cols (code r)) (restrict cols (txt r)).

(** [df[cols]] *)
Definition select (df : DataFrame) (cols : list string) : result DataFrame :=
  match missing_col df cols with
  | Some c => Raise (KeyError c)
  | None => Ok (DF cols (map (restrict_row cols) (rows df)))
  end.

Definition notnull_all (subset : list string) (r : row) : bool :=
  forallb (λ c, negb (isnull r c)) subset.

(** [df.dropna(subset=cols)] *)
Definition dropna (df : DataFrame) (subset : list string) : result DataFrame :=
  match missing_col df subset with
  | Some c => Raise (KeyError c)
  | None => Ok (DF (columns df) (filter (λ r, notnull_all subset r) (rows df)))
  end.

(** ** Arithmetic on columns *)

Definition Qc_of_nat (n : nat) : Qc := Qc_of_Z (Z.of_nat n).

Definition sumQ (xs : list Qc) : Qc := foldr Qcplus 0%Qc xs.

(** pandas' [mean]: nulls are skipped, and it is NaN when nothing is left. *)
Definition mean (xs : list Qc) : option Qc :=
  match xs with
  | [] => None
  | _ => Some (sumQ xs / Qc_of_nat (length xs))%Qc
  end.

(** [Series.map(d)] for a dict keyed by code: a cell whose code is a key gets
    the label, any other cell becomes null. *)
Definition series_map (d : list (Z * string)) (x : option Z) : option string :=
  z ← x; kv ← list_find (λ kv, kv.1 = z) d; Some kv.2.2.

(** [Series.astype(str)] of a text column: a missing cell is a NaN and prints
    as such. *)
Definition astype_str (x : option string) : string := default "nan" x.

(** ** The raw source and the Record Normalizer ([src/data_loader.py]) *)

(** The [data/] directory: the files the pipelines look for, with the table
    each one holds when it exists. *)
Record DataDir := {
  RESULTADOS_2024_parquet : option DataFrame;
  RESULTADOS_2024_csv : option DataFrame
}.

Definition load_raw_enem (d : DataDir) : result DataFrame :=
  match RESULTADOS_2024_parquet d with
  | Some df => Ok df
  | None =>
      match RESULTADOS_2024_csv d with
      | Some df => Ok df
      | None =>
          Raise (FileNotFoundError
                   "Coloque RESULTADOS_2024.csv ou RESULTADOS_2024.parquet na pasta 'data/'.")
      end
  end.

Definition colunas_notas : list string :=
  ["NU_NOTA_CN"; "NU_NOTA_CH"; "NU_NOTA_LC"; "NU_NOTA_MT"; "NU_NOTA_REDACAO"].

Definition mapa_dependencia : list (Z * string) :=
  [(1, "Federal"); (2, "Estadual"); (3, "Municipal"); (4, "Privada")]%Z.

Definition mapa_status : list (Z * string) :=
  [(1, "1. Sem Problemas (Válida)");
   (2, "2. Anulada");
   (3, "3. Cópia T. Motivador");
   (4, "4. Não Atribuída/Em Branco");
   (5, "5. Zero por Critério (Grave)");
   (6, "6. Cancelada");
   (9, "7. Outras Causas/Fuga")]%Z.

Definition mapa_localizacao : list (Z * string) :=
  [(1, "Urbana"); (2, "Rural")]%Z.

(** [sub.mean(axis=1)]: per row, the mean over the columns of [sub]. *)
Definition mean_axis1 (sub : DataFrame) (r : row) : option Qc :=
  mean (omap (λ c, num r !! c) (columns sub)).

Definition derive_nota_final (df : DataFrame) : result DataFrame :=
  if has_col df "nota_final" then Ok df
  else
    let available_cols := filter (λ c, has_col df c) colunas_notas in
    if bool_decide (available_cols = []) then Ok df
    else sub ← select df available_cols;
         Ok (setitem_num df "nota_final" (mean_axis1 sub)).

Definition drop_null_nota_final (df : DataFrame) : result DataFrame :=
  if has_col df "nota_final" then dropna df ["nota_final"] else Ok df.

Definition map_code_column (src dst : string) (d : list (Z * string))
    (df : DataFrame) : result DataFrame :=
  if has_col df src then
    s ← getitem_code df src;
    Ok (setitem_txt df dst (λ r, series_map d (s r)))
  else Ok df.

Definition derive_municipio_uf (df : DataFrame) : result DataFrame :=
  if has_col df "NO_MUNICIPIO_ESC" && has_col df "SG_UF_ESC" then
    a ← getitem_txt df "NO_MUNICIPIO_ESC";
    b ← getitem_txt df "SG_UF_ESC";
    Ok (setitem_txt df "MUNICIPIO_UF"
          (λ r, Some (astype_str (a r) +:+ " - " +:+ astype_str (b r))))
  else Ok df.

(** [astype("Int64")] gives the codes the nullable integer type: every cell
    keeps its code or its null. *)
Definition cast_co_uf (df : DataFrame) : result DataFrame :=
  if has_col df "CO_UF_ESC" then
    s ← getitem_code df "CO_UF_ESC";
    Ok (setitem_code df "CO_UF_ESC" s)
  else Ok df.

(** The two [downcast] loops run over the columns the frame has, whatever
    they are, and change the storage width only. *)
Definition downcast (df : DataFrame) : result DataFrame := Ok df.

Definition preprocess_enem_df (df : DataFrame) : result DataFrame :=
  df ← derive_nota_final df;
  df ← drop_null_nota_final df;
  df ← map_code_column "TP_DEPENDENCIA_ADM_ESC" "TIPO_ESCOLA" mapa_dependencia df;
  df ← map_code_column "TP_STATUS_REDACAO" "STATUS_REDACAO" mapa_status df;
  df ← map_code_column "TP_LOCALIZACAO_ESC" "LOCALIZACAO" mapa_localizacao df;
  df ← derive_municipio_uf df;
  df ← cast_co_uf df;
  downcast df.

(** The normalization pipeline: every preprocessing script starts with these
    two calls. *)
Definition normalize (d : DataDir) : result DataFrame :=
  df ← load_raw_enem d; preprocess_enem_df df.

(** ** Grouping and aggregation (pandas [groupby(...).agg(...)]) *)

Definition key_of (group_cols : list string) (r : row) : list cell :=
  map (cell_of r) group_cols.

Definition complete (k : list cell) : bool :=
  forallb (λ x, match x with Some _ => true | None => false end) k.

(** The groups of [df.groupby(group_cols, dropna=dropna_keys)], each with its
    key and its rows in frame order. With [dropna_keys] (the default of
    pandas) a row with a null in its key belongs to no group. *)
Definition groupby (df : DataFrame) (group_cols : list string) (dropna_keys : bool)
    : result (list (list cell * list row)) :=
  match missing_col df group_cols with
  | Some c => Raise (KeyError c)
  | None =>
      let rs := if dropna_keys
                then filter (λ r, complete (key_of group_cols r)) (rows df)
                else rows df in
      Ok (map (λ k, (k, filter (λ r, key_of group_cols r = k) rs))
              (remove_dups (map (key_of group_cols) rs)))
  end.

Inductive aggfunc :=
  | Size                      (* "size": rows of the group, nulls included *)
  | Sum                       (* "sum": nulls skipped, 0 when nothing is left *)
  | Mean                      (* "mean": nulls skipped, NaN when nothing is left *)
  | CountIf (p : Qc → bool).  (* lambda s: (cond on s).sum() *)

Definition nonnull (c : string) (sub : list row) : list Qc :=
  omap (λ r, num r !! c) sub.

Definition apply_agg (f : aggfunc) (c : string) (sub : list row) : cell :=
  match f with
  | Size => Some (VInt (Z.of_nat (length sub)))
  | Sum => Some (VNum (sumQ (nonnull c sub)))
  | Mean => VNum <$> mean (nonnull c sub)
  | CountIf p => Some (VInt (Z.of_nat (length (filter (λ x, p x) (nonnull c sub)))))
  end.

(** [df.groupby(group_cols, dropna=..).agg(..).reset_index()] for the named
    aggregations of [agg_dict]: one row per group, the key columns first. *)
Definition groupby_agg (df : DataFrame) (group_cols : list string) (dropna_keys : bool)
    (agg_dict : list (string * (string * aggfunc))) : result DataFrame :=
  groups ← groupby df group_cols dropna_keys;
  match missing_col df (map (λ a, a.2.1) agg_dict) with
  | Some c => Raise (KeyError c)
  | None =>
      Ok (DF (group_cols ++ map fst agg_dict)
             (map (λ g, from_record
                          (zip group_cols g.1 ++
                           map (λ a, (a.1, apply_agg a.2.2 a.2.1 g.2)) agg_dict))
                  groups))
  end.

(** ** Histograms (numpy) *)

(** [np.linspace(start, stop, num=n)] *)
Definition linspace (start stop : Qc) (n : nat) : list Qc :=
  map (λ i, start + Qc_of_nat i * ((stop - start) / Qc_of_nat (n - 1)))%Qc (seq 0 n).

(** [sorted(a).searchsorted(v, side)]: on a sorted array the insertion point
    is the number of elements below [v] (left) or not above it (right). *)
Definition searchsorted_left (a : list Qc) (v : Qc) : Z :=
  Z.of_nat (length (filter (λ x, x < v)%Qc a)).

Definition searchsorted_right (a : list Qc) (v : Qc) : Z :=
  Z.of_nat (length (filter (λ x, x ≤ v)%Qc a)).

(** numpy's [_search_sorted_inclusive]: left insertion points for all edges
    but the last, the right one for the last. *)
Definition search_sorted_inclusive (a edges : list Qc) : list Z :=
  map (searchsorted_left a) (take (length edges - 1) edges) ++
  map (searchsorted_right a) (drop (length edges - 1) edges).

(** [np.diff] *)
Definition diff (l : list Z) : list Z :=
  zip_with (λ x y, y - x)%Z l (drop 1 l).

(** [np.histogram(vals, bins=edges)[0]] for an explicit, increasing array of
    edges: the differences of the cumulative counts at the edges. *)
Definition np_histogram (vals edges : list Qc) : list Z :=
  diff (search_sorted_inclusive vals edges).

Definition bin_edges : list Qc := linspace 0 (Qc_of_Z 1000) 41.
Definition bin_left : list Qc := take (length bin_edges - 1) bin_edges.
Definition bin_right : list Qc := drop 1 bin_edges.

Definition enumerate {A} (l : list A) : list (nat * A) := zip (seq 0 (length l)) l.

(** [a[i]] on a Python or numpy sequence *)
Definition at_index {A} (l : list A) (i : nat) : result A :=
  match l !! i with
  | Some x => Ok x
  | None => Raise IndexError
  end.

(** [s.iloc[0]] *)
Definition iloc0 (s : row → cell) (sub : list row) : result cell :=
  r ← at_index sub 0; Ok (s r).

(** The inner loop shared by the two histogram builders: one record per bin
    with a non-zero count. [fields] holds the dimensions (and the metric). *)
Definition bin_records (fields : list (string * cell)) (counts : list Z)
    : result (list row) :=
  recs ← mapM (λ ic : nat * Z,
                 if bool_decide (ic.2 = 0%Z) then Ok []
                 else l ← at_index bin_left ic.1;
                      r ← at_index bin_right ic.1;
                      Ok [from_record
                            (fields ++
                             [("bin_idx", Some (VInt (Z.of_nat ic.1)));
                              ("bin_left", Some (VNum l));
                              ("bin_right", Some (VNum r));
                              ("count", Some (VInt ic.2))])])
              (enumerate counts);
  Ok (concat recs).

(** [pd.DataFrame.from_records(records)] for records that share their keys:
    the columns are the keys, and there is none without records. *)
Definition from_records (keys : list string) (records : list row) : DataFrame :=
  DF (match records with [] => [] | _ => keys end) records.

(** ** [src/config.py] *)

Definition DISCIPLINE_OPTIONS : list (string * string) :=
  [("Nota final", "nota_final");
   ("Ciências da Natureza", "NU_NOTA_CN");
   ("Ciências Humanas", "NU_NOTA_CH");
   ("Linguagens e Códigos", "NU_NOTA_LC");
   ("Matemática", "NU_NOTA_MT");
   ("Redação", "NU_NOTA_REDACAO")].

(** ** [preprocess_enem.py]: the overview summary and histogram *)

Module preprocess_enem.

Definition group_cols : list string := ["TIPO_ESCOLA"; "LOCALIZACAO"; "SG_UF_ESC"].

Definition build_overview_stats (df : DataFrame) (metric_cols : list string)
    : result DataFrame :=
  let agg_dict :=
    ("n", ("nota_final", Size)) ::
    map (λ col, ("sum_" +:+ col, (col, Sum))) metric_cols in
  groupby_agg df group_cols true agg_dict.

Definition hist_keys : list string :=
  group_cols ++ ["metric"; "bin_idx"; "bin_left"; "bin_right"; "count"].

Definition build_overview_hist (df : DataFrame) (metric_cols : list string)
    : result DataFrame :=
  groups ← groupby df group_cols true;
  records ←
    mapM (λ g : list cell * list row,
            let sub := g.2 in
            tipo ← getitem df "TIPO_ESCOLA";
            tipo0 ← iloc0 tipo sub;
            loc ← getitem df "LOCALIZACAO";
            loc0 ← iloc0 loc sub;
            uf ← getitem df "SG_UF_ESC";
            uf0 ← iloc0 uf sub;
            let dims := [("TIPO_ESCOLA", tipo0); ("LOCALIZACAO", loc0);
                         ("SG_UF_ESC", uf0)] in
            recs ←
              mapM (λ metric,
                      s ← getitem_num df metric;
                      let vals := omap s sub in
                      if bool_decide (length vals = 0) then Ok []
                      else bin_records (dims ++ [("metric", Some (VStr metric))])
                                       (np_histogram vals bin_edges))
                   metric_cols;
            Ok (concat recs))
         groups;
  Ok (from_records hist_keys (concat records)).

(** The frame both builders receive. *)
Definition metric_cols_of (df : DataFrame) : list string :=
  filter (λ c, has_col df c) (map snd DISCIPLINE_OPTIONS).

Definition overview_frame (d : DataDir) : result (DataFrame * list string) :=
  df ← load_raw_enem d;
  df ← preprocess_enem_df df;
  let cols_base := ["TIPO_ESCOLA"; "LOCALIZACAO"; "SG_UF_ESC"] in
  let metric_cols := metric_cols_of df in
  let needed_cols := cols_base ++ metric_cols in
  df ← select df needed_cols;
  df ← dropna df ["nota_final"];
  Ok (df, metric_cols).

(** The two artifacts, [overview_stats.parquet] and [overview_hist.parquet]. *)
Definition main (d : DataDir) : result (DataFrame * DataFrame) :=
  fm ← overview_frame d;
  stats ← build_overview_stats fm.1 fm.2;
  hist ← build_overview_hist fm.1 fm.2;
  Ok (stats, hist).

End preprocess_enem.

(** ** [preprocess_redacao.py]: the essay summary and histogram *)

Module preprocess_redacao.

Definition group_cols : list string := ["TIPO_ESCOLA"; "LOCALIZACAO"; "SG_UF_ESC"].

Definition hist_keys : list string :=
  group_cols ++ ["bin_idx"; "bin_left"; "bin_right"; "count"].

(** [stats["sum_redacao"] / stats["n"]]; a group has at least one row, so
    the divisor is never 0. *)
Definition media_redacao (r : row) : option Qc :=
  q ← num r !! "sum_redacao";
  n ← code r !! "n";
  if bool_decide (n = 0%Z) then None else Some (q / Qc_of_Z n)%Qc.

Definition essay_frame (d : DataDir) : result DataFrame :=
  df ← load_raw_enem d;
  df ← preprocess_enem_df df;
  if negb (has_col df "NU_NOTA_REDACAO") then
    Raise (ValueError "Coluna NU_NOTA_REDACAO não encontrada na base.")
  else
    let needed_cols := group_cols ++ ["NU_NOTA_REDACAO"] in
    df ← select df needed_cols;
    dropna df ["NU_NOTA_REDACAO"].

Definition build_stats (df : DataFrame) : result DataFrame :=
  let agg_dict :=
    [("n", ("NU_NOTA_REDACAO", Size));
     ("sum_redacao", ("NU_NOTA_REDACAO", Sum));
     ("n_zero", ("NU_NOTA_REDACAO", CountIf (λ s, bool_decide (s = 0%Qc))));
     ("n_900mais", ("NU_NOTA_REDACAO",
                    CountIf (λ s, bool_decide (Qc_of_Z 900 ≤ s)%Qc)))] in
  stats ← groupby_agg df group_cols false agg_dict;
  Ok (setitem_num stats "media_redacao" media_redacao).

Definition build_hist (df : DataFrame) : result DataFrame :=
  groups ← groupby df group_cols true;
  records ←
    mapM (λ g : list cell * list row,
            let sub := g.2 in
            tipo ← getitem df "TIPO_ESCOLA";
            tipo0 ← iloc0 tipo sub;
            loc ← getitem df "LOCALIZACAO";
            loc0 ← iloc0 loc sub;
            uf ← getitem df "SG_UF_ESC";
            uf0 ← iloc0 uf sub;
            let dims := [("TIPO_ESCOLA", tipo0); ("LOCALIZACAO", loc0);
                         ("SG_UF_ESC", uf0)] in
            s ← getitem_num df "NU_NOTA_REDACAO";
            let vals := omap s sub in
            if bool_decide (length vals = 0) then Ok []
            else bin_records dims (np_histogram vals bin_edges))
         groups;
  Ok (from_records hist_keys (concat records)).

(** The two artifacts, [redacao_stats.parquet] and [redacao_hist.parquet]. *)
Definition main (d : DataDir) : result (DataFrame * DataFrame) :=
  df ← essay_frame d;
  stats ← build_stats df;
  hist ← build_hist df;
  Ok (stats, hist).

End preprocess_redacao.

(** ** [preprocess_schools.py]: the per-school summary *)

Module preprocess_schools.

(** [sorted(set(DISCIPLINE_OPTIONS.values()))]: Python orders strings by
    code point, capitals before small letters. *)
Definition METRIC_COLUMNS : list string :=
  merge_sort (λ a b, String.leb a b) (remove_dups (map snd DISCIPLINE_OPTIONS)).

Definition id_candidates : list string :=
  ["CO_ESCOLA"; "ID_ESCOLA"; "COD_ESCOLA"; "ESCOLA_ID"; "CO_ENTIDADE"].

Definition name_candidates : list string :=
  ["NO_ESCOLA"; "NOME_ESCOLA"; "NM_ESCOLA"].

(** [next((c for c in candidates if c in df.columns), None)] *)
Definition first_present (df : DataFrame) (candidates : list string) : option string :=
  head (filter (λ c, has_col df c) candidates).

Definition _detect_school_cols (df : DataFrame) : result (string * option string) :=
  match first_present df id_candidates with
  | None => Raise (ValueError "Não consegui identificar a coluna de ID da escola.")
  | Some school_id_col => Ok (school_id_col, first_present df name_candidates)
  end.

(** [df.rename(columns=rename_map)] *)
Definition rename_col (rename_map : list (string * string)) (c : string) : string :=
  match list_find (λ kv, kv.1 = c) rename_map with
  | Some ikv => ikv.2.2
  | None => c
  end.

Definition rename (df : DataFrame) (rename_map : list (string * string)) : DataFrame :=
  DF (map (rename_col rename_map) (columns df))
     (map (λ r, from_record
                  (map (λ c, (rename_col rename_map c, cell_of r c)) (columns df)))
          (rows df)).

Definition required_base : list string :=
  ["TIPO_ESCOLA"; "LOCALIZACAO"; "SG_UF_ESC"; "nota_final"].

Definition school_group_cols (cols : string * option string) : list string :=
  [cols.1] ++ match cols.2 with Some n => [n] | None => [] end ++
  ["TIPO_ESCOLA"; "LOCALIZACAO"; "SG_UF_ESC"].

Definition school_agg_dict (df : DataFrame) : list (string * (string * aggfunc)) :=
  ("n_participantes", ("nota_final", Size)) ::
  map (λ col, ("media_" +:+ col, (col, Mean)))
      (filter (λ col, has_col df col) METRIC_COLUMNS).

(** The frame that is grouped, with the detected columns. *)
Definition school_frame (d : DataDir) : result (DataFrame * (string * option string)) :=
  df_raw ← load_raw_enem d;
  df ← preprocess_enem_df df_raw;
  let required_all := required_base ++ METRIC_COLUMNS in
  let missing := filter (λ c, negb (has_col df c)) required_all in
  if negb (bool_decide (missing = [])) then
    Raise (ValueError "Colunas faltando na base para o pré-processamento da Aba 3")
  else
    cols ← _detect_school_cols df;
    df ← dropna df [cols.1];
    Ok (df, cols).

(** The artifact [schools_stats.parquet]; a raised exception leaves no
    file behind, the write being the last step. *)
Definition main (d : DataDir) : result DataFrame :=
  fc ← school_frame d;
  let df := fc.1 in
  let cols := fc.2 in
  agg ← groupby_agg df (school_group_cols cols) false (school_agg_dict df);
  let rename_map :=
    [(cols.1, "school_id")] ++
    match cols.2 with Some n => [(n, "school_name")] | None => [] end in
  Ok (rename agg rename_map).

End preprocess_schools.

(** ** [preprocess_ideb.py]: the longitudinal index *)

Module preprocess_ideb.

(** A spreadsheet cell, and a column label of the parsed sheet (the header
    cells of the year columns are numbers or strings). *)
Inductive xcell := XNull | XNum (q : Qc) | XStr (s : string).
Inductive label := LInt (z : Z) | LStr (s : string).

#[global] Instance xcell_eq_dec : EqDecision xcell.
Proof. solve_decision. Defined.
#[global] Instance label_eq_dec : EqDecision label.
Proof. solve_decision. Defined.

(** A sheet as [pd.read_excel(.., header=4)] returns it: labels and rows. *)
Record Sheet := { header : list label; body : list (list xcell) }.

Definition EXCEL_NAME : string := "divulgacao_brasil_ideb_2023.xlsx".
Definition SHEET_NAME : string := "Brasil (EM) ajustado".

Definition read_excel (book : list (string * Sheet)) (sheet_name : string)
    : result Sheet :=
  match list_find (λ ns, ns.1 = sheet_name) book with
  | Some ins => Ok ins.2.2
  | None => Raise (ValueError "Worksheet not found")
  end.

(** [str(c)] *)
Definition str (c : label) : string :=
  match c with
  | LInt z => pretty z
  | LStr s => s
  end.

(** [str.isascii]: a string is kept as its UTF-8 bytes, and a character is
    ASCII when its byte is below 128. *)
Fixpoint isascii (s : string) : bool :=
  match s with
  | EmptyString => true
  | String (Ascii.Ascii _ _ _ _ _ _ _ b7) s' => negb b7 && isascii s'
  end.

(** Every character is one of 0 to 9. *)
Fixpoint all_digits (s : string) : bool :=
  match s with
  | EmptyString => true
  | String a s' => bool_decide (is_Some (Ascii.is_nat a)) && all_digits s'
  end.

Definition at_col (r : list xcell) (i : nat) : xcell := default XNull (r !! i).

Record LongRow := { Rede : xcell; Ano : string; IDEB_Score : option Qc }.

#[global] Instance LongRow_eq_dec : EqDecision LongRow.
Proof. solve_decision. Defined.

Section to_numeric.

(** How [pd.to_numeric] reads a string cell; every reading is allowed. *)
Variable parse_float : string → option Qc.

(** What [str.isdigit] answers on a string that has a character outside
    ASCII: there it follows the digit property of the Unicode database
    (a superscript two and the full-width digits are digits), which is not
    part of the repository; every table is allowed. *)
Variable unicode_isdigit : string → bool.

(** [str.isdigit]: on ASCII text, the string is not empty and all of its
    characters are among 0 to 9; on other text, as the Unicode database
    says. *)
Definition isdigit (s : string) : bool :=
  if isascii s then negb (bool_decide (s = "")) && all_digits s
  else unicode_isdigit s.

(** [pd.to_numeric(.., errors="coerce")] *)
Definition to_numeric (x : xcell) : option Qc :=
  match x with
  | XNull => None
  | XNum q => Some q
  | XStr s => parse_float s
  end.

Definition reshape (df : Sheet) : result (list LongRow) :=
  match list_find (λ c, c = LStr "Rede") (header df) with
  | None => Raise (KeyError "Rede")
  | Some (rede, _) =>
      let kept :=
        filter (λ r, at_col r rede ∈ [XStr "Pública"; XStr "Privada"]) (body df) in
      let year_cols := filter (λ ic : nat * label, isdigit (str ic.2))
                              (enumerate (header df)) in
      if bool_decide (year_cols = []) then
        Raise (ValueError "Não encontrei colunas de anos (2005, 2007, etc.) no Excel.")
      else
        let df_long :=
          concat (map (λ ic : nat * label,
                         map (λ r, {| Rede := at_col r rede;
                                      Ano := str ic.2;
                                      IDEB_Score := to_numeric (at_col r ic.1) |})
                             kept)
                      year_cols) in
        Ok (filter (λ p, is_Some (IDEB_Score p)) df_long)
  end.

(** The artifact [ideb_brasil_em.parquet]; [xlsx] is the workbook when
    the file exists. *)
Definition main (xlsx : option (list (string * Sheet))) : result (list LongRow) :=
  match xlsx with
  | None => Raise (FileNotFoundError EXCEL_NAME)
  | Some book => df ← read_excel book SHEET_NAME; reshape df
  end.

End to_numeric.

End preprocess_ideb.

(** ** Vocabulary of the specification *)

(** The edges of the 40 equal-width bins over [0, 1000]: multiples of 25. *)
Definition edge (i : nat) : Qc := Qc_of_Z (25 * Z.of_nat i).

(** Bin [i] holds the values of [edge i, edge (i+1)), the last bin those of
    [975, 1000]. *)
Definition in_bin (i : nat) (v : Qc) : Prop :=
  (edge i ≤ v)%Qc ∧ ((v < edge (S i))%Qc ∨ (i = 39 ∧ v = edge 40)).

#[global] Instance in_bin_dec i v : Decision (in_bin i v).
Proof. unfold in_bin. apply _. Defined.

Definition in_range (v : Qc) : Prop := (edge 0 ≤ v)%Qc ∧ (v ≤ edge 40)%Qc.

#[global] Instance in_range_dec v : Decision (in_range v).
Proof. unfold in_range. apply _. Defined.

(** The Bin Row of bin [i] with count [c]. *)
Definition bin_row (fields : list (string * cell)) (i : nat) (c : Z) : row :=
  from_record (fields ++
               [("bin_idx", Some (VInt (Z.of_nat i)));
                ("bin_left", Some (VNum (edge i)));
                ("bin_right", Some (VNum (edge (S i))));
                ("count", Some (VInt c))]).

Definition bin_rows (fields : list (string * cell)) (counts : list Z) : list row :=
  concat (map (λ ic : nat * Z,
                 if bool_decide (ic.2 = 0%Z) then [] else [bin_row fields ic.1 ic.2])
              (enumerate counts)).

(** An integer field of an output row, 0 when the row has none. *)
Definition int_field (c : string) (r : row) : Z := default 0%Z (code r !! c).

Definition sumZ (l : list Z) : Z := foldr Z.add 0%Z l.

(** The rows that [groupby] distributes over its groups. *)
Definition grouped_rows (df : DataFrame) (group_cols : list string) (dropna_keys : bool)
    : list row :=
  if dropna_keys then filter (λ r, complete (key_of group_cols r)) (rows df)
  else rows df.

Definition metric_field (metric : option string) : list (string * cell) :=
  match metric with
  | Some m => [("metric", Some (VStr m))]
  | None => []
  end.

(** The Bin Rows of one group and metric, from the non-null values. *)
Definition hist_block (group_cols : list string) (k : list cell)
    (metric : option string) (vals : list Qc) : list row :=
  if bool_decide (length vals = 0%nat) then []
  else bin_rows (zip group_cols k ++ metric_field metric)
                (np_histogram vals bin_edges).

(** The three grouping dimensions, the same in every script. *)
Abbreviation gcols := preprocess_enem.group_cols.

(** The Bin Rows of a histogram table for one key (and one metric). *)
Definition rows_of_key (k : list cell) (hist : DataFrame) : list row :=
  filter (λ r, key_of gcols r = k) (rows hist).

Definition rows_of_key_metric (k : list cell) (m : string) (hist : DataFrame)
    : list row :=
  filter (λ r, cell_of r "metric" = Some (VStr m)) (rows_of_key k hist).

(** The rows of a frame that carry the key [k]. *)
Definition rows_with_key (k : list cell) (df : DataFrame) : list row :=
  filter (λ r, key_of gcols r = k) (rows df).

(** The subject scores of a record: its non-null cells in the subject-score
    columns the frame has. *)
Definition subject_scores (df : DataFrame) (r : row) : list Qc :=
  omap (λ c, if has_col df c then num r !! c else None) colunas_notas.

(** The composite score of a raw record: the cell of the composite column
    when the frame brings one, else the mean of the subject scores. *)
Definition composite (df : DataFrame) (r : row) : cell :=
  if has_col df "nota_final" then cell_of r "nota_final"
  else VNum <$> mean (subject_scores df r).

(** The frame without the records that have no composite score. *)
Definition drop_without_composite (df : DataFrame) : DataFrame :=
  DF (columns df) (filter (λ r, is_Some (composite df r)) (rows df)).

Definition with_frame (f : DataFrame → DataFrame) (d : DataDir) : DataDir :=
  {| RESULTADOS_2024_parquet := f <$> RESULTADOS_2024_parquet d;
     RESULTADOS_2024_csv := f <$> RESULTADOS_2024_csv d |}.

(** The normalizer in two halves: the composite score and the drop, then the
    labels, which leave the composite score alone. *)
Definition composite_steps (df : DataFrame) : result DataFrame :=
  df ← derive_nota_final df; drop_null_nota_final df.

Definition label_steps (df : DataFrame) : result DataFrame :=
  df ← map_code_column "TP_DEPENDENCIA_ADM_ESC" "TIPO_ESCOLA" mapa_dependencia df;
  df ← map_code_column "TP_STATUS_REDACAO" "STATUS_REDACAO" mapa_status df;
  df ← map_code_column "TP_LOCALIZACAO_ESC" "LOCALIZACAO" mapa_localizacao df;
  df ← derive_municipio_uf df;
  df ← cast_co_uf df;
  downcast df.

(** A frame obtained from another row by row, the cell [c] untouched. *)
Definition preserves (c : string) (df1 df2 : DataFrame) : Prop :=
  (∀ c', has_col df1 c' = true → has_col df2 c' = true) ∧
  ∃ g, rows df2 = map g (rows df1) ∧ ∀ r, cell_of (g r) c = cell_of r c.

(** A frame from which a composite score can be had: it brings the column,
    or at least one subject-score column. *)
Definition has_composite_source (df : DataFrame) : Prop :=
  has_col df "nota_final" = true ∨
  ∃ c, c ∈ colunas_notas ∧ has_col df c = true.

(** What the first half of the normalizer does to a record that is kept. *)
Definition with_composite (df : DataFrame) (r : row) : row :=
  if has_col df "nota_final" then r
  else set_cell "nota_final" (VNum <$> mean (subject_scores df r)) r.

(** The Summary Row of one group. *)
Definition agg_row (group_cols : list string) (agg_dict : list (string * (string * aggfunc)))
    (g : list cell * list row) : row :=
  from_record (zip group_cols g.1 ++
               map (λ a, (a.1, apply_agg a.2.2 a.2.1 g.2)) agg_dict).

(** ** Sample datasets *)

Definition raw_columns : list string :=
  ["TP_DEPENDENCIA_ADM_ESC"; "TP_LOCALIZACAO_ESC"; "SG_UF_ESC"] ++ colunas_notas.

(** A participant: network code, locale code, region and the five subject
    scores in the order of [colunas_notas]. *)
Definition participant (net loc : Z) (uf : string) (scores : list (option Z)) : row :=
  from_record
    ([("TP_DEPENDENCIA_ADM_ESC", Some (VInt net));
      ("TP_LOCALIZACAO_ESC", Some (VInt loc));
      ("SG_UF_ESC", Some (VStr uf))] ++
     zip colunas_notas (map (λ o, (λ z, VNum (Qc_of_Z z)) <$> o) scores)).

Definition parquet_only (df : DataFrame) : DataDir :=
  {| RESULTADOS_2024_parquet := Some df; RESULTADOS_2024_csv := None |}.

(** The end-to-end example of the specification. *)
Definition raw_example : DataFrame :=
  DF raw_columns
     [participant 1 1 "DF" [Some 500; Some 600; Some 700; Some 800; Some 900]%Z;
      participant 4 2 "SP" [None; None; None; None; None];
      participant 2 1 "DF" [Some 300; Some 300; Some 300; Some 300; Some 300]%Z].

Definition d_example : DataDir := parquet_only raw_example.

(** One participant whose network code, 5, is not a key of the mapping. *)
Definition d_code5 : DataDir :=
  parquet_only
    (DF raw_columns
        [participant 5 1 "DF" [Some 300; Some 300; Some 300; Some 300; Some 300]%Z]).

(** One participant with every score at 700. *)
Definition raw_700 : DataFrame :=
  DF raw_columns
     [participant 1 1 "DF" [Some 700; Some 700; Some 700; Some 700; Some 700]%Z].

Definition d_700 : DataDir := parquet_only raw_700.

(** Two pupils of one school; the second has no natural-science score. *)
Definition pupil (school : Z) (r : row) : row :=
  set_cell "CO_ESCOLA" (Some (VInt school)) r.

Definition raw_school : DataFrame :=
  DF (raw_columns ++ ["CO_ESCOLA"])
     [pupil 53000001
        (participant 1 1 "DF" [Some 500; Some 600; Some 700; Some 800; Some 900]%Z);
      pupil 53000001
        (participant 1 1 "DF" [None; Some 600; Some 700; Some 800; Some 900]%Z)].

Definition d_school : DataDir := parquet_only raw_school.

(** The frame the normalizer returns for [d_700]. *)
Definition normalized_700 : DataFrame :=
  DF (raw_columns ++ ["nota_final"; "TIPO_ESCOLA"; "LOCALIZACAO"])
     [from_record
        ([("TP_DEPENDENCIA_ADM_ESC", Some (VInt 1));
          ("TP_LOCALIZACAO_ESC", Some (VInt 1));
          ("SG_UF_ESC", Some (VStr "DF"))] ++
         map (λ c, (c, Some (VNum (Qc_of_Z 700)))) colunas_notas ++
         [("nota_final", Some (VNum (Qc_of_Z 700)));
          ("TIPO_ESCOLA", Some (VStr "Federal"));
          ("LOCALIZACAO", Some (VStr "Urbana"))])].

(** An index sheet with a third category, a dash and a number kept as text. *)
Definition sheet_sample : preprocess_ideb.Sheet :=
  {| preprocess_ideb.header :=
       [preprocess_ideb.LStr "Rede"; preprocess_ideb.LInt 2005;
        preprocess_ideb.LStr "2007"; preprocess_ideb.LStr "Fonte"];
     preprocess_ideb.body :=
       [[preprocess_ideb.XStr "Pública"; preprocess_ideb.XNum (Q2Qc (31 # 10));
         preprocess_ideb.XStr "3.4"; preprocess_ideb.XStr "INEP"];
        [preprocess_ideb.XStr "Privada"; preprocess_ideb.XStr "-";
         preprocess_ideb.XNum (Q2Qc (56 # 10)); preprocess_ideb.XNull];
        [preprocess_ideb.XStr "Conveniada"; preprocess_ideb.XNum (Q2Qc (40 # 10));
         preprocess_ideb.XNum (Q2Qc (41 # 10)); preprocess_ideb.XNull]] |}.

Definition parse_sample (s : string) : option Qc :=
  if decide (s = "3.4") then Some (Q2Qc (34 # 10)) else None.

(** A digit table that knows the superscript two. *)
Definition unicode_sample (s : string) : bool := bool_decide (s = "²").

(** Sheets whose only other column is labelled with a superscript two, and
    with a word. *)
Definition sheet_superscript : preprocess_ideb.Sheet :=
  {| preprocess_ideb.header :=
       [preprocess_ideb.LStr "Rede"; preprocess_ideb.LStr "²"];
     preprocess_ideb.body :=
       [[preprocess_ideb.XStr "Pública"; preprocess_ideb.XNum (Q2Qc (31 # 10))]] |}.

Definition sheet_no_years : preprocess_ideb.Sheet :=
  {| preprocess_ideb.header :=
       [preprocess_ideb.LStr "Rede"; preprocess_ideb.LStr "Fonte"];
     preprocess_ideb.body :=
       [[preprocess_ideb.XStr "Pública"; preprocess_ideb.XStr "INEP"]] |}.

Definition sheet_no_rede : preprocess_ideb.Sheet :=
  {| preprocess_ideb.header :=
       [preprocess_ideb.LStr "Dependência"; preprocess_ideb.LInt 2005];
     preprocess_ideb.body :=
       [[preprocess_ideb.XStr "Pública"; preprocess_ideb.XNum (Q2Qc (31 # 10))]] |}.

Definition long_sample : list preprocess_ideb.LongRow :=
  [{| preprocess_ideb.Rede := preprocess_ideb.XStr "Pública";
      preprocess_ideb.Ano := "2005";
      preprocess_ideb.IDEB_Score := Some (Q2Qc (31 # 10)) |};
   {| preprocess_ideb.Rede := preprocess_ideb.XStr "Pública";
      preprocess_ideb.Ano := "2007";
      preprocess_ideb.IDEB_Score := Some (Q2Qc (34 # 10)) |};
   {| preprocess_ideb.Rede := preprocess_ideb.XStr "Privada";
      preprocess_ideb.Ano := "2007";
      preprocess_ideb.IDEB_Score := Some (Q2Qc (56 # 10)) |}].

Definition key_federal_df : list cell :=
  [Some (VStr "Federal"); Some (VStr "Urbana"); Some (VStr "DF")].

Definition key_null_df : list cell :=
  [None; Some (VStr "Urbana"); Some (VStr "DF")].

Definition metrics6 : list string :=
  ["nota_final"; "NU_NOTA_CN"; "NU_NOTA_CH"; "NU_NOTA_LC"; "NU_NOTA_MT";
   "NU_NOTA_REDACAO"].

(** The frame the overview builders receive for a single participant with
    the dimension cells [k] and the same score [x] in every metric. *)
Definition overview_frame_of (k : list cell) (x : Z) : DataFrame :=
  DF (gcols ++ metrics6)
     [from_record (zip gcols k ++
                   map (λ m, (m, Some (VNum (Qc_of_Z x)))) metrics6)].

Definition essay_frame_of (k : list cell) (x : Z) : DataFrame :=
  DF (gcols ++ ["NU_NOTA_REDACAO"])
     [from_record (zip gcols k ++ [("NU_NOTA_REDACAO", Some (VNum (Qc_of_Z x)))])].

(** The histogram of a single participant scoring 700 everywhere: one row
    per metric, in bin 28. *)
Definition hist_700 : DataFrame :=
  DF preprocess_enem.hist_keys
     (map (λ m, bin_row (zip gcols key_federal_df ++ metric_field (Some m)) 28 1)
          metrics6).

Definition essay_hist_700 : DataFrame :=
  DF preprocess_redacao.hist_keys
     [bin_row (zip gcols key_federal_df ++ metric_field None) 28 1].

(** The rows of an artifact, none when the run raised. *)
Definition rows_of (m : result DataFrame) : list row :=
  match m with
  | Ok df => rows df
  | Raise _ => []
  end.

(** * The dashboard and the summary by region *)

(** ** [preprocess_map_uf.py]: the summary by region *)

Module preprocess_map_uf.

Definition group_cols : list string := ["SG_UF_ESC"; "TIPO_ESCOLA"; "LOCALIZACAO"].

(** The frame that is grouped, with its metric columns. The script reads
    the parquet file only; the message of its [FileNotFoundError] ends with
    the path of the file, which is left out here. *)
Definition map_frame (d : DataDir) : result (DataFrame * list string) :=
  match RESULTADOS_2024_parquet d with
  | None => Raise (FileNotFoundError "Parquet base não encontrado em: ")
  | Some df =>
      df ← preprocess_enem_df df;
      let cols_base := ["TIPO_ESCOLA"; "LOCALIZACAO"; "SG_UF_ESC"] in
      let metric_cols := filter (λ c, has_col df c) (map snd DISCIPLINE_OPTIONS) in
      let needed_cols := cols_base ++ metric_cols in
      df ← select df needed_cols;
      df ← dropna df ["nota_final"];
      df ← dropna df ["SG_UF_ESC"];
      Ok (df, metric_cols)
  end.

Definition agg_dict (metric_cols : list string) : list (string * (string * aggfunc)) :=
  ("n_participantes", ("nota_final", Size)) ::
  map (λ col, ("sum_" +:+ col, (col, Sum))) metric_cols.

(** The artifact [enem_map_uf.parquet]. *)
Definition main (d : DataDir) : result DataFrame :=
  fm ← map_frame d;
  groupby_agg fm.1 group_cols false (agg_dict fm.2).

End preprocess_map_uf.

(** The columns every summary script needs in the normalized table. *)
Definition required_cols : list string :=
  ["TIPO_ESCOLA"; "LOCALIZACAO"; "SG_UF_ESC"; "nota_final"].

(** ** The dashboard: [src/data_loader.py], [src/filters.py]

    The tabs read the artifacts and show numbers and charts. A rendering
    function is represented by the values it computes for its widgets,
    before they are formatted as text. *)

(** [DISCIPLINE_OPTIONS.get(metric_label, "nota_final")] *)
Definition get_metric_column (metric_label : string) : string :=
  match list_find (λ kv, kv.1 = metric_label) DISCIPLINE_OPTIONS with
  | Some ikv => ikv.2.2
  | None => "nota_final"
  end.

(** [s.isin(values)] on a column of strings: a null cell is in no list. *)
Definition isin (s : row → option string) (values : list string) (r : row) : bool :=
  match s r with
  | Some x => bool_decide (x ∈ values)
  | None => false
  end.

(** [df[mask]] *)
Definition loc_mask (df : DataFrame) (mask : row → bool) : DataFrame :=
  DF (columns df) (filter (λ r, mask r) (rows df)).

(** [df.empty]: no rows or no columns. *)
Definition empty (df : DataFrame) : bool :=
  bool_decide (rows df = []) || bool_decide (columns df = []).

Module filters.

Record GlobalFilters := {
  disciplina_label : string;
  metric_column : string;
  redes : option (list string);
  localizacoes : option (list string);
  ufs : option (list string)
}.

Definition _normalize_selection (selected options : list string)
    : option (list string) :=
  if bool_decide (options = []) then None
  else if bool_decide (selected = []) then Some []
  else if bool_decide (length selected = length options) then None
  else Some selected.

(** The truth value of an optional list in a condition: [None] and the
    empty list are false. *)
Definition truthy (l : option (list string)) : bool :=
  match l with
  | Some (_ :: _) => true
  | _ => false
  end.

Definition apply_filters (df : DataFrame) (filters : GlobalFilters) : result DataFrame :=
  let filtered := df in
  filtered ←
    (if truthy (redes filters) && has_col filtered "TIPO_ESCOLA" then
       s ← getitem_txt filtered "TIPO_ESCOLA";
       Ok (loc_mask filtered (isin s (default [] (redes filters))))
     else Ok filtered);
  filtered ←
    (if truthy (localizacoes filters) && has_col filtered "LOCALIZACAO" then
       s ← getitem_txt filtered "LOCALIZACAO";
       Ok (loc_mask filtered (isin s (default [] (localizacoes filters))))
     else Ok filtered);
  filtered ←
    (if truthy (ufs filters) && has_col filtered "SG_UF_ESC" then
       s ← getitem_txt filtered "SG_UF_ESC";
       Ok (loc_mask filtered (isin s (default [] (ufs filters))))
     else Ok filtered);
  if has_col filtered (metric_column filters)
  then dropna filtered [metric_column filters]
  else Ok filtered.

End filters.

(** ** [src/overview_tab.py] *)

Module overview_tab.

Definition _filter_stats (stats_df : DataFrame) (filters : filters.GlobalFilters)
    : result DataFrame :=
  let df := stats_df in
  df ←
    match filters.redes filters with
    | Some redes =>
        if has_col df "TIPO_ESCOLA" then
          s ← getitem_txt df "TIPO_ESCOLA"; Ok (loc_mask df (isin s redes))
        else Ok df
    | None => Ok df
    end;
  df ←
    match filters.localizacoes filters with
    | Some localizacoes =>
        if has_col df "LOCALIZACAO" then
          s ← getitem_txt df "LOCALIZACAO"; Ok (loc_mask df (isin s localizacoes))
        else Ok df
    | None => Ok df
    end;
  match filters.ufs filters with
  | Some ufs =>
      if has_col df "SG_UF_ESC" then
        s ← getitem_txt df "SG_UF_ESC"; Ok (loc_mask df (isin s ufs))
      else Ok df
  | None => Ok df
  end.

Definition _filter_hist (hist_df : DataFrame) (filters : filters.GlobalFilters)
    : result DataFrame :=
  let df := hist_df in
  df ←
    match filters.redes filters with
    | Some redes =>
        if has_col df "TIPO_ESCOLA" then
          s ← getitem_txt df "TIPO_ESCOLA"; Ok (loc_mask df (isin s redes))
        else Ok df
    | None => Ok df
    end;
  df ←
    match filters.localizacoes filters with
    | Some localizacoes =>
        if has_col df "LOCALIZACAO" then
          s ← getitem_txt df "LOCALIZACAO"; Ok (loc_mask df (isin s localizacoes))
        else Ok df
    | None => Ok df
    end;
  df ←
    match filters.ufs filters with
    | Some ufs =>
        if has_col df "SG_UF_ESC" then
          s ← getitem_txt df "SG_UF_ESC"; Ok (loc_mask df (isin s ufs))
        else Ok df
    | None => Ok df
    end;
  if has_col df "metric" then
    s ← getitem_txt df "metric";
    Ok (loc_mask df (λ r, bool_decide (s r = Some (filters.metric_column filters))))
  else Ok df.

(** [s.sum()] on a column of integers and on a column of numbers: nulls are
    skipped. *)
Definition sum_int (s : row → option Z) (rs : list row) : Z := sumZ (omap s rs).
Definition sum_num (s : row → option Qc) (rs : list row) : Qc := sumQ (omap s rs).

(** The four numbers of the indicator row; [None] is NaN. *)
Record kpis := {
  mean_metric : option Qc;
  total_n : Z;
  diff_public_private : option Qc;
  pct_private : option Qc
}.

Definition public_types : list string := ["Federal"; "Estadual"; "Municipal"].
Definition private_types : list string := ["Privada"].

(** [_render_kpi_row]: [None] stands for the warning that the aggregated
    column is missing. *)
Definition _render_kpi_row (stats_df : DataFrame) (metric_col : string)
    : result (option kpis) :=
  let sum_col := "sum_" +:+ metric_col in
  if negb (has_col stats_df sum_col) then Ok None
  else
    n ← getitem_code stats_df "n";
    let total_n := sum_int n (rows stats_df) in
    s ← getitem_num stats_df sum_col;
    let total_sum := sum_num s (rows stats_df) in
    let mean_metric :=
      if bool_decide (0 < total_n)%Z then Some (total_sum / Qc_of_Z total_n)%Qc
      else None in
    means ←
      (if has_col stats_df "TIPO_ESCOLA" then
         tipo ← getitem_txt stats_df "TIPO_ESCOLA";
         let public := filter (λ r, isin tipo public_types r) (rows stats_df) in
         let private := filter (λ r, isin tipo private_types r) (rows stats_df) in
         let mean_public :=
           if bool_decide (public ≠ []) && bool_decide (0 < sum_int n public)%Z
           then Some (sum_num s public / Qc_of_Z (sum_int n public))%Qc else None in
         let mean_private :=
           if bool_decide (private ≠ []) && bool_decide (0 < sum_int n private)%Z
           then Some (sum_num s private / Qc_of_Z (sum_int n private))%Qc else None in
         let pct_private :=
           if bool_decide (private ≠ []) && bool_decide (0 < total_n)%Z
           then Some (Qc_of_Z (sum_int n private) / Qc_of_Z total_n * Qc_of_Z 100)%Qc
           else None in
         Ok (mean_public, mean_private, pct_private)
       else Ok (None, None, None));
    let diff_public_private :=
      match means.1.1, means.1.2 with
      | Some pub, Some priv => Some (pub - priv)%Qc
      | _, _ => None
      end in
    Ok (Some {| mean_metric := mean_metric;
                total_n := total_n;
                diff_public_private := diff_public_private;
                pct_private := means.2 |}).

(** The table behind the bar chart of [_render_distribution_chart_from_hist]:
    one row per bin with its count, its share of the total and its centre;
    [None] stands for the notice that there is no data. The chart draws the
    share against the centre. *)
Definition _render_distribution_chart_from_hist (hist_df : DataFrame)
    : result (option DataFrame) :=
  if empty hist_df then Ok None
  else
    let keys := ["bin_idx"; "bin_left"; "bin_right"] in
    groups ← groupby hist_df keys true;
    count ← getitem_code hist_df "count";
    let grouped :=
      DF (keys ++ ["count"])
         (map (λ g : list cell * list row,
                 from_record (zip keys g.1 ++
                              [("count", Some (VInt (sum_int count g.2)))]))
              groups) in
    let total := sum_int (λ r, code r !! "count") (rows grouped) in
    let grouped :=
      setitem_num grouped "density"
        (λ r, if bool_decide (0 < total)%Z
              then (λ c, Qc_of_Z c / Qc_of_Z total)%Qc <$> code r !! "count"
              else Some 0%Qc) in
    Ok (Some (setitem_num grouped "bin_center"
                (λ r, l ← num r !! "bin_left"; h ← num r !! "bin_right";
                      Some ((l + h) / Qc_of_Z 2)%Qc))).

(** The table behind the bar chart of [_render_participation_by_school_type]:
    one row per network with its participants and their percentage. *)
Definition _render_participation_by_school_type (stats_df : DataFrame)
    : result (option DataFrame) :=
  if negb (has_col stats_df "TIPO_ESCOLA") then Ok None
  else
    groups ← groupby stats_df ["TIPO_ESCOLA"] true;
    n ← getitem_code stats_df "n";
    let counts :=
      DF ["TIPO_ESCOLA"; "n"]
         (map (λ g : list cell * list row,
                 from_record (zip ["TIPO_ESCOLA"] g.1 ++
                              [("n", Some (VInt (sum_int n g.2)))]))
              groups) in
    let total := sum_int (λ r, code r !! "n") (rows counts) in
    Ok (Some (setitem_num counts "percentual"
                (λ r, if bool_decide (0 < total)%Z
                      then (λ c, Qc_of_Z c / Qc_of_Z total * Qc_of_Z 100)%Qc
                             <$> code r !! "n"
                      else Some 0%Qc))).

(** What the tab shows: nothing but a warning ([None]) when no summary row
    passes the filters, else the indicators and the two charts. *)
Record view := {
  indicators : option kpis;
  distribution : option DataFrame;
  participation : option DataFrame
}.

Definition render_overview_tab (stats_df hist_df : DataFrame)
    (filters : filters.GlobalFilters) : result (option view) :=
  stats_filtered ← _filter_stats stats_df filters;
  hist_filtered ← _filter_hist hist_df filters;
  if empty stats_filtered then Ok None
  else
    let metric_col := filters.metric_column filters in
    k ← _render_kpi_row stats_filtered metric_col;
    d ← _render_distribution_chart_from_hist hist_filtered;
    p ← _render_participation_by_school_type stats_filtered;
    Ok (Some {| indicators := k; distribution := d; participation := p |}).

End overview_tab.

(** ** [src/map_tab.py] *)

Module map_tab.

Definition active (sel : option (list string)) : option (list string) :=
  match sel with
  | Some (x :: l) => Some (x :: l)
  | _ => None
  end.

Definition _apply_map_filters (df : DataFrame) (filters : filters.GlobalFilters)
    : result DataFrame :=
  let out := df in
  out ←
    match active (filters.redes filters) with
    | Some redes => s ← getitem_txt out "TIPO_ESCOLA"; Ok (loc_mask out (isin s redes))
    | None => Ok out
    end;
  out ←
    match active (filters.localizacoes filters) with
    | Some localizacoes =>
        s ← getitem_txt out "LOCALIZACAO"; Ok (loc_mask out (isin s localizacoes))
    | None => Ok out
    end;
  match active (filters.ufs filters) with
  | Some ufs => s ← getitem_txt out "SG_UF_ESC"; Ok (loc_mask out (isin s ufs))
  | None => Ok out
  end.

(** The summary by region: participants, sum and mean of the metric. The
    [KeyError] of the first check carries the name of the missing column. *)
Definition _build_uf_summary (df : DataFrame) (metric_col : string) : result DataFrame :=
  let metric_sum_col := "sum_" +:+ metric_col in
  if negb (has_col df metric_sum_col) then Raise (KeyError metric_sum_col)
  else
    groups ← groupby df ["SG_UF_ESC"] true;
    n ← getitem_code df "n_participantes";
    s ← getitem_num df metric_sum_col;
    let agg :=
      DF ["SG_UF_ESC"; "n_participantes"; "sum_metric"]
         (map (λ g : list cell * list row,
                 from_record
                   (zip ["SG_UF_ESC"] g.1 ++
                    [("n_participantes", Some (VInt (overview_tab.sum_int n g.2)));
                     ("sum_metric", Some (VNum (overview_tab.sum_num s g.2)))]))
              groups) in
    let uf_summary :=
      loc_mask agg (λ r, match code r !! "n_participantes" with
                         | Some z => bool_decide (0 < z)%Z
                         | None => false
                         end) in
    Ok (setitem_num uf_summary "nota_media"
          (λ r, q ← num r !! "sum_metric"; z ← code r !! "n_participantes";
                Some (q / Qc_of_Z z)%Qc)).

End map_tab.

(** ** [src/redacao_tab.py] *)

Module redacao_tab.

(** The four numbers of the indicator row; [None] is NaN. *)
Record kpis := {
  media_redacao : option Qc;
  total_n : Z;
  pct_zero : option Qc;
  pct_900 : option Qc
}.

(** What the tab shows below its indicators: the table of the histogram
    ([None] for its notice) and the table of the zero scores by network
    ([None] for the notice that the network column is missing). The second
    chart draws its bars in decreasing order of [pct_zero]; the order is not
    represented. *)
Record view := {
  indicators : kpis;
  histogram : option DataFrame;
  zero_by_network : option DataFrame
}.

(** [by_rede["n_zero"] / by_rede["n"]]; a network of the table has at least
    one summary row, so the divisor is never 0. *)
Definition pct_zero_of (r : row) : option Qc :=
  a ← code r !! "n_zero";
  b ← code r !! "n";
  if bool_decide (b = 0%Z) then None else Some (Qc_of_Z a / Qc_of_Z b)%Qc.

(** [None] stands for the warning that no data passes the filters. *)
Definition render_redacao_tab (stats_df hist_df : DataFrame)
    (filters : filters.GlobalFilters) : result (option view) :=
  stats_filtered ← filters.apply_filters stats_df filters;
  hist_filtered ← filters.apply_filters hist_df filters;
  if empty stats_filtered then Ok None
  else
    n ← getitem_code stats_filtered "n";
    let total_n := overview_tab.sum_int n (rows stats_filtered) in
    s ← getitem_num stats_filtered "sum_redacao";
    let total_sum := overview_tab.sum_num s (rows stats_filtered) in
    z ← getitem_code stats_filtered "n_zero";
    let total_zero := overview_tab.sum_int z (rows stats_filtered) in
    h ← getitem_code stats_filtered "n_900mais";
    let total_900 := overview_tab.sum_int h (rows stats_filtered) in
    let media_redacao :=
      if bool_decide (0 < total_n)%Z then Some (total_sum / Qc_of_Z total_n)%Qc
      else None in
    let pct_zero :=
      if bool_decide (0 < total_n)%Z
      then Some (Qc_of_Z total_zero / Qc_of_Z total_n)%Qc else None in
    let pct_900 :=
      if bool_decide (0 < total_n)%Z
      then Some (Qc_of_Z total_900 / Qc_of_Z total_n)%Qc else None in
    let keys := ["bin_idx"; "bin_left"; "bin_right"] in
    groups ← groupby hist_filtered keys true;
    count ← getitem_code hist_filtered "count";
    let hist_grouped :=
      DF (keys ++ ["count"])
         (map (λ g : list cell * list row,
                 from_record (zip keys g.1 ++
                              [("count", Some (VInt (overview_tab.sum_int count g.2)))]))
              groups) in
    by_rede ←
      (if has_col stats_filtered "TIPO_ESCOLA" then
         groups ← groupby stats_filtered ["TIPO_ESCOLA"] true;
         let by_rede :=
           DF ["TIPO_ESCOLA"; "n"; "n_zero"]
              (map (λ g : list cell * list row,
                      from_record
                        (zip ["TIPO_ESCOLA"] g.1 ++
                         [("n", Some (VInt (overview_tab.sum_int n g.2)));
                          ("n_zero", Some (VInt (overview_tab.sum_int z g.2)))]))
                   groups) in
         Ok (Some (setitem_num by_rede "pct_zero" pct_zero_of))
       else Ok None);
    Ok (Some {| indicators := {| media_redacao := media_redacao;
                                 total_n := total_n;
                                 pct_zero := pct_zero;
                                 pct_900 := pct_900 |};
                histogram := if empty hist_grouped then None else Some hist_grouped;
                zero_by_network := by_rede |}).

End redacao_tab.

(** ** [src/schools_tab.py] *)

Module schools_tab.

(** The order of [sort_values] on a column of numbers: nulls last. *)
Definition le_cell (x y : option Qc) : Prop :=
  match x, y with
  | Some a, Some b => (a ≤ b)%Qc
  | _, None => True
  | None, Some _ => False
  end.

#[global] Instance le_cell_dec x y : Decision (le_cell x y).
Proof. destruct x, y; simpl; apply _. Defined.

(** [df.sort_values(c)]. pandas leaves the order among rows with equal
    values open; the indicators below depend on the values only. *)
Definition sort_values (df : DataFrame) (c : string) : list row :=
  merge_sort (λ r1 r2, le_cell (num r1 !! c) (num r2 !! c)) (rows df).

(** The four numbers of the indicator row; [None] is NaN. *)
Record kpis := {
  n_schools : nat;
  mean_metric : option Qc;
  top_mean : option Qc;
  gap : option Qc
}.

(** The indicators of [render_schools_tab]; [None] stands for the notice
    that no school passes the filters. The histograms by network and the
    ranking below the indicators are not represented. [int(0.1 * n)] is the
    integer part of [n / 10]. *)
Definition render_schools_tab (schools_df : DataFrame) (filters : filters.GlobalFilters)
    : result (option kpis) :=
  let base_metric := filters.metric_column filters in
  let metric_col := "media_" +:+ base_metric in
  let metric_col :=
    if negb (has_col schools_df metric_col) then "media_nota_final" else metric_col in
  df ← filters.apply_filters schools_df filters;
  df ← dropna df [metric_col];
  if empty df then Ok None
  else
    let n_schools := length (rows df) in
    s ← getitem_num df metric_col;
    let mean_metric := mean (omap s (rows df)) in
    let df_sorted := sort_values df metric_col in
    let k := Nat.max 1 (n_schools / 10) in
    let bottom_mean := mean (omap s (take k df_sorted)) in
    let top_mean := mean (omap s (drop (n_schools - k) df_sorted)) in
    let gap :=
      match top_mean, bottom_mean with
      | Some t, Some b => Some (t - b)%Qc
      | _, _ => None
      end in
    Ok (Some {| n_schools := n_schools;
                mean_metric := mean_metric;
                top_mean := top_mean;
                gap := gap |}).

End schools_tab.

(** ** Vocabulary of the dashboard statements *)

(** A dimension cell against the selection of its filter: no selection
    ([None]) accepts every cell, a list accepts the strings it holds. *)
Definition cell_selected (sel : option (list string)) (x : option cell) : bool :=
  match sel with
  | None => true
  | Some l =>
      match x with
      | Some (Some (VStr s)) => bool_decide (s ∈ l)
      | _ => false
      end
  end.

(** A key of network, locale and region against the three filters. *)
Definition key_selected (f : filters.GlobalFilters) (k : list cell) : bool :=
  cell_selected (filters.redes f) (k !! 0%nat) &&
  cell_selected (filters.localizacoes f) (k !! 1%nat) &&
  cell_selected (filters.ufs f) (k !! 2%nat).

(** The participants behind the overview tab: the rows of the frame with a
    non-null network, locale and region that pass the filters. *)
Definition participants (f : filters.GlobalFilters) (df : DataFrame) : list row :=
  filter (λ r, key_selected f (key_of gcols r))
         (filter (λ r, complete (key_of gcols r)) (rows df)).

(** A row in which no column has cells of two kinds. *)
Definition one_kind (r : row) : Prop :=
  ∀ c, (is_Some (num r !! c) → code r !! c = None ∧ txt r !! c = None) ∧
       (is_Some (code r !! c) → txt r !! c = None).

(** The sum of the non-null values of a metric over the number of rows,
    null without rows. *)
Definition per_row (m : string) (rs : list row) : option Qc :=
  if bool_decide (rs = []) then None
  else Some (sumQ (nonnull m rs) / Qc_of_nat (length rs))%Qc.

(** The rows whose network is one of [types]. *)
Definition of_types (types : list string) (rs : list row) : list row :=
  filter (λ r, cell_selected (Some types) (Some (cell_of r "TIPO_ESCOLA"))) rs.

(** The filters with every empty selection turned into no selection. *)
Definition only_active (f : filters.GlobalFilters) : filters.GlobalFilters :=
  {| filters.disciplina_label := filters.disciplina_label f;
     filters.metric_column := filters.metric_column f;
     filters.redes := map_tab.active (filters.redes f);
     filters.localizacoes := map_tab.active (filters.localizacoes f);
     filters.ufs := map_tab.active (filters.ufs f) |}.

(** The test of [apply_filters] on a row of a frame with the columns
    [cols]: each dimension with a non-empty selection and a column must
    hold a selected string, and the metric column, when there, a value. *)
Definition passes (cols : list string) (sel : option (list string)) (c : string)
    (r : row) : bool :=
  if filters.truthy sel && bool_decide (c ∈ cols)
  then isin (λ r, txt r !! c) (default [] sel) r
  else true.

Definition keeps (cols : list string) (f : filters.GlobalFilters) (r : row) : bool :=
  passes cols (filters.redes f) "TIPO_ESCOLA" r &&
  passes cols (filters.localizacoes f) "LOCALIZACAO" r &&
  passes cols (filters.ufs f) "SG_UF_ESC" r &&
  (if bool_decide (filters.metric_column f ∈ cols)
   then notnull_all [filters.metric_column f] r else true).

(** The test of one step of the overview filters: a selection, empty or not,
    is applied when its column is there. *)
Definition stats_passes (cols : list string) (sel : option (list string)) (c : string)
    (r : row) : bool :=
  match sel with
  | Some l => if bool_decide (c ∈ cols) then isin (λ r, txt r !! c) l r else true
  | None => true
  end.

(** The key of bin [i] in the grouping of the distribution chart. *)
Definition bin_key (i : nat) : list cell :=
  [Some (VInt (Z.of_nat i)); Some (VNum (edge i)); Some (VNum (edge (S i)))].

(** ** Sample artifacts and filters of the dashboard *)

(** The summary rows of the single participant of [d_700] and the three
    summaries that hold them. *)
Definition stats_row_700 : row :=
  from_record (zip gcols key_federal_df ++
               ("n", Some (VInt 1)) ::
               map (λ m, ("sum_" +:+ m, Some (VNum (Qc_of_Z 700)))) metrics6).

Definition stats_700 : DataFrame :=
  DF (gcols ++ "n" :: map (λ c, "sum_" +:+ c) metrics6) [stats_row_700].

Definition map_700 : DataFrame :=
  DF (preprocess_map_uf.group_cols ++
      "n_participantes" :: map (λ c, "sum_" +:+ c) metrics6)
     [from_record (zip gcols key_federal_df ++
                   ("n_participantes", Some (VInt 1)) ::
                   map (λ m, ("sum_" +:+ m, Some (VNum (Qc_of_Z 700)))) metrics6)].

Definition essay_columns : list string :=
  gcols ++ ["n"; "sum_redacao"; "n_zero"; "n_900mais"; "media_redacao"].

Definition essay_row_700 : row :=
  from_record (zip gcols key_federal_df ++
               [("n", Some (VInt 1));
                ("sum_redacao", Some (VNum (Qc_of_Z 700)));
                ("n_zero", Some (VInt 0));
                ("n_900mais", Some (VInt 0));
                ("media_redacao", Some (VNum (Qc_of_Z 700)))]).

Definition essay_stats_700 : DataFrame := DF essay_columns [essay_row_700].

(** The essay summary of the single participant of [d_code5], whose network
    is null; the essay histogram of that participant has no row. *)
Definition essay_stats_null : DataFrame :=
  DF essay_columns
     [from_record (zip gcols key_null_df ++
                   [("n", Some (VInt 1));
                    ("sum_redacao", Some (VNum (Qc_of_Z 300)));
                    ("n_zero", Some (VInt 0));
                    ("n_900mais", Some (VInt 0));
                    ("media_redacao", Some (VNum (Qc_of_Z 300)))])].

(** Filters as the sidebar builds them for the composite score: nothing
    filtered, the federal network only, and no network at all. *)
Definition filters_of (redes : option (list string)) : filters.GlobalFilters :=
  {| filters.disciplina_label := "Nota final";
     filters.metric_column := "nota_final";
     filters.redes := redes;
     filters.localizacoes := None;
     filters.ufs := None |}.

Definition filters_all : filters.GlobalFilters := filters_of None.
Definition filters_federal : filters.GlobalFilters := filters_of (Some ["Federal"]).
Definition filters_nothing : filters.GlobalFilters := filters_of (Some []).

(** A school table with three schools of the federal network. *)
Definition school_row (id : Z) (media : Z) : row :=
  from_record [("school_id", Some (VInt id));
               ("TIPO_ESCOLA", Some (VStr "Federal"));
               ("media_nota_final", Some (VNum (Qc_of_Z media)))].

Definition schools_sample : DataFrame :=
  DF ["school_id"; "TIPO_ESCOLA"; "media_nota_final"]
     [school_row 1 600; school_row 2 400; school_row 3 500].

(** * Properties of the embedding *)

(** ** The exception monad *)

Section bind_lemmas.
Context {A B : Type}.

Lemma bind_Ok (m : result A) (k : A → result B) b :
  m ≫= k = Ok b ↔ ∃ a, m = Ok a ∧ k a = Ok b.
Proof.
  destruct m as [a|e]; unfold mbind, result_bind; split.
  - intros Hk. by exists a.
  - by intros (a' & [= <-] & Hk).
  - intros [=].
  - intros (a' & Hm & _). discriminate.
Qed.

Lemma bind_Raise (m : result A) (k : A → result B) e :
  m ≫= k = Raise e ↔ m = Raise e ∨ ∃ a, m = Ok a ∧ k a = Raise e.
Proof.
  destruct m as [a|e']; unfold mbind, result_bind; split.
  - intros Hk. right. by exists a.
  - by intros [Hm|(a' & [= <-] & Hk)].
  - intros [= ->]. by left.
  - intros [[= ->]|(a' & Hm & _)]; [done | discriminate].
Qed.

End bind_lemmas.

Section mapM_lemmas.
Context {A B : Type}.
Implicit Types (f : A → result B).

Lemma mapM_Ok f (l : list A) (l' : list B) :
  mapM f l = Ok l' ↔ Forall2 (λ x y, f x = Ok y) l l'.
Proof.
  revert l'. induction l as [|x l IH]; intros l'; simpl.
  - split; [intros [= <-]; constructor | by inversion 1].
  - split.
    + intros H. apply bind_Ok in H as (y & Hy & H).
      apply bind_Ok in H as (k & Hk & [= <-]).
      constructor; [done | by apply IH].
    + inversion 1 as [|? y ? k Hy Hk]; subst.
      rewrite Hy. simpl. apply IH in Hk. by rewrite Hk.
Qed.

Lemma mapM_pure f (g : A → B) (l : list A) :
  (∀ x, x ∈ l → f x = Ok (g x)) → mapM f l = Ok (g <$> l).
Proof.
  intros H. apply mapM_Ok. induction l as [|x l IH]; simpl; constructor.
  - apply H. by left.
  - apply IH. intros y Hy. apply H. by right.
Qed.
End mapM_lemmas.

(** Settles a decidable closed statement by evaluation. *)
Ltac by_compute := apply (bool_decide_unpack _); vm_compute; exact I.

(** ** Rows and their cells *)

Lemma cell_of_empty c : cell_of empty_row c = None.
Proof. unfold cell_of, empty_row. simpl. by rewrite !lookup_empty. Qed.

Lemma cell_of_set_cell r c x c' :
  cell_of (set_cell c x r) c' = if decide (c = c') then x else cell_of r c'.
Proof.
  unfold cell_of, set_cell.
  destruct (decide (c = c')) as [<-|Hne].
  - destruct x as [[q|z|s]|]; simpl;
      rewrite ?lookup_insert_eq, ?lookup_delete_eq; done.
  - destruct x as [[q|z|s]|]; simpl;
      rewrite ?lookup_insert_ne, ?lookup_delete_ne by done; done.
Qed.

(** The numeric and the text reading of a cell. *)
Lemma num_cell r c :
  num r !! c = match cell_of r c with Some (VNum q) => Some q | _ => None end.
Proof.
  unfold cell_of. destruct (num r !! c); [done|].
  destruct (code r !! c); [done|]. by destruct (txt r !! c).
Qed.

Lemma cell_VNum r c q : cell_of r c = Some (VNum q) ↔ num r !! c = Some q.
Proof. rewrite num_cell. destruct (cell_of r c) as [[]|]; naive_solver. Qed.

Lemma cell_VInt r c z : cell_of r c = Some (VInt z) → code r !! c = Some z.
Proof.
  unfold cell_of. destruct (num r !! c); [done|].
  destruct (code r !! c); [naive_solver|]. by destruct (txt r !! c).
Qed.

Lemma cell_VStr r c s : cell_of r c = Some (VStr s) → txt r !! c = Some s.
Proof.
  unfold cell_of. destruct (num r !! c); [done|].
  destruct (code r !! c); [done|]. destruct (txt r !! c); naive_solver.
Qed.

Lemma field_snoc c fields kv :
  field c (fields ++ [kv]) = if decide (kv.1 = c) then kv.2 else field c fields.
Proof. unfold field. by rewrite foldl_app. Qed.

Lemma cell_of_from_record fields c :
  cell_of (from_record fields) c = field c fields.
Proof.
  induction fields as [|kv fields IH] using rev_ind.
  - apply cell_of_empty.
  - rewrite field_snoc. unfold from_record. rewrite foldl_app. simpl.
    rewrite cell_of_set_cell. by case_decide.
Qed.

Lemma field_app c l1 l2 :
  field c (l1 ++ l2) = match field c l2 with
                       | Some v => Some v
                       | None => if bool_decide (c ∈ l2.*1) then None else field c l1
                       end.
Proof.
  induction l2 as [|kv l2 IH] using rev_ind.
  - by rewrite app_nil_r.
  - rewrite app_assoc, !field_snoc, IH, fmap_app. simpl.
    destruct (decide (kv.1 = c)) as [<-|Hne].
    + destruct (kv.2); [done|].
      rewrite bool_decide_eq_true_2; [done|]. set_solver.
    + destruct (field c l2); [done|].
      rewrite (bool_decide_ext (c ∈ l2.*1 ++ [kv.1]) (c ∈ l2.*1)); [done|].
      set_solver.
Qed.

Lemma field_not_in c l : c ∉ l.*1 → field c l = None.
Proof.
  induction l as [|kv l IH] using rev_ind; [done|].
  rewrite fmap_app, field_snoc. simpl. intros Hc.
  rewrite decide_False by set_solver. apply IH. set_solver.
Qed.

Lemma field_app_r c l1 l2 : c ∈ l2.*1 → field c (l1 ++ l2) = field c l2.
Proof.
  intros Hc. rewrite field_app. destruct (field c l2); [done|].
  by rewrite bool_decide_eq_true_2.
Qed.

Lemma field_app_l c l1 l2 : c ∉ l2.*1 → field c (l1 ++ l2) = field c l1.
Proof.
  intros Hc. rewrite field_app, field_not_in by done.
  by rewrite bool_decide_eq_false_2.
Qed.

(** ** Columns of a frame *)

Lemma has_col_in df c : has_col df c ↔ c ∈ columns df.
Proof. unfold has_col. apply bool_decide_spec. Qed.

Lemma has_col_true df c : has_col df c = true ↔ c ∈ columns df.
Proof. unfold has_col. apply bool_decide_eq_true. Qed.

Lemma has_col_false df c : has_col df c = false ↔ c ∉ columns df.
Proof. unfold has_col. apply bool_decide_eq_false. Qed.

(** ** School-column detection *)

Section first_present.
Import preprocess_schools.

Lemma first_present_Some df cands c :
  first_present df cands = Some c ↔
  ∃ l1 l2, cands = l1 ++ c :: l2 ∧ c ∈ columns df ∧
           Forall (λ c', c' ∉ columns df) l1.
Proof.
  unfold first_present. induction cands as [|c0 cands IH]; simpl.
  - split; [done|]. intros (l1 & l2 & Hl & _). by destruct l1.
  - destruct (decide (c0 ∈ columns df)) as [Hin|Hout].
    + rewrite filter_cons_True by (by apply has_col_in). simpl. split.
      * intros [= <-]. by exists [], cands.
      * intros (l1 & l2 & Hl & Hc & Hl1).
        destruct l1 as [|c1 l1]; simplify_eq/=; [done|].
        by inversion Hl1.
    + rewrite filter_cons_False by (by rewrite has_col_in). rewrite IH. split.
      * intros (l1 & l2 & -> & Hc & Hl1).
        exists (c0 :: l1), l2. split_and!; [done..|by constructor].
      * intros (l1 & l2 & Hl & Hc & Hl1).
        destruct l1 as [|c1 l1]; simplify_eq/=; [done|].
        exists l1, l2. split_and!; [done..|by inversion Hl1].
Qed.

Lemma first_present_None df cands :
  first_present df cands = None ↔ Forall (λ c, c ∉ columns df) cands.
Proof.
  unfold first_present. induction cands as [|c0 cands IH]; simpl.
  - split; [constructor|done].
  - destruct (decide (c0 ∈ columns df)) as [Hin|Hout].
    + rewrite filter_cons_True by (by apply has_col_in). simpl.
      split; [done|]. by inversion 1.
    + rewrite filter_cons_False by (by rewrite has_col_in). rewrite IH.
      split; [by constructor | by inversion 1].
Qed.
End first_present.

(** C8. School-entity-column detection takes the first name of the priority
    list CO_ESCOLA, ID_ESCOLA, COD_ESCOLA, ESCOLA_ID, CO_ENTIDADE that is a
    column of the frame (every candidate before it being absent), and when
    no candidate is a column it raises a ValueError with its message, so
    that the school pipeline ends in that error and gives no artifact. *)
Theorem school_id_detection (df : DataFrame) :
  (∀ c nm,
     preprocess_schools._detect_school_cols df = Ok (c, nm) ↔
     (∃ l1 l2, preprocess_schools.id_candidates = l1 ++ c :: l2 ∧
               c ∈ columns df ∧ Forall (λ c', c' ∉ columns df) l1) ∧
     nm = preprocess_schools.first_present df preprocess_schools.name_candidates) ∧
  (Forall (λ c, c ∉ columns df) preprocess_schools.id_candidates →
   preprocess_schools._detect_school_cols df =
     Raise (ValueError "Não consegui identificar a coluna de ID da escola.") ∧
   ∀ d, normalize d = Ok df →
        ∃ msg, preprocess_schools.main d = Raise (ValueError msg)).
Proof.
  split.
  - intros c nm. unfold preprocess_schools._detect_school_cols.
    destruct (preprocess_schools.first_present df preprocess_schools.id_candidates)
      as [c0|] eqn:Hfp.
    + apply first_present_Some in Hfp. split.
      * intros [= <- <-]. done.
      * intros [Hc ->]. apply first_present_Some in Hc.
        apply first_present_Some in Hfp. congruence.
    + split; [done|]. intros [Hc _].
      apply first_present_Some in Hc. congruence.
  - intros Hnone. apply first_present_None in Hnone.
    assert (Hdet : preprocess_schools._detect_school_cols df =
              Raise (ValueError "Não consegui identificar a coluna de ID da escola.")).
    { unfold preprocess_schools._detect_school_cols. by rewrite Hnone. }
    split; [done|]. intros d Hd.
    unfold preprocess_schools.main, preprocess_schools.school_frame.
    unfold normalize in Hd.
    destruct (load_raw_enem d) as [df_raw|e]; [|done]. simpl in Hd |- *.
    rewrite Hd. simpl.
    destruct (negb _); simpl; [by eexists|].
    rewrite Hdet. simpl. by eexists.
Qed.

(** ** Lists *)

Lemma list_elem_of_concat {A} (ls : list (list A)) x :
  x ∈ concat ls ↔ ∃ l, x ∈ l ∧ l ∈ ls.
Proof.
  induction ls as [|l ls IH]; simpl.
  - split; [by intros ?%elem_of_nil | by intros (l & _ & ?%elem_of_nil)].
  - rewrite elem_of_app, IH. split.
    + intros [Hx|(l' & Hx & Hl')].
      * exists l. split; [done|by left].
      * exists l'. split; [done|by right].
    + intros (l' & Hx & Hl'). apply elem_of_cons in Hl' as [->|Hl'].
      * by left.
      * right. by exists l'.
Qed.

(** ** Enumerations *)

Lemma lookup_enumerate {A} (l : list A) j :
  enumerate l !! j = (λ x, (j, x)) <$> l !! j.
Proof.
  unfold enumerate. rewrite lookup_zip_with.
  destruct (l !! j) as [x|] eqn:Hj.
  - rewrite lookup_seq_lt by (by eapply lookup_lt_Some). done.
  - rewrite lookup_seq_ge by (by apply lookup_ge_None). done.
Qed.

Lemma elem_of_enumerate {A} (l : list A) j x :
  (j, x) ∈ enumerate l ↔ l !! j = Some x.
Proof.
  rewrite list_elem_of_lookup. split.
  - intros [i Hi]. rewrite lookup_enumerate in Hi.
    destruct (l !! i) eqn:Hl; simplify_eq/=. done.
  - intros Hj. exists j. by rewrite lookup_enumerate, Hj.
Qed.

(** ** The longitudinal reshaper *)

(** C10. Every row of the longitudinal output comes from a source row whose
    network category is exactly Pública or Privada and from a year cell that
    reads as a number, which is its index value: a row of another category
    (Conveniada, say) and a cell that is missing or does not read as a number
    give no output row. *)
Theorem longitudinal_rows (parse_float : string → option Qc)
    (unicode_isdigit : string → bool)
    (xlsx : option (list (string * preprocess_ideb.Sheet)))
    (out : list preprocess_ideb.LongRow) (p : preprocess_ideb.LongRow)
    (Hrun : preprocess_ideb.main parse_float unicode_isdigit xlsx = Ok out)
    (Hp : p ∈ out) :
  (preprocess_ideb.Rede p = preprocess_ideb.XStr "Pública" ∨
   preprocess_ideb.Rede p = preprocess_ideb.XStr "Privada") ∧
  ∃ book df rede r i lab q,
    xlsx = Some book ∧
    preprocess_ideb.read_excel book preprocess_ideb.SHEET_NAME = Ok df ∧
    preprocess_ideb.header df !! rede = Some (preprocess_ideb.LStr "Rede") ∧
    r ∈ preprocess_ideb.body df ∧
    preprocess_ideb.Rede p = preprocess_ideb.at_col r rede ∧
    preprocess_ideb.header df !! i = Some lab ∧
    preprocess_ideb.isdigit unicode_isdigit (preprocess_ideb.str lab) = true ∧
    preprocess_ideb.Ano p = preprocess_ideb.str lab ∧
    preprocess_ideb.to_numeric parse_float (preprocess_ideb.at_col r i) = Some q ∧
    preprocess_ideb.IDEB_Score p = Some q.
Proof.
  unfold preprocess_ideb.main in Hrun.
  destruct xlsx as [book|]; [|done].
  apply bind_Ok in Hrun as (df & Hdf & Hrun).
  unfold preprocess_ideb.reshape in Hrun.
  destruct (list_find _ (preprocess_ideb.header df)) as [[rede lab0]|] eqn:Hfind;
    [|done].
  apply list_find_Some in Hfind as (Hrede & -> & _).
  case_bool_decide; [done|]. injection Hrun as <-.
  apply list_elem_of_filter in Hp as [[q Hq] Hp].
  apply list_elem_of_concat in Hp as (blk & Hp & Hblk).
  apply list_elem_of_fmap in Hblk as ([i lab] & -> & Hyc).
  apply list_elem_of_filter in Hyc as [Hdig Hyc].
  apply elem_of_enumerate in Hyc.
  apply list_elem_of_fmap in Hp as (r & -> & Hr).
  apply list_elem_of_filter in Hr as [Hcat Hr].
  simpl in *. split.
  - set_solver.
  - exists book, df, rede, r, i, lab, q.
    split_and!; try done. by apply Is_true_true.
Qed.

(** ** Bin edges *)

Lemma linspace_lookup a b (n i : nat) :
  (i < n)%nat →
  linspace a b n !! i = Some (a + Qc_of_nat i * ((b - a) / Qc_of_nat (n - 1)))%Qc.
Proof.
  intros Hi. unfold linspace. rewrite list_lookup_fmap, lookup_seq_lt by done.
  done.
Qed.

Lemma length_linspace a b n : length (linspace a b n) = n.
Proof. unfold linspace. by rewrite length_map, length_seq. Qed.

Lemma bin_step : ((Qc_of_Z 1000 - 0) / Qc_of_nat (41 - 1))%Qc = Qc_of_Z 25.
Proof. apply Qc_is_canon. reflexivity. Qed.

Lemma length_bin_edges : length bin_edges = 41.
Proof. apply length_linspace. Qed.

Lemma bin_edges_lookup (i : nat) : (i ≤ 40)%nat → bin_edges !! i = Some (edge i).
Proof.
  intros Hi. unfold bin_edges. rewrite linspace_lookup by lia.
  rewrite bin_step, Qcplus_0_l. unfold edge, Qc_of_nat.
  by rewrite Z2Qc_inj_mul, Qcmult_comm.
Qed.

Lemma bin_left_lookup (i : nat) : (i < 40)%nat → bin_left !! i = Some (edge i).
Proof.
  intros Hi. unfold bin_left. rewrite length_bin_edges.
  rewrite lookup_take_lt by lia. apply bin_edges_lookup. lia.
Qed.

Lemma bin_right_lookup (i : nat) : (i < 40)%nat → bin_right !! i = Some (edge (S i)).
Proof.
  intros Hi. unfold bin_right. rewrite lookup_drop. apply bin_edges_lookup. lia.
Qed.

Lemma edge_mono (i j : nat) : (i ≤ j)%nat → (edge i ≤ edge j)%Qc.
Proof. intros Hij. unfold edge. apply (proj1 (Z2Qc_inj_le _ _)). lia. Qed.

(** ** Histogram counts *)

Lemma length_search_sorted_inclusive vals :
  length (search_sorted_inclusive vals bin_edges) = 41.
Proof.
  unfold search_sorted_inclusive.
  rewrite length_app, !length_map, length_take, length_drop, length_bin_edges.
  done.
Qed.

Lemma search_sorted_inclusive_lookup vals (i : nat) :
  (i < 40)%nat →
  search_sorted_inclusive vals bin_edges !! i = Some (searchsorted_left vals (edge i)).
Proof.
  intros Hi. unfold search_sorted_inclusive. rewrite length_bin_edges.
  rewrite lookup_app_l by (rewrite length_map, length_take, length_bin_edges; lia).
  rewrite list_lookup_fmap, lookup_take_lt by lia.
  rewrite bin_edges_lookup by lia. done.
Qed.

Lemma search_sorted_inclusive_last vals :
  search_sorted_inclusive vals bin_edges !! 40 = Some (searchsorted_right vals (edge 40)).
Proof.
  unfold search_sorted_inclusive. rewrite length_bin_edges.
  rewrite lookup_app_r by (rewrite length_map, length_take, length_bin_edges; lia).
  rewrite length_map, length_take, length_bin_edges.
  rewrite list_lookup_fmap, lookup_drop.
  rewrite bin_edges_lookup by lia. done.
Qed.

Lemma length_diff l : length (diff l) = (length l - 1)%nat.
Proof. unfold diff. rewrite length_zip_with, length_drop. lia. Qed.

Lemma diff_lookup l (i : nat) x y :
  l !! i = Some x → l !! S i = Some y → diff l !! i = Some (y - x)%Z.
Proof.
  intros Hx Hy. unfold diff. rewrite lookup_zip_with, lookup_drop, Hx.
  simpl. by rewrite Hy.
Qed.

Lemma count_between vals (a b : Qc) :
  (a ≤ b)%Qc →
  (searchsorted_left vals b - searchsorted_left vals a)%Z =
  Z.of_nat (length (filter (λ v, a ≤ v ∧ v < b)%Qc vals)).
Proof.
  intros Hab. unfold searchsorted_left.
  induction vals as [|v vals IH]; [done|].
  rewrite !filter_cons.
  destruct (decide (v < b)%Qc) as [Hb|Hb], (decide (v < a)%Qc) as [Ha|Ha],
    (decide (a ≤ v ∧ v < b)%Qc) as [Hm|Hm]; simpl; try lia; exfalso.
  - destruct Hm as [Hm _]. by apply Qclt_not_le in Ha.
  - apply Hm. split; [by apply Qcnot_lt_le | done].
  - by destruct Hm.
  - apply Hb. by apply Qclt_le_trans with a.
  - by destruct Hm.
Qed.

Lemma count_between_closed vals (a b : Qc) :
  (a ≤ b)%Qc →
  (searchsorted_right vals b - searchsorted_left vals a)%Z =
  Z.of_nat (length (filter (λ v, a ≤ v ∧ v ≤ b)%Qc vals)).
Proof.
  intros Hab. unfold searchsorted_left, searchsorted_right.
  induction vals as [|v vals IH]; [done|].
  rewrite !filter_cons.
  destruct (decide (v ≤ b)%Qc) as [Hb|Hb], (decide (v < a)%Qc) as [Ha|Ha],
    (decide (a ≤ v ∧ v ≤ b)%Qc) as [Hm|Hm]; simpl; try lia; exfalso.
  - destruct Hm as [Hm _]. by apply Qclt_not_le in Ha.
  - apply Hm. split; [by apply Qcnot_lt_le | done].
  - by destruct Hm.
  - apply Hb. apply Qclt_le_weak. by apply Qclt_le_trans with a.
  - by destruct Hm.
Qed.

Lemma in_bin_inner (i : nat) v :
  i ≠ 39%nat → in_bin i v ↔ (edge i ≤ v ∧ v < edge (S i))%Qc.
Proof. unfold in_bin. intros Hi. split; [intros [? [?|[? _]]]; done | intros [? ?]; auto]. Qed.

Lemma in_bin_last v : in_bin 39 v ↔ (edge 39 ≤ v ∧ v ≤ edge 40)%Qc.
Proof.
  unfold in_bin. split.
  - intros [H1 [H2|[_ ->]]].
    + split; [done | by apply Qclt_le_weak].
    + split; [done | apply Qcle_refl].
  - intros [H1 H2]. split; [done|].
    apply Qcle_lt_or_eq in H2 as [H2|H2]; [by left | by right].
Qed.

(** Bin [i] of the histogram counts the values of bin [i]. *)
Lemma np_histogram_lookup vals (i : nat) :
  (i < 40)%nat →
  np_histogram vals bin_edges !! i = Some (Z.of_nat (length (filter (in_bin i) vals))).
Proof.
  intros Hi. unfold np_histogram.
  destruct (decide (i = 39%nat)) as [->|Hne].
  - rewrite (diff_lookup _ _ _ _ (search_sorted_inclusive_lookup vals 39 Hi)
               (search_sorted_inclusive_last vals)).
    rewrite count_between_closed by (apply edge_mono; lia).
    do 3 f_equal. apply list_filter_iff. intros v. by rewrite in_bin_last.
  - rewrite (diff_lookup _ i _ _ (search_sorted_inclusive_lookup vals i Hi)
               (search_sorted_inclusive_lookup vals (S i) ltac:(lia))).
    rewrite count_between by (apply edge_mono; lia).
    do 3 f_equal. apply list_filter_iff. intros v. by rewrite in_bin_inner.
Qed.

Lemma length_np_histogram vals : length (np_histogram vals bin_edges) = 40%nat.
Proof.
  unfold np_histogram. by rewrite length_diff, length_search_sorted_inclusive.
Qed.

Lemma np_histogram_nonneg vals c : c ∈ np_histogram vals bin_edges → (0 ≤ c)%Z.
Proof.
  intros [i Hi]%list_elem_of_lookup.
  assert (i < 40)%nat as Hlt.
  { apply lookup_lt_Some in Hi. by rewrite length_np_histogram in Hi. }
  rewrite np_histogram_lookup in Hi by done. injection Hi as <-. lia.
Qed.

Lemma sumZ_app l1 l2 : sumZ (l1 ++ l2) = (sumZ l1 + sumZ l2)%Z.
Proof. induction l1 as [|x l1 IH]; simpl; [done|]. rewrite IH. lia. Qed.

(** The differences of a sequence add up to last minus first. *)
Lemma sumZ_diff l x y :
  head l = Some x → last l = Some y → sumZ (diff l) = (y - x)%Z.
Proof.
  revert x. induction l as [|a l IH]; intros x Hx Hy; [done|].
  injection Hx as ->.
  destruct l as [|b l].
  - injection Hy as ->. simpl. lia.
  - change (diff (x :: b :: l)) with ((b - x)%Z :: diff (b :: l)).
    simpl. rewrite (IH b); [lia|done|done].
Qed.

(** All bins together count the values of [0, 1000], and no other value. *)
Lemma sum_np_histogram vals :
  sumZ (np_histogram vals bin_edges) = Z.of_nat (length (filter in_range vals)).
Proof.
  unfold np_histogram.
  rewrite (sumZ_diff _ (searchsorted_left vals (edge 0))
                       (searchsorted_right vals (edge 40))).
  - rewrite count_between_closed by (apply edge_mono; lia). done.
  - rewrite head_lookup. apply search_sorted_inclusive_lookup. lia.
  - rewrite last_lookup, length_search_sorted_inclusive.
    apply search_sorted_inclusive_last.
Qed.

Lemma filter_all {A} (P : A → Prop) `{∀ x, Decision (P x)} (l : list A) :
  Forall P l → filter P l = l.
Proof.
  induction 1 as [|x l Hx Hl IH]; [done|].
  by rewrite filter_cons_True, IH.
Qed.

Lemma filter_none {A} (P : A → Prop) `{∀ x, Decision (P x)} (l : list A) :
  Forall (λ x, ¬ P x) l → filter P l = [].
Proof.
  induction 1 as [|x l Hx Hl IH]; [done|].
  by rewrite filter_cons_False.
Qed.

Lemma sum_np_histogram_in_range vals :
  Forall in_range vals →
  sumZ (np_histogram vals bin_edges) = Z.of_nat (length vals).
Proof. intros Hv. by rewrite sum_np_histogram, filter_all. Qed.

(** ** Bin rows *)

Lemma bin_records_Ok fields counts :
  (length counts ≤ 40)%nat → bin_records fields counts = Ok (bin_rows fields counts).
Proof.
  intros Hlen. unfold bin_records, bin_rows.
  rewrite (mapM_pure _
    (λ ic : nat * Z,
       if bool_decide (ic.2 = 0%Z) then [] else [bin_row fields ic.1 ic.2])).
  - done.
  - intros [i c] Hic. apply elem_of_enumerate in Hic.
    apply lookup_lt_Some in Hic. simpl.
    case_bool_decide; [done|].
    unfold at_index. rewrite bin_left_lookup, bin_right_lookup by lia. done.
Qed.

Lemma bin_row_field_other fields i c x :
  x ∉ ["bin_idx"; "bin_left"; "bin_right"; "count"] →
  cell_of (bin_row fields i c) x = field x fields.
Proof.
  intros Hx. unfold bin_row. rewrite cell_of_from_record.
  apply field_app_l. done.
Qed.

Lemma bin_row_bin_idx fields i c :
  cell_of (bin_row fields i c) "bin_idx" = Some (VInt (Z.of_nat i)).
Proof.
  unfold bin_row. rewrite cell_of_from_record, field_app_r; [done|].
  simpl. set_solver.
Qed.

Lemma bin_row_bin_left fields i c :
  cell_of (bin_row fields i c) "bin_left" = Some (VNum (edge i)).
Proof.
  unfold bin_row. rewrite cell_of_from_record, field_app_r; [done|].
  simpl. set_solver.
Qed.

Lemma bin_row_bin_right fields i c :
  cell_of (bin_row fields i c) "bin_right" = Some (VNum (edge (S i))).
Proof.
  unfold bin_row. rewrite cell_of_from_record, field_app_r; [done|].
  simpl. set_solver.
Qed.

Lemma bin_row_count fields i c :
  cell_of (bin_row fields i c) "count" = Some (VInt c).
Proof.
  unfold bin_row. rewrite cell_of_from_record, field_app_r; [done|].
  simpl. set_solver.
Qed.

Lemma int_field_count fields i c : int_field "count" (bin_row fields i c) = c.
Proof.
  unfold int_field. by rewrite (cell_VInt _ _ _ (bin_row_count fields i c)).
Qed.

Lemma elem_of_bin_rows fields counts r :
  r ∈ bin_rows fields counts ↔
  ∃ (i : nat) c, counts !! i = Some c ∧ c ≠ 0%Z ∧ r = bin_row fields i c.
Proof.
  unfold bin_rows. rewrite list_elem_of_concat. split.
  - intros (l & Hr & Hl). apply list_elem_of_fmap in Hl as ([i c] & -> & Hic).
    apply elem_of_enumerate in Hic. simpl in Hr.
    case_bool_decide; [by apply elem_of_nil in Hr|].
    apply list_elem_of_singleton in Hr. by exists i, c.
  - intros (i & c & Hic & Hc & ->).
    exists [bin_row fields i c]. split; [by left|].
    apply list_elem_of_fmap. exists (i, c). simpl.
    rewrite bool_decide_eq_false_2 by done. split; [done|].
    by apply elem_of_enumerate.
Qed.

Lemma sum_count_bin_rows_aux fields (ics : list (nat * Z)) :
  sumZ (int_field "count" <$>
        concat (map (λ ic : nat * Z,
                       if bool_decide (ic.2 = 0%Z) then []
                       else [bin_row fields ic.1 ic.2]) ics)) =
  sumZ (ics.*2).
Proof.
  induction ics as [|[i c] ics IH]; [done|]. simpl.
  rewrite fmap_app, sumZ_app, IH.
  case_bool_decide as Hc; simpl.
  - rewrite Hc. done.
  - rewrite int_field_count, Z.add_0_r. done.
Qed.

Lemma snd_enumerate {A} (l : list A) : (enumerate l).*2 = l.
Proof. unfold enumerate. apply snd_zip. by rewrite length_seq. Qed.

(** The counts of the emitted rows add up to the counts of all bins. *)
Lemma sum_count_bin_rows fields counts :
  sumZ (int_field "count" <$> bin_rows fields counts) = sumZ counts.
Proof. unfold bin_rows. by rewrite sum_count_bin_rows_aux, snd_enumerate. Qed.

(** ** Column checks *)

Lemma missing_col_None df cols :
  missing_col df cols = None ↔ Forall (λ c, c ∈ columns df) cols.
Proof.
  unfold missing_col. induction cols as [|c cols IH]; simpl.
  - split; [constructor|done].
  - destruct (decide (c ∈ columns df)) as [Hin|Hout].
    + rewrite filter_cons_False; [|by rewrite (proj2 (has_col_true df c) Hin)].
      rewrite IH. split; [by constructor | by inversion 1].
    + rewrite filter_cons_True by (by apply has_col_false).
      simpl. split; [done | by inversion 1].
Qed.

Lemma missing_col_Some df cols c :
  missing_col df cols = Some c → c ∈ cols ∧ c ∉ columns df.
Proof.
  unfold missing_col. intros Hc%head_Some_elem_of.
  apply list_elem_of_filter in Hc as [Hc ?]. split; [done|].
  by apply has_col_false.
Qed.

(** ** Groups *)

Lemma groupby_Ok df gc dk groups :
  groupby df gc dk = Ok groups ↔
  Forall (λ c, c ∈ columns df) gc ∧
  groups = map (λ k, (k, filter (λ r, key_of gc r = k) (grouped_rows df gc dk)))
               (remove_dups (map (key_of gc) (grouped_rows df gc dk))).
Proof.
  unfold groupby, grouped_rows. rewrite <-missing_col_None.
  destruct (missing_col df gc); split.
  - done.
  - by intros [? _].
  - by intros [= <-].
  - by intros [_ ->].
Qed.

Lemma fst_map_pair {A B} (g : A → B) (l : list A) :
  (map (λ k, (k, g k)) l).*1 = l.
Proof. induction l as [|x l IH]; [done|]. simpl. f_equal. exact IH. Qed.

Lemma groupby_keys_NoDup df gc dk groups :
  groupby df gc dk = Ok groups → NoDup (groups.*1).
Proof.
  intros [_ ->]%groupby_Ok.
  rewrite fst_map_pair. apply NoDup_remove_dups.
Qed.

Lemma length_key_of gc r : length (key_of gc r) = length gc.
Proof. unfold key_of. by rewrite length_map. Qed.

Lemma complete_Forall k : complete k = true ↔ Forall is_Some k.
Proof.
  unfold complete. induction k as [|x k IH]; simpl.
  - split; [constructor|done].
  - rewrite andb_true_iff, IH. split.
    + intros [Hx Hk]. constructor; [|done]. by destruct x.
    + inversion 1 as [|? ? [v ->] Hk]; subst. done.
Qed.

Lemma groupby_elem df gc dk groups k sub :
  groupby df gc dk = Ok groups → (k, sub) ∈ groups →
  sub = filter (λ r, key_of gc r = k) (grouped_rows df gc dk) ∧
  length k = length gc ∧
  (dk = true → complete k = true) ∧
  ∃ r0 sub', sub = r0 :: sub' ∧ key_of gc r0 = k.
Proof.
  intros [_ ->]%groupby_Ok Hin.
  apply list_elem_of_fmap in Hin as (k' & [= -> ->] & Hk).
  apply elem_of_remove_dups, list_elem_of_fmap in Hk as (r & -> & Hr).
  split_and!.
  - done.
  - apply length_key_of.
  - intros ->. unfold grouped_rows in Hr.
    apply list_elem_of_filter in Hr as [Hr _]. by apply Is_true_true.
  - assert (r ∈ filter (λ r', key_of gc r' = key_of gc r) (grouped_rows df gc dk))
      as Hin by (by apply list_elem_of_filter).
    destruct (filter _ _) as [|r0 sub'] eqn:Hf; [by apply elem_of_nil in Hin|].
    exists r0, sub'. split; [done|].
    assert (r0 ∈ filter (λ r', key_of gc r' = key_of gc r) (grouped_rows df gc dk))
      as Hr0 by (rewrite Hf; by left).
    by apply list_elem_of_filter in Hr0 as [? _].
Qed.

Lemma groupby_rows_in df gc dk groups k sub r :
  groupby df gc dk = Ok groups → (k, sub) ∈ groups → r ∈ sub →
  r ∈ rows df ∧ key_of gc r = k.
Proof.
  intros Hg Hin Hr. destruct (groupby_elem _ _ _ _ _ _ Hg Hin) as (-> & _).
  apply list_elem_of_filter in Hr as [Hk Hr]. split; [|done].
  unfold grouped_rows in Hr. destruct dk; [|done].
  by apply list_elem_of_filter in Hr as [_ ?].
Qed.

(** Picking the block of one tag out of a concatenation of tagged blocks. *)
Lemma filter_concat_tagged {X B T} `{EqDecision T} (tagB : B → T) (tag : X → T)
    (f : X → list B) (xs : list X) (x : X) :
  NoDup (tag <$> xs) → x ∈ xs →
  (∀ y b, y ∈ xs → b ∈ f y → tagB b = tag y) →
  filter (λ b, tagB b = tag x) (concat (f <$> xs)) = f x.
Proof.
  induction xs as [|y xs IH]; intros Hnd Hx Htag; [by apply elem_of_nil in Hx|].
  rewrite fmap_cons in Hnd. apply NoDup_cons in Hnd as [Hy Hnd].
  rewrite fmap_cons.
  change (concat (f y :: (f <$> xs))) with (f y ++ concat (f <$> xs)).
  rewrite filter_app.
  assert (Hrest : ∀ z b, z ∈ xs → b ∈ f z → tagB b = tag z).
  { intros z b Hz. apply Htag. by right. }
  apply elem_of_cons in Hx as [->|Hx].
  - rewrite filter_all, filter_none; [by rewrite app_nil_r| |].
    + apply Forall_forall. intros b Hb Heq.
      apply list_elem_of_concat in Hb as (l & Hb & Hl).
      apply list_elem_of_fmap in Hl as (z & -> & Hz).
      apply Hy. rewrite <-Heq, (Hrest z b Hz Hb).
      by apply list_elem_of_fmap_2.
    + apply Forall_forall. intros b Hb. apply Htag; [by left|done].
  - rewrite filter_none, IH; [done..|].
    apply Forall_forall. intros b Hb Heq.
    apply Hy. rewrite <-(Htag y b) by (by left || done). rewrite Heq.
    by apply list_elem_of_fmap_2.
Qed.

Lemma filter_concat_untagged {X B T} `{EqDecision T} (tagB : B → T) (tag : X → T)
    (f : X → list B) (xs : list X) (t : T) :
  t ∉ tag <$> xs →
  (∀ y b, y ∈ xs → b ∈ f y → tagB b = tag y) →
  filter (λ b, tagB b = t) (concat (f <$> xs)) = [].
Proof.
  intros Ht Htag. apply filter_none, Forall_forall. intros b Hb Heq.
  apply list_elem_of_concat in Hb as (l & Hb & Hl).
  apply list_elem_of_fmap in Hl as (z & -> & Hz).
  apply Ht. rewrite <-Heq, (Htag z b Hz Hb). by apply list_elem_of_fmap_2.
Qed.

Lemma mapM_Ok_pure {A B} (f : A → result B) (g : A → B) (l : list A) (l' : list B) :
  (∀ x y, x ∈ l → f x = Ok y → y = g x) → mapM f l = Ok l' → l' = g <$> l.
Proof.
  intros Hfg Hm. apply mapM_Ok in Hm.
  induction Hm as [|x y l l' Hxy Hm IH]; [done|].
  rewrite fmap_cons. f_equal.
  - apply Hfg; [by left|done].
  - apply IH. intros x' y' Hx'. apply Hfg. by right.
Qed.

(** ** The histogram builders, as tables of blocks *)

Lemma getitem_Ok df c s : getitem df c = Ok s → s = (λ r, cell_of r c).
Proof. unfold getitem. destruct (has_col df c); by intros [= <-]. Qed.

Lemma getitem_num_Ok df c s : getitem_num df c = Ok s → s = (λ r, num r !! c).
Proof. unfold getitem_num. destruct (has_col df c); by intros [= <-]. Qed.

Lemma iloc0_Ok s sub x :
  iloc0 s sub = Ok x → ∃ r0 sub', sub = r0 :: sub' ∧ x = s r0.
Proof.
  unfold iloc0, at_index. destruct sub as [|r0 sub']; simpl; [done|].
  intros [= <-]. by exists r0, sub'.
Qed.

Lemma metric_block_Ok fields vals recs :
  (if bool_decide (length vals = 0%nat) then Ok []
   else bin_records fields (np_histogram vals bin_edges)) = Ok recs →
  recs = if bool_decide (length vals = 0%nat) then []
         else bin_rows fields (np_histogram vals bin_edges).
Proof.
  case_bool_decide; [by intros [= <-]|].
  rewrite bin_records_Ok by (by rewrite length_np_histogram).
  by intros [= <-].
Qed.

Lemma build_overview_hist_rows df mc hist :
  preprocess_enem.build_overview_hist df mc = Ok hist →
  ∃ groups,
    groupby df preprocess_enem.group_cols true = Ok groups ∧
    rows hist =
      concat ((λ g : list cell * list row,
                 concat ((λ m, hist_block preprocess_enem.group_cols g.1 (Some m)
                                          (nonnull m g.2)) <$> mc))
              <$> groups).
Proof.
  unfold preprocess_enem.build_overview_hist. intros H.
  apply bind_Ok in H as (groups & Hg & H).
  apply bind_Ok in H as (records & Hrec & [= <-]).
  exists groups. split; [done|]. simpl.
  f_equal.
  all: eapply mapM_Ok_pure; [|exact Hrec].
  all: intros [k sub] y Hin Hy; simpl in Hy |- *.
  all: apply bind_Ok in Hy as (tipo & ->%getitem_Ok & Hy).
  all: apply bind_Ok in Hy as (tipo0 & Ht & Hy).
  all: apply bind_Ok in Hy as (loc & ->%getitem_Ok & Hy).
  all: apply bind_Ok in Hy as (loc0 & Hl & Hy).
  all: apply bind_Ok in Hy as (uf & ->%getitem_Ok & Hy).
  all: apply bind_Ok in Hy as (uf0 & Hu & Hy).
  all: apply bind_Ok in Hy as (recs & Hrecs & [= <-]).
  all: f_equal.
  all: destruct (groupby_elem _ _ _ _ _ _ Hg Hin) as (_ & _ & _ & r0 & sub' & -> & <-).
  all: apply iloc0_Ok in Ht as (? & ? & [= <- <-] & ->).
  all: apply iloc0_Ok in Hl as (? & ? & [= <- <-] & ->).
  all: apply iloc0_Ok in Hu as (? & ? & [= <- <-] & ->).
  all: eapply mapM_Ok_pure; [|exact Hrecs].
  all: intros m y _ Hy; simpl in Hy.
  all: apply bind_Ok in Hy as (s & ->%getitem_num_Ok & Hy).
  all: by apply metric_block_Ok in Hy.
Qed.

Lemma build_hist_rows df hist :
  preprocess_redacao.build_hist df = Ok hist →
  ∃ groups,
    groupby df preprocess_redacao.group_cols true = Ok groups ∧
    rows hist =
      concat ((λ g : list cell * list row,
                 hist_block preprocess_redacao.group_cols g.1 None
                            (nonnull "NU_NOTA_REDACAO" g.2))
              <$> groups).
Proof.
  unfold preprocess_redacao.build_hist. intros H.
  apply bind_Ok in H as (groups & Hg & H).
  apply bind_Ok in H as (records & Hrec & [= <-]).
  exists groups. split; [done|]. simpl.
  f_equal.
  all: eapply mapM_Ok_pure; [|exact Hrec].
  all: intros [k sub] y Hin Hy; simpl in Hy |- *.
  all: apply bind_Ok in Hy as (tipo & ->%getitem_Ok & Hy).
  all: apply bind_Ok in Hy as (tipo0 & Ht & Hy).
  all: apply bind_Ok in Hy as (loc & ->%getitem_Ok & Hy).
  all: apply bind_Ok in Hy as (loc0 & Hl & Hy).
  all: apply bind_Ok in Hy as (uf & ->%getitem_Ok & Hy).
  all: apply bind_Ok in Hy as (uf0 & Hu & Hy).
  all: apply bind_Ok in Hy as (s & ->%getitem_num_Ok & Hy).
  all: destruct (groupby_elem _ _ _ _ _ _ Hg Hin) as (_ & _ & _ & r0 & sub' & -> & <-).
  all: apply iloc0_Ok in Ht as (? & ? & [= <- <-] & ->).
  all: apply iloc0_Ok in Hl as (? & ? & [= <- <-] & ->).
  all: apply iloc0_Ok in Hu as (? & ? & [= <- <-] & ->).
  all: apply metric_block_Ok in Hy; rewrite Hy.
  all: unfold hist_block, metric_field; by rewrite app_nil_r.
Qed.

(** ** What a Bin Row carries *)

Lemma hist_block_elem k m vals r :
  r ∈ hist_block gcols k m vals →
  ∃ i : nat,
    (i < 40)%nat ∧
    (1 ≤ Z.of_nat (length (filter (in_bin i) vals)))%Z ∧
    r = bin_row (zip gcols k ++ metric_field m) i
                (Z.of_nat (length (filter (in_bin i) vals))).
Proof.
  unfold hist_block. case_bool_decide; [by intros ?%elem_of_nil|].
  intros (i & c & Hi & Hc & ->)%elem_of_bin_rows.
  assert (i < 40)%nat as Hlt.
  { apply lookup_lt_Some in Hi. by rewrite length_np_histogram in Hi. }
  rewrite np_histogram_lookup in Hi by done. injection Hi as <-.
  exists i. split_and!; [done|lia|done].
Qed.

Lemma bin_row_key k m i c :
  length k = 3%nat →
  key_of gcols (bin_row (zip gcols k ++ metric_field m) i c) = k ∧
  cell_of (bin_row (zip gcols k ++ metric_field m) i c) "metric" = VStr <$> m.
Proof.
  intros Hk. destruct k as [|a [|b [|c' [|]]]]; try done.
  unfold key_of. simpl.
  rewrite !bin_row_field_other by set_solver.
  by destruct m.
Qed.

Lemma hist_block_key k m vals r :
  length k = 3%nat → r ∈ hist_block gcols k m vals →
  key_of gcols r = k ∧ cell_of r "metric" = VStr <$> m.
Proof.
  intros Hk (i & _ & _ & ->)%hist_block_elem. by apply bin_row_key.
Qed.

Lemma groupby_key_length df groups (g : list cell * list row) :
  groupby df gcols true = Ok groups → g ∈ groups → length g.1 = 3%nat.
Proof.
  destruct g as [k sub]. intros Hg Hin.
  by destruct (groupby_elem _ _ _ _ _ _ Hg Hin) as (_ & ? & _).
Qed.

(** The rows of the overview histogram, one by one. *)
Lemma overview_hist_row df mc hist r :
  preprocess_enem.build_overview_hist df mc = Ok hist → r ∈ rows hist →
  ∃ groups k sub m (i : nat),
    groupby df gcols true = Ok groups ∧ (k, sub) ∈ groups ∧ m ∈ mc ∧
    (i < 40)%nat ∧
    (1 ≤ Z.of_nat (length (filter (in_bin i) (nonnull m sub))))%Z ∧
    r = bin_row (zip gcols k ++ metric_field (Some m)) i
                (Z.of_nat (length (filter (in_bin i) (nonnull m sub)))).
Proof.
  intros (groups & Hg & ->)%build_overview_hist_rows Hr.
  apply list_elem_of_concat in Hr as (l & Hr & Hl).
  apply list_elem_of_fmap in Hl as ([k sub] & -> & Hin).
  apply list_elem_of_concat in Hr as (l & Hr & Hl).
  apply list_elem_of_fmap in Hl as (m & -> & Hm).
  apply hist_block_elem in Hr as (i & Hi & Hc & ->).
  by exists groups, k, sub, m, i.
Qed.

Lemma essay_hist_row df hist r :
  preprocess_redacao.build_hist df = Ok hist → r ∈ rows hist →
  ∃ groups k sub (i : nat),
    groupby df gcols true = Ok groups ∧ (k, sub) ∈ groups ∧
    (i < 40)%nat ∧
    (1 ≤ Z.of_nat (length (filter (in_bin i) (nonnull "NU_NOTA_REDACAO" sub))))%Z ∧
    r = bin_row (zip gcols k ++ metric_field None) i
                (Z.of_nat (length (filter (in_bin i) (nonnull "NU_NOTA_REDACAO" sub)))).
Proof.
  intros (groups & Hg & ->)%build_hist_rows Hr.
  apply list_elem_of_concat in Hr as (l & Hr & Hl).
  apply list_elem_of_fmap in Hl as ([k sub] & -> & Hin).
  apply hist_block_elem in Hr as (i & Hi & Hc & ->).
  by exists groups, k, sub, i.
Qed.

(** ** Sparsity *)

Lemma nonnull_nil c sub : nonnull c sub = [] ↔ ∀ r, r ∈ sub → num r !! c = None.
Proof.
  unfold nonnull. induction sub as [|r sub IH]; simpl.
  - split; [by intros _ r ?%elem_of_nil|done].
  - destruct (num r !! c) as [q|] eqn:Hq.
    + split; [done|]. intros H. specialize (H r (list_elem_of_here _ _)). congruence.
    + rewrite IH. split.
      * intros H r' [->|Hr']%elem_of_cons; [done|by apply H].
      * intros H r' Hr'. apply H. by right.
Qed.

Lemma hist_block_nil k m vals : vals = [] → hist_block gcols k m vals = [].
Proof. intros ->. done. Qed.

(** C9. Neither histogram table has a Bin Row with count 0: every row of the
    overview histogram and of the essay histogram has an integer count of at
    least 1; and a key and metric (for the essay table, a key) for which no
    row of the frame has a value gets no Bin Row at all. *)
Theorem histogram_sparsity :
  (∀ df metric_cols hist,
     preprocess_enem.build_overview_hist df metric_cols = Ok hist →
     (∀ r, r ∈ rows hist → ∃ c, cell_of r "count" = Some (VInt c) ∧ (1 ≤ c)%Z) ∧
     (∀ k m, (∀ r, r ∈ rows df → key_of gcols r = k → num r !! m = None) →
             rows_of_key_metric k m hist = [])) ∧
  (∀ df hist,
     preprocess_redacao.build_hist df = Ok hist →
     (∀ r, r ∈ rows hist → ∃ c, cell_of r "count" = Some (VInt c) ∧ (1 ≤ c)%Z) ∧
     (∀ k, (∀ r, r ∈ rows df → key_of gcols r = k →
                 num r !! "NU_NOTA_REDACAO" = None) →
           rows_of_key k hist = [])).
Proof.
  split.
  - intros df mc hist Hrun. split.
    + intros r Hr.
      destruct (overview_hist_row _ _ _ _ Hrun Hr)
        as (groups & k & sub & m & i & _ & _ & _ & _ & Hc & ->).
      eexists. split; [apply bin_row_count|done].
    + intros k m Hnone. unfold rows_of_key_metric, rows_of_key.
      apply filter_none, Forall_forall. intros r Hr Hmet.
      apply list_elem_of_filter in Hr as [Hkey Hr].
      destruct (overview_hist_row _ _ _ _ Hrun Hr)
        as (groups & k' & sub & m' & i & Hg & Hin & _ & _ & Hc & ->).
      destruct (bin_row_key k' (Some m') i
                  (Z.of_nat (length (filter (in_bin i) (nonnull m' sub))))
                  (groupby_key_length _ _ _ Hg Hin)) as [Hk' Hm'].
      rewrite Hk' in Hkey. rewrite Hm' in Hmet. simplify_eq/=.
      assert (nonnull m sub = []) as Hnil.
      { apply nonnull_nil. intros r Hr'.
        destruct (groupby_rows_in _ _ _ _ _ _ _ Hg Hin Hr'). by apply Hnone. }
      rewrite Hnil in Hc. simpl in Hc. lia.
  - intros df hist Hrun. split.
    + intros r Hr.
      destruct (essay_hist_row _ _ _ Hrun Hr)
        as (groups & k & sub & i & _ & _ & _ & Hc & ->).
      eexists. split; [apply bin_row_count|done].
    + intros k Hnone. unfold rows_of_key.
      apply filter_none, Forall_forall. intros r Hr Hkey.
      destruct (essay_hist_row _ _ _ Hrun Hr)
        as (groups & k' & sub & i & Hg & Hin & _ & Hc & ->).
      destruct (bin_row_key k' None i
                  (Z.of_nat (length (filter (in_bin i)
                                       (nonnull "NU_NOTA_REDACAO" sub))))
                  (groupby_key_length _ _ _ Hg Hin)) as [Hk' _].
      rewrite Hk' in Hkey. subst k'.
      assert (nonnull "NU_NOTA_REDACAO" sub = []) as Hnil.
      { apply nonnull_nil. intros r Hr'.
        destruct (groupby_rows_in _ _ _ _ _ _ _ Hg Hin Hr'). by apply Hnone. }
      rewrite Hnil in Hc. simpl in Hc. lia.
Qed.

(** ** Completeness *)

Lemma filter_filter_weaker {A} (P Q : A → Prop) `{∀ x, Decision (P x)}
    `{∀ x, Decision (Q x)} (l : list A) :
  (∀ x, P x → Q x) → filter P (filter Q l) = filter P l.
Proof.
  intros HPQ. rewrite list_filter_filter. apply list_filter_iff. naive_solver.
Qed.

Lemma rows_with_key_grouped df k :
  complete k = true →
  filter (λ r, key_of gcols r = k) (grouped_rows df gcols true) = rows_with_key k df.
Proof.
  intros Hk. unfold grouped_rows, rows_with_key.
  apply filter_filter_weaker. intros r ->. by apply Is_true_true.
Qed.

Lemma groupby_key_elem df gc dk groups k :
  groupby df gc dk = Ok groups →
  k ∈ groups.*1 ↔ ∃ r, r ∈ grouped_rows df gc dk ∧ key_of gc r = k.
Proof.
  intros [_ ->]%groupby_Ok. rewrite fst_map_pair, elem_of_remove_dups.
  rewrite list_elem_of_fmap. naive_solver.
Qed.

Lemma groupby_group_of_key df gc dk groups k :
  groupby df gc dk = Ok groups → k ∈ groups.*1 →
  (k, filter (λ r, key_of gc r = k) (grouped_rows df gc dk)) ∈ groups.
Proof.
  intros Hg Hk. pose proof Hg as [_ ->]%groupby_Ok.
  rewrite fst_map_pair in Hk.
  apply list_elem_of_fmap. by exists k.
Qed.

Lemma hist_block_tagged df groups (f : list cell * list row → list row) :
  groupby df gcols true = Ok groups →
  (∀ g r, g ∈ groups → r ∈ f g → ∃ m vals, r ∈ hist_block gcols g.1 m vals) →
  ∀ g r, g ∈ groups → r ∈ f g → key_of gcols r = g.1.
Proof.
  intros Hg Hf g r Hin Hr. destruct (Hf g r Hin Hr) as (m & vals & Hb).
  by apply (hist_block_key _ _ _ _ (groupby_key_length _ _ _ Hg Hin)) in Hb as [? _].
Qed.

Lemma overview_rows_of_key_metric df mc hist k m :
  preprocess_enem.build_overview_hist df mc = Ok hist →
  NoDup mc → m ∈ mc → complete k = true →
  rows_of_key_metric k m hist =
    hist_block gcols k (Some m) (nonnull m (rows_with_key k df)).
Proof.
  intros (groups & Hg & Hrows)%build_overview_hist_rows Hnd Hm Hk.
  unfold rows_of_key_metric, rows_of_key. rewrite Hrows.
  set (F := λ g : list cell * list row,
              concat ((λ m, hist_block gcols g.1 (Some m) (nonnull m g.2)) <$> mc)).
  assert (Htag : ∀ g r, g ∈ groups → r ∈ F g → key_of gcols r = g.1).
  { apply (hist_block_tagged df); [done|]. intros g r _ Hr.
    apply list_elem_of_concat in Hr as (l & Hr & Hl).
    apply list_elem_of_fmap in Hl as (m' & -> & _). eauto. }
  destruct (decide (k ∈ groups.*1)) as [Hin|Hout].
  - apply (groupby_group_of_key _ _ _ _ _ Hg) in Hin.
    rewrite rows_with_key_grouped in Hin by done.
    rewrite (filter_concat_tagged (key_of gcols) fst F groups
               (k, rows_with_key k df));
      [|by eapply groupby_keys_NoDup|done|done].
    unfold F. simpl.
    rewrite (filter_concat_tagged (λ r, cell_of r "metric") (λ m, Some (VStr m))
               (λ m, hist_block gcols k (Some m) (nonnull m (rows_with_key k df)))
               mc m); [done| |done|].
    + apply NoDup_fmap_2; [|done]. by intros ?? [= ->].
    + intros m' r _ Hr.
      apply (hist_block_key _ _ _ _ (groupby_key_length _ _ _ Hg Hin)) in Hr.
      by destruct Hr.
  - rewrite (filter_concat_untagged (key_of gcols) fst F groups k) by done.
    simpl. symmetry. apply hist_block_nil.
    assert (rows_with_key k df = []) as ->; [|done].
    apply filter_none, Forall_forall. intros r Hr Hkey. apply Hout.
    apply (groupby_key_elem _ _ _ _ _ Hg). exists r. split; [|done].
    unfold grouped_rows. apply list_elem_of_filter. split; [|done].
    subst k. simpl. by apply Is_true_true.
Qed.

Lemma essay_rows_of_key df hist k :
  preprocess_redacao.build_hist df = Ok hist → complete k = true →
  rows_of_key k hist =
    hist_block gcols k None (nonnull "NU_NOTA_REDACAO" (rows_with_key k df)).
Proof.
  intros (groups & Hg & Hrows)%build_hist_rows Hk.
  unfold rows_of_key. rewrite Hrows.
  set (F := λ g : list cell * list row,
              hist_block gcols g.1 None (nonnull "NU_NOTA_REDACAO" g.2)).
  assert (Htag : ∀ g r, g ∈ groups → r ∈ F g → key_of gcols r = g.1).
  { apply (hist_block_tagged df); [done|]. intros g r _ Hr. eauto. }
  destruct (decide (k ∈ groups.*1)) as [Hin|Hout].
  - apply (groupby_group_of_key _ _ _ _ _ Hg) in Hin.
    rewrite rows_with_key_grouped in Hin by done.
    by rewrite (filter_concat_tagged (key_of gcols) fst F groups
                  (k, rows_with_key k df));
      [|eapply groupby_keys_NoDup|..].
  - rewrite (filter_concat_untagged (key_of gcols) fst F groups k) by done.
    symmetry. apply hist_block_nil.
    assert (rows_with_key k df = []) as ->; [|done].
    apply filter_none, Forall_forall. intros r Hr Hkey. apply Hout.
    apply (groupby_key_elem _ _ _ _ _ Hg). exists r. split; [|done].
    unfold grouped_rows. apply list_elem_of_filter. split; [|done].
    subst k. simpl. by apply Is_true_true.
Qed.

(** ** The bins of the overview histogram *)




Lemma sum_count_hist_block k m vals :
  Forall in_range vals →
  sumZ (int_field "count" <$> hist_block gcols k m vals) = Z.of_nat (length vals).
Proof.
  intros Hv. unfold hist_block. case_bool_decide as Hlen.
  - by rewrite Hlen.
  - by rewrite sum_count_bin_rows, sum_np_histogram_in_range.
Qed.

Lemma NoDup_DISCIPLINE_OPTIONS : NoDup (map snd DISCIPLINE_OPTIONS).
Proof. by apply (bool_decide_unpack _). Qed.

Lemma overview_frame_metrics d df mc :
  preprocess_enem.overview_frame d = Ok (df, mc) → NoDup mc.
Proof.
  unfold preprocess_enem.overview_frame. intros H.
  apply bind_Ok in H as (df0 & _ & H).
  apply bind_Ok in H as (df1 & _ & H).
  apply bind_Ok in H as (df2 & _ & H).
  apply bind_Ok in H as (df3 & _ & [= _ <-]).
  apply NoDup_filter, NoDup_DISCIPLINE_OPTIONS.
Qed.

(** Completeness of the histograms on the keys that are grouped: for every
    key without a null dimension value and every metric, when the non-null
    values of the metric in the rows of that key all lie in [0, 1000], the
    range of the scores, the counts of the Bin Rows of that key and metric
    add up to the number of those values; the same holds for the essay
    histogram, key by key. *)
Theorem histogram_completeness (d : DataDir) :
  (∀ df metric_cols hist k m,
     preprocess_enem.overview_frame d = Ok (df, metric_cols) →
     preprocess_enem.build_overview_hist df metric_cols = Ok hist →
     Forall is_Some k → m ∈ metric_cols →
     Forall in_range (nonnull m (rows_with_key k df)) →
     sumZ (int_field "count" <$> rows_of_key_metric k m hist) =
       Z.of_nat (length (nonnull m (rows_with_key k df)))) ∧
  (∀ df hist k,
     preprocess_redacao.essay_frame d = Ok df →
     preprocess_redacao.build_hist df = Ok hist →
     Forall is_Some k →
     Forall in_range (nonnull "NU_NOTA_REDACAO" (rows_with_key k df)) →
     sumZ (int_field "count" <$> rows_of_key k hist) =
       Z.of_nat (length (nonnull "NU_NOTA_REDACAO" (rows_with_key k df)))).
Proof.
  split.
  - intros df mc hist k m Hf Hrun Hk Hm Hrange.
    apply complete_Forall in Hk.
    rewrite (overview_rows_of_key_metric df mc hist k m Hrun
               (overview_frame_metrics _ _ _ Hf) Hm Hk).
    by apply sum_count_hist_block.
  - intros df hist k Hf Hrun Hk Hrange.
    apply complete_Forall in Hk.
    rewrite (essay_rows_of_key df hist k Hrun Hk).
    by apply sum_count_hist_block.
Qed.



(** ** The normalizer never raises *)

Lemma select_present df cols :
  select df (filter (λ c, has_col df c) cols) =
    Ok (DF (filter (λ c, has_col df c) cols)
           (map (restrict_row (filter (λ c, has_col df c) cols)) (rows df))).
Proof.
  unfold select.
  rewrite (proj2 (missing_col_None df (filter (λ c, has_col df c) cols))); [done|].
  apply Forall_forall. intros c [Hc _]%list_elem_of_filter. by apply has_col_in.
Qed.

Lemma dropna_present df c :
  has_col df c = true →
  dropna df [c] = Ok (DF (columns df) (filter (λ r, notnull_all [c] r) (rows df))).
Proof.
  intros Hc. unfold dropna.
  rewrite (proj2 (missing_col_None df [c])); [done|].
  constructor; [by apply has_col_true|constructor].
Qed.

Lemma derive_nota_final_total df : ∃ df', derive_nota_final df = Ok df'.
Proof.
  unfold derive_nota_final. destruct (has_col df "nota_final"); [by eexists|].
  case_bool_decide; [by eexists|]. rewrite select_present. by eexists.
Qed.

Lemma drop_null_nota_final_total df : ∃ df', drop_null_nota_final df = Ok df'.
Proof.
  unfold drop_null_nota_final. destruct (has_col df "nota_final") eqn:Hc; [|by eexists].
  rewrite dropna_present by done. by eexists.
Qed.

Lemma map_code_column_total src dst m df : ∃ df', map_code_column src dst m df = Ok df'.
Proof.
  unfold map_code_column, getitem_code.
  destruct (has_col df src); by eexists.
Qed.

Lemma derive_municipio_uf_total df : ∃ df', derive_municipio_uf df = Ok df'.
Proof.
  unfold derive_municipio_uf, getitem_txt.
  destruct (has_col df "NO_MUNICIPIO_ESC"), (has_col df "SG_UF_ESC"); by eexists.
Qed.

Lemma cast_co_uf_total df : ∃ df', cast_co_uf df = Ok df'.
Proof.
  unfold cast_co_uf, getitem_code. destruct (has_col df "CO_UF_ESC"); by eexists.
Qed.

Lemma preprocess_enem_df_total df : ∃ df', preprocess_enem_df df = Ok df'.
Proof.
  unfold preprocess_enem_df.
  destruct (derive_nota_final_total df) as [df1 ->]. simpl.
  destruct (drop_null_nota_final_total df1) as [df2 ->]. simpl.
  destruct (map_code_column_total "TP_DEPENDENCIA_ADM_ESC" "TIPO_ESCOLA"
              mapa_dependencia df2) as [df3 ->]. simpl.
  destruct (map_code_column_total "TP_STATUS_REDACAO" "STATUS_REDACAO"
              mapa_status df3) as [df4 ->]. simpl.
  destruct (map_code_column_total "TP_LOCALIZACAO_ESC" "LOCALIZACAO"
              mapa_localizacao df4) as [df5 ->]. simpl.
  destruct (derive_municipio_uf_total df5) as [df6 ->]. simpl.
  destruct (cast_co_uf_total df6) as [df7 ->]. simpl.
  by eexists.
Qed.

(** C7. The Record Normalizer returns a frame for every input frame, whatever
    columns it has: each derivation step leaves the frame as it is when its
    source column is absent (the composite score without any subject column,
    the drop without a composite column, the three label mappings without
    their code column, the municipality string without one of its two
    columns, the cast without CO_UF_ESC; the downcast changes no value). The
    normalization pipeline raises exactly when neither the parquet nor the
    csv raw file is present, and what it raises then is FileNotFoundError. *)
Theorem normalizer_never_raises :
  (∀ df, ∃ df', preprocess_enem_df df = Ok df') ∧
  (∀ df,
     (has_col df "nota_final" = false →
      Forall (λ c, has_col df c = false) colunas_notas →
      derive_nota_final df = Ok df) ∧
     (has_col df "nota_final" = false → drop_null_nota_final df = Ok df) ∧
     (∀ src dst m, has_col df src = false → map_code_column src dst m df = Ok df) ∧
     (has_col df "NO_MUNICIPIO_ESC" = false ∨ has_col df "SG_UF_ESC" = false →
      derive_municipio_uf df = Ok df) ∧
     (has_col df "CO_UF_ESC" = false → cast_co_uf df = Ok df) ∧
     downcast df = Ok df) ∧
  (∀ d, (∃ e, normalize d = Raise e) ↔
        RESULTADOS_2024_parquet d = None ∧ RESULTADOS_2024_csv d = None) ∧
  (∀ d e, normalize d = Raise e →
          e = FileNotFoundError
                "Coloque RESULTADOS_2024.csv ou RESULTADOS_2024.parquet na pasta 'data/'.").
Proof.
  split_and!.
  - apply preprocess_enem_df_total.
  - intros df. split_and!.
    + intros Hnf Hnone. unfold derive_nota_final. rewrite Hnf.
      rewrite bool_decide_eq_true_2; [done|].
      apply filter_none, Forall_forall. intros c Hc.
      rewrite Forall_forall in Hnone. rewrite (Hnone c Hc). simpl. tauto.
    + intros Hnf. unfold drop_null_nota_final. by rewrite Hnf.
    + intros src dst m Hsrc. unfold map_code_column. by rewrite Hsrc.
    + intros Hmun. unfold derive_municipio_uf. by destruct Hmun as [-> | ->];
        [|rewrite andb_false_r].
    + intros Hco. unfold cast_co_uf. by rewrite Hco.
    + done.
  - intros d. unfold normalize, load_raw_enem.
    destruct (RESULTADOS_2024_parquet d) as [df|];
      [|destruct (RESULTADOS_2024_csv d) as [df|]].
    + destruct (preprocess_enem_df_total df) as [df' Hdf]. simpl. rewrite Hdf.
      split; [by intros [e ?]|by intros [? _]].
    + destruct (preprocess_enem_df_total df) as [df' Hdf]. simpl. rewrite Hdf.
      split; [by intros [e ?]|by intros [_ ?]].
    + split; [done|]. intros _. by eexists.
  - intros d e. unfold normalize, load_raw_enem.
    destruct (RESULTADOS_2024_parquet d) as [df|];
      [|destruct (RESULTADOS_2024_csv d) as [df|]].
    + destruct (preprocess_enem_df_total df) as [df' Hdf]. simpl. by rewrite Hdf.
    + destruct (preprocess_enem_df_total df) as [df' Hdf]. simpl. by rewrite Hdf.
    + by intros [= <-].
Qed.


(** ** The composite score *)

Lemma filter_map_comm {A B} (P : B → Prop) `{∀ y, Decision (P y)} (f : A → B)
    (l : list A) :
  filter P (map f l) = map f (filter (λ x, P (f x)) l).
Proof.
  induction l as [|x l IH]; [done|]. simpl.
  rewrite !filter_cons, IH. by destruct (decide (P (f x))).
Qed.

Lemma omap_available df r (cols : list string) :
  omap (λ c, num r !! c) (filter (λ c, has_col df c) cols) =
  omap (λ c, if has_col df c then num r !! c else None) cols.
Proof.
  induction cols as [|c cols IH]; [done|].
  destruct (has_col df c) eqn:Hc.
  - rewrite filter_cons_True by (by apply Is_true_true_2). simpl. rewrite Hc.
    destruct (num r !! c); [f_equal|]; apply IH.
  - rewrite filter_cons_False by (by apply Is_true_false_2). simpl. rewrite Hc.
    apply IH.
Qed.

(** The arithmetic mean, in words: the sum over the count. *)
Lemma mean_spec xs m :
  mean xs = Some m ↔
  xs ≠ [] ∧ (m * Qc_of_nat (length xs))%Qc = sumQ xs.
Proof.
  destruct xs as [|x xs]; [naive_solver|].
  assert (Qc_of_nat (length (x :: xs)) ≠ 0%Qc) as Hnz.
  { unfold Qc_of_nat. rewrite <-Z2Qc_inj_0. intros ?%Z2Qc_inj. simpl in *. lia. }
  unfold mean. split.
  - intros [= <-]. split; [done|]. by rewrite Qcmult_comm, Qcmult_div_r.
  - intros [_ Hm]. f_equal. rewrite <-Hm. by rewrite Qcdiv_mult_l.
Qed.

Lemma notnull_all_single c r : notnull_all [c] r = true ↔ is_Some (cell_of r c).
Proof.
  unfold notnull_all, isnull. simpl. destruct (cell_of r c); simpl.
  - split; [by eexists|done].
  - split; [done|by intros [? ?]].
Qed.

Lemma has_col_setitem df c s c' :
  has_col (setitem df c s) c' = true ↔ c' = c ∨ has_col df c' = true.
Proof.
  unfold setitem. rewrite !has_col_true. simpl. unfold add_col.
  destruct (has_col df c) eqn:Hc.
  - apply has_col_true in Hc. naive_solver.
  - rewrite elem_of_app, list_elem_of_singleton. naive_solver.
Qed.

Lemma preserves_refl c df : preserves c df df.
Proof. split; [done|]. exists id. split; [by rewrite map_id|done]. Qed.

Lemma preserves_trans c df1 df2 df3 :
  preserves c df1 df2 → preserves c df2 df3 → preserves c df1 df3.
Proof.
  intros [Hc1 (g1 & Hr1 & Hg1)] [Hc2 (g2 & Hr2 & Hg2)]. split; [auto|].
  exists (g2 ∘ g1). split.
  - by rewrite Hr2, Hr1, map_map.
  - intros r. simpl. by rewrite Hg2, Hg1.
Qed.

Lemma preserves_setitem c df dst s : dst ≠ c → preserves c df (setitem df dst s).
Proof.
  intros Hne. split.
  - intros c' Hc'. apply has_col_setitem. by right.
  - exists (λ r, set_cell dst (s r) r). split; [done|].
    intros r. rewrite cell_of_set_cell. by rewrite decide_False.
Qed.

Lemma map_code_column_preserves c src dst m df df' :
  dst ≠ c → map_code_column src dst m df = Ok df' → preserves c df df'.
Proof.
  intros Hne. unfold map_code_column, getitem_code.
  destruct (has_col df src); simpl; intros [= <-].
  - by apply preserves_setitem.
  - apply preserves_refl.
Qed.

Lemma derive_municipio_uf_preserves c df df' :
  "MUNICIPIO_UF" ≠ c → derive_municipio_uf df = Ok df' → preserves c df df'.
Proof.
  intros Hne. unfold derive_municipio_uf, getitem_txt.
  destruct (has_col df "NO_MUNICIPIO_ESC"), (has_col df "SG_UF_ESC");
    simpl; intros [= <-]; try apply preserves_refl.
  by apply preserves_setitem.
Qed.

Lemma cast_co_uf_preserves c df df' :
  "CO_UF_ESC" ≠ c → cast_co_uf df = Ok df' → preserves c df df'.
Proof.
  intros Hne. unfold cast_co_uf, getitem_code.
  destruct (has_col df "CO_UF_ESC"); simpl; intros [= <-].
  - by apply preserves_setitem.
  - apply preserves_refl.
Qed.

Lemma preprocess_enem_df_halves df :
  preprocess_enem_df df = composite_steps df ≫= label_steps.
Proof.
  unfold preprocess_enem_df, composite_steps, label_steps.
  destruct (derive_nota_final df) as [df1|]; [|done]. simpl.
  by destruct (drop_null_nota_final df1).
Qed.

Lemma label_steps_preserve df df' :
  label_steps df = Ok df' → preserves "nota_final" df df'.
Proof.
  unfold label_steps, downcast. intros H.
  apply bind_Ok in H as (df1 & H1 & H).
  apply bind_Ok in H as (df2 & H2 & H).
  apply bind_Ok in H as (df3 & H3 & H).
  apply bind_Ok in H as (df4 & H4 & H).
  apply bind_Ok in H as (df5 & H5 & [= <-]).
  apply map_code_column_preserves with (c := "nota_final") in H1; [|done].
  apply map_code_column_preserves with (c := "nota_final") in H2; [|done].
  apply map_code_column_preserves with (c := "nota_final") in H3; [|done].
  apply derive_municipio_uf_preserves with (c := "nota_final") in H4; [|done].
  apply cast_co_uf_preserves with (c := "nota_final") in H5; [|done].
  eauto using preserves_trans.
Qed.

Lemma has_composite_source_filter df :
  has_composite_source df ↔
  has_col df "nota_final" = true ∨ filter (λ c, has_col df c) colunas_notas ≠ [].
Proof.
  unfold has_composite_source. split; (intros [?|H]; [by left|right]).
  - destruct H as (c & Hc & Hdf). intros Hnil.
    assert (c ∈ filter (λ c, has_col df c) colunas_notas) as Hin.
    { apply list_elem_of_filter. split; [by apply Is_true_true|done]. }
    rewrite Hnil in Hin. by apply elem_of_nil in Hin.
  - destruct (filter _ colunas_notas) as [|c l] eqn:Hf; [done|].
    assert (c ∈ filter (λ c, has_col df c) colunas_notas) as Hin
      by (rewrite Hf; by left).
    apply list_elem_of_filter in Hin as [Hc Hin]. exists c.
    split; [done|by apply Is_true_true].
Qed.

Lemma composite_with_composite df r :
  is_Some (composite df r) → cell_of (with_composite df r) "nota_final" = composite df r.
Proof.
  unfold with_composite, composite. destruct (has_col df "nota_final"); [done|].
  intros _. rewrite cell_of_set_cell. by rewrite decide_True.
Qed.

(** The first half keeps the records that have a composite score and gives
    each of them that score. *)
Lemma composite_steps_eq df :
  has_composite_source df →
  composite_steps df =
    Ok (DF (add_col df "nota_final")
           (map (with_composite df)
                (filter (λ r, is_Some (composite df r)) (rows df)))).
Proof.
  intros Hcol%has_composite_source_filter.
  unfold composite_steps, derive_nota_final, composite, with_composite, add_col.
  destruct (has_col df "nota_final") eqn:Hnf.
  - simpl. unfold drop_null_nota_final. rewrite Hnf, dropna_present by done.
    do 2 f_equal. rewrite map_id. apply list_filter_iff.
    intros r. rewrite Is_true_true. apply notnull_all_single.
  - destruct Hcol as [?|Hav]; [done|].
    rewrite bool_decide_eq_false_2 by done. rewrite select_present. simpl.
    unfold drop_null_nota_final.
    assert (has_col (setitem_num df "nota_final"
                       (mean_axis1 (DF (filter (λ c, has_col df c) colunas_notas)
                          (map (restrict_row (filter (λ c, has_col df c) colunas_notas))
                               (rows df))))) "nota_final" = true) as Hnf'.
    { apply has_col_setitem. by left. }
    rewrite Hnf', dropna_present by done. f_equal.
    unfold setitem_num, setitem, mean_axis1, add_col. cbn [rows columns].
    rewrite Hnf. f_equal.
    rewrite filter_map_comm.
    rewrite (map_ext _ (λ r, set_cell "nota_final"
                               (VNum <$> mean (subject_scores df r)) r))
      by (intros r; unfold subject_scores; by rewrite omap_available).
    f_equal. apply list_filter_iff. intros r.
    rewrite Is_true_true, notnull_all_single, cell_of_set_cell.
    rewrite decide_True by done.
    unfold subject_scores. by rewrite omap_available.
Qed.

Lemma filter_idemp {A} (P : A → Prop) `{∀ x, Decision (P x)} (l : list A) :
  filter P (filter P l) = filter P l.
Proof. by apply filter_filter_weaker. Qed.

(** Taking the records without a composite score out of the raw data changes
    nothing in what the normalizer returns. *)
Lemma preprocess_enem_df_drop df :
  has_composite_source df →
  preprocess_enem_df (drop_without_composite df) = preprocess_enem_df df.
Proof.
  intros Hcol. rewrite !preprocess_enem_df_halves.
  rewrite (composite_steps_eq df Hcol).
  rewrite (composite_steps_eq (drop_without_composite df)) by done.
  change (with_composite (drop_without_composite df)) with (with_composite df).
  change (add_col (drop_without_composite df) "nota_final")
    with (add_col df "nota_final").
  unfold drop_without_composite. cbn [rows].
  rewrite (list_filter_iff
             (λ r, is_Some (composite
                              (DF (columns df)
                                  (filter (λ r0, is_Some (composite df r0)) (rows df)))
                              r))
             (λ r, is_Some (composite df r))) by done.
  by rewrite filter_idemp.
Qed.

Lemma load_raw_enem_with_frame f d :
  load_raw_enem (with_frame f d) =
    match load_raw_enem d with Ok df => Ok (f df) | Raise e => Raise e end.
Proof.
  unfold load_raw_enem, with_frame. simpl.
  destruct (RESULTADOS_2024_parquet d); [done|].
  by destruct (RESULTADOS_2024_csv d).
Qed.

(** No pipeline sees the records without a composite score. *)
Lemma pipelines_drop d df :
  load_raw_enem d = Ok df → has_composite_source df →
  preprocess_enem.main (with_frame drop_without_composite d) = preprocess_enem.main d ∧
  preprocess_redacao.main (with_frame drop_without_composite d) =
    preprocess_redacao.main d ∧
  preprocess_schools.main (with_frame drop_without_composite d) =
    preprocess_schools.main d.
Proof.
  intros Hd Hcol.
  unfold preprocess_enem.main, preprocess_enem.overview_frame,
    preprocess_redacao.main, preprocess_redacao.essay_frame,
    preprocess_schools.main, preprocess_schools.school_frame.
  rewrite load_raw_enem_with_frame, Hd. simpl.
  by rewrite preprocess_enem_df_drop.
Qed.

(** Without any source for the composite score there is no composite column,
    and no pipeline gets as far as an aggregate. *)
Lemma map_code_column_columns src dst m df df' c :
  map_code_column src dst m df = Ok df' →
  has_col df' c = true → c = dst ∨ has_col df c = true.
Proof.
  unfold map_code_column, getitem_code.
  destruct (has_col df src); simpl; intros [= <-]; [|by right].
  apply has_col_setitem.
Qed.

Lemma label_steps_columns df df' c :
  label_steps df = Ok df' → has_col df' c = true →
  has_col df c = true ∨
  c ∈ ["TIPO_ESCOLA"; "STATUS_REDACAO"; "LOCALIZACAO"; "MUNICIPIO_UF"; "CO_UF_ESC"].
Proof.
  unfold label_steps, downcast. intros H Hc.
  apply bind_Ok in H as (df1 & H1 & H).
  apply bind_Ok in H as (df2 & H2 & H).
  apply bind_Ok in H as (df3 & H3 & H).
  apply bind_Ok in H as (df4 & H4 & H).
  apply bind_Ok in H as (df5 & H5 & [= <-]).
  assert (c = "CO_UF_ESC" ∨ has_col df4 c = true) as [->|Hc4].
  { revert H5 Hc. unfold cast_co_uf, getitem_code.
    destruct (has_col df4 "CO_UF_ESC"); simpl; intros [= <-]; [|by right].
    apply has_col_setitem. }
  { right. set_solver. }
  assert (c = "MUNICIPIO_UF" ∨ has_col df3 c = true) as [->|Hc3].
  { revert H4 Hc4. unfold derive_municipio_uf, getitem_txt.
    destruct (has_col df3 "NO_MUNICIPIO_ESC"), (has_col df3 "SG_UF_ESC");
      simpl; intros [= <-]; try (by right).
    apply has_col_setitem. }
  { right. set_solver. }
  destruct (map_code_column_columns _ _ _ _ _ _ H3 Hc3) as [->|Hc2];
    [right; set_solver|].
  destruct (map_code_column_columns _ _ _ _ _ _ H2 Hc2) as [->|Hc1];
    [right; set_solver|].
  destruct (map_code_column_columns _ _ _ _ _ _ H1 Hc1) as [->|Hc0];
    [right; set_solver|].
  by left.
Qed.

Lemma composite_steps_none df :
  ¬ has_composite_source df → composite_steps df = Ok df.
Proof.
  rewrite has_composite_source_filter. intros Hno.
  unfold composite_steps, derive_nota_final, drop_null_nota_final.
  destruct (has_col df "nota_final") eqn:Hnf; [destruct Hno; by left|].
  case_bool_decide as Hav; [|destruct Hno; by right].
  simpl. by rewrite Hnf.
Qed.

Lemma no_source_no_metric df df' m :
  ¬ has_composite_source df → preprocess_enem_df df = Ok df' →
  m ∈ map snd DISCIPLINE_OPTIONS → has_col df' m = false.
Proof.
  intros Hno Hrun Hm. rewrite preprocess_enem_df_halves in Hrun.
  rewrite composite_steps_none in Hrun by done. simpl in Hrun.
  destruct (has_col df' m) eqn:Hc; [|done]. exfalso.
  destruct (label_steps_columns _ _ _ Hrun Hc) as [Hdf|Hder].
  - apply Hno. simpl in Hm.
    apply elem_of_cons in Hm as [->|Hm]; [by left|].
    right. by exists m.
  - revert Hm Hder. simpl. set_solver.
Qed.

Lemma pipelines_without_source d df :
  load_raw_enem d = Ok df → ¬ has_composite_source df →
  raises (preprocess_enem.main d) ∧
  raises (preprocess_redacao.main d) ∧
  raises (preprocess_schools.main d).
Proof.
  intros Hd Hno.
  destruct (preprocess_enem_df_total df) as [df' Hrun].
  pose proof (λ m, no_source_no_metric df df' m Hno Hrun) as Hmet.
  unfold raises, preprocess_enem.main, preprocess_enem.overview_frame,
    preprocess_redacao.main, preprocess_redacao.essay_frame,
    preprocess_schools.main, preprocess_schools.school_frame.
  rewrite Hd. simpl. rewrite Hrun. simpl. split_and!.
  - assert (preprocess_enem.metric_cols_of df' = []) as ->.
    { apply filter_none, Forall_forall. intros m Hm.
      rewrite (Hmet m Hm). simpl. tauto. }
    destruct (select df' _) as [df''|e] eqn:Hsel; simpl; [|by eexists].
    unfold select in Hsel. destruct (missing_col df' _); [done|].
    injection Hsel as <-. by eexists.
  - rewrite (Hmet "NU_NOTA_REDACAO") by set_solver. simpl. by eexists.
  - assert (filter (λ c, negb (has_col df' c))
              (preprocess_schools.required_base ++ preprocess_schools.METRIC_COLUMNS)
            ≠ []) as Hmiss.
    { intros Hnil.
      assert ("nota_final" ∈ filter (λ c, negb (has_col df' c))
                (preprocess_schools.required_base ++
                 preprocess_schools.METRIC_COLUMNS)) as Hin.
      { apply list_elem_of_filter. split; [|set_solver].
        by rewrite (Hmet "nota_final") by set_solver. }
      rewrite Hnil in Hin. by apply elem_of_nil in Hin. }
    rewrite bool_decide_eq_false_2; [simpl; by eexists|].
    intros Hnil. apply Hmiss. exact Hnil.
Qed.

(** C6. The composite score of a raw record is the composite column when the
    frame brings one (no derivation then), and otherwise the unweighted
    arithmetic mean of the record's non-null subject scores, null when it has
    none. When the frame brings the column or a subject score, the
    normalizer keeps exactly the records with a composite score, each with
    that score, so every normalized row has one, and taking the other records
    out of the raw data changes no artifact of any pipeline; when it brings
    neither, every pipeline ends in an exception. *)
Theorem composite_score (df df' : DataFrame)
    (Hrun : preprocess_enem_df df = Ok df') :
  (∀ r, has_col df "nota_final" = true → composite df r = cell_of r "nota_final") ∧
  (∀ r, has_col df "nota_final" = false →
        (composite df r = None ↔ subject_scores df r = []) ∧
        ∀ m, composite df r = Some (VNum m) ↔
             subject_scores df r ≠ [] ∧
             (m * Qc_of_nat (length (subject_scores df r)))%Qc =
               sumQ (subject_scores df r)) ∧
  (has_composite_source df →
   has_col df' "nota_final" = true ∧
   Forall2 (λ r r', cell_of r' "nota_final" = composite df r)
           (filter (λ r, is_Some (composite df r)) (rows df)) (rows df') ∧
   (∀ r', r' ∈ rows df' → is_Some (cell_of r' "nota_final")) ∧
   ∀ d, load_raw_enem d = Ok df →
        preprocess_enem.main (with_frame drop_without_composite d) =
          preprocess_enem.main d ∧
        preprocess_redacao.main (with_frame drop_without_composite d) =
          preprocess_redacao.main d ∧
        preprocess_schools.main (with_frame drop_without_composite d) =
          preprocess_schools.main d) ∧
  (¬ has_composite_source df →
   ∀ d, load_raw_enem d = Ok df →
        raises (preprocess_enem.main d) ∧
        raises (preprocess_redacao.main d) ∧
        raises (preprocess_schools.main d)).
Proof.
  split_and!.
  - intros r Hnf. unfold composite. by rewrite Hnf.
  - intros r Hnf. unfold composite. rewrite Hnf. split.
    + unfold mean. destruct (subject_scores df r); naive_solver.
    + intros m. rewrite <-mean_spec.
      destruct (mean (subject_scores df r)); naive_solver.
  - intros Hcol.
    rewrite preprocess_enem_df_halves, (composite_steps_eq df Hcol) in Hrun.
    simpl in Hrun. apply label_steps_preserve in Hrun as [Hcols (g & Hrows & Hg)].
    cbn [rows] in Hrows.
    assert (Forall2 (λ r r', cell_of r' "nota_final" = composite df r)
              (filter (λ r, is_Some (composite df r)) (rows df)) (rows df')) as HF.
    { rewrite Hrows, map_map. apply Forall2_fmap_r, Forall_Forall2_diag.
      apply Forall_forall. intros r [Hr _]%list_elem_of_filter.
      simpl. rewrite Hg. by apply composite_with_composite. }
    split_and!.
    + apply Hcols. unfold has_col, add_col. simpl.
      apply bool_decide_eq_true. destruct (has_col df "nota_final") eqn:Hnf.
      * by apply has_col_true.
      * set_solver.
    + done.
    + intros r' Hr'. apply list_elem_of_lookup in Hr' as [i Hi].
      destruct (Forall2_lookup_r _ _ _ _ _ HF Hi) as (r & Hr & ->).
      apply list_elem_of_lookup_2 in Hr.
      by apply list_elem_of_filter in Hr as [? _].
    + intros d Hd. by apply (pipelines_drop d df).
  - intros Hno d Hd. by apply (pipelines_without_source d df).
Qed.

(** ** Summary rows *)

Lemma groupby_agg_Ok df gc dk agg_dict out :
  groupby_agg df gc dk agg_dict = Ok out →
  ∃ groups,
    groupby df gc dk = Ok groups ∧
    Forall (λ a : string * (string * aggfunc), a.2.1 ∈ columns df) agg_dict ∧
    columns out = gc ++ map fst agg_dict ∧
    rows out = map (agg_row gc agg_dict) groups.
Proof.
  unfold groupby_agg. intros H. apply bind_Ok in H as (groups & Hg & H).
  destruct (missing_col df _) eqn:Hmiss; [done|]. injection H as <-.
  exists groups. split_and!; try done.
  apply missing_col_None in Hmiss. by apply Forall_fmap in Hmiss.
Qed.

Lemma field_map {A} (name : A → string) (val : A → cell) (l : list A) a x :
  a ∈ l → name a = x →
  (∀ a', a' ∈ l → name a' = x → val a' = val a) →
  field x (map (λ a, (name a, val a)) l) = val a.
Proof.
  induction l as [|b l IH] using rev_ind; [by intros ?%elem_of_nil|].
  intros Ha Hx Hsame. rewrite map_app. simpl. rewrite field_snoc. simpl.
  destruct (decide (name b = x)) as [Hb|Hb].
  - apply Hsame; [set_solver|done].
  - apply IH; [|done|].
    + apply elem_of_app in Ha as [Ha|Ha%list_elem_of_singleton]; [done|].
      by subst.
    + intros a' Ha'. apply Hsame. set_solver.
Qed.

Lemma agg_row_cell gc agg_dict g (a : string * (string * aggfunc)) :
  a ∈ agg_dict →
  (∀ a' : string * (string * aggfunc),
     a' ∈ agg_dict → a'.1 = a.1 → a' = a) →
  cell_of (agg_row gc agg_dict g) a.1 = apply_agg a.2.2 a.2.1 g.2.
Proof.
  intros Ha Hinj. unfold agg_row. rewrite cell_of_from_record.
  rewrite field_app_r.
  - apply (field_map fst (λ a, apply_agg a.2.2 a.2.1 g.2) agg_dict a); [done..|].
    intros a' Ha' Hn. by rewrite (Hinj a' Ha' Hn).
  - rewrite <-list_fmap_compose. apply list_elem_of_fmap. by exists a.
Qed.

Section schools.
Import preprocess_schools.

Lemma rename_col_notin rm c : c ∉ rm.*1 → rename_col rm c = c.
Proof.
  intros Hc. unfold rename_col.
  destruct (list_find _ rm) as [[i kv]|] eqn:Hf; [|done].
  apply list_find_Some in Hf as (Hi & <- & _).
  destruct Hc. apply list_elem_of_fmap. exists kv. split; [done|].
  by eapply list_elem_of_lookup_2.
Qed.

Lemma rename_col_in rm c : rename_col rm c = c ∨ rename_col rm c ∈ rm.*2.
Proof.
  unfold rename_col.
  destruct (list_find _ rm) as [[i kv]|] eqn:Hf; [|by left].
  apply list_find_Some in Hf as (Hi & _ & _). right. simpl.
  apply list_elem_of_fmap. exists kv. split; [done|].
  by eapply list_elem_of_lookup_2.
Qed.

(** Renaming leaves the cells of the columns it does not touch. *)
Lemma rename_cell df rm r x :
  x ∈ columns df → x ∉ rm.*1 → x ∉ rm.*2 →
  cell_of (from_record (map (λ c, (rename_col rm c, cell_of r c)) (columns df))) x
    = cell_of r x.
Proof.
  intros Hx H1 H2. rewrite cell_of_from_record.
  apply (field_map (rename_col rm) (cell_of r) (columns df) x); [done|..].
  - by apply rename_col_notin.
  - intros c _ Hc. destruct (rename_col_in rm c) as [Heq|Hin].
    + by rewrite <-Heq, Hc.
    + rewrite Hc in Hin. done.
Qed.

Lemma detect_candidates df cols :
  _detect_school_cols df = Ok cols →
  cols.1 ∈ id_candidates ∧ ∀ n, cols.2 = Some n → n ∈ name_candidates.
Proof.
  unfold _detect_school_cols.
  destruct (first_present df id_candidates) as [c|] eqn:Hc; [|done].
  intros [= <-]. simpl. split.
  - apply head_Some_elem_of in Hc. by apply list_elem_of_filter in Hc as [_ ?].
  - intros n Hn. apply head_Some_elem_of in Hn.
    by apply list_elem_of_filter in Hn as [_ ?].
Qed.

Lemma school_frame_Ok d df cols :
  school_frame d = Ok (df, cols) →
  cols.1 ∈ id_candidates ∧ (∀ n, cols.2 = Some n → n ∈ name_candidates) ∧
  Forall (λ c, has_col df c = true) METRIC_COLUMNS.
Proof.
  unfold school_frame. intros H.
  apply bind_Ok in H as (df_raw & _ & H).
  apply bind_Ok in H as (df0 & _ & H).
  case_bool_decide as Hmiss; simpl in H; [|done].
  apply bind_Ok in H as (cols' & Hdet & H).
  apply bind_Ok in H as (df1 & Hdrop & [= <- <-]).
  destruct (detect_candidates _ _ Hdet) as [Hid Hname].
  split_and!; [done..|].
  unfold dropna in Hdrop. destruct (missing_col df0 _); [done|].
  injection Hdrop as <-.
  apply Forall_forall. intros c Hc. change (has_col df0 c = true).
  destruct (has_col df0 c) eqn:Hdf; [done|]. exfalso.
  assert (c ∈ filter (λ c, negb (has_col df0 c)) (required_base ++ METRIC_COLUMNS))
    as Hin.
  { apply list_elem_of_filter. split; [by rewrite Hdf|set_solver]. }
  rewrite Hmiss in Hin. by apply elem_of_nil in Hin.
Qed.

Lemma media_name_fresh col (rm : list (string * string)) cols :
  cols.1 ∈ id_candidates → (∀ n, cols.2 = Some n → n ∈ name_candidates) →
  rm = [(cols.1, "school_id")] ++
       match cols.2 with Some n => [(n, "school_name")] | None => [] end →
  (("media_" +:+ col) ∉ (rm.*1)) ∧ (("media_" +:+ col) ∉ (rm.*2)) ∧
  ("n_participantes" ∉ (rm.*1)) ∧ ("n_participantes" ∉ (rm.*2)).
Proof.
  intros Hid Hname ->. destruct cols as [id [n|]]; simpl in *.
  - specialize (Hname n eq_refl).
    unfold id_candidates, name_candidates in *.
    repeat (apply elem_of_cons in Hid as [->|Hid]);
      try (by apply elem_of_nil in Hid);
      repeat (apply elem_of_cons in Hname as [->|Hname]);
      try (by apply elem_of_nil in Hname);
      (split_and!; intros Hin;
       repeat (apply elem_of_cons in Hin as [Hin|Hin]; [discriminate|]);
       by apply elem_of_nil in Hin).
  - unfold id_candidates in *.
    repeat (apply elem_of_cons in Hid as [->|Hid]);
      try (by apply elem_of_nil in Hid);
      (split_and!; intros Hin;
       repeat (apply elem_of_cons in Hin as [Hin|Hin]; [discriminate|]);
       by apply elem_of_nil in Hin).
Qed.

Lemma school_agg_dict_inj df (a a' : string * (string * aggfunc)) :
  a ∈ school_agg_dict df → a' ∈ school_agg_dict df → a'.1 = a.1 → a' = a.
Proof.
  unfold school_agg_dict. intros Ha Ha' Hn.
  apply elem_of_cons in Ha as [Ha|Ha], Ha' as [Ha'|Ha'].
  - by rewrite Ha, Ha'.
  - apply list_elem_of_fmap in Ha' as (c' & Hc' & _).
    rewrite Ha, Hc' in Hn. discriminate.
  - apply list_elem_of_fmap in Ha as (c & Hc & _).
    rewrite Ha', Hc in Hn. discriminate.
  - apply list_elem_of_fmap in Ha as (c & Hc & _).
    apply list_elem_of_fmap in Ha' as (c' & Hc' & _).
    rewrite Hc, Hc' in Hn |- *. simpl in Hn. injection Hn as Hn.
    change (c' = c) in Hn. by rewrite Hn.
Qed.
End schools.

(** C3, as amended. Every row of the school summary is the row of one school
    group, whose rows are the normalized rows with that group's key;
    n_participantes is the number of those rows, and for every metric
    media_<metric> is the sum of the metric's non-null values in the group
    over the number of those non-null values (null when the group has none).
    It is sum_<metric>/n_participantes when no value of the metric is null in
    the group. *)
Theorem school_means (d : DataDir) (out : DataFrame)
    (Hrun : preprocess_schools.main d = Ok out) :
  ∃ df cols groups,
    preprocess_schools.school_frame d = Ok (df, cols) ∧
    groupby df (preprocess_schools.school_group_cols cols) false = Ok groups ∧
    Forall2
      (λ (g : list cell * list row) (r : row),
         g.2 = filter (λ r0, key_of (preprocess_schools.school_group_cols cols) r0 = g.1)
                      (rows df) ∧
         cell_of r "n_participantes" = Some (VInt (Z.of_nat (length g.2))) ∧
         ∀ col, col ∈ preprocess_schools.METRIC_COLUMNS →
           (nonnull col g.2 = [] → cell_of r ("media_" +:+ col) = None) ∧
           (∀ m, cell_of r ("media_" +:+ col) = Some (VNum m) ↔
                 nonnull col g.2 ≠ [] ∧
                 (m * Qc_of_nat (length (nonnull col g.2)))%Qc =
                   sumQ (nonnull col g.2)) ∧
           (length (nonnull col g.2) = length g.2 →
            cell_of r ("media_" +:+ col) =
              Some (VNum (sumQ (nonnull col g.2) / Qc_of_nat (length g.2))%Qc)))
      groups (rows out).
Proof.
  unfold preprocess_schools.main in Hrun.
  apply bind_Ok in Hrun as ([df cols] & Hf & Hrun). simpl in Hrun.
  apply bind_Ok in Hrun as (agg & Hagg & [= <-]).
  apply groupby_agg_Ok in Hagg as (groups & Hg & _ & Hcols & Hrows).
  destruct (school_frame_Ok _ _ _ Hf) as (Hid & Hname & Hmet).
  exists df, cols, groups. split_and!; [done..|].
  unfold preprocess_schools.rename. cbn [rows]. rewrite Hrows, map_map.
  apply Forall2_fmap_r, Forall_Forall2_diag, Forall_forall.
  intros [k sub] Hin. simpl.
  destruct (groupby_elem _ _ _ _ _ _ Hg Hin) as (Hsub & _ & _ & r0 & sub' & Hne & _).
  set (rm := (cols.1, "school_id") ::
             match cols.2 with Some n => [(n, "school_name")] | None => [] end).
  assert (Hfresh : ∀ col,
            (("media_" +:+ col) ∉ (rm.*1)) ∧ (("media_" +:+ col) ∉ (rm.*2)) ∧
            ("n_participantes" ∉ (rm.*1)) ∧ ("n_participantes" ∉ (rm.*2))).
  { intros col. by apply (media_name_fresh col rm cols). }
  assert (Hmedia : ∀ col, col ∈ preprocess_schools.METRIC_COLUMNS →
            cell_of (from_record
                       (map (λ c, (preprocess_schools.rename_col rm c,
                                   cell_of (agg_row (preprocess_schools.school_group_cols cols)
                                              (preprocess_schools.school_agg_dict df)
                                              (k, sub)) c))
                            (columns agg))) ("media_" +:+ col)
            = VNum <$> mean (nonnull col sub)).
  { intros col Hcol. destruct (Hfresh col) as (F1 & F2 & _).
    assert (("media_" +:+ col, (col, Mean)) ∈ preprocess_schools.school_agg_dict df)
      as Ha.
    { right. apply list_elem_of_fmap. exists col. split; [done|].
      apply list_elem_of_filter. split; [|done].
      rewrite Forall_forall in Hmet. by rewrite (Hmet col Hcol). }
    rewrite rename_cell; [|rewrite Hcols|done|done].
    - by rewrite (agg_row_cell _ _ (k, sub) ("media_" +:+ col, (col, Mean)) Ha
                    (λ a' Ha', school_agg_dict_inj df _ a' Ha Ha')).
    - apply elem_of_app. right. apply list_elem_of_fmap.
      by exists ("media_" +:+ col, (col, Mean)). }
  split_and!.
  - unfold grouped_rows in Hsub. done.
  - destruct (Hfresh "") as (_ & _ & F3 & F4).
    assert (("n_participantes", ("nota_final", Size))
              ∈ preprocess_schools.school_agg_dict df) as Ha by (by left).
    rewrite rename_cell; [|rewrite Hcols|done|done].
    + by rewrite (agg_row_cell _ _ (k, sub) ("n_participantes", ("nota_final", Size)) Ha
                    (λ a' Ha', school_agg_dict_inj df _ a' Ha Ha')).
    + apply elem_of_app. right. apply list_elem_of_fmap.
      by exists ("n_participantes", ("nota_final", Size)).
  - intros col Hcol. rewrite (Hmedia col Hcol). split_and!.
    + by intros ->.
    + intros m. rewrite <-mean_spec.
      destruct (mean (nonnull col sub)); naive_solver.
    + intros Hlen. rewrite <-Hlen. unfold mean.
      destruct (nonnull col sub) eqn:Hnn; [|done].
      rewrite Hne in Hlen. discriminate.
Qed.

(** ** Group sizes *)

Lemma sumZ_cons x l : sumZ (x :: l) = (x + sumZ l)%Z.
Proof. done. Qed.

Lemma sumZ_indicator {K} `{EqDecision K} (ks : list K) (k0 : K) :
  NoDup ks → k0 ∈ ks →
  sumZ ((λ k, if decide (k0 = k) then 1 else 0)%Z <$> ks) = 1%Z.
Proof.
  induction 1 as [|k ks Hk Hnd IH]; [by intros ?%elem_of_nil|].
  intros Hin. rewrite fmap_cons, sumZ_cons.
  destruct (decide (k0 = k)) as [->|Hne].
  - assert (sumZ ((λ k', if decide (k = k') then 1 else 0)%Z <$> ks) = 0%Z) as ->;
      [|done].
    clear IH Hin Hnd. induction ks as [|k' ks IH]; [done|].
    rewrite fmap_cons, sumZ_cons, decide_False by set_solver.
    rewrite IH; [done|set_solver].
  - rewrite IH; [done|set_solver].
Qed.

(** The groups split the grouped rows: their sizes add up to the number of
    those rows. *)
Lemma group_sizes {K} `{EqDecision K} (key : row → K) (rs : list row) (ks : list K) :
  NoDup ks → (∀ r, r ∈ rs → key r ∈ ks) →
  sumZ ((λ k, Z.of_nat (length (filter (λ r, key r = k) rs))) <$> ks) =
    Z.of_nat (length rs).
Proof.
  intros Hnd. induction rs as [|r rs IH]; intros Hks.
  - clear Hnd Hks. induction ks as [|k ks IH]; [done|].
    by rewrite fmap_cons, sumZ_cons, IH.
  - assert (sumZ ((λ k, Z.of_nat (length (filter (λ r', key r' = k) (r :: rs)))) <$> ks)
            = (sumZ ((λ k, if decide (key r = k) then 1 else 0)%Z <$> ks) +
               sumZ ((λ k, Z.of_nat (length (filter (λ r', key r' = k) rs))) <$> ks))%Z)
      as ->.
    { clear. induction ks as [|k ks IH]; [done|].
      rewrite !fmap_cons, !sumZ_cons, IH, filter_cons.
      destruct (decide (key r = k)); simpl length; lia. }
    rewrite sumZ_indicator; [|done|apply Hks; by left].
    rewrite IH; [simpl length; lia|]. intros r' Hr'. apply Hks. by right.
Qed.

Lemma groupby_sizes df gc dk groups :
  groupby df gc dk = Ok groups →
  sumZ ((λ g : list cell * list row, Z.of_nat (length g.2)) <$> groups) =
    Z.of_nat (length (grouped_rows df gc dk)).
Proof.
  intros [_ ->]%groupby_Ok.
  rewrite <-(group_sizes (key_of gc) (grouped_rows df gc dk)
               (remove_dups (map (key_of gc) (grouped_rows df gc dk)))).
  - f_equal. rewrite <-list_fmap_compose. done.
  - apply NoDup_remove_dups.
  - intros r Hr. apply elem_of_remove_dups. by apply list_elem_of_fmap_2.
Qed.

(** What the overview summary counts: the rows whose three dimension values
    are all non-null. *)
Lemma overview_stats_sum_n df mc stats :
  preprocess_enem.build_overview_stats df mc = Ok stats →
  sumZ (int_field "n" <$> rows stats) =
    Z.of_nat (length (filter (λ r, complete (key_of gcols r)) (rows df))).
Proof.
  unfold preprocess_enem.build_overview_stats.
  intros (groups & Hg & _ & _ & Hrows)%groupby_agg_Ok.
  change (filter (λ r, complete (key_of gcols r)) (rows df))
    with (grouped_rows df gcols true).
  rewrite Hrows, <-(groupby_sizes _ _ _ _ Hg). f_equal.
  rewrite <-list_fmap_compose. apply list_fmap_ext. intros _ g _. simpl.
  unfold int_field.
  set (agg_dict := ("n", ("nota_final", Size)) ::
                   map (λ col, ("sum_" +:+ col, (col, Sum))) mc).
  assert (cell_of (agg_row gcols agg_dict g) "n" = Some (VInt (Z.of_nat (length g.2))))
    as Hn.
  { apply (agg_row_cell gcols agg_dict g ("n", ("nota_final", Size))); [by left|].
    intros a' [->|Ha']%elem_of_cons Hname; [done|].
    apply list_elem_of_fmap in Ha' as (c & Hc & _). rewrite Hc in Hname.
    discriminate. }
  by rewrite (cell_VInt _ _ _ Hn).
Qed.

(** ** Runs on the sample datasets *)

Lemma and_intro_dep (A B : Prop) : A → (A → B) → A ∧ B.
Proof. intros HA HB. split; [exact HA | exact (HB HA)]. Defined.

Lemma eq_Permutation {A} (l k : list A) : l = k → l ≡ₚ k.
Proof. by intros ->. Qed.

(** C1 on the code. The participant with network code 5 is a normalized row
    with the combination (null, Urbana, DF), and the overview summary has no
    row: [groupby] is called without [dropna=False], which the essay, map and
    school summaries pass. *)
Lemma overview_stats_drops_null_key :
  preprocess_enem.overview_frame d_code5 =
    Ok (overview_frame_of key_null_df 300, metrics6) ∧
  key_of gcols <$> rows (overview_frame_of key_null_df 300) = [key_null_df] ∧
  preprocess_enem.build_overview_stats (overview_frame_of key_null_df 300) metrics6 =
    Ok (DF (gcols ++ "n" :: map (λ c, "sum_" +:+ c) metrics6) []) ∧
  (key_of (gcols ++ ["n"]) <$>
     rows_of (preprocess_redacao.build_stats (essay_frame_of key_null_df 300)))
    = [key_null_df ++ [Some (VInt 1)]].
Proof. split_and!; by_compute. Qed.

(** C2 on the code. For the same participant the normalized data has one row
    with a composite score and the counts of the overview summary add up
    to 0. *)
Lemma overview_stats_n_misses_null_key :
  preprocess_enem.overview_frame d_code5 =
    Ok (overview_frame_of key_null_df 300, metrics6) ∧
  length (filter (λ r, is_Some (cell_of r "nota_final"))
                 (rows (overview_frame_of key_null_df 300))) = 1%nat ∧
  preprocess_enem.build_overview_stats (overview_frame_of key_null_df 300) metrics6 =
    Ok (DF (gcols ++ "n" :: map (λ c, "sum_" +:+ c) metrics6) []) ∧
  sumZ (int_field "n" <$>
        rows (DF (gcols ++ "n" :: map (λ c, "sum_" +:+ c) metrics6) [])) = 0%Z.
Proof. split_and!; by_compute. Qed.

(** C3 as stated fails: the school of [d_school] has two participants, one
    without a natural-science score; its media_NU_NOTA_CN is 500, the mean
    of the one value, while the sum over n_participantes is 250. *)
Lemma school_means_counterexample :
  (key_of ["school_id"; "n_participantes"; "media_NU_NOTA_CN"] <$>
     rows_of (preprocess_schools.main d_school))
    = [[Some (VInt 53000001); Some (VInt 2); Some (VNum (Qc_of_Z 500))]] ∧
  (sumQ (nonnull "NU_NOTA_CN" (rows raw_school)) / Qc_of_Z 2)%Qc = Qc_of_Z 250 ∧
  Qc_of_Z 500 ≠ Qc_of_Z 250.
Proof. split_and!; by_compute. Qed.

Lemma school_means_witness :
  ∃ out,
    preprocess_schools.main d_school = Ok out ∧
    ∃ df cols groups,
      preprocess_schools.school_frame d_school = Ok (df, cols) ∧
      groupby df (preprocess_schools.school_group_cols cols) false = Ok groups ∧
      length groups = length (rows out).
Proof.
  destruct (preprocess_schools.main d_school) as [out|e] eqn:Hrun.
  - exists out. split; [reflexivity|].
    destruct (school_means d_school out Hrun) as (df & cols & groups & Hf & Hg & HF).
    exists df, cols, groups. split; [exact Hf|]. split; [exact Hg|].
    exact (Forall2_length _ _ _ HF).
  - exfalso. vm_compute in Hrun. discriminate Hrun.
Defined.

(** C4 on the code. The participant with network code 5 is the one row of
    the frame of each histogram builder, with the combination (null, Urbana,
    DF) and the value 300, inside [0, 1000], in every metric. The essay
    summary, which the essay script groups with [dropna=False], has that
    group with n = 1; the two histograms have no Bin Row at all, their loops
    calling [groupby] without [dropna=False]: the counts for the group and
    metric add up to 0 and the group has one value. *)
Lemma histogram_misses_null_key :
  preprocess_enem.overview_frame d_code5 =
    Ok (overview_frame_of key_null_df 300, metrics6) ∧
  key_of gcols <$> rows (overview_frame_of key_null_df 300) = [key_null_df] ∧
  Forall (λ m, nonnull m (rows_with_key key_null_df
                            (overview_frame_of key_null_df 300)) = [Qc_of_Z 300])
         metrics6 ∧
  in_range (Qc_of_Z 300) ∧
  preprocess_enem.build_overview_hist (overview_frame_of key_null_df 300) metrics6
    = Ok (DF [] []) ∧
  Forall (λ m, sumZ (int_field "count" <$>
                     rows_of_key_metric key_null_df m (DF [] [])) = 0%Z)
         metrics6 ∧
  preprocess_redacao.essay_frame d_code5 = Ok (essay_frame_of key_null_df 300) ∧
  nonnull "NU_NOTA_REDACAO"
          (rows_with_key key_null_df (essay_frame_of key_null_df 300))
    = [Qc_of_Z 300] ∧
  preprocess_redacao.build_stats (essay_frame_of key_null_df 300)
    = Ok essay_stats_null ∧
  preprocess_redacao.build_hist (essay_frame_of key_null_df 300) = Ok (DF [] []) ∧
  sumZ (int_field "count" <$> rows_of_key key_null_df (DF [] [])) = 0%Z.
Proof. split_and!; by_compute. Qed.

Lemma histogram_completeness_witness :
  (preprocess_enem.overview_frame d_700 =
     Ok (overview_frame_of key_federal_df 700, metrics6) ∧
   preprocess_enem.build_overview_hist (overview_frame_of key_federal_df 700) metrics6
     = Ok hist_700 ∧
   Forall is_Some key_federal_df ∧
   "nota_final" ∈ metrics6 ∧
   Forall in_range (nonnull "nota_final"
                      (rows_with_key key_federal_df
                         (overview_frame_of key_federal_df 700))) ∧
   sumZ (int_field "count" <$> rows_of_key_metric key_federal_df "nota_final" hist_700)
     = Z.of_nat (length (nonnull "nota_final"
                           (rows_with_key key_federal_df
                              (overview_frame_of key_federal_df 700))))) ∧
  (preprocess_redacao.essay_frame d_700 = Ok (essay_frame_of key_federal_df 700) ∧
   preprocess_redacao.build_hist (essay_frame_of key_federal_df 700)
     = Ok essay_hist_700 ∧
   Forall in_range (nonnull "NU_NOTA_REDACAO"
                      (rows_with_key key_federal_df
                         (essay_frame_of key_federal_df 700))) ∧
   sumZ (int_field "count" <$> rows_of_key key_federal_df essay_hist_700)
     = Z.of_nat (length (nonnull "NU_NOTA_REDACAO"
                           (rows_with_key key_federal_df
                              (essay_frame_of key_federal_df 700))))).
Proof.
  assert (Forall is_Some key_federal_df) as Hk by by_compute.
  split.
  - apply and_intro_dep; [by_compute|]. intros Hf.
    apply and_intro_dep; [by_compute|]. intros Hrun.
    apply and_intro_dep; [exact Hk|]. intros _.
    apply and_intro_dep; [by_compute|]. intros Hm.
    apply and_intro_dep; [by_compute|]. intros Hrange.
    exact (proj1 (histogram_completeness d_700) _ _ _ _ _ Hf Hrun Hk Hm Hrange).
  - apply and_intro_dep; [by_compute|]. intros Hf.
    apply and_intro_dep; [by_compute|]. intros Hrun.
    apply and_intro_dep; [by_compute|]. intros Hrange.
    exact (proj2 (histogram_completeness d_700) _ _ _ Hf Hrun Hk Hrange).
Defined.


Lemma histogram_sparsity_witness :
  preprocess_enem.build_overview_hist (overview_frame_of key_federal_df 700) metrics6
    = Ok hist_700 ∧
  preprocess_redacao.build_hist (essay_frame_of key_federal_df 700) = Ok essay_hist_700 ∧
  (∀ r, r ∈ rows hist_700 → ∃ c, cell_of r "count" = Some (VInt c) ∧ (1 ≤ c)%Z) ∧
  (∀ r, r ∈ rows essay_hist_700 → ∃ c, cell_of r "count" = Some (VInt c) ∧ (1 ≤ c)%Z) ∧
  rows_of_key_metric key_null_df "nota_final" hist_700 = [] ∧
  rows_of_key key_null_df essay_hist_700 = [].
Proof.
  apply and_intro_dep; [by_compute|]. intros Hrun.
  apply and_intro_dep; [by_compute|]. intros Hrun'.
  split_and!.
  - exact (proj1 (proj1 histogram_sparsity _ _ _ Hrun)).
  - exact (proj1 (proj2 histogram_sparsity _ _ Hrun')).
  - apply (proj2 (proj1 histogram_sparsity _ _ _ Hrun)).
    intros r Hr Hkey. exfalso. revert Hkey.
    apply list_elem_of_singleton in Hr. rewrite Hr. by_compute.
  - apply (proj2 (proj2 histogram_sparsity _ _ Hrun')).
    intros r Hr Hkey. exfalso. revert Hkey.
    apply list_elem_of_singleton in Hr. rewrite Hr. by_compute.
Defined.

Lemma composite_score_witness :
  ∃ df',
    preprocess_enem_df raw_example = Ok df' ∧
    has_col df' "nota_final" = true ∧
    (∀ r', r' ∈ rows df' → is_Some (cell_of r' "nota_final")) ∧
    length (rows df') = 2%nat.
Proof.
  destruct (preprocess_enem_df raw_example) as [df'|e] eqn:Hrun.
  - exists df'. split; [reflexivity|].
    destruct (composite_score _ _ Hrun) as (_ & _ & H3 & _).
    destruct H3 as (Hc & HF & Hall & _).
    { right. exists "NU_NOTA_CN". split; by_compute. }
    split; [exact Hc|]. split; [exact Hall|].
    rewrite <-(Forall2_length _ _ _ HF). by_compute.
  - exfalso. vm_compute in Hrun. discriminate Hrun.
Defined.

Lemma normalizer_never_raises_witness :
  (∃ df', preprocess_enem_df (DF ["SG_UF_ESC"] [from_record [("SG_UF_ESC", Some (VStr "DF"))]])
          = Ok df') ∧
  (∃ e, normalize {| RESULTADOS_2024_parquet := None; RESULTADOS_2024_csv := None |}
        = Raise e).
Proof.
  destruct normalizer_never_raises as (Htotal & _ & Hraise & _).
  split.
  - exact (Htotal _).
  - apply Hraise. split; reflexivity.
Defined.

Lemma school_id_detection_witness :
  preprocess_schools._detect_school_cols (DF ["CO_ENTIDADE"; "NO_ESCOLA"; "ID_ESCOLA"] [])
    = Ok ("ID_ESCOLA", Some "NO_ESCOLA") ∧
  Forall (λ c, c ∉ columns normalized_700) preprocess_schools.id_candidates ∧
  normalize d_700 = Ok normalized_700 ∧
  ∃ msg, preprocess_schools.main d_700 = Raise (ValueError msg).
Proof.
  split.
  - apply (school_id_detection (DF ["CO_ENTIDADE"; "NO_ESCOLA"; "ID_ESCOLA"] [])).
    split; [|reflexivity].
    exists ["CO_ESCOLA"], ["COD_ESCOLA"; "ESCOLA_ID"; "CO_ENTIDADE"].
    split; [reflexivity|]. split; by_compute.
  - apply and_intro_dep; [by_compute|]. intros Hnone.
    apply and_intro_dep; [by_compute|]. intros Hnorm.
    exact (proj2 (proj2 (school_id_detection normalized_700) Hnone) d_700 Hnorm).
Defined.

Lemma longitudinal_rows_witness :
  preprocess_ideb.main parse_sample unicode_sample
    (Some [(preprocess_ideb.SHEET_NAME, sheet_sample)]) = Ok long_sample ∧
  {| preprocess_ideb.Rede := preprocess_ideb.XStr "Privada";
     preprocess_ideb.Ano := "2007";
     preprocess_ideb.IDEB_Score := Some (Q2Qc (56 # 10)) |} ∈ long_sample ∧
  (preprocess_ideb.XStr "Privada" = preprocess_ideb.XStr "Pública" ∨
   preprocess_ideb.XStr "Privada" = preprocess_ideb.XStr "Privada").
Proof.
  apply and_intro_dep; [by_compute|]. intros Hrun.
  apply and_intro_dep; [by_compute|]. intros Hp.
  exact (proj1 (longitudinal_rows _ _ _ _ _ Hrun Hp)).
Defined.

(** The end-to-end example of the specification: composite scores 700, null
    and 300; the second record is dropped; one Summary Row per remaining
    record with n = 1 and the composite as its sum; the bins of 700 and 300
    get count 1. The rows are given up to their order in the tables. *)
Example end_to_end :
  (key_of (gcols ++ ["n"; "sum_nota_final"]) <$>
     rows_of (p ← preprocess_enem.main d_example; Ok p.1))
    ≡ₚ [[Some (VStr "Estadual"); Some (VStr "Urbana"); Some (VStr "DF");
         Some (VInt 1); Some (VNum (Qc_of_Z 300))];
        [Some (VStr "Federal"); Some (VStr "Urbana"); Some (VStr "DF");
         Some (VInt 1); Some (VNum (Qc_of_Z 700))]] ∧
  (key_of ["TIPO_ESCOLA"; "bin_idx"; "bin_left"; "bin_right"; "count"] <$>
     filter (λ r, cell_of r "metric" = Some (VStr "nota_final"))
            (rows_of (p ← preprocess_enem.main d_example; Ok p.2)))
    ≡ₚ [[Some (VStr "Estadual"); Some (VInt 12); Some (VNum (Qc_of_Z 300));
         Some (VNum (Qc_of_Z 325)); Some (VInt 1)];
        [Some (VStr "Federal"); Some (VInt 28); Some (VNum (Qc_of_Z 700));
         Some (VNum (Qc_of_Z 725)); Some (VInt 1)]].
Proof.
  split.
  all: etrans; [|apply Permutation_swap].
  all: apply eq_Permutation; by_compute.
Qed.

(** * The summary by region and the dashboard *)

(** ** Column selection and null dropping *)

Lemma lookup_restrict {V} (cols : list string) (m : gmap string V) c :
  restrict cols m !! c = if decide (c ∈ cols) then m !! c else None.
Proof.
  unfold restrict. rewrite map_lookup_filter.
  destruct (m !! c) as [x|]; simpl; [|by destruct (decide _)].
  destruct (decide (c ∈ cols)); [by rewrite option_guard_True|by rewrite option_guard_False].
Qed.

Lemma cell_of_restrict_row cols r c :
  cell_of (restrict_row cols r) c = if decide (c ∈ cols) then cell_of r c else None.
Proof.
  unfold cell_of, restrict_row. simpl. rewrite !lookup_restrict.
  by destruct (decide (c ∈ cols)).
Qed.

Lemma select_Ok df cols df' :
  select df cols = Ok df' ↔
  Forall (λ c, c ∈ columns df) cols ∧ df' = DF cols (map (restrict_row cols) (rows df)).
Proof.
  unfold select. rewrite <-missing_col_None.
  destruct (missing_col df cols); split; [done|by intros [? _]|by intros [= <-]|by intros [_ ->]].
Qed.

Lemma select_Raise df cols e :
  select df cols = Raise e → ∃ c, e = KeyError c ∧ c ∈ cols ∧ c ∉ columns df.
Proof.
  unfold select. destruct (missing_col df cols) as [c|] eqn:Hc; [|done].
  intros [= <-]. exists c. split; [done|]. by apply missing_col_Some.
Qed.

Lemma dropna_Ok df subset df' :
  dropna df subset = Ok df' ↔
  Forall (λ c, c ∈ columns df) subset ∧
  df' = DF (columns df) (filter (λ r, notnull_all subset r) (rows df)).
Proof.
  unfold dropna. rewrite <-missing_col_None.
  destruct (missing_col df subset); split; [done|by intros [? _]|by intros [= <-]|by intros [_ ->]].
Qed.

Lemma dropna_Raise df subset e :
  dropna df subset = Raise e → ∃ c, e = KeyError c ∧ c ∈ subset ∧ c ∉ columns df.
Proof.
  unfold dropna. destruct (missing_col df subset) as [c|] eqn:Hc; [|done].
  intros [= <-]. exists c. split; [done|]. by apply missing_col_Some.
Qed.

(** ** Aggregation never fails on the columns the frame has *)

Lemma groupby_agg_total df gc dk agg_dict :
  Forall (λ c, c ∈ columns df) gc →
  Forall (λ a : string * (string * aggfunc), a.2.1 ∈ columns df) agg_dict →
  ∃ groups,
    groupby df gc dk = Ok groups ∧
    groupby_agg df gc dk agg_dict =
      Ok (DF (gc ++ map fst agg_dict) (map (agg_row gc agg_dict) groups)).
Proof.
  intros Hgc Hagg. unfold groupby_agg.
  destruct (groupby df gc dk) as [groups|e] eqn:Hg.
  - exists groups. split; [done|]. simpl.
    rewrite (proj2 (missing_col_None df (map (λ a, a.2.1) agg_dict))); [done|].
    by apply Forall_fmap.
  - pose proof (proj2 (groupby_Ok df gc dk _) (conj Hgc eq_refl)) as Hok. congruence.
Qed.

(** ** The histogram loops never fail *)

Lemma mapM_total {A B} (f : A → result B) (l : list A) :
  (∀ x, x ∈ l → ∃ y, f x = Ok y) → ∃ l', mapM f l = Ok l'.
Proof.
  induction l as [|x l IH]; intros Hf; [by eexists|].
  destruct (Hf x) as [y Hy]; [by left|].
  destruct IH as [l' Hl']; [intros z Hz; apply Hf; by right|].
  exists (y :: l'). simpl. rewrite Hy. simpl. by rewrite Hl'.
Qed.

Lemma getitem_present df c : c ∈ columns df → getitem df c = Ok (λ r, cell_of r c).
Proof. intros Hc. unfold getitem. by rewrite (proj2 (has_col_true df c) Hc). Qed.

Lemma getitem_num_present df c : c ∈ columns df → getitem_num df c = Ok (λ r, num r !! c).
Proof. intros Hc. unfold getitem_num. by rewrite (proj2 (has_col_true df c) Hc). Qed.

Lemma metric_block_total fields vals :
  ∃ recs, (if bool_decide (length vals = 0%nat) then Ok []
           else bin_records fields (np_histogram vals bin_edges)) = Ok recs.
Proof.
  case_bool_decide; [by eexists|].
  rewrite bin_records_Ok by (by rewrite length_np_histogram). by eexists.
Qed.

Lemma build_overview_hist_total df mc :
  Forall (λ c, c ∈ columns df) gcols → Forall (λ c, c ∈ columns df) mc →
  ∃ hist, preprocess_enem.build_overview_hist df mc = Ok hist.
Proof.
  intros Hgc Hmc. unfold preprocess_enem.build_overview_hist.
  pose proof (proj2 (groupby_Ok df gcols true _) (conj Hgc eq_refl)) as Hg.
  rewrite Hg. simpl.
  match goal with |- ∃ _, mapM ?f ?l ≫= _ = _ =>
    destruct (mapM_total f l) as [recs Hrecs] end.
  - intros [k sub] Hin.
    destruct (groupby_elem _ _ _ _ _ _ Hg Hin) as (_ & _ & _ & r0 & sub' & -> & _).
    rewrite Forall_forall in Hgc.
    rewrite !getitem_present by (apply Hgc; set_solver). simpl.
    match goal with |- ∃ _, mapM ?f ?l ≫= _ = _ =>
      destruct (mapM_total f l) as [bs Hbs] end.
    + intros m Hm. rewrite Forall_forall in Hmc.
      rewrite getitem_num_present by (by apply Hmc). simpl.
      apply metric_block_total.
    + rewrite Hbs. by eexists.
  - rewrite Hrecs. by eexists.
Qed.

Lemma build_hist_total df :
  Forall (λ c, c ∈ columns df) gcols → "NU_NOTA_REDACAO" ∈ columns df →
  ∃ hist, preprocess_redacao.build_hist df = Ok hist.
Proof.
  intros Hgc Hmc. unfold preprocess_redacao.build_hist.
  pose proof (proj2 (groupby_Ok df gcols true _) (conj Hgc eq_refl)) as Hg.
  change preprocess_redacao.group_cols with gcols.
  rewrite Hg. simpl.
  match goal with |- ∃ _, mapM ?f ?l ≫= _ = _ =>
    destruct (mapM_total f l) as [recs Hrecs] end.
  - intros [k sub] Hin.
    destruct (groupby_elem _ _ _ _ _ _ Hg Hin) as (_ & _ & _ & r0 & sub' & -> & _).
    rewrite Forall_forall in Hgc.
    rewrite !getitem_present by (apply Hgc; set_solver). simpl.
    rewrite getitem_num_present by done. simpl.
    apply metric_block_total.
  - rewrite Hrecs. by eexists.
Qed.

(** ** When the summary scripts run *)

Lemma ret_bind {A B} (a : A) (k : A → result B) : Ok a ≫= k = k a.
Proof. done. Qed.

Lemma raise_bind {A B} (e : exn) (k : A → result B) : Raise e ≫= k = Raise e.
Proof. done. Qed.

Lemma metric_cols_present df :
  Forall (λ c, c ∈ columns df) (preprocess_enem.metric_cols_of df).
Proof.
  apply Forall_forall. intros c [Hc _]%list_elem_of_filter. by apply has_col_in.
Qed.

Lemma nota_final_metric df :
  "nota_final" ∈ columns df → "nota_final" ∈ preprocess_enem.metric_cols_of df.
Proof.
  intros Hc. apply list_elem_of_filter. split; [by apply has_col_in|].
  unfold DISCIPLINE_OPTIONS. simpl. set_solver.
Qed.

Lemma needed_cols_present ndf :
  Forall (λ c, c ∈ columns ndf) required_cols →
  Forall (λ c, c ∈ columns ndf) (gcols ++ preprocess_enem.metric_cols_of ndf).
Proof.
  intros Hreq. apply Forall_app. split; [|apply metric_cols_present].
  rewrite Forall_forall in Hreq. apply Forall_forall. intros c Hc.
  apply Hreq. unfold required_cols. set_solver.
Qed.

(** The rows that the overview and map scripts keep of a normalized table. *)
Lemma overview_frame_Ok d raw ndf :
  load_raw_enem d = Ok raw → preprocess_enem_df raw = Ok ndf →
  Forall (λ c, c ∈ columns ndf) required_cols →
  preprocess_enem.overview_frame d =
    Ok (DF (gcols ++ preprocess_enem.metric_cols_of ndf)
           (filter (λ r, notnull_all ["nota_final"] r)
                   (map (restrict_row (gcols ++ preprocess_enem.metric_cols_of ndf))
                        (rows ndf))),
        preprocess_enem.metric_cols_of ndf).
Proof.
  intros Hload Hnorm Hreq. unfold preprocess_enem.overview_frame.
  rewrite Hload, ret_bind, Hnorm, ret_bind. cbv zeta.
  change (["TIPO_ESCOLA"; "LOCALIZACAO"; "SG_UF_ESC"] ++ ?x) with (gcols ++ x).
  rewrite (proj2 (select_Ok ndf _ _) (conj (needed_cols_present ndf Hreq) eq_refl)).
  rewrite ret_bind, dropna_present; [done|].
  apply has_col_true. cbn [columns]. apply elem_of_app. right.
  apply nota_final_metric. rewrite Forall_forall in Hreq. apply Hreq.
  unfold required_cols. set_solver.
Qed.

Lemma overview_frame_Raise d raw ndf e :
  load_raw_enem d = Ok raw → preprocess_enem_df raw = Ok ndf →
  preprocess_enem.overview_frame d = Raise e →
  ∃ c, e = KeyError c ∧ c ∈ required_cols ∧ c ∉ columns ndf.
Proof.
  intros Hload Hnorm. unfold preprocess_enem.overview_frame.
  rewrite Hload, ret_bind, Hnorm, ret_bind. cbv zeta.
  change (["TIPO_ESCOLA"; "LOCALIZACAO"; "SG_UF_ESC"] ++ ?x) with (gcols ++ x).
  intros [Hsel|(df1 & Hsel & H)]%bind_Raise.
  - apply select_Raise in Hsel as (c & -> & [Hc|Hc]%elem_of_app & Hout).
    + exists c. split; [done|]. split; [unfold required_cols; set_solver|done].
    + apply list_elem_of_filter in Hc as [Hc%has_col_in _]. done.
  - apply select_Ok in Hsel as [_ ->].
    apply bind_Raise in H as [Hdrop|(df2 & _ & [=])].
    apply dropna_Raise in Hdrop as (c & -> & ->%list_elem_of_singleton & Hout).
    exists "nota_final". split; [done|]. split; [unfold required_cols; set_solver|].
    intros Hin. apply Hout. cbn [columns]. apply elem_of_app. right.
    by apply nota_final_metric.
Qed.

Lemma overview_frame_Ok_inv d raw ndf df mc :
  load_raw_enem d = Ok raw → preprocess_enem_df raw = Ok ndf →
  preprocess_enem.overview_frame d = Ok (df, mc) →
  Forall (λ c, c ∈ columns ndf) required_cols.
Proof.
  intros Hload Hnorm. unfold preprocess_enem.overview_frame.
  rewrite Hload, ret_bind, Hnorm, ret_bind. cbv zeta.
  change (["TIPO_ESCOLA"; "LOCALIZACAO"; "SG_UF_ESC"] ++ ?x) with (gcols ++ x).
  intros (df1 & [Hcols ->]%select_Ok & H)%bind_Ok.
  apply bind_Ok in H as (df2 & [Hnf _]%dropna_Ok & _).
  apply Forall_app in Hcols as [Hg _]. rewrite Forall_forall in Hg.
  apply Forall_forall. intros c Hc. unfold required_cols in Hc.
  apply elem_of_cons in Hc as [->|Hc]; [apply Hg; set_solver|].
  apply elem_of_cons in Hc as [->|Hc]; [apply Hg; set_solver|].
  apply elem_of_cons in Hc as [->|Hc]; [apply Hg; set_solver|].
  apply list_elem_of_singleton in Hc as ->.
  rewrite Forall_singleton in Hnf. cbn [columns] in Hnf.
  apply elem_of_app in Hnf as [Hnf|Hnf]; [set_solver|].
  apply list_elem_of_filter in Hnf as [Hnf%has_col_in _]. done.
Qed.

Lemma agg_cols_present (df : DataFrame) (mc : list string) (name : string) :
  "nota_final" ∈ columns df → Forall (λ c, c ∈ columns df) mc →
  Forall (λ a : string * (string * aggfunc), a.2.1 ∈ columns df)
         ((name, ("nota_final", Size)) :: map (λ col, ("sum_" +:+ col, (col, Sum))) mc).
Proof.
  intros Hnf Hmc. constructor; [done|]. apply Forall_fmap.
  eapply Forall_impl; [exact Hmc|]. done.
Qed.

(** X1. After the raw file is loaded and normalized, [preprocess_enem.main]
    produces both artifacts whenever the normalized table has the columns
    TIPO_ESCOLA, LOCALIZACAO, SG_UF_ESC and nota_final (the histogram loop
    never fails on an index); when it raises, it is a [KeyError] for one of
    these four columns, which the normalized table lacks. *)
Theorem overview_main_runs (d : DataDir) (raw ndf : DataFrame)
    (Hload : load_raw_enem d = Ok raw)
    (Hnorm : preprocess_enem_df raw = Ok ndf) :
  (Forall (λ c, c ∈ columns ndf) required_cols →
   ∃ stats hist, preprocess_enem.main d = Ok (stats, hist)) ∧
  (∀ e, preprocess_enem.main d = Raise e →
        ∃ c, e = KeyError c ∧ c ∈ required_cols ∧ c ∉ columns ndf).
Proof.
  assert (Forall (λ c, c ∈ columns ndf) required_cols →
          ∃ stats hist, preprocess_enem.main d = Ok (stats, hist)) as Hruns.
  { intros Hreq. unfold preprocess_enem.main.
    rewrite (overview_frame_Ok _ _ _ Hload Hnorm Hreq), ret_bind. cbn [fst snd].
    set (mc := preprocess_enem.metric_cols_of ndf).
    match goal with |- context [preprocess_enem.build_overview_stats ?x _] =>
      set (df := x) end.
    assert (Forall (λ c, c ∈ columns df) gcols) as Hg.
    { apply Forall_forall. intros c Hc. cbn [df columns]. apply elem_of_app. by left. }
    assert (Forall (λ c, c ∈ columns df) mc) as Hm.
    { apply Forall_forall. intros c Hc. cbn [df columns]. apply elem_of_app. by right. }
    assert ("nota_final" ∈ columns df) as Hnf.
    { rewrite Forall_forall in Hm. apply Hm, nota_final_metric.
      rewrite Forall_forall in Hreq. apply Hreq. unfold required_cols. set_solver. }
    unfold preprocess_enem.build_overview_stats.
    destruct (groupby_agg_total df gcols true _ Hg (agg_cols_present df mc "n" Hnf Hm))
      as (groups & _ & ->).
    rewrite ret_bind.
    destruct (build_overview_hist_total df mc Hg Hm) as [hist ->].
    rewrite ret_bind. by eexists _, _. }
  split; [done|].
  intros e Hmain. unfold preprocess_enem.main in Hmain.
  destruct (preprocess_enem.overview_frame d) as [[df mc]|e'] eqn:Hf.
  - destruct (Hruns (overview_frame_Ok_inv _ _ _ _ _ Hload Hnorm Hf)) as (? & ? & Hok).
    unfold preprocess_enem.main in Hok. rewrite Hf in Hok. congruence.
  - rewrite raise_bind in Hmain. injection Hmain as <-.
    by apply (overview_frame_Raise d raw ndf).
Qed.

(** ** Summary rows carry their key *)

Lemma field_cons_ne c (kv : string * cell) l :
  kv.1 ≠ c → field c (kv :: l) = field c l.
Proof.
  intros Hne. change (kv :: l) with ([kv] ++ l). rewrite field_app.
  destruct (field c l) as [v|] eqn:Hf; [done|].
  case_bool_decide as Hin; [done|].
  unfold field. simpl. by rewrite decide_False.
Qed.

Lemma field_cons_eq c (kv : string * cell) l :
  kv.1 = c → c ∉ l.*1 → field c (kv :: l) = kv.2.
Proof.
  intros Heq Hout. change (kv :: l) with ([kv] ++ l). rewrite field_app_l by done.
  unfold field. simpl. by rewrite decide_True.
Qed.

Lemma field_zip (gc : list string) (k : list cell) (i : nat) c x :
  NoDup gc → gc !! i = Some c → k !! i = Some x → field c (zip gc k) = x.
Proof.
  intros Hnd. revert k i. induction Hnd as [|c0 gc Hc0 Hnd IH]; intros k i Hc Hx; [done|].
  destruct k as [|x0 k]; [done|]. destruct i as [|i]; simpl in Hc, Hx.
  - injection Hc as ->. injection Hx as ->. simpl.
    apply (field_cons_eq c (c, x)); [done|].
    intros Hin. apply Hc0. apply list_elem_of_fmap in Hin as ([c' x'] & -> & Hin).
    by apply elem_of_zip_l in Hin.
  - simpl. rewrite field_cons_ne; [by apply (IH k i)|].
    simpl. intros ->. apply Hc0. by eapply list_elem_of_lookup_2.
Qed.

Lemma key_of_agg_row gc agg_dict (g : list cell * list row) :
  NoDup gc → length g.1 = length gc →
  (∀ c, c ∈ gc → c ∉ agg_dict.*1) →
  key_of gc (agg_row gc agg_dict g) = g.1.
Proof.
  intros Hnd Hlen Hfresh. unfold key_of. apply list_eq. intros i.
  rewrite list_lookup_fmap.
  destruct (gc !! i) as [c|] eqn:Hc; simpl.
  - destruct (lookup_lt_is_Some_2 g.1 i) as [x Hx].
    { rewrite Hlen. by eapply lookup_lt_Some. }
    rewrite Hx. f_equal. unfold agg_row. rewrite cell_of_from_record.
    rewrite field_app_l.
    + by apply (field_zip gc g.1 i).
    + rewrite <-list_fmap_compose. apply Hfresh. by eapply list_elem_of_lookup_2.
  - symmetry. apply lookup_ge_None. rewrite Hlen. by apply lookup_ge_None.
Qed.

Lemma sum_agg_dict_inj (name : string) (mc : list string)
    (a a' : string * (string * aggfunc)) :
  (∀ c, name ≠ "sum_" +:+ c) →
  a ∈ (name, ("nota_final", Size)) :: map (λ col, ("sum_" +:+ col, (col, Sum))) mc →
  a' ∈ (name, ("nota_final", Size)) :: map (λ col, ("sum_" +:+ col, (col, Sum))) mc →
  a'.1 = a.1 → a' = a.
Proof.
  intros Hname Ha Ha' Hn.
  apply elem_of_cons in Ha as [Ha|Ha], Ha' as [Ha'|Ha'].
  - by rewrite Ha, Ha'.
  - apply list_elem_of_fmap in Ha' as (c' & Hc' & _).
    rewrite Ha, Hc' in Hn. simpl in Hn. by destruct (Hname c').
  - apply list_elem_of_fmap in Ha as (c & Hc & _).
    rewrite Ha', Hc in Hn. simpl in Hn. by destruct (Hname c).
  - apply list_elem_of_fmap in Ha as (c & Hc & _).
    apply list_elem_of_fmap in Ha' as (c' & Hc' & _).
    rewrite Hc, Hc' in Hn |- *. simpl in Hn. injection Hn as Hn.
    change (c' = c) in Hn. by rewrite Hn.
Qed.

Lemma sum_agg_names (name : string) (mc : list string) c :
  c ∈ ((name, ("nota_final", Size)) ::
       map (λ col, ("sum_" +:+ col, (col, Sum))) mc : list (string * (string * aggfunc))).*1 →
  c = name ∨ ∃ m, m ∈ mc ∧ c = "sum_" +:+ m.
Proof.
  rewrite fmap_cons. intros [->|Hc]%elem_of_cons; [by left|]. right.
  apply list_elem_of_fmap in Hc as (a & -> & Ha).
  apply list_elem_of_fmap in Ha as (m & -> & Hm). by exists m.
Qed.

(** ** The summary by region *)

Lemma map_frame_Ok d raw ndf :
  RESULTADOS_2024_parquet d = Some raw → preprocess_enem_df raw = Ok ndf →
  Forall (λ c, c ∈ columns ndf) required_cols →
  preprocess_map_uf.map_frame d =
    Ok (DF (gcols ++ preprocess_enem.metric_cols_of ndf)
           (filter (λ r, notnull_all ["SG_UF_ESC"] r)
              (filter (λ r, notnull_all ["nota_final"] r)
                 (map (restrict_row (gcols ++ preprocess_enem.metric_cols_of ndf))
                      (rows ndf)))),
        preprocess_enem.metric_cols_of ndf).
Proof.
  intros Hload Hnorm Hreq. unfold preprocess_map_uf.map_frame.
  rewrite Hload, Hnorm, ret_bind. cbv zeta.
  change (["TIPO_ESCOLA"; "LOCALIZACAO"; "SG_UF_ESC"] ++ ?x) with (gcols ++ x).
  change (filter (λ c, has_col ndf c) (map snd DISCIPLINE_OPTIONS))
    with (preprocess_enem.metric_cols_of ndf).
  rewrite (proj2 (select_Ok ndf _ _) (conj (needed_cols_present ndf Hreq) eq_refl)).
  rewrite ret_bind, dropna_present.
  - rewrite ret_bind, dropna_present; [done|].
    apply has_col_true. cbn [columns]. apply elem_of_app. left. set_solver.
  - apply has_col_true. cbn [columns]. apply elem_of_app. right.
    apply nota_final_metric. rewrite Forall_forall in Hreq. apply Hreq.
    unfold required_cols. set_solver.
Qed.

Lemma map_frame_Raise d raw ndf e :
  RESULTADOS_2024_parquet d = Some raw → preprocess_enem_df raw = Ok ndf →
  preprocess_map_uf.map_frame d = Raise e →
  ∃ c, e = KeyError c ∧ c ∈ required_cols ∧ c ∉ columns ndf.
Proof.
  intros Hload Hnorm. unfold preprocess_map_uf.map_frame.
  rewrite Hload, Hnorm, ret_bind. cbv zeta.
  change (["TIPO_ESCOLA"; "LOCALIZACAO"; "SG_UF_ESC"] ++ ?x) with (gcols ++ x).
  change (filter (λ c, has_col ndf c) (map snd DISCIPLINE_OPTIONS))
    with (preprocess_enem.metric_cols_of ndf).
  intros [Hsel|(df1 & Hsel & H)]%bind_Raise.
  - apply select_Raise in Hsel as (c & -> & [Hc|Hc]%elem_of_app & Hout).
    + exists c. split; [done|]. split; [unfold required_cols; set_solver|done].
    + apply list_elem_of_filter in Hc as [Hc%has_col_in _]. done.
  - apply select_Ok in Hsel as [_ ->].
    apply bind_Raise in H as [Hdrop|(df2 & Hdrop & H)].
    + apply dropna_Raise in Hdrop as (c & -> & ->%list_elem_of_singleton & Hout).
      exists "nota_final". split; [done|]. split; [unfold required_cols; set_solver|].
      intros Hin. apply Hout. cbn [columns]. apply elem_of_app. right.
      by apply nota_final_metric.
    + apply dropna_Ok in Hdrop as [_ ->].
      apply bind_Raise in H as [Hdrop|(df3 & _ & [=])].
      apply dropna_Raise in Hdrop as (c & -> & ->%list_elem_of_singleton & Hout).
      exfalso. apply Hout. cbn [columns]. apply elem_of_app. left. set_solver.
Qed.

Lemma map_frame_Ok_inv d raw ndf df mc :
  RESULTADOS_2024_parquet d = Some raw → preprocess_enem_df raw = Ok ndf →
  preprocess_map_uf.map_frame d = Ok (df, mc) →
  Forall (λ c, c ∈ columns ndf) required_cols.
Proof.
  intros Hload Hnorm. unfold preprocess_map_uf.map_frame.
  rewrite Hload, Hnorm, ret_bind. cbv zeta.
  change (["TIPO_ESCOLA"; "LOCALIZACAO"; "SG_UF_ESC"] ++ ?x) with (gcols ++ x).
  change (filter (λ c, has_col ndf c) (map snd DISCIPLINE_OPTIONS))
    with (preprocess_enem.metric_cols_of ndf).
  intros (df1 & [Hcols ->]%select_Ok & H)%bind_Ok.
  apply bind_Ok in H as (df2 & [Hnf _]%dropna_Ok & _).
  apply Forall_app in Hcols as [Hg _]. rewrite Forall_forall in Hg.
  apply Forall_forall. intros c Hc. unfold required_cols in Hc.
  apply elem_of_cons in Hc as [->|Hc]; [apply Hg; set_solver|].
  apply elem_of_cons in Hc as [->|Hc]; [apply Hg; set_solver|].
  apply elem_of_cons in Hc as [->|Hc]; [apply Hg; set_solver|].
  apply list_elem_of_singleton in Hc as ->.
  rewrite Forall_singleton in Hnf. cbn [columns] in Hnf.
  apply elem_of_app in Hnf as [Hnf|Hnf]; [set_solver|].
  apply list_elem_of_filter in Hnf as [Hnf%has_col_in _]. done.
Qed.

(** X2. [preprocess_map_uf.main] reads the parquet file only: without it the
    script raises [FileNotFoundError], whether or not the csv file is there.
    With it, the script produces its artifact whenever the normalized table
    has the columns TIPO_ESCOLA, LOCALIZACAO, SG_UF_ESC and nota_final, and
    when it raises, it is a [KeyError] for one of these four columns, which
    the normalized table lacks. *)
Theorem map_uf_main_runs (d : DataDir) :
  (RESULTADOS_2024_parquet d = None →
   ∃ msg, preprocess_map_uf.main d = Raise (FileNotFoundError msg)) ∧
  (∀ raw ndf,
     RESULTADOS_2024_parquet d = Some raw → preprocess_enem_df raw = Ok ndf →
     (Forall (λ c, c ∈ columns ndf) required_cols →
      ∃ out, preprocess_map_uf.main d = Ok out) ∧
     (∀ e, preprocess_map_uf.main d = Raise e →
           ∃ c, e = KeyError c ∧ c ∈ required_cols ∧ c ∉ columns ndf)).
Proof.
  split.
  { intros Hnone. unfold preprocess_map_uf.main, preprocess_map_uf.map_frame.
    rewrite Hnone. by eexists. }
  intros raw ndf Hload Hnorm.
  assert (Forall (λ c, c ∈ columns ndf) required_cols →
          ∃ out, preprocess_map_uf.main d = Ok out) as Hruns.
  { intros Hreq. unfold preprocess_map_uf.main.
    rewrite (map_frame_Ok _ _ _ Hload Hnorm Hreq), ret_bind. cbn [fst snd].
    set (mc := preprocess_enem.metric_cols_of ndf).
    match goal with |- context [groupby_agg ?x _ _ _] => set (df := x) end.
    assert (Forall (λ c, c ∈ columns df) preprocess_map_uf.group_cols) as Hg.
    { apply Forall_forall. intros c Hc. cbn [df columns]. apply elem_of_app. left.
      unfold preprocess_map_uf.group_cols in Hc. set_solver. }
    assert (Forall (λ c, c ∈ columns df) mc) as Hm.
    { apply Forall_forall. intros c Hc. cbn [df columns]. apply elem_of_app. by right. }
    assert ("nota_final" ∈ columns df) as Hnf.
    { rewrite Forall_forall in Hm. apply Hm, nota_final_metric.
      rewrite Forall_forall in Hreq. apply Hreq. unfold required_cols. set_solver. }
    unfold preprocess_map_uf.agg_dict.
    destruct (groupby_agg_total df _ false _ Hg
                (agg_cols_present df mc "n_participantes" Hnf Hm)) as (groups & _ & ->).
    by eexists. }
  split; [done|].
  intros e Hmain. unfold preprocess_map_uf.main in Hmain.
  destruct (preprocess_map_uf.map_frame d) as [[df mc]|e'] eqn:Hf.
  - destruct (Hruns (map_frame_Ok_inv _ _ _ _ _ Hload Hnorm Hf)) as (? & Hok).
    unfold preprocess_map_uf.main in Hok. rewrite Hf in Hok. congruence.
  - rewrite raise_bind in Hmain. injection Hmain as <-.
    by apply (map_frame_Raise d raw ndf).
Qed.

Lemma map_frame_shape d df mc :
  preprocess_map_uf.map_frame d = Ok (df, mc) →
  ∃ raw ndf,
    RESULTADOS_2024_parquet d = Some raw ∧ preprocess_enem_df raw = Ok ndf ∧
    Forall (λ c, c ∈ columns ndf) required_cols ∧
    mc = preprocess_enem.metric_cols_of ndf ∧
    df = DF (gcols ++ mc)
            (filter (λ r, notnull_all ["SG_UF_ESC"] r)
               (filter (λ r, notnull_all ["nota_final"] r)
                  (map (restrict_row (gcols ++ mc)) (rows ndf)))).
Proof.
  intros Hf.
  destruct (RESULTADOS_2024_parquet d) as [raw|] eqn:Hload;
    [|unfold preprocess_map_uf.map_frame in Hf; by rewrite Hload in Hf].
  destruct (preprocess_enem_df_total raw) as [ndf Hnorm].
  pose proof (map_frame_Ok_inv _ _ _ _ _ Hload Hnorm Hf) as Hreq.
  rewrite (map_frame_Ok _ _ _ Hload Hnorm Hreq) in Hf. injection Hf as <- <-.
  by exists raw, ndf.
Qed.

Lemma map_group_cols_NoDup : NoDup preprocess_map_uf.group_cols.
Proof. by_compute. Qed.

Lemma map_group_cols_fresh mc c :
  c ∈ preprocess_map_uf.group_cols → c ∉ (preprocess_map_uf.agg_dict mc).*1.
Proof.
  intros Hc [->|(m & _ & ->)]%sum_agg_names;
    unfold preprocess_map_uf.group_cols in Hc;
    repeat (apply elem_of_cons in Hc as [Hc|Hc]; [discriminate|]);
    by apply elem_of_nil in Hc.
Qed.

Lemma map_agg_dict_inj mc (a a' : string * (string * aggfunc)) :
  a ∈ preprocess_map_uf.agg_dict mc → a' ∈ preprocess_map_uf.agg_dict mc →
  a'.1 = a.1 → a' = a.
Proof. apply sum_agg_dict_inj. intros c. discriminate. Qed.

(** X3. Every row of the map summary stands for one combination of region,
    network and locale that occurs in the frame, and no two rows for the
    same one; a null network or locale is a value like any other. The row
    has a region, counts in n_participantes the frame rows with its
    combination (at least one), and carries in sum_<metric> the sum of their
    non-null values; every row of the frame is counted in the row of its
    combination. *)
Theorem map_uf_rows (d : DataDir) (df : DataFrame) (mc : list string) (out : DataFrame)
    (Hframe : preprocess_map_uf.map_frame d = Ok (df, mc))
    (Hrun : preprocess_map_uf.main d = Ok out) :
  NoDup (key_of preprocess_map_uf.group_cols <$> rows out) ∧
  (∀ r, r ∈ rows df →
        ∃ r', r' ∈ rows out ∧
              key_of preprocess_map_uf.group_cols r' =
              key_of preprocess_map_uf.group_cols r) ∧
  (∀ r', r' ∈ rows out →
     ∃ sub,
       sub = filter (λ r, key_of preprocess_map_uf.group_cols r =
                          key_of preprocess_map_uf.group_cols r') (rows df) ∧
       sub ≠ [] ∧
       is_Some (cell_of r' "SG_UF_ESC") ∧
       cell_of r' "n_participantes" = Some (VInt (Z.of_nat (length sub))) ∧
       ∀ m, m ∈ mc → cell_of r' ("sum_" +:+ m) = Some (VNum (sumQ (nonnull m sub)))).
Proof.
  unfold preprocess_map_uf.main in Hrun. rewrite Hframe, ret_bind in Hrun.
  cbn [fst snd] in Hrun.
  apply groupby_agg_Ok in Hrun as (groups & Hg & _ & _ & Hrows).
  set (gc := preprocess_map_uf.group_cols) in *.
  set (agg := preprocess_map_uf.agg_dict mc) in *.
  assert (Hkey : ∀ g, g ∈ groups → key_of gc (agg_row gc agg g) = g.1).
  { intros [k sub] Hin.
    destruct (groupby_elem _ _ _ _ _ _ Hg Hin) as (_ & Hlen & _).
    apply key_of_agg_row; [apply map_group_cols_NoDup|done|apply map_group_cols_fresh]. }
  assert (Hkeys : key_of gc <$> rows out = groups.*1).
  { rewrite Hrows. change (map (agg_row gc agg) groups) with (agg_row gc agg <$> groups).
    rewrite <-list_fmap_compose. apply list_fmap_ext. intros i g Hi. simpl.
    apply Hkey. by eapply list_elem_of_lookup_2. }
  split_and!.
  - rewrite Hkeys. by eapply groupby_keys_NoDup.
  - intros r Hr.
    assert (key_of gc r ∈ groups.*1) as Hin.
    { apply (groupby_key_elem _ _ _ _ _ Hg). by exists r. }
    apply list_elem_of_fmap in Hin as (g & Hk & Hin).
    exists (agg_row gc agg g). split.
    + rewrite Hrows. apply list_elem_of_fmap. by exists g.
    + rewrite Hkey by done. done.
  - intros r' Hr'. rewrite Hrows in Hr'.
    apply list_elem_of_fmap in Hr' as ([k sub] & -> & Hin).
    destruct (groupby_elem _ _ _ _ _ _ Hg Hin) as (Hsub & _ & _ & r0 & sub' & Hne & Hk0).
    rewrite (Hkey _ Hin). cbn [fst]. unfold grouped_rows in Hsub.
    exists sub. split_and!.
    + done.
    + by rewrite Hne.
    + assert (r0 ∈ rows df) as Hr0.
      { assert (r0 ∈ sub) as Hr0 by (rewrite Hne; by left).
        rewrite Hsub in Hr0. by apply list_elem_of_filter in Hr0 as [_ ?]. }
      apply map_frame_shape in Hframe as (raw & ndf & _ & _ & _ & _ & Hdf).
      rewrite Hdf in Hr0. cbn [rows] in Hr0.
      apply list_elem_of_filter in Hr0 as [Huf%Is_true_true_1 _].
      apply notnull_all_single in Huf.
      assert (key_of gc (agg_row gc agg (k, sub)) = key_of gc r0) as Hk'
        by (rewrite Hk0; apply (Hkey _ Hin)).
      change (key_of gc ?x)
        with [cell_of x "SG_UF_ESC"; cell_of x "TIPO_ESCOLA"; cell_of x "LOCALIZACAO"]
        in Hk'.
      injection Hk' as Hk' _ _. by rewrite Hk'.
    + apply (agg_row_cell gc agg (k, sub) ("n_participantes", ("nota_final", Size)));
        [by left|].
      intros a' Ha'. apply (map_agg_dict_inj mc); [by left|done].
    + intros m Hm.
      assert (("sum_" +:+ m, (m, Sum)) ∈ agg) as Ha.
      { right. apply list_elem_of_fmap. by exists m. }
      apply (agg_row_cell gc agg (k, sub) ("sum_" +:+ m, (m, Sum)) Ha).
      intros a' Ha'. by apply (map_agg_dict_inj mc).
Qed.

Lemma length_filter_ext {A} (P Q : A → Prop) `{∀ x, Decision (P x)}
    `{∀ x, Decision (Q x)} (l : list A) :
  (∀ x, x ∈ l → P x ↔ Q x) → filter P l = filter Q l.
Proof.
  induction l as [|x l IH]; intros Hext; [done|].
  rewrite !filter_cons.
  destruct (decide (P x)) as [HP|HP], (decide (Q x)) as [HQ|HQ].
  - f_equal. apply IH. intros y Hy. apply Hext. by right.
  - destruct HQ. apply Hext; [by left|done].
  - destruct HP. apply Hext; [by left|done].
  - apply IH. intros y Hy. apply Hext. by right.
Qed.

(** X4. The n_participantes of the map summary add up to the number of rows
    of the normalized table that have a composite score and a region: unlike
    the overview summary, the map summary loses no participant to a null
    network or locale. *)
Theorem map_uf_counts_all (d : DataDir) (raw ndf out : DataFrame)
    (Hload : RESULTADOS_2024_parquet d = Some raw)
    (Hnorm : preprocess_enem_df raw = Ok ndf)
    (Hrun : preprocess_map_uf.main d = Ok out) :
  sumZ (int_field "n_participantes" <$> rows out) =
    Z.of_nat (length (filter (λ r, is_Some (cell_of r "nota_final") ∧
                                   is_Some (cell_of r "SG_UF_ESC")) (rows ndf))).
Proof.
  unfold preprocess_map_uf.main in Hrun.
  apply bind_Ok in Hrun as ([df mc] & Hframe & Hrun). cbn [fst snd] in Hrun.
  apply groupby_agg_Ok in Hrun as (groups & Hg & _ & _ & Hrows).
  apply map_frame_shape in Hframe as (raw' & ndf' & Hload' & Hnorm' & Hreq & Hmc & Hdf).
  assert (raw' = raw) as -> by congruence. assert (ndf' = ndf) as -> by congruence.
  transitivity (Z.of_nat (length (rows df))).
  - change (rows df) with (grouped_rows df preprocess_map_uf.group_cols false).
    rewrite Hrows, <-(groupby_sizes _ _ _ _ Hg).
    change (map ?f groups) with (f <$> groups).
    rewrite <-list_fmap_compose. f_equal. apply list_fmap_ext. intros _ g _. simpl.
    unfold int_field.
    assert (cell_of (agg_row preprocess_map_uf.group_cols (preprocess_map_uf.agg_dict mc) g)
              "n_participantes" = Some (VInt (Z.of_nat (length g.2)))) as Hn.
    { apply (agg_row_cell _ (preprocess_map_uf.agg_dict mc) g
               ("n_participantes", ("nota_final", Size))); [by left|].
      intros a' Ha'. apply (map_agg_dict_inj mc); [by left|done]. }
    by rewrite (cell_VInt _ _ _ Hn).
  - f_equal. rewrite Hdf. cbn [rows].
    rewrite !filter_map_comm, !length_map. f_equal.
    rewrite list_filter_filter. apply length_filter_ext. intros r _.
    rewrite Forall_forall in Hreq.
    rewrite !Is_true_true, !notnull_all_single, !cell_of_restrict_row.
    rewrite !decide_True; [tauto| |].
    + apply elem_of_app. right. subst mc. apply nota_final_metric, Hreq.
      unfold required_cols. set_solver.
    + apply elem_of_app. left. set_solver.
Qed.

(** ** The overview summary inside the map summary *)

Lemma overview_frame_shape d df mc :
  preprocess_enem.overview_frame d = Ok (df, mc) →
  ∃ raw ndf,
    load_raw_enem d = Ok raw ∧ preprocess_enem_df raw = Ok ndf ∧
    Forall (λ c, c ∈ columns ndf) required_cols ∧
    mc = preprocess_enem.metric_cols_of ndf ∧
    df = DF (gcols ++ mc)
            (filter (λ r, notnull_all ["nota_final"] r)
               (map (restrict_row (gcols ++ mc)) (rows ndf))).
Proof.
  intros Hf.
  destruct (load_raw_enem d) as [raw|e] eqn:Hload;
    [|unfold preprocess_enem.overview_frame in Hf; by rewrite Hload in Hf].
  destruct (preprocess_enem_df_total raw) as [ndf Hnorm].
  pose proof (overview_frame_Ok_inv _ _ _ _ _ Hload Hnorm Hf) as Hreq.
  rewrite (overview_frame_Ok _ _ _ Hload Hnorm Hreq) in Hf. injection Hf as <- <-.
  by exists raw, ndf.
Qed.

(** The three dimension cells in the order of the map summary. *)
Lemma key_map_overview r r' :
  key_of preprocess_map_uf.group_cols r = key_of preprocess_map_uf.group_cols r' ↔
  key_of gcols r = key_of gcols r'.
Proof.
  change (key_of preprocess_map_uf.group_cols ?x)
    with [cell_of x "SG_UF_ESC"; cell_of x "TIPO_ESCOLA"; cell_of x "LOCALIZACAO"].
  change (key_of gcols ?x)
    with [cell_of x "TIPO_ESCOLA"; cell_of x "LOCALIZACAO"; cell_of x "SG_UF_ESC"].
  split; intros [= -> -> ->]; done.
Qed.

Lemma complete_key_region r :
  complete (key_of gcols r) = true → notnull_all ["SG_UF_ESC"] r = true.
Proof.
  intros Hc. apply notnull_all_single. apply complete_Forall in Hc.
  change (key_of gcols r)
    with [cell_of r "TIPO_ESCOLA"; cell_of r "LOCALIZACAO"; cell_of r "SG_UF_ESC"] in Hc.
  rewrite !Forall_cons in Hc. tauto.
Qed.

(** Apart from the name of the count, the summary row of a group is the same
    under both scripts. *)
Lemma agg_row_map_overview mc (g gm : list cell * list row) r c :
  key_of gcols r = g.1 → key_of preprocess_map_uf.group_cols r = gm.1 → g.2 = gm.2 →
  c ≠ "n" → c ≠ "n_participantes" →
  cell_of (agg_row preprocess_map_uf.group_cols (preprocess_map_uf.agg_dict mc) gm) c =
  cell_of (agg_row gcols (("n", ("nota_final", Size)) ::
                          map (λ col, ("sum_" +:+ col, (col, Sum))) mc) g) c.
Proof.
  destruct g as [k sub], gm as [km subm]. cbn [fst snd]. intros <- <- <- Hn Hnp.
  unfold agg_row, preprocess_map_uf.agg_dict. rewrite !cell_of_from_record.
  cbn [fst snd map]. rewrite !field_app.
  rewrite !field_cons_ne by (simpl; congruence).
  destruct (field c _) as [v|] eqn:Hf; [done|].
  rewrite !fmap_cons. cbn [fst].
  assert (∀ (x : string) (l : list string), x ≠ c → bool_decide (c ∈ x :: l) = bool_decide (c ∈ l))
    as Hdec.
  { intros x l Hx. apply bool_decide_ext. set_solver. }
  rewrite !Hdec by congruence.
  destruct (bool_decide _); [done|].
  change (key_of preprocess_map_uf.group_cols ?x)
    with [cell_of x "SG_UF_ESC"; cell_of x "TIPO_ESCOLA"; cell_of x "LOCALIZACAO"].
  change (key_of gcols ?x)
    with [cell_of x "TIPO_ESCOLA"; cell_of x "LOCALIZACAO"; cell_of x "SG_UF_ESC"].
  unfold field. simpl.
  repeat case_decide; subst; try done.
Qed.

Lemma shared_group (R : list row) (r0 : row) :
  complete (key_of gcols r0) = true →
  filter (λ r, key_of preprocess_map_uf.group_cols r =
               key_of preprocess_map_uf.group_cols r0)
         (filter (λ r, notnull_all ["SG_UF_ESC"] r) R) =
  filter (λ r, key_of gcols r = key_of gcols r0)
         (filter (λ r, complete (key_of gcols r)) R).
Proof.
  intros Hc. rewrite !list_filter_filter. apply length_filter_ext. intros r _.
  rewrite key_map_overview, !Is_true_true. split.
  - intros [Hk _]. split; [done|]. by rewrite Hk.
  - intros [Hk Hcr]. split; [done|]. by apply complete_key_region.
Qed.

Lemma overview_n_cell mc g :
  cell_of (agg_row gcols (("n", ("nota_final", Size)) ::
                          map (λ col, ("sum_" +:+ col, (col, Sum))) mc) g) "n" =
    Some (VInt (Z.of_nat (length g.2))).
Proof.
  apply (agg_row_cell gcols _ g ("n", ("nota_final", Size))); [by left|].
  intros a' Ha'. apply (sum_agg_dict_inj "n" mc); [intros c; discriminate|by left|done].
Qed.

Lemma map_n_cell mc g :
  cell_of (agg_row preprocess_map_uf.group_cols (preprocess_map_uf.agg_dict mc) g)
          "n_participantes" = Some (VInt (Z.of_nat (length g.2))).
Proof.
  apply (agg_row_cell _ (preprocess_map_uf.agg_dict mc) g
           ("n_participantes", ("nota_final", Size))); [by left|].
  intros a' Ha'. apply (map_agg_dict_inj mc); [by left|done].
Qed.

(** X5. The map summary is consistent with the overview summary: every row
    of the overview summary has a row in the map summary with the same
    count (under the name n_participantes) and the same cells in every other
    column, and every row of the map summary whose network, locale and region
    are all non-null has such a row in the overview summary. *)
Theorem map_uf_agrees_with_overview (d : DataDir) (stats hist out : DataFrame)
    (Hov : preprocess_enem.main d = Ok (stats, hist))
    (Hmap : preprocess_map_uf.main d = Ok out) :
  (∀ r, r ∈ rows stats →
     ∃ r', r' ∈ rows out ∧ cell_of r' "n_participantes" = cell_of r "n" ∧
           ∀ c, c ≠ "n" → c ≠ "n_participantes" → cell_of r' c = cell_of r c) ∧
  (∀ r', r' ∈ rows out → complete (key_of gcols r') = true →
     ∃ r, r ∈ rows stats ∧ cell_of r "n" = cell_of r' "n_participantes" ∧
          ∀ c, c ≠ "n" → c ≠ "n_participantes" → cell_of r c = cell_of r' c).
Proof.
  unfold preprocess_enem.main in Hov.
  apply bind_Ok in Hov as ([dfo mco] & Hfo & Hov). cbn [fst snd] in Hov.
  apply bind_Ok in Hov as (stats' & Hstats & Hov).
  apply bind_Ok in Hov as (hist' & _ & [= <- _]).
  unfold preprocess_enem.build_overview_stats in Hstats.
  apply groupby_agg_Ok in Hstats as (groups_o & Hgo & _ & _ & Hrows_o).
  unfold preprocess_map_uf.main in Hmap.
  apply bind_Ok in Hmap as ([dfm mcm] & Hfm & Hmap). cbn [fst snd] in Hmap.
  apply groupby_agg_Ok in Hmap as (groups_m & Hgm & _ & _ & Hrows_m).
  apply overview_frame_shape in Hfo as (raw & ndf & Hload & Hnorm & _ & Hmco & Hdfo).
  apply map_frame_shape in Hfm as (raw' & ndf' & Hpq & Hnorm' & _ & Hmcm & Hdfm).
  assert (raw' = raw) as ->.
  { unfold load_raw_enem in Hload. rewrite Hpq in Hload. congruence. }
  assert (ndf' = ndf) as -> by congruence.
  assert (mcm = mco) as -> by congruence.
  set (R := rows dfo).
  assert (rows dfm = filter (λ r, notnull_all ["SG_UF_ESC"] r) R) as HRm.
  { unfold R. rewrite Hdfm, Hdfo. done. }
  set (mgc := preprocess_map_uf.group_cols) in *.
  set (aggO := ("n", ("nota_final", Size)) ::
               map (λ col, ("sum_" +:+ col, (col, Sum))) mco) in *.
  (* the group of a row with a complete key, in both groupings *)
  assert (Hboth : ∀ r0, r0 ∈ R → complete (key_of gcols r0) = true →
            ∃ sub, (key_of gcols r0, sub) ∈ groups_o ∧ (key_of mgc r0, sub) ∈ groups_m).
  { intros r0 Hr0 Hc0.
    exists (filter (λ r, key_of gcols r = key_of gcols r0)
                   (grouped_rows dfo gcols true)). split.
    - apply (groupby_group_of_key _ _ _ _ _ Hgo).
      apply (groupby_key_elem _ _ _ _ _ Hgo). exists r0. split; [|done].
      unfold grouped_rows. apply list_elem_of_filter. by rewrite Hc0.
    - unfold grouped_rows. fold R. rewrite <-(shared_group R r0 Hc0), <-HRm.
      change (rows dfm) with (grouped_rows dfm mgc false).
      apply (groupby_group_of_key _ _ _ _ _ Hgm).
      apply (groupby_key_elem _ _ _ _ _ Hgm). exists r0. split; [|done].
      unfold grouped_rows. rewrite HRm. apply list_elem_of_filter.
      split; [|done]. by rewrite complete_key_region. }
  split.
  - intros r Hr. rewrite Hrows_o in Hr.
    apply list_elem_of_fmap in Hr as ([k sub] & -> & Hin).
    destruct (groupby_elem _ _ _ _ _ _ Hgo Hin) as (Hsub & _ & Hck & r0 & sub' & Hne & Hk0).
    assert (r0 ∈ sub) as Hr0 by (rewrite Hne; by left).
    rewrite Hsub in Hr0. apply list_elem_of_filter in Hr0 as [_ Hr0].
    unfold grouped_rows in Hr0. apply list_elem_of_filter in Hr0 as [_ Hr0].
    assert (complete (key_of gcols r0) = true) as Hc0 by (rewrite Hk0; by apply Hck).
    destruct (Hboth r0 Hr0 Hc0) as (sub0 & Ho & Hm).
    assert (sub0 = sub) as ->.
    { rewrite Hk0 in Ho.
      destruct (groupby_elem _ _ _ _ _ _ Hgo Ho) as (-> & _). by rewrite Hsub. }
    exists (agg_row mgc (preprocess_map_uf.agg_dict mco) (key_of mgc r0, sub)).
    split_and!.
    + rewrite Hrows_m. apply list_elem_of_fmap. by eexists.
    + unfold aggO. by rewrite map_n_cell, overview_n_cell.
    + intros c Hn Hnp. by apply (agg_row_map_overview mco (k, sub) _ r0).
  - intros r' Hr' Hc'. rewrite Hrows_m in Hr'.
    apply list_elem_of_fmap in Hr' as ([km subm] & -> & Hin).
    destruct (groupby_elem _ _ _ _ _ _ Hgm Hin) as (Hsub & Hlen & _ & r0 & sub' & Hne & Hk0).
    assert (r0 ∈ subm) as Hr0 by (rewrite Hne; by left).
    rewrite Hsub in Hr0. apply list_elem_of_filter in Hr0 as [_ Hr0].
    unfold grouped_rows in Hr0. rewrite HRm in Hr0.
    apply list_elem_of_filter in Hr0 as [_ Hr0].
    assert (key_of mgc (agg_row mgc (preprocess_map_uf.agg_dict mco) (km, subm)) =
            key_of mgc r0) as Hkk.
    { rewrite Hk0.
      apply (key_of_agg_row mgc _ (km, subm));
        [apply map_group_cols_NoDup|done|apply map_group_cols_fresh]. }
    apply key_map_overview in Hkk. rewrite Hkk in Hc'.
    destruct (Hboth r0 Hr0 Hc') as (sub0 & Ho & Hm).
    assert (sub0 = subm) as ->.
    { rewrite Hk0 in Hm.
      destruct (groupby_elem _ _ _ _ _ _ Hgm Hm) as (-> & _). by rewrite Hsub. }
    exists (agg_row gcols aggO (key_of gcols r0, subm)).
    split_and!.
    + rewrite Hrows_o. apply list_elem_of_fmap. by eexists.
    + unfold aggO. by rewrite map_n_cell, overview_n_cell.
    + intros c Hn Hnp. symmetry.
      by apply (agg_row_map_overview mco (key_of gcols r0, subm) (km, subm) r0).
Qed.

(** ** The essay summary *)

Lemma essay_frame_Ok d raw ndf :
  load_raw_enem d = Ok raw → preprocess_enem_df raw = Ok ndf →
  "NU_NOTA_REDACAO" ∈ columns ndf → Forall (λ c, c ∈ columns ndf) gcols →
  preprocess_redacao.essay_frame d =
    Ok (DF (gcols ++ ["NU_NOTA_REDACAO"])
           (filter (λ r, notnull_all ["NU_NOTA_REDACAO"] r)
                   (map (restrict_row (gcols ++ ["NU_NOTA_REDACAO"])) (rows ndf)))).
Proof.
  intros Hload Hnorm Hnu Hg. unfold preprocess_redacao.essay_frame.
  rewrite Hload, ret_bind, Hnorm, ret_bind.
  rewrite (proj2 (has_col_true ndf _) Hnu). cbn [negb]. cbv zeta.
  change preprocess_redacao.group_cols with gcols.
  assert (Forall (λ c, c ∈ columns ndf) (gcols ++ ["NU_NOTA_REDACAO"])) as Hall.
  { apply Forall_app. split; [done|]. by apply Forall_singleton. }
  rewrite (proj2 (select_Ok ndf (gcols ++ ["NU_NOTA_REDACAO"]) _) (conj Hall eq_refl)).
  rewrite ret_bind, dropna_present; [done|].
  apply has_col_true. cbn [columns]. set_solver.
Qed.

Lemma essay_frame_shape d df :
  preprocess_redacao.essay_frame d = Ok df →
  ∃ raw ndf,
    load_raw_enem d = Ok raw ∧ preprocess_enem_df raw = Ok ndf ∧
    "NU_NOTA_REDACAO" ∈ columns ndf ∧ Forall (λ c, c ∈ columns ndf) gcols ∧
    df = DF (gcols ++ ["NU_NOTA_REDACAO"])
            (filter (λ r, notnull_all ["NU_NOTA_REDACAO"] r)
                    (map (restrict_row (gcols ++ ["NU_NOTA_REDACAO"])) (rows ndf))).
Proof.
  intros Hf.
  destruct (load_raw_enem d) as [raw|e] eqn:Hload;
    [|unfold preprocess_redacao.essay_frame in Hf; by rewrite Hload in Hf].
  destruct (preprocess_enem_df_total raw) as [ndf Hnorm].
  exists raw, ndf. split; [done|]. split; [done|].
  unfold preprocess_redacao.essay_frame in Hf.
  rewrite Hload, ret_bind, Hnorm, ret_bind in Hf.
  destruct (has_col ndf "NU_NOTA_REDACAO") eqn:Hnu; [|done].
  apply has_col_true in Hnu. cbn [negb] in Hf. cbv zeta in Hf.
  change preprocess_redacao.group_cols with gcols in Hf.
  apply bind_Ok in Hf as (df1 & [Hcols ->]%select_Ok & Hf).
  apply dropna_Ok in Hf as [_ ->].
  apply Forall_app in Hcols as [Hg _]. done.
Qed.

(** X6. After the raw file is loaded and normalized, [preprocess_redacao.main]
    raises [ValueError] when the normalized table has no NU_NOTA_REDACAO
    column; with that column it produces both artifacts whenever the three
    dimension columns are there, and when it raises, it is a [KeyError] for a
    dimension column that the normalized table lacks. *)
Theorem essay_main_runs (d : DataDir) (raw ndf : DataFrame)
    (Hload : load_raw_enem d = Ok raw)
    (Hnorm : preprocess_enem_df raw = Ok ndf) :
  ("NU_NOTA_REDACAO" ∉ columns ndf →
   preprocess_redacao.main d =
     Raise (ValueError "Coluna NU_NOTA_REDACAO não encontrada na base.")) ∧
  ("NU_NOTA_REDACAO" ∈ columns ndf →
   (Forall (λ c, c ∈ columns ndf) gcols →
    ∃ stats hist, preprocess_redacao.main d = Ok (stats, hist)) ∧
   (∀ e, preprocess_redacao.main d = Raise e →
         ∃ c, e = KeyError c ∧ c ∈ gcols ∧ c ∉ columns ndf)).
Proof.
  split.
  { intros Hnu%has_col_false.
    unfold preprocess_redacao.main, preprocess_redacao.essay_frame.
    by rewrite Hload, ret_bind, Hnorm, ret_bind, Hnu. }
  intros Hnu.
  assert (Forall (λ c, c ∈ columns ndf) gcols →
          ∃ stats hist, preprocess_redacao.main d = Ok (stats, hist)) as Hruns.
  { intros Hg. unfold preprocess_redacao.main.
    rewrite (essay_frame_Ok _ _ _ Hload Hnorm Hnu Hg), ret_bind.
    match goal with |- context [preprocess_redacao.build_stats ?x] => set (df := x) end.
    assert (Forall (λ c, c ∈ columns df) gcols) as Hg'.
    { apply Forall_forall. intros c Hc. cbn [df columns]. apply elem_of_app. by left. }
    assert ("NU_NOTA_REDACAO" ∈ columns df) as Hnu'.
    { cbn [df columns]. set_solver. }
    unfold preprocess_redacao.build_stats.
    match goal with |- context [groupby_agg df _ false ?a] =>
      destruct (groupby_agg_total df gcols false a Hg') as (groups & _ & Hagg) end.
    { repeat constructor; done. }
    change preprocess_redacao.group_cols with gcols. rewrite Hagg, !ret_bind.
    destruct (build_hist_total df Hg' Hnu') as [hist ->].
    rewrite ret_bind. by eexists _, _. }
  split; [done|].
  intros e Hmain. unfold preprocess_redacao.main in Hmain.
  destruct (preprocess_redacao.essay_frame d) as [df|e'] eqn:Hf.
  - apply essay_frame_shape in Hf as Hshape.
    destruct Hshape as (raw' & ndf' & Hload' & Hnorm' & _ & Hg & _).
    assert (raw' = raw) as -> by congruence. assert (ndf' = ndf) as -> by congruence.
    destruct (Hruns Hg) as (? & ? & Hok).
    unfold preprocess_redacao.main in Hok. rewrite Hf in Hok. congruence.
  - rewrite raise_bind in Hmain. injection Hmain as <-.
    unfold preprocess_redacao.essay_frame in Hf.
    rewrite Hload, ret_bind, Hnorm, ret_bind in Hf.
    rewrite (proj2 (has_col_true ndf _) Hnu) in Hf. cbn [negb] in Hf. cbv zeta in Hf.
    change preprocess_redacao.group_cols with gcols in Hf.
    apply bind_Raise in Hf as [Hsel|(df1 & [_ ->]%select_Ok & Hdrop)].
    + apply select_Raise in Hsel as (c & -> & [Hc|Hc]%elem_of_app & Hout).
      * by exists c.
      * apply list_elem_of_singleton in Hc as ->. done.
    + apply dropna_Raise in Hdrop as (c & -> & ->%list_elem_of_singleton & Hout).
      exfalso. apply Hout. cbn [columns]. set_solver.
Qed.

Lemma essay_agg_fresh agg_dict c :
  agg_dict.*1 = ["n"; "sum_redacao"; "n_zero"; "n_900mais"] →
  c ∈ gcols → c ∉ (agg_dict : list (string * (string * aggfunc))).*1.
Proof.
  intros -> Hc Hin.
  repeat (apply elem_of_cons in Hc as [->|Hc];
          [repeat (apply elem_of_cons in Hin as [Hin|Hin]; [discriminate|]);
           by apply elem_of_nil in Hin|]).
  by apply elem_of_nil in Hc.
Qed.

Lemma filter_bool_decide {A} (P : A → Prop) `{∀ x, Decision (P x)} (l : list A) :
  filter (λ x, bool_decide (P x)) l = filter P l.
Proof. apply length_filter_ext. intros x _. apply bool_decide_spec. Qed.

Lemma filter_disjoint_length {A} (P Q : A → Prop) `{∀ x, Decision (P x)}
    `{∀ x, Decision (Q x)} (l : list A) :
  (∀ x, P x → Q x → False) →
  (length (filter P l) + length (filter Q l) ≤ length l)%nat.
Proof.
  intros Hd. induction l as [|x l IH]; [done|].
  rewrite !filter_cons.
  destruct (decide (P x)) as [HP|HP], (decide (Q x)) as [HQ|HQ]; simpl; try lia.
  destruct (Hd x HP HQ).
Qed.

Lemma length_omap_le {A B} (f : A → option B) (l : list A) :
  (length (omap f l) ≤ length l)%nat.
Proof.
  induction l as [|x l IH]; [done|].
  change (omap f (x :: l))
    with (match f x with Some y => y :: omap f l | None => omap f l end).
  destruct (f x); simpl length; lia.
Qed.

Lemma cell_of_setitem_other c x r c' :
  c ≠ c' → cell_of (set_cell c x r) c' = cell_of r c'.
Proof. intros Hne. by rewrite cell_of_set_cell, decide_False. Qed.

Lemma key_of_set_cell gc c x r :
  c ∉ gc → key_of gc (set_cell c x r) = key_of gc r.
Proof.
  intros Hc. unfold key_of. apply list_fmap_ext. intros i c' Hi.
  apply cell_of_setitem_other. intros ->. apply Hc. by eapply list_elem_of_lookup_2.
Qed.

(** The rows of the essay summary, group by group. *)
Lemma build_stats_rows df stats :
  preprocess_redacao.build_stats df = Ok stats →
  ∃ groups (f : list cell * list row → row),
    groupby df gcols false = Ok groups ∧
    rows stats = f <$> groups ∧
    ∀ k sub, (k, sub) ∈ groups →
      key_of gcols (f (k, sub)) = k ∧
      cell_of (f (k, sub)) "n" = Some (VInt (Z.of_nat (length sub))) ∧
      cell_of (f (k, sub)) "sum_redacao" =
        Some (VNum (sumQ (nonnull "NU_NOTA_REDACAO" sub))) ∧
      cell_of (f (k, sub)) "n_zero" =
        Some (VInt (Z.of_nat (length (filter (λ s, s = 0%Qc)
                                             (nonnull "NU_NOTA_REDACAO" sub))))) ∧
      cell_of (f (k, sub)) "n_900mais" =
        Some (VInt (Z.of_nat (length (filter (λ s, (Qc_of_Z 900 ≤ s)%Qc)
                                             (nonnull "NU_NOTA_REDACAO" sub))))) ∧
      cell_of (f (k, sub)) "media_redacao" =
        Some (VNum (sumQ (nonnull "NU_NOTA_REDACAO" sub) / Qc_of_nat (length sub))%Qc).
Proof.
  intros Hrun. unfold preprocess_redacao.build_stats in Hrun.
  apply bind_Ok in Hrun as (agg & Hagg & [= <-]).
  change preprocess_redacao.group_cols with gcols in Hagg.
  match type of Hagg with groupby_agg _ _ _ ?a = _ => set (ad := a) in * end.
  apply groupby_agg_Ok in Hagg as (groups & Hg & _ & _ & Hrows).
  assert (Hinj : ∀ a a' : string * (string * aggfunc),
            a ∈ ad → a' ∈ ad → a'.1 = a.1 → a' = a).
  { intros a a' Ha Ha' Hn. unfold ad in Ha, Ha'.
    repeat (apply elem_of_cons in Ha as [->|Ha]);
      repeat (apply elem_of_cons in Ha' as [->|Ha']);
      try done; try (by apply elem_of_nil in Ha); by apply elem_of_nil in Ha'. }
  set (fin := λ r : row, set_cell "media_redacao"
                           (VNum <$> preprocess_redacao.media_redacao r) r).
  exists groups, (λ g, fin (agg_row gcols ad g)). split; [done|]. split.
  { unfold setitem_num, setitem. cbn [rows]. rewrite Hrows.
    change (map ?f ?l) with (f <$> l). by rewrite <-list_fmap_compose. }
  intros k sub Hin.
  destruct (groupby_elem _ _ _ _ _ _ Hg Hin) as (_ & Hlen & _ & r0 & sub' & Hne & _).
  assert (Hn : cell_of (agg_row gcols ad (k, sub)) "n"
               = Some (VInt (Z.of_nat (length sub)))).
  { apply (agg_row_cell gcols ad (k, sub) ("n", ("NU_NOTA_REDACAO", Size))); [by left|].
    intros a' Ha'. apply Hinj; [by left|done]. }
  assert (Hsum : cell_of (agg_row gcols ad (k, sub)) "sum_redacao"
                 = Some (VNum (sumQ (nonnull "NU_NOTA_REDACAO" sub)))).
  { apply (agg_row_cell gcols ad (k, sub) ("sum_redacao", ("NU_NOTA_REDACAO", Sum)));
      [right; by left|].
    intros a' Ha'. apply Hinj; [right; by left|done]. }
  split_and!.
  - unfold fin. rewrite key_of_set_cell.
    + apply (key_of_agg_row gcols ad (k, sub));
        [by_compute|done|intros c; by apply essay_agg_fresh].
    + unfold gcols, preprocess_enem.group_cols. set_solver.
  - unfold fin. by rewrite cell_of_setitem_other.
  - unfold fin. by rewrite cell_of_setitem_other.
  - unfold fin. rewrite cell_of_setitem_other by done.
    rewrite <-(filter_bool_decide (λ s, s = 0%Qc)).
    apply (agg_row_cell gcols ad (k, sub)
             ("n_zero", ("NU_NOTA_REDACAO", CountIf (λ s, bool_decide (s = 0%Qc)))));
      [right; right; by left|].
    intros a' Ha'. apply Hinj; [right; right; by left|done].
  - unfold fin. rewrite cell_of_setitem_other by done.
    rewrite <-(filter_bool_decide (λ s, (Qc_of_Z 900 ≤ s)%Qc)).
    apply (agg_row_cell gcols ad (k, sub)
             ("n_900mais", ("NU_NOTA_REDACAO",
                            CountIf (λ s, bool_decide (Qc_of_Z 900 ≤ s)%Qc))));
      [right; right; right; by left|].
    intros a' Ha'. apply Hinj; [right; right; right; by left|done].
  - unfold fin. rewrite cell_of_set_cell, decide_True by done.
    unfold preprocess_redacao.media_redacao.
    rewrite (proj1 (cell_VNum _ _ _) Hsum), (cell_VInt _ _ _ Hn). simpl.
    rewrite bool_decide_eq_false_2; [done|]. rewrite Hne. simpl. lia.
Qed.

(** X7. The essay summary has one row for every combination of network,
    locale and region that occurs in its frame, null values included, and no
    two rows for the same one. A row counts in n the frame rows of its
    combination, so that the n add up to the number of rows of the frame;
    sum_redacao is the sum of their essay scores, n_zero and n_900mais count
    the scores equal to 0 and at least 900 (together at most n), and
    media_redacao is sum_redacao divided by n. *)
Theorem essay_summary_rows (df stats : DataFrame)
    (Hrun : preprocess_redacao.build_stats df = Ok stats) :
  NoDup (key_of gcols <$> rows stats) ∧
  (∀ r, r ∈ rows df → ∃ r', r' ∈ rows stats ∧ key_of gcols r' = key_of gcols r) ∧
  sumZ (int_field "n" <$> rows stats) = Z.of_nat (length (rows df)) ∧
  (∀ r', r' ∈ rows stats →
     ∃ sub scores,
       sub = rows_with_key (key_of gcols r') df ∧ sub ≠ [] ∧
       scores = nonnull "NU_NOTA_REDACAO" sub ∧
       cell_of r' "n" = Some (VInt (Z.of_nat (length sub))) ∧
       cell_of r' "sum_redacao" = Some (VNum (sumQ scores)) ∧
       cell_of r' "n_zero" =
         Some (VInt (Z.of_nat (length (filter (λ s, s = 0%Qc) scores)))) ∧
       cell_of r' "n_900mais" =
         Some (VInt (Z.of_nat (length (filter (λ s, (Qc_of_Z 900 ≤ s)%Qc) scores)))) ∧
       cell_of r' "media_redacao" =
         Some (VNum (sumQ scores / Qc_of_nat (length sub))%Qc) ∧
       (length (filter (λ s, s = 0%Qc) scores) +
        length (filter (λ s, (Qc_of_Z 900 ≤ s)%Qc) scores) ≤ length sub)%nat).
Proof.
  apply build_stats_rows in Hrun as (groups & f & Hg & Hrows & Hf).
  rewrite Hrows. split_and!.
  - assert (key_of gcols <$> (f <$> groups) = groups.*1) as ->.
    { rewrite <-list_fmap_compose. apply list_fmap_ext. intros i [k sub] Hi. simpl.
      apply Hf. by eapply list_elem_of_lookup_2. }
    by eapply groupby_keys_NoDup.
  - intros r Hr.
    assert (key_of gcols r ∈ groups.*1) as Hin.
    { apply (groupby_key_elem _ _ _ _ _ Hg). by exists r. }
    apply list_elem_of_fmap in Hin as ([k sub] & Hk & Hin).
    exists (f (k, sub)). split.
    + apply list_elem_of_fmap. by eexists.
    + rewrite Hk. by apply Hf.
  - change (rows df) with (grouped_rows df gcols false).
    rewrite <-(groupby_sizes _ _ _ _ Hg), <-list_fmap_compose. f_equal.
    apply list_fmap_ext. intros i [k sub] Hi. simpl. unfold int_field.
    destruct (Hf k sub) as (_ & Hn & _); [by eapply list_elem_of_lookup_2|].
    by rewrite (cell_VInt _ _ _ Hn).
  - intros r' Hr'.
    apply list_elem_of_fmap in Hr' as ([k sub] & -> & Hin).
    destruct (groupby_elem _ _ _ _ _ _ Hg Hin) as (Hsub & _ & _ & r0 & sub' & Hne & _).
    destruct (Hf k sub Hin) as (Hk & Hn & Hsum & Hz & H9 & Hmed).
    rewrite Hk. unfold grouped_rows in Hsub.
    exists sub, (nonnull "NU_NOTA_REDACAO" sub).
    split_and!; try done.
    + by rewrite Hne.
    + etransitivity; [apply filter_disjoint_length|].
      * intros x -> Hx. by vm_compute in Hx.
      * unfold nonnull. apply length_omap_le.
Qed.

(** ** Summaries against histograms *)

Lemma sum_count_hist_block_in_range k m vals :
  sumZ (int_field "count" <$> hist_block gcols k m vals) =
    Z.of_nat (length (filter in_range vals)).
Proof.
  unfold hist_block. case_bool_decide as Hlen.
  - by destruct vals.
  - by rewrite sum_count_bin_rows, sum_np_histogram.
Qed.

Lemma all_in_range m (sub : list row) :
  (∀ r, r ∈ sub → ∃ v, num r !! m = Some v ∧ in_range v) →
  length (filter in_range (nonnull m sub)) = length sub.
Proof.
  induction sub as [|r sub IH]; intros Hall; [done|].
  destruct (Hall r) as (v & Hv & Hin); [by left|].
  unfold nonnull.
  change (omap ?f (r :: sub))
    with (match f r with Some y => y :: omap f sub | None => omap f sub end).
  cbv beta. rewrite Hv, filter_cons_True by done. simpl. f_equal.
  apply IH. intros r' Hr'. apply Hall. by right.
Qed.

Lemma essay_hist_keys_complete df hist r :
  preprocess_redacao.build_hist df = Ok hist → r ∈ rows hist →
  complete (key_of gcols r) = true.
Proof.
  intros Hh Hr.
  destruct (essay_hist_row _ _ _ Hh Hr) as (groups & k & sub & i & Hg & Hin & _ & _ & ->).
  destruct (groupby_elem _ _ _ _ _ _ Hg Hin) as (_ & Hlen & Hc & _).
  destruct (bin_row_key k None i (Z.of_nat (length (filter (in_bin i)
              (nonnull "NU_NOTA_REDACAO" sub)))) Hlen) as [-> _].
  by apply Hc.
Qed.

(** X8. The essay histogram against the essay summary. For a summary row
    with a null network, locale or region the histogram has no row at all;
    for any other summary row the counts of the histogram rows of its
    combination add up to the number of its essay scores that lie in
    [0, 1000], which is the n of the summary row when every frame row of the
    combination has such a score. *)
Theorem essay_hist_matches_summary (df stats hist : DataFrame)
    (Hs : preprocess_redacao.build_stats df = Ok stats)
    (Hh : preprocess_redacao.build_hist df = Ok hist)
    (r' : row) (Hr' : r' ∈ rows stats) :
  ∃ sub,
    sub = rows_with_key (key_of gcols r') df ∧
    cell_of r' "n" = Some (VInt (Z.of_nat (length sub))) ∧
    (complete (key_of gcols r') = false → rows_of_key (key_of gcols r') hist = []) ∧
    (complete (key_of gcols r') = true →
     sumZ (int_field "count" <$> rows_of_key (key_of gcols r') hist) =
       Z.of_nat (length (filter in_range (nonnull "NU_NOTA_REDACAO" sub))) ∧
     ((∀ r, r ∈ sub → ∃ v, num r !! "NU_NOTA_REDACAO" = Some v ∧ in_range v) →
      cell_of r' "n" =
        Some (VInt (sumZ (int_field "count" <$> rows_of_key (key_of gcols r') hist))))).
Proof.
  apply build_stats_rows in Hs as (groups & f & Hg & Hrows & Hf).
  rewrite Hrows in Hr'. apply list_elem_of_fmap in Hr' as ([k sub] & -> & Hin).
  destruct (groupby_elem _ _ _ _ _ _ Hg Hin) as (Hsub & _).
  destruct (Hf k sub Hin) as (Hk & Hn & _).
  rewrite Hk. unfold grouped_rows in Hsub. exists sub. split_and!; try done.
  - intros Hc. unfold rows_of_key. apply filter_none, Forall_forall.
    intros r Hr Hkr. pose proof (essay_hist_keys_complete _ _ _ Hh Hr) as Hcr.
    rewrite Hkr in Hcr. congruence.
  - intros Hc.
    assert (sumZ (int_field "count" <$> rows_of_key k hist) =
            Z.of_nat (length (filter in_range (nonnull "NU_NOTA_REDACAO" sub)))) as Hsum.
    { rewrite (essay_rows_of_key _ _ _ Hh Hc), sum_count_hist_block_in_range.
      by rewrite Hsub. }
    split; [done|]. intros Hall. by rewrite Hsum, all_in_range.
Qed.

Lemma overview_agg_fresh mc c :
  c ∈ gcols →
  c ∉ (("n", ("nota_final", Size)) ::
       map (λ col, ("sum_" +:+ col, (col, Sum))) mc : list (string * (string * aggfunc))).*1.
Proof.
  intros Hc [->|(m & _ & ->)]%sum_agg_names;
    unfold gcols, preprocess_enem.group_cols in Hc;
    repeat (apply elem_of_cons in Hc as [Hc|Hc]; [discriminate|]);
    by apply elem_of_nil in Hc.
Qed.

(** X9. The overview summary row by row, against the overview histogram.
    Every summary row stands for a combination of non-null network, locale
    and region; n is the number of frame rows of the combination and
    sum_<metric> the sum of their non-null values of the metric. The counts
    of the histogram rows of the combination and a metric add up to the
    number of those values that lie in [0, 1000], which is n when every
    frame row of the combination has such a value. *)
Theorem overview_hist_matches_summary (df : DataFrame) (mc : list string)
    (stats hist : DataFrame)
    (Hmc : NoDup mc)
    (Hs : preprocess_enem.build_overview_stats df mc = Ok stats)
    (Hh : preprocess_enem.build_overview_hist df mc = Ok hist)
    (r' : row) (Hr' : r' ∈ rows stats) :
  ∃ sub,
    sub = rows_with_key (key_of gcols r') df ∧ sub ≠ [] ∧
    complete (key_of gcols r') = true ∧
    cell_of r' "n" = Some (VInt (Z.of_nat (length sub))) ∧
    ∀ m, m ∈ mc →
      cell_of r' ("sum_" +:+ m) = Some (VNum (sumQ (nonnull m sub))) ∧
      sumZ (int_field "count" <$> rows_of_key_metric (key_of gcols r') m hist) =
        Z.of_nat (length (filter in_range (nonnull m sub))) ∧
      ((∀ r, r ∈ sub → ∃ v, num r !! m = Some v ∧ in_range v) →
       cell_of r' "n" =
         Some (VInt (sumZ (int_field "count" <$>
                           rows_of_key_metric (key_of gcols r') m hist)))).
Proof.
  unfold preprocess_enem.build_overview_stats in Hs.
  apply groupby_agg_Ok in Hs as (groups & Hg & _ & _ & Hrows).
  rewrite Hrows in Hr'. apply list_elem_of_fmap in Hr' as ([k sub] & -> & Hin).
  destruct (groupby_elem _ _ _ _ _ _ Hg Hin) as (Hsub & Hlen & Hc & r0 & sub' & Hne & _).
  specialize (Hc eq_refl).
  rewrite (key_of_agg_row gcols _ (k, sub)); [|by_compute|done|apply overview_agg_fresh].
  cbn [fst]. rewrite (rows_with_key_grouped df k Hc) in Hsub.
  exists sub. split_and!; try done.
  - by rewrite Hne.
  - apply (overview_n_cell mc (k, sub)).
  - intros m Hm.
    assert (sumZ (int_field "count" <$> rows_of_key_metric k m hist) =
            Z.of_nat (length (filter in_range (nonnull m sub)))) as Hsum.
    { rewrite (overview_rows_of_key_metric _ _ _ _ _ Hh Hmc Hm Hc),
        sum_count_hist_block_in_range.
      by rewrite Hsub. }
    split_and!.
    + assert (("sum_" +:+ m, (m, Sum)) ∈
              ("n", ("nota_final", Size)) :: map (λ col, ("sum_" +:+ col, (col, Sum))) mc)
        as Ha.
      { right. apply list_elem_of_fmap. by exists m. }
      apply (agg_row_cell gcols _ (k, sub) ("sum_" +:+ m, (m, Sum)) Ha).
      intros a' Ha'. apply (sum_agg_dict_inj "n" mc); [intros c; discriminate|done..].
    + done.
    + intros Hall. rewrite Hsum, all_in_range by done. apply (overview_n_cell mc (k, sub)).
Qed.

(** ** The longitudinal index: what is kept and when it fails *)

(** X10. The longitudinal output misses nothing: for every row of the sheet
    whose network category is Pública or Privada and every year column whose
    cell in that row reads as a number, the output has the row made of the
    category, the year label and that number; when no row of the sheet has
    one of the two categories, the output is empty rather than an error. *)
Theorem longitudinal_complete (parse_float : string → option Qc)
    (unicode_isdigit : string → bool)
    (book : list (string * preprocess_ideb.Sheet)) (df : preprocess_ideb.Sheet)
    (out : list preprocess_ideb.LongRow) (rede : nat)
    (Hsheet : preprocess_ideb.read_excel book preprocess_ideb.SHEET_NAME = Ok df)
    (Hrede : list_find (λ c, c = preprocess_ideb.LStr "Rede")
                       (preprocess_ideb.header df)
             = Some (rede, preprocess_ideb.LStr "Rede"))
    (Hrun : preprocess_ideb.main parse_float unicode_isdigit (Some book) = Ok out) :
  (∀ r (i : nat) lab q,
     r ∈ preprocess_ideb.body df →
     preprocess_ideb.at_col r rede ∈
       [preprocess_ideb.XStr "Pública"; preprocess_ideb.XStr "Privada"] →
     preprocess_ideb.header df !! i = Some lab →
     preprocess_ideb.isdigit unicode_isdigit (preprocess_ideb.str lab) = true →
     preprocess_ideb.to_numeric parse_float (preprocess_ideb.at_col r i) = Some q →
     {| preprocess_ideb.Rede := preprocess_ideb.at_col r rede;
        preprocess_ideb.Ano := preprocess_ideb.str lab;
        preprocess_ideb.IDEB_Score := Some q |} ∈ out) ∧
  ((∀ r, r ∈ preprocess_ideb.body df →
         preprocess_ideb.at_col r rede ∉
           [preprocess_ideb.XStr "Pública"; preprocess_ideb.XStr "Privada"]) →
   out = []).
Proof.
  unfold preprocess_ideb.main in Hrun. rewrite Hsheet, ret_bind in Hrun.
  unfold preprocess_ideb.reshape in Hrun. rewrite Hrede in Hrun.
  case_bool_decide as Hyears; [done|]. injection Hrun as <-. split.
  - intros r i lab q Hr Hcat Hlab Hdig Hq.
    apply list_elem_of_filter. split; [by eexists|].
    apply list_elem_of_concat.
    eexists. split; [|apply list_elem_of_fmap; exists (i, lab); split; [done|]].
    + apply list_elem_of_fmap. exists r. split; [simpl; by rewrite Hq|].
      by apply list_elem_of_filter.
    + apply list_elem_of_filter. split; [by apply Is_true_true|].
      by apply elem_of_enumerate.
  - intros Hnone.
    rewrite (filter_none _ (preprocess_ideb.body df)) by (by apply Forall_forall).
    simpl.
    match goal with |- filter _ (concat (map ?f ?l)) = [] =>
      assert (concat (map f l) = []) as ->; [|done] end.
    clear. induction (filter _ _) as [|ic l IH]; [done|]. simpl. exact IH.
Qed.

(** X11. How [preprocess_ideb.main] fails and when it runs: without the
    workbook it raises [FileNotFoundError]; without the sheet, [ValueError];
    on a sheet without a column labelled Rede, [KeyError]; on a sheet with
    that column but no column whose label [str.isdigit] accepts (a label
    made of digits, those outside ASCII included), [ValueError]; in every
    other case it produces its artifact. *)
Theorem ideb_main_runs (parse_float : string → option Qc)
    (unicode_isdigit : string → bool)
    (xlsx : option (list (string * preprocess_ideb.Sheet))) :
  (xlsx = None →
   preprocess_ideb.main parse_float unicode_isdigit xlsx =
     Raise (FileNotFoundError preprocess_ideb.EXCEL_NAME)) ∧
  (∀ book, xlsx = Some book →
     (preprocess_ideb.SHEET_NAME ∉ book.*1 →
      ∃ msg, preprocess_ideb.main parse_float unicode_isdigit xlsx =
               Raise (ValueError msg)) ∧
     (∀ df, preprocess_ideb.read_excel book preprocess_ideb.SHEET_NAME = Ok df →
        (preprocess_ideb.LStr "Rede" ∉ preprocess_ideb.header df →
         preprocess_ideb.main parse_float unicode_isdigit xlsx =
           Raise (KeyError "Rede")) ∧
        (preprocess_ideb.LStr "Rede" ∈ preprocess_ideb.header df →
         Forall (λ lab, preprocess_ideb.isdigit unicode_isdigit
                          (preprocess_ideb.str lab) = false)
                (preprocess_ideb.header df) →
         preprocess_ideb.main parse_float unicode_isdigit xlsx =
           Raise (ValueError
                    "Não encontrei colunas de anos (2005, 2007, etc.) no Excel.")) ∧
        (preprocess_ideb.LStr "Rede" ∈ preprocess_ideb.header df →
         Exists (λ lab, preprocess_ideb.isdigit unicode_isdigit
                          (preprocess_ideb.str lab) = true)
                (preprocess_ideb.header df) →
         ∃ out, preprocess_ideb.main parse_float unicode_isdigit xlsx = Ok out))).
Proof.
  split; [by intros ->|]. intros book ->. split.
  - intros Hno. unfold preprocess_ideb.main, preprocess_ideb.read_excel.
    destruct (list_find _ book) as [[i ns]|] eqn:Hfind; [|by eexists].
    apply list_find_Some in Hfind as (Hi & Hname & _). destruct Hno.
    apply list_elem_of_fmap. exists ns. split; [done|]. by eapply list_elem_of_lookup_2.
  - intros df Hdf. unfold preprocess_ideb.main. rewrite Hdf, ret_bind.
    unfold preprocess_ideb.reshape.
    destruct (list_find _ (preprocess_ideb.header df)) as [[rede lab]|] eqn:Hfind.
    + apply list_find_Some in Hfind as (Hrede & -> & _). split_and!.
      * intros Hno. destruct Hno. by eapply list_elem_of_lookup_2.
      * intros _ Hnone. rewrite bool_decide_eq_true_2; [done|].
        apply filter_none, Forall_forall. intros [i lab] Hin%elem_of_enumerate.
        rewrite Forall_forall in Hnone. simpl.
        rewrite (Hnone lab) by (by eapply list_elem_of_lookup_2). simpl. tauto.
      * intros _ (lab & Hlab & Hdig)%Exists_exists.
        apply list_elem_of_lookup_1 in Hlab as [i Hi].
        rewrite bool_decide_eq_false_2; [by eexists|].
        intros Hnil.
        assert ((i, lab) ∈ filter (λ ic : nat * preprocess_ideb.label,
                                     preprocess_ideb.isdigit unicode_isdigit
                                       (preprocess_ideb.str ic.2))
                                  (enumerate (preprocess_ideb.header df))) as Hin.
        { apply list_elem_of_filter. split; [by apply Is_true_true|].
          by apply elem_of_enumerate. }
        rewrite Hnil in Hin. by apply elem_of_nil in Hin.
    + apply list_find_None in Hfind. rewrite Forall_forall in Hfind. split_and!.
      * done.
      * intros Hin. by destruct (Hfind _ Hin).
      * intros Hin. by destruct (Hfind _ Hin).
Qed.

(** ** When the school script runs *)

Section school_runs.
Import preprocess_schools.

Lemma missing_required ndf :
  filter (λ c, negb (has_col ndf c)) (required_base ++ METRIC_COLUMNS) = [] ↔
  Forall (λ c, c ∈ columns ndf) (required_base ++ METRIC_COLUMNS).
Proof.
  split.
  - intros Hnil. apply Forall_forall. intros c Hc. apply has_col_true.
    destruct (has_col ndf c) eqn:Hdf; [done|]. exfalso.
    assert (c ∈ filter (λ c, negb (has_col ndf c)) (required_base ++ METRIC_COLUMNS))
      as Hin by (apply list_elem_of_filter; by rewrite Hdf).
    rewrite Hnil in Hin. by apply elem_of_nil in Hin.
  - intros Hall. apply filter_none, Forall_forall. intros c Hc.
    rewrite Forall_forall in Hall.
    rewrite (proj2 (has_col_true ndf c) (Hall c Hc)). simpl. tauto.
Qed.

Lemma school_frame_present d raw ndf cols :
  load_raw_enem d = Ok raw → preprocess_enem_df raw = Ok ndf →
  Forall (λ c, c ∈ columns ndf) (required_base ++ METRIC_COLUMNS) →
  _detect_school_cols ndf = Ok cols →
  school_frame d =
    Ok (DF (columns ndf) (filter (λ r, notnull_all [cols.1] r) (rows ndf)), cols).
Proof.
  intros Hload Hnorm Hreq Hdet. unfold school_frame.
  rewrite Hload, ret_bind, Hnorm, ret_bind. cbv zeta.
  rewrite (proj2 (missing_required ndf) Hreq).
  rewrite bool_decide_eq_true_2 by done. cbn [negb].
  rewrite Hdet, ret_bind, dropna_present; [done|].
  apply has_col_true.
  unfold _detect_school_cols in Hdet.
  destruct (first_present ndf id_candidates) as [c|] eqn:Hc; [|done].
  injection Hdet as <-. cbn [fst].
  apply first_present_Some in Hc as (_ & _ & _ & Hc & _). done.
Qed.

Lemma school_group_cols_present ndf cols :
  Forall (λ c, c ∈ columns ndf) (required_base ++ METRIC_COLUMNS) →
  _detect_school_cols ndf = Ok cols →
  Forall (λ c, c ∈ columns ndf) (school_group_cols cols).
Proof.
  intros Hreq Hdet. unfold _detect_school_cols in Hdet.
  destruct (first_present ndf id_candidates) as [c|] eqn:Hc; [|done].
  injection Hdet as <-. unfold school_group_cols. cbn [fst snd].
  apply first_present_Some in Hc as (_ & _ & _ & Hc & _).
  apply Forall_app in Hreq as [Hbase _]. rewrite Forall_forall in Hbase.
  apply Forall_app. split; [by apply Forall_singleton|].
  apply Forall_app. split.
  - destruct (first_present ndf name_candidates) as [n|] eqn:Hn; [|constructor].
    apply first_present_Some in Hn as (_ & _ & _ & Hn & _). by apply Forall_singleton.
  - apply Forall_forall. intros x Hx. apply Hbase. unfold required_base. set_solver.
Qed.

End school_runs.

(** X12. After the raw file is loaded and normalized, [preprocess_schools.main]
    produces its artifact whenever the normalized table has the three
    dimension columns, the composite score and all five subject-score
    columns, together with one of the candidate school-id columns; the only
    exception it raises is [ValueError], and it raises it exactly when one of
    these columns is missing or no candidate school-id column is there. *)
Theorem school_main_runs (d : DataDir) (raw ndf : DataFrame)
    (Hload : load_raw_enem d = Ok raw)
    (Hnorm : preprocess_enem_df raw = Ok ndf) :
  (Forall (λ c, c ∈ columns ndf) (preprocess_schools.required_base ++ preprocess_schools.METRIC_COLUMNS) →
   Exists (λ c, c ∈ columns ndf) preprocess_schools.id_candidates →
   ∃ out, preprocess_schools.main d = Ok out) ∧
  (∀ e, preprocess_schools.main d = Raise e →
        ∃ msg, e = ValueError msg ∧
               (¬ Forall (λ c, c ∈ columns ndf) (preprocess_schools.required_base ++ preprocess_schools.METRIC_COLUMNS) ∨
                Forall (λ c, c ∉ columns ndf) preprocess_schools.id_candidates)).
Proof.
  assert (∀ cols,
            Forall (λ c, c ∈ columns ndf) (preprocess_schools.required_base ++ preprocess_schools.METRIC_COLUMNS) →
            preprocess_schools._detect_school_cols ndf = Ok cols → ∃ out, preprocess_schools.main d = Ok out) as Hruns.
  { intros cols Hreq Hdet. unfold preprocess_schools.main.
    rewrite (school_frame_present _ _ _ _ Hload Hnorm Hreq Hdet), ret_bind.
    cbn [fst snd]. cbv zeta.
    match goal with |- context [groupby_agg ?x _ _ _] => set (df := x) end.
    destruct (groupby_agg_total df (preprocess_schools.school_group_cols cols) false (preprocess_schools.school_agg_dict df))
      as (groups & _ & ->); [| |by eexists].
    - by apply school_group_cols_present.
    - unfold preprocess_schools.school_agg_dict. constructor.
      + cbn [fst snd df columns]. rewrite Forall_forall in Hreq. apply Hreq.
        unfold preprocess_schools.required_base. set_solver.
      + apply Forall_fmap, Forall_forall. intros c [Hc _]%list_elem_of_filter.
        by apply has_col_in. }
  split.
  - intros Hreq Hid. unfold preprocess_schools._detect_school_cols in Hruns.
    destruct (preprocess_schools.first_present ndf preprocess_schools.id_candidates) as [c|] eqn:Hc.
    + by eapply Hruns.
    + apply first_present_None in Hc. apply Exists_exists in Hid as (c & Hc1 & Hc2).
      rewrite Forall_forall in Hc. by destruct (Hc c Hc1).
  - intros e Hmain.
    destruct (decide (Forall (λ c, c ∈ columns ndf) (preprocess_schools.required_base ++ preprocess_schools.METRIC_COLUMNS)))
      as [Hreq|Hreq].
    + destruct (preprocess_schools._detect_school_cols ndf) as [cols|e'] eqn:Hdet.
      * destruct (Hruns cols Hreq eq_refl) as [out Hok]. congruence.
      * unfold preprocess_schools.main, preprocess_schools.school_frame in Hmain.
        rewrite Hload, ret_bind, Hnorm, ret_bind in Hmain. cbv zeta in Hmain.
        rewrite (proj2 (missing_required ndf) Hreq) in Hmain.
        rewrite bool_decide_eq_true_2 in Hmain by done. cbn [negb] in Hmain.
        rewrite Hdet, !raise_bind in Hmain. injection Hmain as <-.
        unfold preprocess_schools._detect_school_cols in Hdet.
        destruct (preprocess_schools.first_present ndf preprocess_schools.id_candidates) as [c|] eqn:Hc; [done|].
        injection Hdet as <-. eexists. split; [done|]. right.
        by apply first_present_None.
    + unfold preprocess_schools.main, preprocess_schools.school_frame in Hmain.
      rewrite Hload, ret_bind, Hnorm, ret_bind in Hmain. cbv zeta in Hmain.
      rewrite bool_decide_eq_false_2 in Hmain
        by (intros Hnil; by apply Hreq, missing_required).
      cbn [negb] in Hmain. rewrite raise_bind in Hmain. injection Hmain as <-.
      eexists. split; [done|]. by left.
Qed.

(** ** Groups as a rearrangement of the grouped rows *)

Lemma blocks_skip {K} `{EqDecision K} (key : row → K) (r : row) (rs : list row)
    (ks : list K) :
  key r ∉ ks →
  (λ k, filter (λ r', key r' = k) (r :: rs)) <$> ks =
  (λ k, filter (λ r', key r' = k) rs) <$> ks.
Proof.
  intros Hk. apply list_fmap_ext. intros i k Hi. simpl.
  rewrite filter_cons_False; [done|].
  intros Heq. apply Hk. rewrite Heq. by eapply list_elem_of_lookup_2.
Qed.

Lemma blocks_insert {K} `{EqDecision K} (key : row → K) (r : row) (rs : list row)
    (ks : list K) :
  NoDup ks → key r ∈ ks →
  concat ((λ k, filter (λ r', key r' = k) (r :: rs)) <$> ks) ≡ₚ
  r :: concat ((λ k, filter (λ r', key r' = k) rs) <$> ks).
Proof.
  induction 1 as [|k ks Hk Hnd IH]; [by intros ?%elem_of_nil|].
  intros Hin. rewrite !fmap_cons. simpl.
  destruct (decide (key r = k)) as [Heq|Hne].
  - rewrite filter_cons_True by done.
    rewrite blocks_skip by (by rewrite Heq). done.
  - rewrite filter_cons_False by done.
    rewrite IH by set_solver. by rewrite Permutation_middle.
Qed.

Lemma blocks_permutation {K} `{EqDecision K} (key : row → K) (rs : list row)
    (ks : list K) :
  NoDup ks → (∀ r, r ∈ rs → key r ∈ ks) →
  concat ((λ k, filter (λ r, key r = k) rs) <$> ks) ≡ₚ rs.
Proof.
  intros Hnd. induction rs as [|r rs IH]; intros Hks.
  - clear. induction ks as [|k ks IH]; [done|]. by rewrite fmap_cons.
  - rewrite blocks_insert; [|done|apply Hks; by left].
    rewrite IH; [done|]. intros r' Hr'. apply Hks. by right.
Qed.

(** The groups whose key passes a test are the rows whose key passes it. *)
Lemma blocks_filter_permutation {K} `{EqDecision K} (key : row → K) (rs : list row)
    (ks : list K) (P : K → Prop) `{∀ k, Decision (P k)} :
  NoDup ks → (∀ r, r ∈ rs → key r ∈ ks) →
  concat ((λ k, filter (λ r, key r = k) rs) <$> filter P ks) ≡ₚ
  filter (λ r, P (key r)) rs.
Proof.
  intros Hnd Hks.
  rewrite <-(blocks_permutation key (filter (λ r, P (key r)) rs) (filter P ks)).
  - assert ((λ k, filter (λ r, key r = k) rs) <$> filter P ks =
            (λ k, filter (λ r, key r = k) (filter (λ r, P (key r)) rs)) <$> filter P ks)
      as ->; [|done].
    apply list_fmap_ext. intros i k Hi. simpl.
    apply list_elem_of_lookup_2, list_elem_of_filter in Hi as [HP _].
    rewrite list_filter_filter. apply length_filter_ext. intros r _.
    split; [|tauto]. intros Hk. split; [done|]. by rewrite Hk.
  - by apply NoDup_filter.
  - intros r [HP Hr]%list_elem_of_filter. apply list_elem_of_filter. split; [done|].
    by apply Hks.
Qed.

(** ** Sums over groups *)

Lemma sumQ_cons x l : sumQ (x :: l) = (x + sumQ l)%Qc.
Proof. done. Qed.

Lemma sumQ_app l1 l2 : sumQ (l1 ++ l2) = (sumQ l1 + sumQ l2)%Qc.
Proof.
  induction l1 as [|x l1 IH]; [simpl; ring|].
  rewrite <-app_comm_cons, !sumQ_cons, IH. ring.
Qed.

Lemma sumQ_perm l1 l2 : l1 ≡ₚ l2 → sumQ l1 = sumQ l2.
Proof.
  induction 1 as [|x l1 l2 _ IH|x y l|l1 l2 l3 _ IH1 _ IH2].
  - done.
  - by rewrite !sumQ_cons, IH.
  - rewrite !sumQ_cons. ring.
  - congruence.
Qed.

Lemma omap_concat {A B} (f : A → option B) (ls : list (list A)) :
  omap f (concat ls) = concat ((λ l : list A, omap f l) <$> ls).
Proof.
  induction ls as [|l ls IH]; [done|].
  rewrite fmap_cons. simpl. by rewrite omap_app, IH.
Qed.

Lemma sumQ_concat (ls : list (list Qc)) : sumQ (concat ls) = sumQ (sumQ <$> ls).
Proof.
  induction ls as [|l ls IH]; [done|].
  rewrite fmap_cons, sumQ_cons. simpl. by rewrite sumQ_app, IH.
Qed.

(** ** Rows of one kind per column *)

Lemma one_kind_empty : one_kind empty_row.
Proof.
  intros c. unfold empty_row. simpl. split; intros [? H]; by rewrite lookup_empty in H.
Qed.

Lemma one_kind_set_cell c x r : one_kind r → one_kind (set_cell c x r).
Proof.
  intros Hr c'. destruct (Hr c') as [H1 H2].
  destruct (decide (c = c')) as [<-|Hne].
  - destruct x as [[q|z|s]|]; simpl;
      rewrite ?lookup_insert_eq, ?lookup_delete_eq; split; intros [? ?]; done.
  - destruct x as [[q|z|s]|]; simpl;
      rewrite ?lookup_insert_ne, ?lookup_delete_ne by done; done.
Qed.

Lemma one_kind_from_record fields : one_kind (from_record fields).
Proof.
  unfold from_record. induction fields as [|kv fields IH] using rev_ind.
  - apply one_kind_empty.
  - rewrite foldl_app. simpl. by apply one_kind_set_cell.
Qed.

Lemma txt_one_kind r c :
  one_kind r →
  txt r !! c = match cell_of r c with Some (VStr s) => Some s | _ => None end.
Proof.
  intros Hr. destruct (Hr c) as [H1 H2]. unfold cell_of.
  destruct (num r !! c) as [q|] eqn:Hq; [by destruct H1|].
  destruct (code r !! c) as [z|] eqn:Hz; [by rewrite H2|].
  by destruct (txt r !! c).
Qed.

Lemma one_kind_agg_row gc agg_dict g : one_kind (agg_row gc agg_dict g).
Proof. apply one_kind_from_record. Qed.

(** [isin] on a dimension column, read off the key. *)
Lemma isin_cell_selected r c (i : nat) l :
  one_kind r → gcols !! i = Some c →
  isin (λ r, txt r !! c) l r = cell_selected (Some l) (key_of gcols r !! i).
Proof.
  intros Hr Hc. unfold isin, cell_selected, key_of.
  rewrite list_lookup_fmap, Hc. simpl. rewrite (txt_one_kind r c Hr).
  by destruct (cell_of r c) as [[]|].
Qed.

(** ** The overview filters on a table of summary rows *)

Lemma loc_mask_all df : DF (columns df) (filter (λ _ : row, true) (rows df)) = df.
Proof. destruct df as [cols rs]. simpl. f_equal. by apply filter_all, Forall_forall. Qed.

Lemma isin_step_rows df c (i : nat) sel :
  gcols !! i = Some c → c ∈ columns df → Forall one_kind (rows df) →
  match sel with
  | Some l =>
      if has_col df c then s ← getitem_txt df c; Ok (loc_mask df (isin s l)) else Ok df
  | None => Ok df
  end = Ok (DF (columns df)
               (filter (λ r, cell_selected sel (key_of gcols r !! i)) (rows df))).
Proof.
  intros Hi Hc Hk. destruct sel as [l|].
  - rewrite (proj2 (has_col_true df c) Hc). unfold getitem_txt.
    rewrite (proj2 (has_col_true df c) Hc), ret_bind. unfold loc_mask. do 2 f_equal.
    apply length_filter_ext. intros r Hr. rewrite Forall_forall in Hk.
    by rewrite (isin_cell_selected r c i l (Hk r Hr) Hi).
  - simpl. by rewrite loc_mask_all.
Qed.

Lemma Forall_filter_keep {A} (P : A → Prop) (Q : A → Prop) `{∀ x, Decision (Q x)}
    (l : list A) :
  Forall P l → Forall P (filter Q l).
Proof.
  rewrite !Forall_forall. intros Hl x [_ Hx]%list_elem_of_filter. by apply Hl.
Qed.

Lemma filter_stats_rows df f :
  Forall (λ c, c ∈ columns df) gcols → Forall one_kind (rows df) →
  overview_tab._filter_stats df f =
    Ok (DF (columns df) (filter (λ r, key_selected f (key_of gcols r)) (rows df))).
Proof.
  intros Hcols Hk. unfold overview_tab._filter_stats. cbv zeta.
  rewrite Forall_forall in Hcols.
  rewrite (isin_step_rows df "TIPO_ESCOLA" 0 (filters.redes f));
    [|done|apply Hcols; set_solver|done].
  rewrite ret_bind.
  rewrite (isin_step_rows _ "LOCALIZACAO" 1 (filters.localizacoes f));
    [|done|apply Hcols; set_solver|by apply Forall_filter_keep].
  rewrite ret_bind.
  rewrite (isin_step_rows _ "SG_UF_ESC" 2 (filters.ufs f));
    [|done|apply Hcols; set_solver|by do 2 apply Forall_filter_keep].
  cbn [columns rows]. do 2 f_equal.
  rewrite !list_filter_filter. apply length_filter_ext. intros r _.
  unfold key_selected. rewrite !andb_True. tauto.
Qed.

Lemma filter_agg_rows gc agg_dict (gs : list (list cell * list row))
    (P : list cell → Prop) `{∀ k, Decision (P k)} :
  (∀ g, g ∈ gs → key_of gc (agg_row gc agg_dict g) = g.1) →
  filter (λ r, P (key_of gc r)) (agg_row gc agg_dict <$> gs) =
  agg_row gc agg_dict <$> filter (λ g, P g.1) gs.
Proof.
  intros Hkey. change (agg_row gc agg_dict <$> gs) with (map (agg_row gc agg_dict) gs).
  rewrite filter_map_comm. change (map ?f ?l) with (f <$> l). f_equal.
  apply length_filter_ext. intros g Hg. by rewrite Hkey.
Qed.

(** The rows of the groups whose key passes a test. *)
Lemma selected_groups_rows df gc dk groups (P : list cell → Prop)
    `{∀ k, Decision (P k)} :
  groupby df gc dk = Ok groups →
  concat (snd <$> filter (λ g, P g.1) groups) ≡ₚ
  filter (λ r, P (key_of gc r)) (grouped_rows df gc dk).
Proof.
  intros [_ ->]%groupby_Ok.
  set (G := grouped_rows df gc dk). set (ks := remove_dups (map (key_of gc) G)).
  rewrite filter_map_comm. cbn [fst]. change (map ?f ?l) with (f <$> l).
  rewrite <-list_fmap_compose.
  apply (blocks_filter_permutation (key_of gc) G ks P).
  - apply NoDup_remove_dups.
  - intros r Hr. apply elem_of_remove_dups. by apply list_elem_of_fmap_2.
Qed.

Lemma sum_int_agg_rows gc agg_dict name (gs : list (list cell * list row)) :
  (∀ g, g ∈ gs →
        cell_of (agg_row gc agg_dict g) name = Some (VInt (Z.of_nat (length g.2)))) →
  overview_tab.sum_int (λ r, code r !! name) (agg_row gc agg_dict <$> gs) =
    Z.of_nat (length (concat (snd <$> gs))).
Proof.
  intros Hn. unfold overview_tab.sum_int. induction gs as [|g gs IH]; [done|].
  rewrite !fmap_cons.
  change (omap ?f (?x :: ?l))
    with (match f x with Some y => y :: omap f l | None => omap f l end).
  cbv beta. rewrite (cell_VInt _ _ _ (Hn g ltac:(by left))).
  rewrite sumZ_cons, IH by (intros g' Hg'; apply Hn; by right).
  simpl. rewrite length_app. lia.
Qed.

Lemma sum_num_agg_rows gc agg_dict name m (gs : list (list cell * list row)) :
  (∀ g, g ∈ gs →
        cell_of (agg_row gc agg_dict g) name = Some (VNum (sumQ (nonnull m g.2)))) →
  overview_tab.sum_num (λ r, num r !! name) (agg_row gc agg_dict <$> gs) =
    sumQ (nonnull m (concat (snd <$> gs))).
Proof.
  intros Hn. unfold overview_tab.sum_num. induction gs as [|g gs IH]; [done|].
  rewrite !fmap_cons.
  change (omap ?f (?x :: ?l))
    with (match f x with Some y => y :: omap f l | None => omap f l end).
  cbv beta. rewrite (proj1 (cell_VNum _ _ _) (Hn g ltac:(by left))).
  rewrite sumQ_cons, IH by (intros g' Hg'; apply Hn; by right).
  simpl. unfold nonnull. by rewrite omap_app, sumQ_app.
Qed.

(** ** The indicators of the overview tab *)

Lemma overview_sum_cell mc m g :
  m ∈ mc →
  cell_of (agg_row gcols (("n", ("nota_final", Size)) ::
                          map (λ col, ("sum_" +:+ col, (col, Sum))) mc) g)
          ("sum_" +:+ m) = Some (VNum (sumQ (nonnull m g.2))).
Proof.
  intros Hm.
  assert (("sum_" +:+ m, (m, Sum)) ∈
          ("n", ("nota_final", Size)) :: map (λ col, ("sum_" +:+ col, (col, Sum))) mc)
    as Ha.
  { right. apply list_elem_of_fmap. by exists m. }
  apply (agg_row_cell gcols _ g ("sum_" +:+ m, (m, Sum)) Ha).
  intros a' Ha'. apply (sum_agg_dict_inj "n" mc); [intros c; discriminate|done..].
Qed.

(** The totals of the summary rows whose key passes a test, in terms of the
    rows of the frame. *)
Lemma overview_part df mc groups m (P : list cell → Prop) `{∀ k, Decision (P k)} :
  groupby df gcols true = Ok groups → m ∈ mc →
  overview_tab.sum_int (λ r, code r !! "n")
    (agg_row gcols (("n", ("nota_final", Size)) ::
                    map (λ col, ("sum_" +:+ col, (col, Sum))) mc)
       <$> filter (λ g, P g.1) groups) =
    Z.of_nat (length (filter (λ r, P (key_of gcols r)) (grouped_rows df gcols true))) ∧
  overview_tab.sum_num (λ r, num r !! ("sum_" +:+ m))
    (agg_row gcols (("n", ("nota_final", Size)) ::
                    map (λ col, ("sum_" +:+ col, (col, Sum))) mc)
       <$> filter (λ g, P g.1) groups) =
    sumQ (nonnull m (filter (λ r, P (key_of gcols r)) (grouped_rows df gcols true))) ∧
  (filter (λ g, P g.1) groups = [] ↔
   filter (λ r, P (key_of gcols r)) (grouped_rows df gcols true) = []).
Proof.
  intros Hg Hm. pose proof (selected_groups_rows df gcols true groups P Hg) as Hperm.
  split_and!.
  - rewrite (sum_int_agg_rows gcols _ "n") by (intros g _; apply overview_n_cell).
    by rewrite Hperm.
  - rewrite (sum_num_agg_rows gcols _ _ m) by (intros g _; by apply overview_sum_cell).
    apply sumQ_perm. unfold nonnull. by rewrite Hperm.
  - split.
    + intros Hnil. rewrite Hnil in Hperm. simpl in Hperm.
      by apply Permutation_nil_l in Hperm.
    + intros Hnil. rewrite Hnil in Hperm. apply Permutation_nil_r in Hperm.
      destruct (filter (λ g, P g.1) groups) as [|[k sub] gs] eqn:Hgs; [done|].
      assert ((k, sub) ∈ groups) as Hin.
      { assert ((k, sub) ∈ filter (λ g, P g.1) groups) as Hin by (rewrite Hgs; by left).
        by apply list_elem_of_filter in Hin as [_ ?]. }
      destruct (groupby_elem _ _ _ _ _ _ Hg Hin) as (_ & _ & _ & r0 & sub' & -> & _).
      done.
Qed.

Lemma per_row_spec m (rs : list row) (n : Z) (s : Qc) :
  n = Z.of_nat (length rs) → s = sumQ (nonnull m rs) →
  (if bool_decide (0 < n)%Z then Some (s / Qc_of_Z n)%Qc else None) = per_row m rs.
Proof.
  intros -> ->. unfold per_row. destruct rs as [|r rs]; [done|].
  rewrite bool_decide_eq_true_2 by (simpl; lia).
  by rewrite bool_decide_eq_false_2.
Qed.

(** X13. The indicators of the overview tab, from the frame the overview
    summary was built from. Filtering the summary by network, locale and
    region selects the participants of the frame with a non-null network,
    locale and region that pass the filters, and nothing is shown when there
    is none. The participant count is their number; the mean shown for a
    metric is the sum of their non-null values of the metric over that
    number (so a participant without a value counts as one more in the
    divisor); the private share is 100 times the number of private-network
    participants over their number, and the public-private difference is the
    difference of the same quotients over the public-network and the
    private-network participants, each missing when there is no such
    participant. *)
Theorem overview_kpis (df : DataFrame) (mc : list string) (stats : DataFrame)
    (f : filters.GlobalFilters) (m : string)
    (Hs : preprocess_enem.build_overview_stats df mc = Ok stats)
    (Hm : m ∈ mc) :
  ∃ fs k,
    overview_tab._filter_stats stats f = Ok fs ∧
    overview_tab._render_kpi_row fs m = Ok (Some k) ∧
    (empty fs = true ↔ participants f df = []) ∧
    overview_tab.total_n k = Z.of_nat (length (participants f df)) ∧
    overview_tab.mean_metric k = per_row m (participants f df) ∧
    overview_tab.pct_private k =
      (if bool_decide (of_types overview_tab.private_types (participants f df) = [])
       then None
       else Some (Qc_of_nat (length (of_types overview_tab.private_types
                                       (participants f df))) /
                  Qc_of_nat (length (participants f df)) * Qc_of_Z 100)%Qc) ∧
    overview_tab.diff_public_private k =
      match per_row m (of_types overview_tab.public_types (participants f df)),
            per_row m (of_types overview_tab.private_types (participants f df)) with
      | Some pub, Some priv => Some (pub - priv)%Qc
      | _, _ => None
      end.
Proof.
  unfold preprocess_enem.build_overview_stats in Hs.
  apply groupby_agg_Ok in Hs as (groups & Hg & _ & Hcols & Hrows).
  set (agg := ("n", ("nota_final", Size)) ::
              map (λ col, ("sum_" +:+ col, (col, Sum))) mc) in *.
  change (map (agg_row gcols agg) groups) with (agg_row gcols agg <$> groups) in Hrows.
  assert (Hkey : ∀ g, g ∈ groups → key_of gcols (agg_row gcols agg g) = g.1).
  { intros [k sub] Hin.
    destruct (groupby_elem _ _ _ _ _ _ Hg Hin) as (_ & Hlen & _).
    apply key_of_agg_row; [by_compute|done|apply overview_agg_fresh]. }
  assert (Hone : Forall one_kind (rows stats)).
  { rewrite Hrows. apply Forall_fmap, Forall_forall. intros g _.
    apply one_kind_agg_row. }
  assert (Hgc : Forall (λ c, c ∈ columns stats) gcols).
  { apply Forall_forall. intros c Hc. rewrite Hcols. apply elem_of_app. by left. }
  set (fs := DF (columns stats)
                (filter (λ r, key_selected f (key_of gcols r)) (rows stats))).
  assert (Hfs : rows fs = agg_row gcols agg <$> filter (λ g, Is_true (key_selected f g.1)) groups).
  { unfold fs. cbn [rows]. rewrite Hrows.
    exact (filter_agg_rows gcols agg groups (λ k, Is_true (key_selected f k)) Hkey). }
  (* the rows of a network among the filtered summary rows *)
  assert (Hnet : ∀ types,
            filter (λ r, isin (λ r, txt r !! "TIPO_ESCOLA") types r) (rows fs) =
            agg_row gcols agg <$>
              filter (λ g, Is_true (cell_selected (Some types) (g.1 !! 0%nat)) ∧ Is_true (key_selected f g.1))
                     groups).
  { intros types. unfold fs. cbn [rows]. rewrite Hrows, list_filter_filter.
    transitivity
      (filter (λ r, Is_true (cell_selected (Some types) (key_of gcols r !! 0%nat)) ∧
                    Is_true (key_selected f (key_of gcols r)))
              (agg_row gcols agg <$> groups)).
    - apply length_filter_ext. intros r Hr. rewrite Hrows in Hone.
      rewrite Forall_forall in Hone.
      by rewrite (isin_cell_selected r "TIPO_ESCOLA" 0 types (Hone r Hr)).
    - exact (filter_agg_rows gcols agg groups
               (λ k, Is_true (cell_selected (Some types) (k !! 0%nat)) ∧
                     Is_true (key_selected f k)) Hkey). }
  (* the participants of a network *)
  assert (Hpart : ∀ types,
            filter (λ r, Is_true (cell_selected (Some types) (key_of gcols r !! 0%nat)) ∧
                         Is_true (key_selected f (key_of gcols r)))
                   (grouped_rows df gcols true) =
            of_types types (participants f df)).
  { intros types. unfold of_types, participants. rewrite list_filter_filter.
    apply length_filter_ext. intros r _. done. }
  destruct (overview_part df mc groups m (λ k, Is_true (key_selected f k)) Hg Hm) as (Hn & Hsum & Hnil).
  destruct (overview_part df mc groups m
              (λ k, Is_true (cell_selected (Some overview_tab.public_types) (k !! 0%nat)) ∧ Is_true (key_selected f k)) Hg Hm) as (Hnpub & Hspub & Hnilpub).
  destruct (overview_part df mc groups m
              (λ k, Is_true (cell_selected (Some overview_tab.private_types) (k !! 0%nat)) ∧ Is_true (key_selected f k)) Hg Hm) as (Hnpriv & Hspriv & Hnilpriv).
  rewrite Hpart in Hnpub, Hspub, Hnilpub, Hnpriv, Hspriv, Hnilpriv.
  change (filter (λ r, Is_true (key_selected f (key_of gcols r))) (grouped_rows df gcols true))
    with (participants f df) in Hn, Hsum, Hnil.
  assert (Hsumcol : "sum_" +:+ m ∈ map fst agg).
  { unfold agg. rewrite fmap_cons. right.
    rewrite <-list_fmap_compose. apply list_elem_of_fmap. by exists m. }
  assert (Hncol : "n" ∈ map fst agg) by (by left).
  subst agg.
  eexists fs, _. split_and!.
  - by apply filter_stats_rows.
  - unfold overview_tab._render_kpi_row, getitem_code, getitem_num, getitem_txt.
    cbv zeta.
    assert (has_col fs ("sum_" +:+ m) = true) as ->.
    { apply has_col_true. unfold fs. cbn [columns]. rewrite Hcols.
      apply elem_of_app. by right. }
    assert (has_col fs "n" = true) as ->.
    { apply has_col_true. unfold fs. cbn [columns]. rewrite Hcols.
      apply elem_of_app. by right. }
    assert (has_col fs "TIPO_ESCOLA" = true) as ->.
    { apply has_col_true. unfold fs. cbn [columns]. rewrite Hcols.
      apply elem_of_app. left. set_solver. }
    reflexivity.
  - unfold empty. rewrite orb_true_iff, !bool_decide_eq_true, <-Hnil, Hfs. split.
    + intros [Hx|Hc]; [by apply fmap_nil_inv in Hx|].
      unfold fs in Hc. cbn [columns] in Hc. rewrite Hcols in Hc. done.
    + intros ->. by left.
  - cbn [overview_tab.total_n]. by rewrite Hfs, Hn.
  - cbn [overview_tab.mean_metric]. rewrite Hfs. by apply per_row_spec.
  - cbn [overview_tab.pct_private fst snd]. rewrite !Hnet, Hfs, Hnpriv, Hn.
    destruct (of_types overview_tab.private_types (participants f df)) as [|r0 rs] eqn:Hp.
    + assert (filter (λ g, Is_true (cell_selected (Some overview_tab.private_types)
                                      (g.1 !! 0%nat)) ∧ Is_true (key_selected f g.1)) groups = []) as ->
        by (by apply Hnilpriv).
      done.
    + rewrite bool_decide_eq_true_2.
      2:{ intros Hx%fmap_nil_inv. apply Hnilpriv in Hx. done. }
      rewrite bool_decide_eq_true_2; [done|].
      assert (r0 ∈ participants f df) as Hr0.
      { assert (r0 ∈ of_types overview_tab.private_types (participants f df)) as Hr0
          by (rewrite Hp; by left).
        unfold of_types in Hr0. by apply list_elem_of_filter in Hr0 as [_ ?]. }
      destruct (participants f df); [by apply elem_of_nil in Hr0|]. simpl. lia.
  - cbn [overview_tab.diff_public_private fst snd]. rewrite !Hnet.
    assert (∀ (rows_t : list row) (part : list row) ,
              overview_tab.sum_int (λ r, code r !! "n") rows_t = Z.of_nat (length part) →
              overview_tab.sum_num (λ r, num r !! ("sum_" +:+ m)) rows_t
                = sumQ (nonnull m part) →
              (if bool_decide (rows_t ≠ []) &&
                  bool_decide (0 < overview_tab.sum_int (λ r, code r !! "n") rows_t)%Z
               then Some (overview_tab.sum_num (λ r, num r !! ("sum_" +:+ m)) rows_t /
                          Qc_of_Z (overview_tab.sum_int (λ r, code r !! "n") rows_t))%Qc
               else None) = per_row m part) as Hmean.
    { intros rows_t part Hn' Hs'.
      destruct rows_t as [|r0 rs].
      - destruct part; [done|]. unfold overview_tab.sum_int in Hn'. simpl in Hn'. lia.
      - rewrite bool_decide_eq_true_2 by done. rewrite andb_true_l.
        by apply per_row_spec. }
    by rewrite (Hmean _ _ Hnpub Hspub), (Hmean _ _ Hnpriv Hspriv).
Qed.

(** ** The selection of a dropdown filter *)

(** X14. [_normalize_selection] on what a multiselect returns (a duplicate-free
    list of options): the result is [None], no filter, exactly when there are
    no options or every option is selected; it is the empty list exactly when
    there are options and none is selected; otherwise it is the selection
    itself, which then leaves out some option. *)
Theorem normalize_selection_cases (selected options : list string)
    (Hsel : NoDup selected) (Hsub : ∀ x, x ∈ selected → x ∈ options)
    (Hopt : NoDup options) :
  (filters._normalize_selection selected options = None ↔
   options = [] ∨ (selected ≠ [] ∧ ∀ x, x ∈ options → x ∈ selected)) ∧
  (filters._normalize_selection selected options = Some [] ↔
   options ≠ [] ∧ selected = []) ∧
  (∀ l, l ≠ [] → filters._normalize_selection selected options = Some l →
        l = selected ∧ ∃ x, x ∈ options ∧ x ∉ selected).
Proof.
  assert (Hall : length selected = length options ↔ ∀ x, x ∈ options → x ∈ selected).
  { pose proof (NoDup_submseteq selected options Hsel Hsub) as Hms. split.
    - intros Hlen x Hx.
      rewrite (submseteq_length_Permutation selected options Hms); [done|lia].
    - intros Hcov. apply Nat.le_antisymm; [by apply submseteq_length|].
      apply submseteq_length. by apply NoDup_submseteq. }
  unfold filters._normalize_selection. split_and!.
  - repeat case_bool_decide; subst; split; try done; naive_solver.
  - repeat case_bool_decide; subst; split; try done; naive_solver.
  - intros l Hl. repeat case_bool_decide; try done; intros [= <-]; [done|].
    split; [done|].
    destruct (decide (Forall (λ x, x ∈ selected) options)) as [Hf|Hf].
    + rewrite Forall_forall in Hf. by apply Hall in Hf.
    + apply not_Forall_Exists in Hf; [|apply _].
      apply Exists_exists in Hf as (x & Hx & Hnx). by exists x.
Qed.

(** ** The row filter shared by the school and essay tabs *)

Lemma passes_step df sel c :
  (if filters.truthy sel && has_col df c then
     s ← getitem_txt df c; Ok (loc_mask df (isin s (default [] sel)))
   else Ok df) =
  Ok (DF (columns df) (filter (λ r, passes (columns df) sel c r) (rows df))).
Proof.
  unfold passes, has_col, getitem_txt, has_col.
  destruct (filters.truthy sel && bool_decide (c ∈ columns df)) eqn:Hc.
  - apply andb_true_iff in Hc as [_ ->]. by rewrite ret_bind.
  - by rewrite loc_mask_all.
Qed.

Lemma apply_filters_rows df f :
  filters.apply_filters df f =
    Ok (DF (columns df) (filter (λ r, keeps (columns df) f r) (rows df))).
Proof.
  unfold filters.apply_filters. cbv zeta.
  rewrite !passes_step, !ret_bind. cbn [columns rows].
  rewrite passes_step, ret_bind. cbn [columns rows].
  rewrite passes_step, ret_bind. cbn [columns rows].
  unfold has_col at 1. cbn [columns].
  assert (∀ l, filter (λ r, keeps (columns df) f r) (rows df) = l →
          (if bool_decide (filters.metric_column f ∈ columns df) then
             dropna (DF (columns df)
                       (filter (λ r, passes (columns df) (filters.ufs f) "SG_UF_ESC" r)
                          (filter (λ r, passes (columns df) (filters.localizacoes f)
                                          "LOCALIZACAO" r)
                             (filter (λ r, passes (columns df) (filters.redes f)
                                             "TIPO_ESCOLA" r) (rows df)))))
                    [filters.metric_column f]
           else Ok (DF (columns df)
                       (filter (λ r, passes (columns df) (filters.ufs f) "SG_UF_ESC" r)
                          (filter (λ r, passes (columns df) (filters.localizacoes f)
                                          "LOCALIZACAO" r)
                             (filter (λ r, passes (columns df) (filters.redes f)
                                             "TIPO_ESCOLA" r) (rows df))))))
          = Ok (DF (columns df) l)) as Hgen; [|by apply Hgen].
  intros l <-. unfold keeps. case_bool_decide as Hm.
  - rewrite dropna_present by (by apply has_col_true). cbn [columns rows].
    do 2 f_equal. rewrite !list_filter_filter. apply length_filter_ext. intros r _.
    rewrite !andb_True. naive_solver.
  - do 2 f_equal. rewrite !list_filter_filter. apply length_filter_ext. intros r _.
    rewrite !andb_True. naive_solver.
Qed.

(** X15. [apply_filters] never raises and keeps the columns; its rows are
    rows of the input; filtering the result again changes nothing; with the
    metric column in the frame every row it returns has a value there, and
    with a non-empty selection of networks and the network column in the
    frame every row it returns holds a selected network. *)
Theorem apply_filters_spec (df : DataFrame) (f : filters.GlobalFilters) :
  ∃ out,
    filters.apply_filters df f = Ok out ∧
    columns out = columns df ∧
    (∀ r, r ∈ rows out → r ∈ rows df) ∧
    filters.apply_filters out f = Ok out ∧
    (filters.metric_column f ∈ columns df →
     ∀ r, r ∈ rows out → is_Some (cell_of r (filters.metric_column f))) ∧
    (∀ x l, filters.redes f = Some (x :: l) → "TIPO_ESCOLA" ∈ columns df →
            ∀ r, r ∈ rows out →
                 ∃ s, txt r !! "TIPO_ESCOLA" = Some s ∧ s ∈ x :: l).
Proof.
  eexists. split; [apply apply_filters_rows|]. cbn [columns rows]. split_and!.
  - done.
  - by intros r [_ ?]%list_elem_of_filter.
  - rewrite apply_filters_rows. cbn [columns rows]. by rewrite filter_idemp.
  - intros Hm r [Hk _]%list_elem_of_filter. unfold keeps in Hk.
    rewrite !andb_True in Hk. destruct Hk as (_ & Hk).
    rewrite bool_decide_eq_true_2 in Hk by done.
    by apply notnull_all_single, Is_true_true.
  - intros x l Hsel Hc r [Hk _]%list_elem_of_filter. unfold keeps in Hk.
    rewrite !andb_True in Hk. destruct Hk as (((Hk & _) & _) & _).
    unfold passes in Hk. rewrite Hsel in Hk. cbn [filters.truthy default] in Hk.
    rewrite bool_decide_eq_true_2 in Hk by done. cbn [andb] in Hk.
    unfold isin in Hk. destruct (txt r !! "TIPO_ESCOLA") as [s|]; [|done].
    exists s. split; [done|]. by apply bool_decide_unpack in Hk.
Qed.

(** ** An empty selection *)

Lemma active_idemp sel : map_tab.active (map_tab.active sel) = map_tab.active sel.
Proof. by destruct sel as [[|x l]|]. Qed.

Lemma passes_active cols sel c r :
  passes cols (map_tab.active sel) c r = passes cols sel c r.
Proof. by destruct sel as [[|x l]|]. Qed.

Lemma stats_step df sel c :
  match sel with
  | Some l =>
      if has_col df c then s ← getitem_txt df c; Ok (loc_mask df (isin s l)) else Ok df
  | None => Ok df
  end = Ok (DF (columns df) (filter (λ r, stats_passes (columns df) sel c r) (rows df))).
Proof.
  unfold stats_passes, getitem_txt, has_col. destruct sel as [l|].
  - case_bool_decide; [done|]. by rewrite loc_mask_all.
  - by rewrite loc_mask_all.
Qed.

Lemma filter_stats_steps df f :
  overview_tab._filter_stats df f =
    Ok (DF (columns df)
           (filter (λ r, stats_passes (columns df) (filters.ufs f) "SG_UF_ESC" r)
              (filter (λ r, stats_passes (columns df) (filters.localizacoes f)
                              "LOCALIZACAO" r)
                 (filter (λ r, stats_passes (columns df) (filters.redes f)
                                 "TIPO_ESCOLA" r) (rows df))))).
Proof.
  unfold overview_tab._filter_stats. cbv zeta.
  rewrite (stats_step df), ret_bind.
  rewrite (stats_step _ (filters.localizacoes f)), ret_bind.
  by rewrite (stats_step _ (filters.ufs f)).
Qed.

Lemma filter_never {A} (P : A → Prop) `{∀ x, Decision (P x)} (l : list A) :
  (∀ x, ¬ P x) → filter P l = [].
Proof. intros HP. apply filter_none, Forall_forall. intros x _. apply HP. Qed.

(** X16. What an empty selection does. [apply_filters] (school and essay
    tabs) and [_apply_map_filters] (map tab) treat an empty selection as no
    selection: the result is the same as with the empty selections removed.
    [_filter_stats] (overview tab) applies it: with an empty selection on a
    dimension whose column is in the table, no row is left. *)
Theorem empty_selection (df : DataFrame) (f : filters.GlobalFilters) :
  filters.apply_filters df f = filters.apply_filters df (only_active f) ∧
  map_tab._apply_map_filters df f = map_tab._apply_map_filters df (only_active f) ∧
  ((filters.redes f = Some [] ∧ "TIPO_ESCOLA" ∈ columns df) ∨
   (filters.localizacoes f = Some [] ∧ "LOCALIZACAO" ∈ columns df) ∨
   (filters.ufs f = Some [] ∧ "SG_UF_ESC" ∈ columns df) →
   ∃ out, overview_tab._filter_stats df f = Ok out ∧ rows out = []).
Proof.
  split_and!.
  - rewrite !apply_filters_rows. do 2 f_equal.
    apply length_filter_ext. intros r _. unfold keeps, only_active.
    cbn [filters.redes filters.localizacoes filters.ufs filters.metric_column].
    by rewrite !passes_active.
  - unfold map_tab._apply_map_filters, only_active.
    cbn [filters.redes filters.localizacoes filters.ufs].
    by rewrite !active_idemp.
  - intros Hemp. eexists. split; [apply filter_stats_steps|]. cbn [rows].
    destruct Hemp as [[Hsel Hc]|[[Hsel Hc]|[Hsel Hc]]]; rewrite Hsel.
    + rewrite (filter_never (λ r, stats_passes _ (Some []) "TIPO_ESCOLA" r)); [done|].
      intros r. unfold stats_passes, isin. rewrite bool_decide_eq_true_2 by done.
      destruct (txt r !! "TIPO_ESCOLA") as [s|];
        [rewrite bool_decide_eq_false_2 by apply not_elem_of_nil|]; simpl; tauto.
    + rewrite (filter_never (λ r, stats_passes _ (Some []) "LOCALIZACAO" r)); [done|].
      intros r. unfold stats_passes, isin. rewrite bool_decide_eq_true_2 by done.
      destruct (txt r !! "LOCALIZACAO") as [s|];
        [rewrite bool_decide_eq_false_2 by apply not_elem_of_nil|]; simpl; tauto.
    + apply filter_never.
      intros r. unfold stats_passes, isin. rewrite bool_decide_eq_true_2 by done.
      destruct (txt r !! "SG_UF_ESC") as [s|];
        [rewrite bool_decide_eq_false_2 by apply not_elem_of_nil|]; simpl; tauto.
Qed.

(** ** A metric the data does not have *)

Lemma sum_col_absent (name : string) (gc mc : list string) m :
  (∀ c, name ≠ "sum_" +:+ c) → (∀ c, c ∈ gc → ∀ x, c ≠ "sum_" +:+ x) → m ∉ mc →
  "sum_" +:+ m ∉
    gc ++ map fst ((name, ("nota_final", Size)) ::
                   map (λ col, ("sum_" +:+ col, (col, Sum))) mc
                   : list (string * (string * aggfunc))).
Proof.
  intros Hname Hgc Hm [Hin|Hin]%elem_of_app.
  - by destruct (Hgc _ Hin m).
  - apply (sum_agg_names name mc) in Hin as [Heq|(m' & Hm' & Heq)].
    + by destruct (Hname m).
    + simpl in Heq. injection Heq as Heq. change (m = m') in Heq. by subst.
Qed.

(** X17. A metric whose score column the raw data lacks has no sum column in
    the summaries. On a table with the columns of the overview summary
    [_render_kpi_row] then shows its warning and no indicator, while on a
    table with the columns of the map summary [_build_uf_summary] raises a
    [KeyError] for the missing sum column. *)
Theorem metric_not_in_data (m : string) :
  (∀ df mc stats fs,
     preprocess_enem.build_overview_stats df mc = Ok stats → m ∉ mc →
     columns fs = columns stats →
     overview_tab._render_kpi_row fs m = Ok None) ∧
  (∀ d df mc out ff,
     preprocess_map_uf.map_frame d = Ok (df, mc) →
     preprocess_map_uf.main d = Ok out → m ∉ mc →
     columns ff = columns out →
     map_tab._build_uf_summary ff m = Raise (KeyError ("sum_" +:+ m))).
Proof.
  split.
  - intros df mc stats fs Hs Hm Hcols.
    unfold preprocess_enem.build_overview_stats in Hs.
    apply groupby_agg_Ok in Hs as (groups & _ & _ & Hc & _).
    unfold overview_tab._render_kpi_row. cbv zeta.
    rewrite (proj2 (has_col_false fs ("sum_" +:+ m))); [done|].
    rewrite Hcols, Hc. apply sum_col_absent; [intros c; discriminate| |done].
    intros c Hin x. unfold gcols, preprocess_enem.group_cols in Hin.
    repeat (apply elem_of_cons in Hin as [->|Hin]; [discriminate|]).
    by apply elem_of_nil in Hin.
  - intros d df mc out ff Hf Hrun Hm Hcols.
    unfold preprocess_map_uf.main in Hrun. rewrite Hf, ret_bind in Hrun.
    cbn [fst snd] in Hrun.
    apply groupby_agg_Ok in Hrun as (groups & _ & _ & Hc & _).
    unfold map_tab._build_uf_summary. cbv zeta.
    rewrite (proj2 (has_col_false ff ("sum_" +:+ m))); [done|].
    rewrite Hcols, Hc. apply sum_col_absent; [intros c; discriminate| |done].
    intros c Hin x. unfold preprocess_map_uf.group_cols in Hin.
    repeat (apply elem_of_cons in Hin as [->|Hin]; [discriminate|]).
    by apply elem_of_nil in Hin.
Qed.

(** ** Sums of a column *)

Lemma sumZ_perm l1 l2 : l1 ≡ₚ l2 → sumZ l1 = sumZ l2.
Proof.
  induction 1 as [|x l1 l2 _ IH|x y l|l1 l2 l3 _ IH1 _ IH2].
  - done.
  - by rewrite !sumZ_cons, IH.
  - rewrite !sumZ_cons. lia.
  - congruence.
Qed.

Lemma sum_int_perm s l1 l2 : l1 ≡ₚ l2 → overview_tab.sum_int s l1 = overview_tab.sum_int s l2.
Proof. intros Hp. unfold overview_tab.sum_int. apply sumZ_perm. by rewrite Hp. Qed.

Lemma sum_int_cons s (r : row) rs :
  overview_tab.sum_int s (r :: rs) = (default 0 (s r) + overview_tab.sum_int s rs)%Z.
Proof.
  unfold overview_tab.sum_int.
  change (omap s (r :: rs))
    with (match s r with Some y => y :: omap s rs | None => omap s rs end).
  destruct (s r); simpl; [done|lia].
Qed.

Lemma sum_num_cons s (r : row) rs :
  overview_tab.sum_num s (r :: rs) = (default 0 (s r) + overview_tab.sum_num s rs)%Qc.
Proof.
  unfold overview_tab.sum_num.
  change (omap s (r :: rs))
    with (match s r with Some y => y :: omap s rs | None => omap s rs end).
  destruct (s r); simpl; [done|ring].
Qed.

Lemma sum_int_app s l1 l2 :
  overview_tab.sum_int s (l1 ++ l2) =
    (overview_tab.sum_int s l1 + overview_tab.sum_int s l2)%Z.
Proof. unfold overview_tab.sum_int. by rewrite omap_app, sumZ_app. Qed.

Lemma sum_int_concat s (ls : list (list row)) :
  overview_tab.sum_int s (concat ls) = sumZ (overview_tab.sum_int s <$> ls).
Proof.
  induction ls as [|l ls IH]; [done|].
  rewrite fmap_cons, sumZ_cons. simpl. by rewrite sum_int_app, IH.
Qed.

Lemma sum_int_fmap {A} s (f : A → row) (v : A → Z) (l : list A) :
  (∀ x, x ∈ l → s (f x) = Some (v x)) →
  overview_tab.sum_int s (f <$> l) = sumZ (v <$> l).
Proof.
  induction l as [|x l IH]; intros Hs; [done|].
  rewrite !fmap_cons, sum_int_cons, sumZ_cons, Hs by (by left).
  rewrite IH; [done|]. intros y Hy. apply Hs. by right.
Qed.

Lemma sum_num_fmap {A} s (f : A → row) (v : A → Qc) (l : list A) :
  (∀ x, x ∈ l → s (f x) = Some (v x)) →
  overview_tab.sum_num s (f <$> l) = sumQ (v <$> l).
Proof.
  induction l as [|x l IH]; intros Hs; [done|].
  rewrite !fmap_cons, sum_num_cons, sumQ_cons, Hs by (by left).
  rewrite IH; [done|]. intros y Hy. apply Hs. by right.
Qed.

(** The groups of a grouping are a rearrangement of the grouped rows. *)
Lemma groups_rows df gc dk groups :
  groupby df gc dk = Ok groups → concat (snd <$> groups) ≡ₚ grouped_rows df gc dk.
Proof.
  intros Hg.
  pose proof (selected_groups_rows df gc dk groups (λ _, True) Hg) as Hp.
  rewrite (filter_all (λ g : list cell * list row, True)) in Hp
    by (by apply Forall_forall).
  rewrite (filter_all (λ r : row, True)) in Hp by (by apply Forall_forall).
  done.
Qed.

(** ** The participation chart of the overview tab *)

Lemma overview_part_n df mc groups (P : list cell → Prop) `{∀ k, Decision (P k)} :
  groupby df gcols true = Ok groups →
  overview_tab.sum_int (λ r, code r !! "n")
    (agg_row gcols (("n", ("nota_final", Size)) ::
                    map (λ col, ("sum_" +:+ col, (col, Sum))) mc)
       <$> filter (λ g, P g.1) groups) =
    Z.of_nat (length (filter (λ r, P (key_of gcols r)) (grouped_rows df gcols true))).
Proof.
  intros Hg. pose proof (selected_groups_rows df gcols true groups P Hg) as Hperm.
  rewrite (sum_int_agg_rows gcols _ "n") by (intros g _; apply overview_n_cell).
  by rewrite Hperm.
Qed.

Lemma sumQ_scale {A} (v : A → Z) (c : Qc) (l : list A) :
  sumQ ((λ x, Qc_of_Z (v x) * c)%Qc <$> l) = (Qc_of_Z (sumZ (v <$> l)) * c)%Qc.
Proof.
  induction l as [|x l IH]; [simpl; rewrite Z2Qc_inj_0; ring|].
  rewrite !fmap_cons, sumQ_cons, sumZ_cons, IH, Z2Qc_inj_add. ring.
Qed.

Lemma key_tipo (r : row) x :
  key_of ["TIPO_ESCOLA"] r = [x] ↔ key_of gcols r !! 0%nat = Some x.
Proof.
  change (key_of ["TIPO_ESCOLA"] r) with [cell_of r "TIPO_ESCOLA"].
  change (key_of gcols r !! 0%nat) with (Some (cell_of r "TIPO_ESCOLA")).
  split; by intros [= ->].
Qed.

(** The rows of the counts table, from the groups of the filtered summary. *)
Lemma count_row_cells (x : cell) (v : Z) :
  cell_of (from_record (zip ["TIPO_ESCOLA"] [x] ++ [("n", Some (VInt v))]))
          "TIPO_ESCOLA" = x ∧
  code (from_record (zip ["TIPO_ESCOLA"] [x] ++ [("n", Some (VInt v))])) !! "n"
    = Some v.
Proof.
  split.
  - rewrite cell_of_from_record. unfold field. simpl. done.
  - apply cell_VInt. rewrite cell_of_from_record. unfold field. simpl. done.
Qed.

(** X18. The participation chart of the overview tab, from the frame the
    overview summary was built from. The chart has one bar for every network
    that occurs among the participants selected by the filters, and no two
    bars for the same network; the bar counts the selected participants of
    its network and shows 100 times that count over the number of selected
    participants, so that the percentages of the bars add up to 100. *)
Theorem overview_participation (df : DataFrame) (mc : list string) (stats : DataFrame)
    (f : filters.GlobalFilters)
    (Hs : preprocess_enem.build_overview_stats df mc = Ok stats) :
  ∃ fs chart,
    overview_tab._filter_stats stats f = Ok fs ∧
    overview_tab._render_participation_by_school_type fs = Ok (Some chart) ∧
    NoDup ((λ r, cell_of r "TIPO_ESCOLA") <$> rows chart) ∧
    (∀ r0, r0 ∈ participants f df →
           ∃ r, r ∈ rows chart ∧ cell_of r "TIPO_ESCOLA" = cell_of r0 "TIPO_ESCOLA") ∧
    (∀ r, r ∈ rows chart →
       ∃ net,
         net = filter (λ r0, cell_of r0 "TIPO_ESCOLA" = cell_of r "TIPO_ESCOLA")
                      (participants f df) ∧
         net ≠ [] ∧
         cell_of r "n" = Some (VInt (Z.of_nat (length net))) ∧
         cell_of r "percentual" =
           Some (VNum (Qc_of_nat (length net) /
                       Qc_of_nat (length (participants f df)) * Qc_of_Z 100)%Qc)) ∧
    (participants f df ≠ [] →
     overview_tab.sum_num (λ r, num r !! "percentual") (rows chart) = Qc_of_Z 100).
Proof.
  unfold preprocess_enem.build_overview_stats in Hs.
  apply groupby_agg_Ok in Hs as (groups & Hg & _ & Hcols & Hrows).
  set (agg := ("n", ("nota_final", Size)) ::
              map (λ col, ("sum_" +:+ col, (col, Sum))) mc) in *.
  change (map (agg_row gcols agg) groups) with (agg_row gcols agg <$> groups) in Hrows.
  assert (Hkey : ∀ g, g ∈ groups → key_of gcols (agg_row gcols agg g) = g.1).
  { intros [k sub] Hin.
    destruct (groupby_elem _ _ _ _ _ _ Hg Hin) as (_ & Hlen & _).
    apply key_of_agg_row; [by_compute|done|apply overview_agg_fresh]. }
  assert (Hone : Forall one_kind (rows stats)).
  { rewrite Hrows. apply Forall_fmap, Forall_forall. intros g _.
    apply one_kind_agg_row. }
  assert (Hgc : Forall (λ c, c ∈ columns stats) gcols).
  { apply Forall_forall. intros c Hc. rewrite Hcols. apply elem_of_app. by left. }
  set (fs := DF (columns stats)
                (filter (λ r, key_selected f (key_of gcols r)) (rows stats))).
  set (gsel := filter (λ g : list cell * list row, key_selected f g.1) groups).
  assert (Hfs : rows fs = agg_row gcols agg <$> gsel).
  { unfold fs. cbn [rows]. rewrite Hrows.
    exact (filter_agg_rows gcols agg groups (λ k, Is_true (key_selected f k)) Hkey). }
  assert (Hsel_in : ∀ g, g ∈ gsel → g ∈ groups).
  { intros g Hin. by apply list_elem_of_filter in Hin as [_ ?]. }
  assert (Htipo : "TIPO_ESCOLA" ∈ columns fs).
  { unfold fs. cbn [columns]. rewrite Hcols. apply elem_of_app. left. set_solver. }
  assert (Hncol : "n" ∈ columns fs).
  { unfold fs. cbn [columns]. rewrite Hcols. apply elem_of_app. right. by left. }
  (* the chart groups *)
  assert (Hcomplete : grouped_rows fs ["TIPO_ESCOLA"] true = rows fs).
  { unfold grouped_rows. apply filter_all, Forall_forall. intros r Hr.
    rewrite Hfs in Hr. apply list_elem_of_fmap in Hr as ([k sub] & -> & Hin).
    apply Hsel_in in Hin.
    destruct (groupby_elem _ _ _ _ _ _ Hg Hin) as (_ & _ & Hc & _).
    specialize (Hc eq_refl). pose proof (Hkey _ Hin) as Hk. cbn [fst] in Hk.
    apply Is_true_true, complete_Forall. apply complete_Forall in Hc.
    rewrite <-Hk in Hc.
    change (key_of gcols ?x)
      with [cell_of x "TIPO_ESCOLA"; cell_of x "LOCALIZACAO"; cell_of x "SG_UF_ESC"] in Hc.
    change (key_of ["TIPO_ESCOLA"] ?x) with [cell_of x "TIPO_ESCOLA"].
    apply Forall_cons in Hc as [Hc _]. by apply Forall_singleton. }
  destruct (groupby fs ["TIPO_ESCOLA"] true) as [groups'|e] eqn:Hg'.
  2:{ exfalso.
      pose proof (proj2 (groupby_Ok fs ["TIPO_ESCOLA"] true _)
                    (conj (proj2 (Forall_singleton (λ c, c ∈ columns fs) "TIPO_ESCOLA") Htipo) eq_refl)) as Hok.
      congruence. }
  (* the rows of one chart group, as summary rows of the frame *)
  assert (Hsub : ∀ kt sub', (kt, sub') ∈ groups' →
            ∃ x, kt = [x] ∧ is_Some x ∧ sub' ≠ [] ∧
                 sub' = agg_row gcols agg <$>
                          filter (λ g, g.1 !! 0%nat = Some x ∧
                                       Is_true (key_selected f g.1)) groups).
  { intros kt sub' Hin.
    destruct (groupby_elem _ _ _ _ _ _ Hg' Hin) as (Hsub' & Hlen & Hc & r0 & sub'' & Hne & Hk0).
    specialize (Hc eq_refl).
    destruct kt as [|x [|y kt]]; [done| |done]. exists x. split; [done|].
    split. { apply complete_Forall in Hc. by rewrite Forall_singleton in Hc. }
    split; [by rewrite Hne|].
    rewrite Hsub', Hcomplete. unfold fs. cbn [rows]. rewrite Hrows, list_filter_filter.
    transitivity
      (filter (λ r, key_of gcols r !! 0%nat = Some x ∧
                    Is_true (key_selected f (key_of gcols r)))
              (agg_row gcols agg <$> groups)).
    - apply length_filter_ext. intros r _. by rewrite key_tipo.
    - exact (filter_agg_rows gcols agg groups
               (λ k, k !! 0%nat = Some x ∧ Is_true (key_selected f k)) Hkey). }
  (* the participants of one network *)
  assert (Hnet : ∀ x,
            filter (λ r, key_of gcols r !! 0%nat = Some x ∧
                         Is_true (key_selected f (key_of gcols r)))
                   (grouped_rows df gcols true) =
            filter (λ r0, cell_of r0 "TIPO_ESCOLA" = x) (participants f df)).
  { intros x. unfold participants. rewrite list_filter_filter.
    apply length_filter_ext. intros r _.
    change (key_of gcols r !! 0%nat) with (Some (cell_of r "TIPO_ESCOLA")).
    split; intros [Hx ?]; (split; [congruence|done]). }
  assert (Hcount : ∀ kt sub', (kt, sub') ∈ groups' →
            ∃ x, kt = [x] ∧
                 overview_tab.sum_int (λ r, code r !! "n") sub' =
                 Z.of_nat (length (filter (λ r0, cell_of r0 "TIPO_ESCOLA" = x)
                                          (participants f df))) ∧
                 filter (λ r0, cell_of r0 "TIPO_ESCOLA" = x) (participants f df) ≠ []).
  { intros kt sub' Hin. destruct (Hsub kt sub' Hin) as (x & -> & _ & Hne & Hsub').
    exists x. split; [done|].
    rewrite <-(Hnet x). split.
    { rewrite Hsub'.
      exact (overview_part_n df mc groups
               (λ k, k !! 0%nat = Some x ∧ Is_true (key_selected f k)) Hg). }
    intros Hnil.
    assert (concat (snd <$> filter (λ g : list cell * list row,
                                      g.1 !! 0%nat = Some x ∧
                                      Is_true (key_selected f g.1)) groups) ≡ₚ [])
      as Hp.
    { rewrite <-Hnil.
      exact (selected_groups_rows df gcols true groups
               (λ k, k !! 0%nat = Some x ∧ Is_true (key_selected f k)) Hg). }
    apply Permutation_nil_r in Hp. rewrite Hsub' in Hne.
    destruct (filter (λ g : list cell * list row,
                        g.1 !! 0%nat = Some x ∧ Is_true (key_selected f g.1)) groups)
      as [|[k sub] gs] eqn:Hgs; [by simpl in Hne|].
    assert ((k, sub) ∈ groups) as Hin'.
    { assert ((k, sub) ∈ filter (λ g, g.1 !! 0%nat = Some x ∧
                                      Is_true (key_selected f g.1)) groups) as Hin'
        by (rewrite Hgs; by left).
      by apply list_elem_of_filter in Hin' as [_ ?]. }
    destruct (groupby_elem _ _ _ _ _ _ Hg Hin') as (_ & _ & _ & r0 & sub'' & -> & _).
    done. }
  (* the total *)
  set (F := λ g : list cell * list row,
              from_record (zip ["TIPO_ESCOLA"] g.1 ++
                           [("n", Some (VInt (overview_tab.sum_int
                                                (λ r, code r !! "n") g.2)))])).
  assert (HF : ∀ g, g ∈ groups' →
            code (F g) !! "n" = Some (overview_tab.sum_int (λ r, code r !! "n") g.2) ∧
            [cell_of (F g) "TIPO_ESCOLA"] = g.1).
  { intros [kt sub'] Hin. destruct (Hsub kt sub' Hin) as (x & -> & _).
    unfold F. cbn [fst snd].
    destruct (count_row_cells x (overview_tab.sum_int (λ r, code r !! "n") sub'))
      as [-> ->]. done. }
  assert (Htotal : overview_tab.sum_int (λ r, code r !! "n") (F <$> groups') =
                   Z.of_nat (length (participants f df))).
  { rewrite (sum_int_fmap _ F (λ g, overview_tab.sum_int (λ r, code r !! "n") g.2))
      by (intros g Hin; by apply HF).
    transitivity (sumZ (overview_tab.sum_int (λ r, code r !! "n") <$> (snd <$> groups')));
      [by rewrite <-list_fmap_compose|].
    rewrite <-sum_int_concat, (sum_int_perm _ _ _ (groups_rows _ _ _ _ Hg')).
    rewrite Hcomplete, Hfs.
    exact (overview_part_n df mc groups (λ k, Is_true (key_selected f k)) Hg). }
  set (pct := λ r : row,
         if bool_decide (0 < overview_tab.sum_int (λ r, code r !! "n") (F <$> groups'))%Z
         then (λ c, Qc_of_Z c /
                    Qc_of_Z (overview_tab.sum_int (λ r, code r !! "n") (F <$> groups')) *
                    Qc_of_Z 100)%Qc <$> code r !! "n"
         else Some 0%Qc).
  set (fin := λ r : row, set_cell "percentual" (VNum <$> pct r) r).
  exists fs, (DF (add_col (DF ["TIPO_ESCOLA"; "n"] (F <$> groups')) "percentual")
                 (fin <$> (F <$> groups'))).
  assert (Hpct : ∀ g, g ∈ groups' →
            ∃ x, g.1 = [x] ∧
              cell_of (fin (F g)) "TIPO_ESCOLA" = x ∧
              cell_of (fin (F g)) "n" =
                Some (VInt (Z.of_nat (length (filter (λ r0, cell_of r0 "TIPO_ESCOLA" = x)
                                                     (participants f df))))) ∧
              filter (λ r0, cell_of r0 "TIPO_ESCOLA" = x) (participants f df) ≠ [] ∧
              pct (F g) =
                Some (Qc_of_nat (length (filter (λ r0, cell_of r0 "TIPO_ESCOLA" = x)
                                                (participants f df))) /
                      Qc_of_nat (length (participants f df)) * Qc_of_Z 100)%Qc).
  { intros [kt sub'] Hin. destruct (Hcount kt sub' Hin) as (x & -> & Hn & Hne).
    destruct (HF _ Hin) as [Hcode Hx]. cbn [fst snd] in Hcode, Hx.
    injection Hx as Hx. exists x. split; [done|].
    assert (participants f df ≠ []) as Hpart.
    { intros Hnil. by rewrite Hnil in Hne. }
    unfold fin. rewrite !cell_of_setitem_other by done. split; [done|]. split.
    { unfold F. cbn [fst snd]. rewrite cell_of_from_record. unfold field. simpl.
      by rewrite Hn. }
    split; [done|].
    unfold pct. rewrite Htotal, Hcode, Hn.
    rewrite bool_decide_eq_true_2; [done|].
    destruct (participants f df); [done|]. simpl. lia. }
  split_and!.
  - by apply filter_stats_rows.
  - unfold overview_tab._render_participation_by_school_type.
    rewrite (proj2 (has_col_true fs _) Htipo). cbn [negb]. rewrite Hg', ret_bind.
    unfold getitem_code. rewrite (proj2 (has_col_true fs _) Hncol), ret_bind.
    cbv zeta. reflexivity.
  - cbn [rows]. rewrite <-!list_fmap_compose.
    apply (NoDup_fmap_2_strong _ groups').
    + intros [k1 s1] [k2 s2] H1 H2 Heq. simpl in Heq.
      destruct (Hpct _ H1) as (x1 & Hk1 & Hc1 & _), (Hpct _ H2) as (x2 & Hk2 & Hc2 & _).
      cbn [fst] in Hk1, Hk2. subst k1 k2. rewrite Hc1, Hc2 in Heq. subst x2.
      pose proof (groupby_keys_NoDup _ _ _ _ Hg') as Hnd.
      destruct (groupby_elem _ _ _ _ _ _ Hg' H1) as (-> & _).
      destruct (groupby_elem _ _ _ _ _ _ Hg' H2) as (-> & _). done.
    + eapply NoDup_fmap_1. by eapply groupby_keys_NoDup.
  - intros r0 Hr0. unfold participants in Hr0.
    apply list_elem_of_filter in Hr0 as [Hsel0 Hr0].
    assert (key_of ["TIPO_ESCOLA"] r0 ∈ groups'.*1) as Hin.
    { apply (groupby_key_elem _ _ _ _ _ Hg').
      assert (key_of gcols r0 ∈ groups.*1) as Hk.
      { apply (groupby_key_elem _ _ _ _ _ Hg). by exists r0. }
      apply list_elem_of_fmap in Hk as ([k sub] & Hk & Hin). cbn [fst] in Hk.
      exists (agg_row gcols agg (k, sub)). split.
      - rewrite Hcomplete, Hfs. apply list_elem_of_fmap. eexists. split; [done|].
        apply list_elem_of_filter. split; [|done]. cbn [fst]. by rewrite <-Hk.
      - assert (key_of gcols (agg_row gcols agg (k, sub)) = key_of gcols r0) as Hkk
          by (rewrite Hk; exact (Hkey _ Hin)).
        change (key_of gcols ?x)
          with [cell_of x "TIPO_ESCOLA"; cell_of x "LOCALIZACAO"; cell_of x "SG_UF_ESC"]
          in Hkk.
        change (key_of ["TIPO_ESCOLA"] ?x) with [cell_of x "TIPO_ESCOLA"].
        injection Hkk as Hkk _ _. by rewrite Hkk. }
    apply list_elem_of_fmap in Hin as (g & Hk & Hin).
    destruct (Hpct _ Hin) as (x & Hgx & Hc & _).
    exists (fin (F g)). split.
    + cbn [rows]. apply list_elem_of_fmap. eexists. split; [done|].
      by apply list_elem_of_fmap_2.
    + rewrite Hc. rewrite Hgx in Hk.
      change (key_of ["TIPO_ESCOLA"] r0) with [cell_of r0 "TIPO_ESCOLA"] in Hk.
      by injection Hk as ->.
  - intros r Hr. cbn [rows] in Hr.
    apply list_elem_of_fmap in Hr as (r1 & -> & Hr).
    apply list_elem_of_fmap in Hr as (g & -> & Hin).
    destruct (Hpct _ Hin) as (x & _ & Hc & Hn & Hne & Hp).
    rewrite Hc. eexists. split; [done|]. split; [done|]. split; [done|].
    unfold fin at 1. rewrite cell_of_set_cell, decide_True by done. by rewrite Hp.
  - intros Hpart. cbn [rows].
    assert (0 < overview_tab.sum_int (λ r, code r !! "n") (F <$> groups'))%Z as Hpos.
    { rewrite Htotal. destruct (participants f df); [done|]. simpl. lia. }
    rewrite <-list_fmap_compose.
    rewrite (sum_num_fmap _ (fin ∘ F)
               (λ g, Qc_of_Z (overview_tab.sum_int (λ r, code r !! "n") g.2) *
                     (/ Qc_of_Z (overview_tab.sum_int (λ r, code r !! "n") (F <$> groups'))
                      * Qc_of_Z 100))%Qc).
    + rewrite (sumQ_scale (λ g : list cell * list row,
                 overview_tab.sum_int (λ r, code r !! "n") g.2)).
      rewrite <-(sum_int_fmap (λ r, code r !! "n") F) by (intros g Hin; by apply HF).
      rewrite Qcmult_assoc, Qcmult_inv_r; [ring|].
      intros H0. rewrite <-Z2Qc_inj_0 in H0. apply Z2Qc_inj in H0. lia.
    + intros g Hin. simpl. unfold fin.
      destruct (HF _ Hin) as [Hcode _].
      apply cell_VNum. rewrite cell_of_set_cell, decide_True by done.
      unfold pct. rewrite bool_decide_eq_true_2 by done. rewrite Hcode. simpl.
      do 2 f_equal. unfold Qcdiv. ring.
Qed.

(** ** The distribution chart of the overview tab *)

Lemma sum_int_default s (rs : list row) :
  overview_tab.sum_int s rs = sumZ ((λ r, default 0%Z (s r)) <$> rs).
Proof.
  induction rs as [|r rs IH]; [done|].
  by rewrite sum_int_cons, fmap_cons, sumZ_cons, IH.
Qed.

Lemma sum_int_pos s (rs : list row) :
  (∀ r, r ∈ rs → ∃ c, s r = Some c ∧ (1 ≤ c)%Z) → rs ≠ [] →
  (0 < overview_tab.sum_int s rs)%Z.
Proof.
  intros Hall Hne.
  assert (Z.of_nat (length rs) ≤ overview_tab.sum_int s rs)%Z as Hle.
  { clear Hne. induction rs as [|r rs IH]; [done|].
    rewrite sum_int_cons. destruct (Hall r) as (c & -> & Hc); [by left|].
    assert (Z.of_nat (length rs) ≤ overview_tab.sum_int s rs)%Z
      by (apply IH; intros r' Hr'; apply Hall; by right).
    simpl length. simpl default. lia. }
  destruct rs; [done|]. simpl length in Hle. lia.
Qed.

Lemma key_of_bin_row fields i c :
  key_of ["bin_idx"; "bin_left"; "bin_right"] (bin_row fields i c) = bin_key i.
Proof.
  unfold key_of, bin_key. simpl.
  by rewrite bin_row_bin_idx, bin_row_bin_left, bin_row_bin_right.
Qed.

Lemma bin_key_inj i j : bin_key i = bin_key j → i = j.
Proof. intros [= H _ _]. lia. Qed.

Lemma fst_enumerate {A} (l : list A) : (enumerate l).*1 = seq 0 (length l).
Proof. unfold enumerate. apply fst_zip. by rewrite length_seq. Qed.

(** The rows of one bin in the rows of a group and metric: at most one, with
    the number of values of the group in the bin. *)
Lemma block_bin_sum k mo vals (i : nat) :
  (i < 40)%nat →
  overview_tab.sum_int (λ r, code r !! "count")
    (filter (λ r, key_of ["bin_idx"; "bin_left"; "bin_right"] r = bin_key i)
            (hist_block gcols k mo vals)) =
  Z.of_nat (length (filter (in_bin i) vals)).
Proof.
  intros Hi. unfold hist_block. case_bool_decide as Hlen.
  - by destruct vals.
  - pose proof (np_histogram_lookup vals i Hi) as Hc.
    set (c := Z.of_nat (length (filter (in_bin i) vals))) in *.
    set (fields := zip gcols k ++ metric_field mo).
    unfold bin_rows. change (map ?f ?l) with (f <$> l).
    rewrite (filter_concat_tagged
               (key_of ["bin_idx"; "bin_left"; "bin_right"])
               (λ ic : nat * Z, bin_key ic.1)
               (λ ic : nat * Z, if bool_decide (ic.2 = 0%Z) then []
                                else [bin_row fields ic.1 ic.2])
               (enumerate (np_histogram vals bin_edges)) (i, c)).
    + simpl. case_bool_decide as Hz; [by rewrite Hz|].
      rewrite sum_int_cons. rewrite (cell_VInt _ _ _ (bin_row_count fields i c)).
      simpl. unfold overview_tab.sum_int. simpl. lia.
    + assert ((λ ic : nat * Z, bin_key ic.1) <$> enumerate (np_histogram vals bin_edges) =
              bin_key <$> seq 0 (length (np_histogram vals bin_edges))) as ->
        by (by rewrite <-fst_enumerate, <-list_fmap_compose).
      apply NoDup_fmap_2; [intros ???; by apply bin_key_inj|apply NoDup_seq].
    + by apply elem_of_enumerate.
    + intros [j cj] r _ Hr. simpl in Hr |- *.
      case_bool_decide; [by apply elem_of_nil in Hr|].
      apply list_elem_of_singleton in Hr as ->. apply key_of_bin_row.
Qed.

Lemma hist_block_one_kind k mo vals r : r ∈ hist_block gcols k mo vals → one_kind r.
Proof. intros (i & _ & _ & ->)%hist_block_elem. apply one_kind_from_record. Qed.

Lemma metric_mask r m :
  one_kind r →
  txt r !! "metric" = Some m ↔ cell_of r "metric" = Some (VStr m).
Proof.
  intros Hr. rewrite (txt_one_kind r "metric" Hr).
  destruct (cell_of r "metric") as [[]|]; naive_solver.
Qed.

(** The filter of the histogram on a table with the columns of the overview
    histogram, or with neither rows nor columns. *)
Lemma filter_hist_rows hist f :
  (rows hist = [] ∧ columns hist = []) ∨ columns hist = preprocess_enem.hist_keys →
  Forall one_kind (rows hist) →
  overview_tab._filter_hist hist f =
    Ok (DF (columns hist)
           (filter (λ r, key_selected f (key_of gcols r) ∧
                         cell_of r "metric" = Some (VStr (filters.metric_column f)))
                   (rows hist))).
Proof.
  intros [[Hrows Hcols]|Hcols] Hk.
  - destruct hist as [cols rs]. simpl in Hrows, Hcols. subst.
    unfold overview_tab._filter_hist, has_col. simpl.
    by destruct (filters.redes f), (filters.localizacoes f), (filters.ufs f).
  - assert (Hin : ∀ c, c ∈ preprocess_enem.hist_keys → c ∈ columns hist)
      by (by rewrite Hcols).
    unfold overview_tab._filter_hist. cbv zeta.
    rewrite (isin_step_rows hist "TIPO_ESCOLA" 0 (filters.redes f));
      [|done|apply Hin; by_compute|done].
    rewrite ret_bind.
    rewrite (isin_step_rows _ "LOCALIZACAO" 1 (filters.localizacoes f));
      [|done|apply Hin; by_compute|by apply Forall_filter_keep].
    rewrite ret_bind.
    rewrite (isin_step_rows _ "SG_UF_ESC" 2 (filters.ufs f));
      [|done|apply Hin; by_compute|by do 2 apply Forall_filter_keep].
    rewrite ret_bind. unfold getitem_txt, has_col. cbn [columns rows].
    rewrite bool_decide_eq_true_2 by (apply Hin; by_compute).
    rewrite ret_bind. unfold loc_mask. cbn [columns rows]. do 2 f_equal.
    rewrite !list_filter_filter. apply length_filter_ext. intros r Hr.
    rewrite Forall_forall in Hk. unfold key_selected. rewrite !andb_True.
    rewrite bool_decide_spec, (metric_mask r _ (Hk r Hr)). tauto.
Qed.

(** The rows that pass the filter, group by group. *)
Lemma filter_blocks (mc : list string) (m : string) (gs : list (list cell * list row))
    (P : list cell → Prop) `{∀ k, Decision (P k)} :
  NoDup mc → m ∈ mc → (∀ g, g ∈ gs → length g.1 = 3%nat) →
  filter (λ r, P (key_of gcols r) ∧ cell_of r "metric" = Some (VStr m))
         (concat ((λ g : list cell * list row,
                     concat ((λ m', hist_block gcols g.1 (Some m') (nonnull m' g.2))
                             <$> mc)) <$> gs)) =
  concat ((λ g : list cell * list row, hist_block gcols g.1 (Some m) (nonnull m g.2))
          <$> filter (λ g, P g.1) gs).
Proof.
  intros Hnd Hm. induction gs as [|g gs IH]; intros Hlen; [done|].
  rewrite fmap_cons. simpl concat. rewrite filter_app, IH
    by (intros g' Hg'; apply Hlen; by right).
  assert (filter (λ r, P (key_of gcols r) ∧ cell_of r "metric" = Some (VStr m))
            (concat ((λ m', hist_block gcols g.1 (Some m') (nonnull m' g.2)) <$> mc)) =
          if decide (P g.1) then hist_block gcols g.1 (Some m) (nonnull m g.2) else [])
    as ->.
  { rewrite <-list_filter_filter.
    rewrite (filter_concat_tagged (λ r, cell_of r "metric") (λ m', Some (VStr m'))
               (λ m', hist_block gcols g.1 (Some m') (nonnull m' g.2)) mc m); [| |done|].
    - destruct (decide (P g.1)) as [HP|HP].
      + apply filter_all, Forall_forall. intros r Hr.
        apply (hist_block_key _ _ _ _ (Hlen g ltac:(by left))) in Hr as [-> _]. done.
      + apply filter_none, Forall_forall. intros r Hr.
        apply (hist_block_key _ _ _ _ (Hlen g ltac:(by left))) in Hr as [-> _]. done.
    - apply NoDup_fmap_2; [|done]. by intros ?? [= ->].
    - intros m' r _ Hr.
      apply (hist_block_key _ _ _ _ (Hlen g ltac:(by left))) in Hr. by destruct Hr. }
  rewrite filter_cons. destruct (decide (P g.1)); [by rewrite fmap_cons|done].
Qed.

(** The counts of one bin, and of all bins, over the rows of some groups. *)
Lemma blocks_bin_sum m (gs : list (list cell * list row)) (i : nat) :
  (i < 40)%nat →
  overview_tab.sum_int (λ r, code r !! "count")
    (filter (λ r, key_of ["bin_idx"; "bin_left"; "bin_right"] r = bin_key i)
       (concat ((λ g : list cell * list row,
                   hist_block gcols g.1 (Some m) (nonnull m g.2)) <$> gs))) =
  Z.of_nat (length (filter (in_bin i) (nonnull m (concat (snd <$> gs))))).
Proof.
  intros Hi. induction gs as [|g gs IH]; [done|].
  rewrite !fmap_cons. simpl concat.
  rewrite filter_app, sum_int_app, IH, block_bin_sum by done.
  unfold nonnull. rewrite omap_app, filter_app, length_app. lia.
Qed.

Lemma blocks_sum m (gs : list (list cell * list row)) :
  overview_tab.sum_int (λ r, code r !! "count")
    (concat ((λ g : list cell * list row,
                hist_block gcols g.1 (Some m) (nonnull m g.2)) <$> gs)) =
  Z.of_nat (length (filter in_range (nonnull m (concat (snd <$> gs))))).
Proof.
  induction gs as [|g gs IH]; [done|].
  rewrite !fmap_cons. simpl concat. rewrite sum_int_app, IH.
  rewrite (sum_int_default _ (hist_block _ _ _ _)).
  change (λ r : row, default 0%Z (code r !! "count")) with (int_field "count").
  rewrite sum_count_hist_block_in_range.
  unfold nonnull. rewrite omap_app, filter_app, length_app. lia.
Qed.

Lemma build_overview_hist_shape df mc hist :
  preprocess_enem.build_overview_hist df mc = Ok hist →
  (rows hist = [] ∧ columns hist = []) ∨ columns hist = preprocess_enem.hist_keys.
Proof.
  unfold preprocess_enem.build_overview_hist. intros H.
  apply bind_Ok in H as (groups & _ & H).
  apply bind_Ok in H as (records & _ & [= <-]).
  destruct (concat records); [by left|by right].
Qed.

(** X19. The distribution chart of the overview tab, from the frame the
    overview histogram was built from. The values behind the chart are the
    values of the selected metric, within [0, 1000], of the participants
    selected by the filters. Without such a value the chart is replaced by
    its notice. Otherwise it has one bar for every bin that holds such a
    value and no other bar; the bar stands at the centre of its bin, counts
    the values in the bin and shows that count over the number of all the
    values, so that the shares of the bars add up to 1. *)
Theorem overview_distribution (df : DataFrame) (mc : list string) (hist : DataFrame)
    (f : filters.GlobalFilters)
    (Hh : preprocess_enem.build_overview_hist df mc = Ok hist)
    (Hnd : NoDup mc) (Hm : filters.metric_column f ∈ mc) :
  ∃ fh res,
    overview_tab._filter_hist hist f = Ok fh ∧
    overview_tab._render_distribution_chart_from_hist fh = Ok res ∧
    (res = None ↔
     filter in_range (nonnull (filters.metric_column f) (participants f df)) = []) ∧
    ∀ chart, res = Some chart →
      NoDup ((λ r, cell_of r "bin_idx") <$> rows chart) ∧
      (∀ i : nat, (i < 40)%nat →
         filter (in_bin i) (nonnull (filters.metric_column f) (participants f df)) ≠ [] →
         ∃ r, r ∈ rows chart ∧ cell_of r "bin_idx" = Some (VInt (Z.of_nat i))) ∧
      (∀ r, r ∈ rows chart →
         ∃ (i : nat) bin,
           (i < 40)%nat ∧
           bin = filter (in_bin i)
                   (nonnull (filters.metric_column f) (participants f df)) ∧
           bin ≠ [] ∧
           cell_of r "bin_idx" = Some (VInt (Z.of_nat i)) ∧
           cell_of r "count" = Some (VInt (Z.of_nat (length bin))) ∧
           cell_of r "density" =
             Some (VNum (Qc_of_nat (length bin) /
                         Qc_of_nat (length (filter in_range
                            (nonnull (filters.metric_column f) (participants f df)))))%Qc) ∧
           cell_of r "bin_center" =
             Some (VNum ((edge i + edge (S i)) / Qc_of_Z 2)%Qc)) ∧
      overview_tab.sum_num (λ r, num r !! "density") (rows chart) = 1%Qc.
Proof.
  pose proof (build_overview_hist_shape _ _ _ Hh) as Hshape.
  apply build_overview_hist_rows in Hh as (groups & Hg & Hrows).
  set (m := filters.metric_column f) in *.
  set (vals := nonnull m (participants f df)).
  assert (Hone : Forall one_kind (rows hist)).
  { rewrite Hrows. apply Forall_forall. intros r Hr.
    apply list_elem_of_concat in Hr as (l & Hr & Hl).
    apply list_elem_of_fmap in Hl as (g & -> & _).
    apply list_elem_of_concat in Hr as (l & Hr & Hl).
    apply list_elem_of_fmap in Hl as (m' & -> & _).
    by eapply hist_block_one_kind. }
  set (gsel := filter (λ g : list cell * list row, key_selected f g.1) groups).
  set (fh := DF (columns hist)
                (filter (λ r, key_selected f (key_of gcols r) ∧
                              cell_of r "metric" = Some (VStr m)) (rows hist))).
  assert (Hfh : rows fh =
                concat ((λ g : list cell * list row,
                           hist_block gcols g.1 (Some m) (nonnull m g.2)) <$> gsel)).
  { unfold fh. cbn [rows]. rewrite Hrows.
    exact (filter_blocks mc m groups (λ k, Is_true (key_selected f k)) Hnd Hm
             (λ g Hin, groupby_key_length df groups g Hg Hin)). }
  assert (Hperm : concat (snd <$> gsel) ≡ₚ participants f df).
  { exact (selected_groups_rows df gcols true groups
             (λ k, Is_true (key_selected f k)) Hg). }
  assert (Hbin : ∀ i : nat, (i < 40)%nat →
            overview_tab.sum_int (λ r, code r !! "count")
              (filter (λ r, key_of ["bin_idx"; "bin_left"; "bin_right"] r = bin_key i)
                      (rows fh)) =
            Z.of_nat (length (filter (in_bin i) vals))).
  { intros i Hi. rewrite Hfh, blocks_bin_sum by done. unfold vals, nonnull.
    by rewrite Hperm. }
  assert (Hall : overview_tab.sum_int (λ r, code r !! "count") (rows fh) =
                 Z.of_nat (length (filter in_range vals))).
  { rewrite Hfh, blocks_sum. unfold vals, nonnull. by rewrite Hperm. }
  assert (Hrow : ∀ r, r ∈ rows fh →
            ∃ (i : nat) c, (i < 40)%nat ∧ (1 ≤ c)%Z ∧ code r !! "count" = Some c ∧
                           key_of ["bin_idx"; "bin_left"; "bin_right"] r = bin_key i).
  { intros r Hr. rewrite Hfh in Hr.
    apply list_elem_of_concat in Hr as (l & Hr & Hl).
    apply list_elem_of_fmap in Hl as (g & -> & _).
    apply hist_block_elem in Hr as (i & Hi & Hc & ->).
    eexists i, _. split_and!; [done|exact Hc| |apply key_of_bin_row].
    apply cell_VInt, bin_row_count. }
  exists fh.
  destruct (decide (rows fh = [])) as [Hnil|Hne].
  { exists None. split_and!.
    - by apply filter_hist_rows.
    - unfold overview_tab._render_distribution_chart_from_hist, empty.
      by rewrite bool_decide_eq_true_2.
    - split; [intros _|done]. rewrite Hnil in Hall.
      change (overview_tab.sum_int _ []) with 0%Z in Hall.
      destruct (filter in_range vals); [done|]. simpl in Hall. lia.
    - done. }
  assert (Hcols : columns fh = preprocess_enem.hist_keys).
  { destruct Hshape as [[Hr _]|Hc]; [|done].
    exfalso. apply Hne. unfold fh. cbn [rows]. by rewrite Hr. }
  assert (Hcomplete : grouped_rows fh ["bin_idx"; "bin_left"; "bin_right"] true = rows fh).
  { unfold grouped_rows. apply filter_all, Forall_forall. intros r Hr.
    destruct (Hrow r Hr) as (i & c & _ & _ & _ & ->). done. }
  destruct (groupby fh ["bin_idx"; "bin_left"; "bin_right"] true) as [groups'|e] eqn:Hg'.
  2:{ exfalso.
      assert (Forall (λ c, c ∈ columns fh) ["bin_idx"; "bin_left"; "bin_right"]) as Hok.
      { rewrite Hcols. repeat constructor; by_compute. }
      pose proof (proj2 (groupby_Ok fh _ true _) (conj Hok eq_refl)). congruence. }
  assert (Hpos : (0 < Z.of_nat (length (filter in_range vals)))%Z).
  { rewrite <-Hall. apply sum_int_pos; [|done]. intros r Hr.
    destruct (Hrow r Hr) as (i & c & _ & Hc & Hcode & _). eauto. }
  (* the groups of the chart *)
  assert (Hgrp : ∀ kb sub', (kb, sub') ∈ groups' →
            ∃ i : nat, (i < 40)%nat ∧ kb = bin_key i ∧
                 overview_tab.sum_int (λ r, code r !! "count") sub' =
                   Z.of_nat (length (filter (in_bin i) vals)) ∧
                 filter (in_bin i) vals ≠ []).
  { intros kb sub' Hin.
    destruct (groupby_elem _ _ _ _ _ _ Hg' Hin) as (Hsub' & _ & _ & r0 & sub'' & Hr0 & Hk0).
    assert (r0 ∈ rows fh) as Hr0in.
    { assert (r0 ∈ sub') as Hr0' by (rewrite Hr0; by left).
      rewrite Hsub', Hcomplete in Hr0'. by apply list_elem_of_filter in Hr0' as [_ ?]. }
    destruct (Hrow r0 Hr0in) as (i & c & Hi & _ & _ & Hki).
    exists i. split; [done|]. split; [congruence|].
    assert (overview_tab.sum_int (λ r, code r !! "count") sub' =
            Z.of_nat (length (filter (in_bin i) vals))) as Hsum.
    { rewrite <-(Hbin i Hi), Hsub', Hcomplete. f_equal.
      apply length_filter_ext. intros r _. by rewrite <-Hk0, Hki. }
    split; [done|]. intros Hnilb. rewrite Hnilb in Hsum. simpl in Hsum.
    assert (0 < overview_tab.sum_int (λ r, code r !! "count") sub')%Z; [|lia].
    apply sum_int_pos; [|by rewrite Hr0]. intros r Hr.
    rewrite Hsub', Hcomplete in Hr. apply list_elem_of_filter in Hr as [_ Hr].
    destruct (Hrow r Hr) as (? & c' & _ & Hc' & Hcode & _). eauto. }
  set (F := λ g : list cell * list row,
              from_record (zip ["bin_idx"; "bin_left"; "bin_right"] g.1 ++
                           [("count", Some (VInt (overview_tab.sum_int
                                                    (λ r, code r !! "count") g.2)))])).
  assert (HF : ∀ g, g ∈ groups' →
            ∃ i : nat, (i < 40)%nat ∧ g.1 = bin_key i ∧
              filter (in_bin i) vals ≠ [] ∧
              cell_of (F g) "bin_idx" = Some (VInt (Z.of_nat i)) ∧
              cell_of (F g) "bin_left" = Some (VNum (edge i)) ∧
              cell_of (F g) "bin_right" = Some (VNum (edge (S i))) ∧
              cell_of (F g) "count" =
                Some (VInt (overview_tab.sum_int (λ r, code r !! "count") g.2)) ∧
              overview_tab.sum_int (λ r, code r !! "count") g.2 =
                Z.of_nat (length (filter (in_bin i) vals))).
  { intros [kb sub'] Hin. destruct (Hgrp kb sub' Hin) as (i & Hi & -> & Hsum & Hnb).
    exists i. unfold F. cbn [fst snd]. rewrite !cell_of_from_record.
    split_and!; try done. }
  assert (Htotal : overview_tab.sum_int (λ r, code r !! "count") (F <$> groups') =
                   Z.of_nat (length (filter in_range vals))).
  { rewrite (sum_int_fmap _ F
               (λ g, overview_tab.sum_int (λ r, code r !! "count") g.2)).
    2:{ intros g Hin. destruct (HF g Hin) as (i & _ & _ & _ & _ & _ & _ & Hc & _).
        by apply cell_VInt. }
    transitivity (sumZ (overview_tab.sum_int (λ r, code r !! "count") <$>
                        (snd <$> groups')));
      [by rewrite <-list_fmap_compose|].
    rewrite <-sum_int_concat, (sum_int_perm _ _ _ (groups_rows _ _ _ _ Hg')).
    by rewrite Hcomplete. }
  set (total := overview_tab.sum_int (λ r, code r !! "count") (F <$> groups')) in *.
  set (dens := λ r : row,
         if bool_decide (0 < total)%Z
         then (λ c, Qc_of_Z c / Qc_of_Z total)%Qc <$> code r !! "count"
         else Some 0%Qc).
  set (fin1 := λ r : row, set_cell "density" (VNum <$> dens r) r).
  set (fin2 := λ r : row,
         set_cell "bin_center"
           (VNum <$> (l ← num r !! "bin_left"; h ← num r !! "bin_right";
                      Some ((l + h) / Qc_of_Z 2)%Qc)) r).
  assert (Hfin : ∀ g, g ∈ groups' →
            ∃ i : nat, (i < 40)%nat ∧ g.1 = bin_key i ∧
              filter (in_bin i) vals ≠ [] ∧
              cell_of (fin2 (fin1 (F g))) "bin_idx" = Some (VInt (Z.of_nat i)) ∧
              cell_of (fin2 (fin1 (F g))) "count" =
                Some (VInt (Z.of_nat (length (filter (in_bin i) vals)))) ∧
              cell_of (fin2 (fin1 (F g))) "density" =
                Some (VNum (Qc_of_nat (length (filter (in_bin i) vals)) /
                            Qc_of_nat (length (filter in_range vals)))%Qc) ∧
              cell_of (fin2 (fin1 (F g))) "bin_center" =
                Some (VNum ((edge i + edge (S i)) / Qc_of_Z 2)%Qc)).
  { intros g Hin.
    destruct (HF g Hin) as (i & Hi & Hk & Hnb & Hidx & Hl & Hr & Hc & Hsum).
    exists i. split; [done|]. split; [done|]. split; [done|].
    assert (dens (F g) = Some (Qc_of_nat (length (filter (in_bin i) vals)) /
                               Qc_of_nat (length (filter in_range vals)))%Qc) as Hd.
    { unfold dens. rewrite bool_decide_eq_true_2 by lia.
      rewrite (cell_VInt _ _ _ Hc), Hsum, Htotal. done. }
    assert (num (fin1 (F g)) !! "bin_left" = Some (edge i)) as Hl1.
    { apply cell_VNum. unfold fin1. by rewrite cell_of_setitem_other. }
    assert (num (fin1 (F g)) !! "bin_right" = Some (edge (S i))) as Hr1.
    { apply cell_VNum. unfold fin1. by rewrite cell_of_setitem_other. }
    unfold fin2. rewrite !cell_of_set_cell. rewrite Hl1, Hr1.
    rewrite !decide_False by done. rewrite decide_True by done.
    unfold fin1. rewrite !cell_of_set_cell.
    rewrite !decide_False by done. rewrite decide_True by done.
    rewrite Hidx, Hc, Hsum, Hd. done. }
  exists (Some (DF (add_col (DF (add_col (DF (["bin_idx"; "bin_left"; "bin_right"] ++ ["count"])
                                             (F <$> groups')) "density")
                                (fin1 <$> (F <$> groups'))) "bin_center")
                   (fin2 <$> (fin1 <$> (F <$> groups'))))).
  split_and!.
  - by apply filter_hist_rows.
  - unfold overview_tab._render_distribution_chart_from_hist, empty.
    rewrite bool_decide_eq_false_2 by done.
    rewrite bool_decide_eq_false_2 by (by rewrite Hcols).
    cbn [orb]. rewrite Hg', ret_bind.
    unfold getitem_code, has_col. rewrite bool_decide_eq_true_2
      by (rewrite Hcols; by_compute).
    rewrite ret_bind. reflexivity.
  - split; [done|]. intros Hnil. rewrite Hnil in Hpos. simpl in Hpos. lia.
  - intros chart [= <-]. cbn [rows]. rewrite <-!list_fmap_compose. split_and!.
    + apply (NoDup_fmap_2_strong _ groups').
      * intros g1 g2 H1 H2 Heq. simpl in Heq.
        destruct (Hfin _ H1) as (i1 & _ & Hk1 & _ & Hc1 & _).
        destruct (Hfin _ H2) as (i2 & _ & Hk2 & _ & Hc2 & _).
        rewrite Hc1, Hc2 in Heq. injection Heq as Heq.
        apply Nat2Z.inj in Heq. subst i2.
        pose proof (groupby_keys_NoDup _ _ _ _ Hg') as Hndk.
        destruct g1 as [k1 s1], g2 as [k2 s2]. cbn [fst] in Hk1, Hk2. subst k1 k2.
        destruct (groupby_elem _ _ _ _ _ _ Hg' H1) as (-> & _).
        destruct (groupby_elem _ _ _ _ _ _ Hg' H2) as (-> & _). done.
      * eapply NoDup_fmap_1. by eapply groupby_keys_NoDup.
    + intros i Hi Hnb.
      assert (bin_key i ∈ groups'.*1) as Hin.
      { apply (groupby_key_elem _ _ _ _ _ Hg'). rewrite Hcomplete.
        destruct (filter (λ r, key_of ["bin_idx"; "bin_left"; "bin_right"] r = bin_key i)
                         (rows fh)) as [|r0 l] eqn:Hflt.
        - exfalso. specialize (Hbin i Hi). rewrite Hflt in Hbin.
          change (overview_tab.sum_int _ []) with 0%Z in Hbin.
          destruct (filter (in_bin i) vals); [done|]. simpl in Hbin. lia.
        - assert (r0 ∈ filter (λ r, key_of ["bin_idx"; "bin_left"; "bin_right"] r
                                    = bin_key i) (rows fh)) as Hr0
            by (rewrite Hflt; by left).
          apply list_elem_of_filter in Hr0 as [? ?]. by exists r0. }
      apply list_elem_of_fmap in Hin as (g & Hk & Hin).
      destruct (Hfin _ Hin) as (i' & _ & Hk' & _ & Hc & _).
      rewrite Hk' in Hk. apply bin_key_inj in Hk. subst i'.
      exists (fin2 (fin1 (F g))). split; [|done].
      apply list_elem_of_fmap. by exists g.
    + intros r Hr. apply list_elem_of_fmap in Hr as (g & -> & Hin).
      destruct (Hfin _ Hin) as (i & Hi & _ & Hnb & Hidx & Hc & Hd & Hcen).
      exists i, (filter (in_bin i) vals). simpl. split_and!; done.
    + rewrite (sum_num_fmap _ (fin2 ∘ fin1 ∘ F)
                 (λ g, Qc_of_Z (overview_tab.sum_int (λ r, code r !! "count") g.2) *
                       / Qc_of_Z total)%Qc).
      * rewrite (sumQ_scale (λ g : list cell * list row,
                   overview_tab.sum_int (λ r, code r !! "count") g.2)).
        rewrite <-(sum_int_fmap (λ r, code r !! "count") F).
        2:{ intros g Hin. destruct (HF g Hin) as (i & _ & _ & _ & _ & _ & _ & Hc & _).
            by apply cell_VInt. }
        fold total. apply Qcmult_inv_r.
        intros H0. rewrite <-Z2Qc_inj_0 in H0. apply Z2Qc_inj in H0. lia.
      * intros g Hin. simpl.
        destruct (Hfin _ Hin) as (i & _ & Hk & _ & _ & _ & Hd & _).
        destruct (HF g Hin) as (i' & _ & Hk' & _ & _ & _ & _ & _ & Hsum).
        rewrite Hk in Hk'. apply bin_key_inj in Hk'. subst i'.
        apply cell_VNum. by rewrite Hd, Hsum, Htotal.
Qed.

(** ** The summary by region of the map tab *)

Lemma map_step_rows df c (i : nat) sel :
  gcols !! i = Some c → c ∈ columns df → Forall one_kind (rows df) →
  match map_tab.active sel with
  | Some l => s ← getitem_txt df c; Ok (loc_mask df (isin s l))
  | None => Ok df
  end = Ok (DF (columns df)
               (filter (λ r, cell_selected (map_tab.active sel) (key_of gcols r !! i))
                       (rows df))).
Proof.
  intros Hi Hc Hk.
  pose proof (isin_step_rows df c i (map_tab.active sel) Hi Hc Hk) as Hstep.
  destruct (map_tab.active sel) as [l|]; [|done].
  by rewrite (proj2 (has_col_true df c) Hc) in Hstep.
Qed.

Lemma map_filters_rows df f :
  Forall (λ c, c ∈ columns df) gcols → Forall one_kind (rows df) →
  map_tab._apply_map_filters df f =
    Ok (DF (columns df)
           (filter (λ r, key_selected (only_active f) (key_of gcols r)) (rows df))).
Proof.
  intros Hcols Hk. unfold map_tab._apply_map_filters. cbv zeta.
  rewrite Forall_forall in Hcols.
  rewrite (map_step_rows df "TIPO_ESCOLA" 0 (filters.redes f));
    [|done|apply Hcols; set_solver|done].
  rewrite ret_bind.
  rewrite (map_step_rows _ "LOCALIZACAO" 1 (filters.localizacoes f));
    [|done|apply Hcols; set_solver|by apply Forall_filter_keep].
  rewrite ret_bind.
  rewrite (map_step_rows _ "SG_UF_ESC" 2 (filters.ufs f));
    [|done|apply Hcols; set_solver|by do 2 apply Forall_filter_keep].
  cbn [columns rows]. do 2 f_equal.
  rewrite !list_filter_filter. apply length_filter_ext. intros r _.
  unfold key_selected, only_active.
  cbn [filters.redes filters.localizacoes filters.ufs]. rewrite !andb_True. tauto.
Qed.

Lemma map_sum_cell mc m g :
  m ∈ mc →
  cell_of (agg_row preprocess_map_uf.group_cols (preprocess_map_uf.agg_dict mc) g)
          ("sum_" +:+ m) = Some (VNum (sumQ (nonnull m g.2))).
Proof.
  intros Hm.
  assert (("sum_" +:+ m, (m, Sum)) ∈ preprocess_map_uf.agg_dict mc) as Ha.
  { right. apply list_elem_of_fmap. by exists m. }
  apply (agg_row_cell _ _ g ("sum_" +:+ m, (m, Sum)) Ha).
  intros a' Ha'. by apply (map_agg_dict_inj mc).
Qed.

(** X20. The summary by region of the map tab, from the frame the map
    summary was built from (the normalized rows with a composite score and a
    region). The participants behind it are the frame rows that pass the
    filters, an empty selection counting as no selection and a row with a
    null network or locale passing only where that dimension is not
    filtered. The summary has one row for every region that occurs among
    them, and no two for the same region; the row counts the participants of
    its region, sums their non-null values of the metric and shows that sum
    over the count as the mean. *)
Theorem map_tab_summary (d : DataDir) (df : DataFrame) (mc : list string)
    (out : DataFrame) (f : filters.GlobalFilters) (m : string)
    (Hframe : preprocess_map_uf.map_frame d = Ok (df, mc))
    (Hrun : preprocess_map_uf.main d = Ok out)
    (Hm : m ∈ mc) :
  ∃ fo s part,
    map_tab._apply_map_filters out f = Ok fo ∧
    map_tab._build_uf_summary fo m = Ok s ∧
    part = filter (λ r, key_selected (only_active f) (key_of gcols r)) (rows df) ∧
    (empty fo = true ↔ part = []) ∧
    NoDup ((λ r, cell_of r "SG_UF_ESC") <$> rows s) ∧
    (∀ r0, r0 ∈ part →
           ∃ r, r ∈ rows s ∧ cell_of r "SG_UF_ESC" = cell_of r0 "SG_UF_ESC") ∧
    (∀ r, r ∈ rows s →
       ∃ reg,
         reg = filter (λ r0, cell_of r0 "SG_UF_ESC" = cell_of r "SG_UF_ESC") part ∧
         reg ≠ [] ∧
         cell_of r "n_participantes" = Some (VInt (Z.of_nat (length reg))) ∧
         cell_of r "sum_metric" = Some (VNum (sumQ (nonnull m reg))) ∧
         cell_of r "nota_media" =
           Some (VNum (sumQ (nonnull m reg) / Qc_of_nat (length reg))%Qc)).
Proof.
  pose proof (map_frame_shape _ _ _ Hframe) as (raw & ndf & _ & _ & _ & _ & Hdf).
  unfold preprocess_map_uf.main in Hrun. rewrite Hframe, ret_bind in Hrun.
  cbn [fst snd] in Hrun.
  apply groupby_agg_Ok in Hrun as (groups & Hg & _ & Hcols & Hrows).
  set (mgc := preprocess_map_uf.group_cols) in *.
  set (agg := preprocess_map_uf.agg_dict mc) in *.
  set (fa := only_active f).
  change (map (agg_row mgc agg) groups) with (agg_row mgc agg <$> groups) in Hrows.
  assert (Hregion : ∀ r, r ∈ rows df → is_Some (cell_of r "SG_UF_ESC")).
  { intros r Hr. rewrite Hdf in Hr. cbn [rows] in Hr.
    apply list_elem_of_filter in Hr as [Hr _].
    by apply notnull_all_single, Is_true_true. }
  assert (Hkey : ∀ g, g ∈ groups → key_of mgc (agg_row mgc agg g) = g.1).
  { intros [k sub] Hin.
    destruct (groupby_elem _ _ _ _ _ _ Hg Hin) as (_ & Hlen & _).
    apply key_of_agg_row; [apply map_group_cols_NoDup|done|apply map_group_cols_fresh]. }
  assert (Hone : Forall one_kind (rows out)).
  { rewrite Hrows. apply Forall_fmap, Forall_forall. intros g _.
    apply one_kind_agg_row. }
  assert (Hgc : Forall (λ c, c ∈ columns out) gcols).
  { apply Forall_forall. intros c Hc. rewrite Hcols. apply elem_of_app. left.
    unfold gcols, preprocess_enem.group_cols in Hc. unfold mgc, preprocess_map_uf.group_cols.
    set_solver. }
  set (P := λ km : list cell,
              Is_true (key_selected fa (match km with
                                        | [u; t; l] => [t; l; u]
                                        | k => k
                                        end))).
  set (fo := DF (columns out)
                (filter (λ r, key_selected fa (key_of gcols r)) (rows out))).
  assert (Hfo : ∀ (Q : list cell → Prop) `{∀ k, Decision (Q k)},
            filter (λ r, Q (key_of mgc r)) (rows fo) =
            agg_row mgc agg <$> filter (λ g, Q g.1 ∧ P g.1) groups).
  { intros Q HQ. unfold fo. cbn [rows]. rewrite Hrows, list_filter_filter.
    exact (filter_agg_rows mgc agg groups (λ k, Q k ∧ P k) Hkey). }
  assert (Hpart : ∀ (Q : list cell → Prop) `{∀ k, Decision (Q k)},
            concat (snd <$> filter (λ g, Q g.1 ∧ P g.1) groups) ≡ₚ
            filter (λ r, Q (key_of mgc r))
                   (filter (λ r, key_selected fa (key_of gcols r)) (rows df))).
  { intros Q HQ. rewrite list_filter_filter.
    exact (selected_groups_rows df mgc false groups (λ k, Q k ∧ P k) Hg). }
  assert (Hfo_all : rows fo = agg_row mgc agg <$> filter (λ g, P g.1) groups).
  { unfold fo. cbn [rows]. rewrite Hrows.
    exact (filter_agg_rows mgc agg groups P Hkey). }
  assert (Hpart_all : concat (snd <$> filter (λ g, P g.1) groups) ≡ₚ
                      filter (λ r, key_selected fa (key_of gcols r)) (rows df)).
  { exact (selected_groups_rows df mgc false groups P Hg). }
  set (part := filter (λ r, key_selected fa (key_of gcols r)) (rows df)) in *.
  assert (Hgroup_region : ∀ g, g ∈ groups → ∃ x, g.1 !! 0%nat = Some x ∧ is_Some x ∧
                                                 g.2 ≠ []).
  { intros [k sub] Hin.
    destruct (groupby_elem _ _ _ _ _ _ Hg Hin) as (Hsub & _ & _ & r0 & sub' & Hne & Hk0).
    exists (cell_of r0 "SG_UF_ESC"). rewrite <-Hk0. cbn [fst snd].
    split; [done|]. split; [|by rewrite Hne]. apply Hregion.
    assert (r0 ∈ sub) as Hr0 by (rewrite Hne; by left).
    rewrite Hsub in Hr0. by apply list_elem_of_filter in Hr0 as [_ ?]. }
  assert (Hsumcol : "sum_" +:+ m ∈ columns fo).
  { unfold fo. cbn [columns]. rewrite Hcols. apply elem_of_app. right.
    apply list_elem_of_fmap. exists ("sum_" +:+ m, (m, Sum)). split; [done|].
    right. apply list_elem_of_fmap. by exists m. }
  assert (Hncol : "n_participantes" ∈ columns fo).
  { unfold fo. cbn [columns]. rewrite Hcols. apply elem_of_app. right. by left. }
  assert (Hufcol : "SG_UF_ESC" ∈ columns fo).
  { unfold fo. cbn [columns]. rewrite Hcols. apply elem_of_app. left. by left. }
  assert (Hcomplete : grouped_rows fo ["SG_UF_ESC"] true = rows fo).
  { unfold grouped_rows. apply filter_all, Forall_forall. intros r Hr.
    rewrite Hfo_all in Hr. apply list_elem_of_fmap in Hr as (g & -> & Hin).
    apply list_elem_of_filter in Hin as [_ Hin].
    destruct (Hgroup_region g Hin) as (x & Hx & Hsome & _).
    pose proof (Hkey g Hin) as Hk. rewrite <-Hk in Hx.
    change (key_of mgc ?r !! 0%nat) with (Some (cell_of r "SG_UF_ESC")) in Hx.
    injection Hx as Hx. apply Is_true_true, complete_Forall.
    change (key_of ["SG_UF_ESC"] ?r) with [cell_of r "SG_UF_ESC"].
    apply Forall_singleton. by rewrite Hx. }
  destruct (groupby fo ["SG_UF_ESC"] true) as [groups'|e] eqn:Hg'.
  2:{ exfalso.
      pose proof (proj2 (groupby_Ok fo ["SG_UF_ESC"] true _)
                    (conj (proj2 (Forall_singleton (λ c, c ∈ columns fo) "SG_UF_ESC")
                                 Hufcol) eq_refl)) as Hok.
      congruence. }
  (* one region *)
  assert (Hreg : ∀ x,
            filter (λ r, key_of mgc r !! 0%nat = Some x) part =
            filter (λ r0, cell_of r0 "SG_UF_ESC" = x) part).
  { intros x. apply length_filter_ext. intros r _.
    change (key_of mgc r !! 0%nat) with (Some (cell_of r "SG_UF_ESC")).
    split; [by intros [= ->]|by intros ->]. }
  assert (Hsub : ∀ ku sub', (ku, sub') ∈ groups' →
            ∃ x, ku = [x] ∧
              overview_tab.sum_int (λ r, code r !! "n_participantes") sub' =
                Z.of_nat (length (filter (λ r0, cell_of r0 "SG_UF_ESC" = x) part)) ∧
              overview_tab.sum_num (λ r, num r !! ("sum_" +:+ m)) sub' =
                sumQ (nonnull m (filter (λ r0, cell_of r0 "SG_UF_ESC" = x) part)) ∧
              filter (λ r0, cell_of r0 "SG_UF_ESC" = x) part ≠ []).
  { intros ku sub' Hin.
    destruct (groupby_elem _ _ _ _ _ _ Hg' Hin)
      as (Hsub' & Hlen & _ & r0 & sub'' & Hne & Hk0).
    destruct ku as [|x [|y ku]]; [done| |done]. exists x. split; [done|].
    assert (sub' = agg_row mgc agg <$>
                     filter (λ g, g.1 !! 0%nat = Some x ∧ P g.1) groups) as Hs.
    { rewrite Hsub', Hcomplete.
      transitivity (filter (λ r, key_of mgc r !! 0%nat = Some x) (rows fo));
        [|exact (Hfo (λ k, k !! 0%nat = Some x) _)].
      apply length_filter_ext. intros r _.
      change (key_of ["SG_UF_ESC"] r) with [cell_of r "SG_UF_ESC"].
      change (key_of mgc r !! 0%nat) with (Some (cell_of r "SG_UF_ESC")).
      split; by intros [= ->]. }
    assert (concat (snd <$> filter (λ g : list cell * list row,
                                      g.1 !! 0%nat = Some x ∧ P g.1) groups) ≡ₚ
            filter (λ r0, cell_of r0 "SG_UF_ESC" = x) part) as Hp.
    { rewrite <-(Hreg x). exact (Hpart (λ k, k !! 0%nat = Some x) _). }
    split_and!.
    - rewrite Hs, (sum_int_agg_rows mgc agg "n_participantes")
        by (intros g _; apply map_n_cell).
      by rewrite Hp.
    - rewrite Hs, (sum_num_agg_rows mgc agg ("sum_" +:+ m) m)
        by (intros g _; by apply map_sum_cell).
      apply sumQ_perm. unfold nonnull. by rewrite Hp.
    - intros Hnil. rewrite Hnil in Hp. apply Permutation_nil_r in Hp.
      rewrite Hs in Hne.
      destruct (filter (λ g : list cell * list row,
                          g.1 !! 0%nat = Some x ∧ P g.1) groups)
        as [|g gs] eqn:Hgs; [by simpl in Hne|].
      assert (g ∈ groups) as Hin'.
      { assert (g ∈ filter (λ g : list cell * list row,
                              g.1 !! 0%nat = Some x ∧ P g.1) groups) as Hin'
          by (rewrite Hgs; by left).
        by apply list_elem_of_filter in Hin' as [_ ?]. }
      destruct (Hgroup_region g Hin') as (_ & _ & _ & Hnonempty).
      rewrite fmap_cons in Hp. simpl in Hp. by destruct (g.2). }
  set (F := λ g : list cell * list row,
              from_record
                (zip ["SG_UF_ESC"] g.1 ++
                 [("n_participantes",
                   Some (VInt (overview_tab.sum_int
                                 (λ r, code r !! "n_participantes") g.2)));
                  ("sum_metric",
                   Some (VNum (overview_tab.sum_num
                                 (λ r, num r !! ("sum_" +:+ m)) g.2)))])).
  set (mask := λ r : row, match code r !! "n_participantes" with
                          | Some z => bool_decide (0 < z)%Z
                          | None => false
                          end).
  set (fin := λ r : row,
         set_cell "nota_media"
           (VNum <$> (q ← num r !! "sum_metric"; z ← code r !! "n_participantes";
                      Some (q / Qc_of_Z z)%Qc)) r).
  assert (HF : ∀ g, g ∈ groups' →
            ∃ x, g.1 = [x] ∧
              filter (λ r0, cell_of r0 "SG_UF_ESC" = x) part ≠ [] ∧
              cell_of (F g) "SG_UF_ESC" = x ∧
              cell_of (F g) "n_participantes" =
                Some (VInt (Z.of_nat (length (filter (λ r0, cell_of r0 "SG_UF_ESC" = x)
                                                     part)))) ∧
              cell_of (F g) "sum_metric" =
                Some (VNum (sumQ (nonnull m (filter (λ r0, cell_of r0 "SG_UF_ESC" = x)
                                                    part))))).
  { intros [ku sub'] Hin. destruct (Hsub ku sub' Hin) as (x & -> & Hn & Hs & Hne).
    exists x. unfold F. cbn [fst snd]. rewrite !cell_of_from_record, Hn, Hs.
    split_and!; done. }
  assert (Hmask : filter (λ r, mask r) (F <$> groups') = F <$> groups').
  { apply filter_all, Forall_forall. intros r Hr.
    apply list_elem_of_fmap in Hr as (g & -> & Hin).
    destruct (HF g Hin) as (x & _ & Hne & _ & Hn & _). unfold mask.
    rewrite (cell_VInt _ _ _ Hn). apply bool_decide_pack.
    destruct (filter _ part); [done|]. simpl. lia. }
  assert (Hfin : ∀ g, g ∈ groups' →
            ∃ x, g.1 = [x] ∧
              filter (λ r0, cell_of r0 "SG_UF_ESC" = x) part ≠ [] ∧
              cell_of (fin (F g)) "SG_UF_ESC" = x ∧
              cell_of (fin (F g)) "n_participantes" =
                Some (VInt (Z.of_nat (length (filter (λ r0, cell_of r0 "SG_UF_ESC" = x)
                                                     part)))) ∧
              cell_of (fin (F g)) "sum_metric" =
                Some (VNum (sumQ (nonnull m (filter (λ r0, cell_of r0 "SG_UF_ESC" = x)
                                                    part)))) ∧
              cell_of (fin (F g)) "nota_media" =
                Some (VNum (sumQ (nonnull m (filter (λ r0, cell_of r0 "SG_UF_ESC" = x)
                                                    part)) /
                            Qc_of_nat (length (filter (λ r0, cell_of r0 "SG_UF_ESC" = x)
                                                      part)))%Qc)).
  { intros g Hin. destruct (HF g Hin) as (x & Hk & Hne & Hx & Hn & Hs).
    exists x. unfold fin. rewrite !cell_of_set_cell.
    rewrite !decide_False by done. rewrite decide_True by done.
    rewrite (cell_VInt _ _ _ Hn), (proj1 (cell_VNum _ _ _) Hs).
    split_and!; done. }
  exists fo, (DF (add_col (DF ["SG_UF_ESC"; "n_participantes"; "sum_metric"]
                              (filter (λ r, mask r) (F <$> groups'))) "nota_media")
                 (fin <$> filter (λ r, mask r) (F <$> groups'))), part.
  split_and!.
  - by apply map_filters_rows.
  - unfold map_tab._build_uf_summary. cbv zeta.
    rewrite (proj2 (has_col_true fo _) Hsumcol). cbn [negb]. rewrite Hg', ret_bind.
    unfold getitem_code. rewrite (proj2 (has_col_true fo _) Hncol), ret_bind.
    unfold getitem_num. rewrite (proj2 (has_col_true fo _) Hsumcol), ret_bind.
    reflexivity.
  - done.
  - unfold empty. rewrite (bool_decide_eq_false_2 (columns fo = []))
      by (intros Hnil; rewrite Hnil in Hufcol; by apply elem_of_nil in Hufcol).
    rewrite orb_false_r, bool_decide_eq_true, Hfo_all. split.
    + intros Hnil%fmap_nil_inv. rewrite Hnil in Hpart_all.
      by apply Permutation_nil in Hpart_all.
    + intros Hnil. rewrite Hnil in Hpart_all. apply Permutation_nil_r in Hpart_all.
      destruct (filter (λ g : list cell * list row, P g.1) groups) as [|g gs] eqn:Hgs;
        [done|].
      assert (g ∈ groups) as Hin'.
      { assert (g ∈ filter (λ g : list cell * list row, P g.1) groups) as Hin'
          by (rewrite Hgs; by left).
        by apply list_elem_of_filter in Hin' as [_ ?]. }
      destruct (Hgroup_region g Hin') as (_ & _ & _ & Hnonempty).
      rewrite fmap_cons in Hpart_all. simpl in Hpart_all. by destruct (g.2).
  - cbn [rows]. rewrite Hmask, <-!list_fmap_compose.
    apply (NoDup_fmap_2_strong _ groups').
    + intros [k1 s1] [k2 s2] H1 H2 Heq. simpl in Heq.
      destruct (Hfin _ H1) as (x1 & Hk1 & _ & Hc1 & _),
               (Hfin _ H2) as (x2 & Hk2 & _ & Hc2 & _).
      cbn [fst] in Hk1, Hk2. subst k1 k2. rewrite Hc1, Hc2 in Heq. subst x2.
      destruct (groupby_elem _ _ _ _ _ _ Hg' H1) as (-> & _).
      destruct (groupby_elem _ _ _ _ _ _ Hg' H2) as (-> & _). done.
    + eapply NoDup_fmap_1. by eapply groupby_keys_NoDup.
  - intros r0 Hr0. cbn [rows]. rewrite Hmask.
    assert (key_of ["SG_UF_ESC"] r0 ∈ groups'.*1) as Hin.
    { apply (groupby_key_elem _ _ _ _ _ Hg'). rewrite Hcomplete.
      apply list_elem_of_filter in Hr0 as [Hsel0 Hr0].
      assert (key_of mgc r0 ∈ groups.*1) as Hk.
      { apply (groupby_key_elem _ _ _ _ _ Hg). by exists r0. }
      apply list_elem_of_fmap in Hk as ([k sub] & Hk & Hin). cbn [fst] in Hk.
      exists (agg_row mgc agg (k, sub)). split.
      - rewrite Hfo_all. apply list_elem_of_fmap. eexists. split; [done|].
        apply list_elem_of_filter. split; [|done]. cbn [fst]. by rewrite <-Hk.
      - assert (key_of mgc (agg_row mgc agg (k, sub)) = key_of mgc r0) as Hkk
          by (rewrite Hk; exact (Hkey _ Hin)).
        change (key_of mgc ?x)
          with [cell_of x "SG_UF_ESC"; cell_of x "TIPO_ESCOLA"; cell_of x "LOCALIZACAO"]
          in Hkk.
        change (key_of ["SG_UF_ESC"] ?x) with [cell_of x "SG_UF_ESC"].
        injection Hkk as Hkk _ _. by rewrite Hkk. }
    apply list_elem_of_fmap in Hin as (g & Hk & Hin).
    destruct (Hfin _ Hin) as (x & Hgx & _ & Hc & _).
    exists (fin (F g)). split.
    + apply list_elem_of_fmap. eexists. split; [done|]. by apply list_elem_of_fmap_2.
    + rewrite Hc. rewrite Hgx in Hk.
      change (key_of ["SG_UF_ESC"] r0) with [cell_of r0 "SG_UF_ESC"] in Hk.
      by injection Hk as ->.
  - intros r Hr. cbn [rows] in Hr. rewrite Hmask in Hr.
    apply list_elem_of_fmap in Hr as (r1 & -> & Hr).
    apply list_elem_of_fmap in Hr as (g & -> & Hin).
    destruct (Hfin _ Hin) as (x & _ & Hne & Hc & Hn & Hs & Hmean).
    rewrite Hc. eexists. split; [done|]. split_and!; done.
Qed.

(** ** The overview tab as a whole *)

Lemma selected_groups_nil df gc dk groups (P : list cell → Prop)
    `{∀ k, Decision (P k)} :
  groupby df gc dk = Ok groups →
  filter (λ g, P g.1) groups = [] ↔
  filter (λ r, P (key_of gc r)) (grouped_rows df gc dk) = [].
Proof.
  intros Hg. pose proof (selected_groups_rows df gc dk groups P Hg) as Hperm. split.
  - intros Hnil. rewrite Hnil in Hperm. simpl in Hperm.
    by apply Permutation_nil_l in Hperm.
  - intros Hnil. rewrite Hnil in Hperm. apply Permutation_nil_r in Hperm.
    destruct (filter (λ g, P g.1) groups) as [|[k sub] gs] eqn:Hgs; [done|].
    assert ((k, sub) ∈ groups) as Hin.
    { assert ((k, sub) ∈ filter (λ g, P g.1) groups) as Hin by (rewrite Hgs; by left).
      by apply list_elem_of_filter in Hin as [_ ?]. }
    destruct (groupby_elem _ _ _ _ _ _ Hg Hin) as (_ & _ & _ & r0 & sub' & -> & _).
    done.
Qed.

Lemma kpi_row_runs fs m :
  "n" ∈ columns fs → "TIPO_ESCOLA" ∈ columns fs →
  ∃ k, overview_tab._render_kpi_row fs m = Ok k ∧
       (k = None ↔ "sum_" +:+ m ∉ columns fs).
Proof.
  intros Hn Ht. unfold overview_tab._render_kpi_row. cbv zeta.
  destruct (has_col fs ("sum_" +:+ m)) eqn:Hs.
  - apply has_col_true in Hs. cbn [negb].
    unfold getitem_code, getitem_num, getitem_txt.
    rewrite (proj2 (has_col_true fs _) Hn), (proj2 (has_col_true fs _) Hs),
      (proj2 (has_col_true fs _) Ht).
    eexists. split; [reflexivity|]. split; [done|]. intros Hno. done.
  - apply has_col_false in Hs. exists None. by split.
Qed.

Lemma distribution_runs fh :
  (rows fh = [] ∧ columns fh = []) ∨ columns fh = preprocess_enem.hist_keys →
  ∃ res, overview_tab._render_distribution_chart_from_hist fh = Ok res.
Proof.
  intros Hshape. unfold overview_tab._render_distribution_chart_from_hist.
  destruct (empty fh) eqn:Hemp; [by eexists|].
  destruct Hshape as [[Hr _]|Hc].
  { unfold empty in Hemp. by rewrite Hr in Hemp. }
  assert (Forall (λ c, c ∈ columns fh) ["bin_idx"; "bin_left"; "bin_right"]) as Hok.
  { rewrite Hc. repeat constructor; by_compute. }
  rewrite (proj2 (groupby_Ok fh _ true _) (conj Hok eq_refl)), ret_bind.
  unfold getitem_code, has_col.
  rewrite bool_decide_eq_true_2 by (rewrite Hc; by_compute).
  rewrite ret_bind. by eexists.
Qed.

Lemma participation_runs fs :
  "n" ∈ columns fs → "TIPO_ESCOLA" ∈ columns fs →
  ∃ chart, overview_tab._render_participation_by_school_type fs = Ok (Some chart).
Proof.
  intros Hn Ht. unfold overview_tab._render_participation_by_school_type.
  rewrite (proj2 (has_col_true fs _) Ht). cbn [negb].
  rewrite (proj2 (groupby_Ok fs ["TIPO_ESCOLA"] true _)
             (conj (proj2 (Forall_singleton (λ c, c ∈ columns fs) "TIPO_ESCOLA") Ht)
                   eq_refl)), ret_bind.
  unfold getitem_code. rewrite (proj2 (has_col_true fs _) Hn), ret_bind.
  by eexists.
Qed.

(** X21. The overview tab on the two artifacts of one frame raises nothing,
    whatever the filters and the metric. It shows its warning and nothing
    else exactly when no participant of the frame passes the filters.
    Otherwise it shows the participation chart, the distribution chart or
    its notice, and the indicators, which are replaced by their own warning
    exactly when the metric is not one of the metric columns of the data. *)
Theorem overview_tab_runs (df : DataFrame) (mc : list string) (stats hist : DataFrame)
    (f : filters.GlobalFilters)
    (Hs : preprocess_enem.build_overview_stats df mc = Ok stats)
    (Hh : preprocess_enem.build_overview_hist df mc = Ok hist) :
  ∃ v,
    overview_tab.render_overview_tab stats hist f = Ok v ∧
    (v = None ↔ participants f df = []) ∧
    ∀ w, v = Some w →
      is_Some (overview_tab.participation w) ∧
      (overview_tab.indicators w = None ↔ filters.metric_column f ∉ mc).
Proof.
  pose proof (build_overview_hist_shape _ _ _ Hh) as Hshape.
  apply build_overview_hist_rows in Hh as (groups_h & _ & Hrows_h).
  assert (Hone_h : Forall one_kind (rows hist)).
  { rewrite Hrows_h. apply Forall_forall. intros r Hr.
    apply list_elem_of_concat in Hr as (l & Hr & Hl).
    apply list_elem_of_fmap in Hl as (g & -> & _).
    apply list_elem_of_concat in Hr as (l & Hr & Hl).
    apply list_elem_of_fmap in Hl as (m' & -> & _).
    by eapply hist_block_one_kind. }
  unfold preprocess_enem.build_overview_stats in Hs.
  apply groupby_agg_Ok in Hs as (groups & Hg & _ & Hcols & Hrows).
  set (agg := ("n", ("nota_final", Size)) ::
              map (λ col, ("sum_" +:+ col, (col, Sum))) mc) in *.
  change (map (agg_row gcols agg) groups) with (agg_row gcols agg <$> groups) in Hrows.
  assert (Hkey : ∀ g, g ∈ groups → key_of gcols (agg_row gcols agg g) = g.1).
  { intros [k sub] Hin.
    destruct (groupby_elem _ _ _ _ _ _ Hg Hin) as (_ & Hlen & _).
    apply key_of_agg_row; [by_compute|done|apply overview_agg_fresh]. }
  assert (Hone : Forall one_kind (rows stats)).
  { rewrite Hrows. apply Forall_fmap, Forall_forall. intros g _.
    apply one_kind_agg_row. }
  assert (Hgc : Forall (λ c, c ∈ columns stats) gcols).
  { apply Forall_forall. intros c Hc. rewrite Hcols. apply elem_of_app. by left. }
  set (fs := DF (columns stats)
                (filter (λ r, key_selected f (key_of gcols r)) (rows stats))).
  set (fh := DF (columns hist)
                (filter (λ r, key_selected f (key_of gcols r) ∧
                              cell_of r "metric" = Some (VStr (filters.metric_column f)))
                        (rows hist))).
  assert (Hfs : rows fs =
                agg_row gcols agg <$> filter (λ g, Is_true (key_selected f g.1)) groups).
  { unfold fs. cbn [rows]. rewrite Hrows.
    exact (filter_agg_rows gcols agg groups (λ k, Is_true (key_selected f k)) Hkey). }
  assert (Hn : "n" ∈ columns fs).
  { unfold fs. cbn [columns]. rewrite Hcols. apply elem_of_app. right. by left. }
  assert (Ht : "TIPO_ESCOLA" ∈ columns fs).
  { unfold fs. cbn [columns]. rewrite Hcols. apply elem_of_app. left. by left. }
  assert (Hempty : empty fs = true ↔ participants f df = []).
  { unfold empty.
    rewrite (bool_decide_eq_false_2 (columns fs = []))
      by (intros Hnil; rewrite Hnil in Hn; by apply elem_of_nil in Hn).
    pose proof (selected_groups_nil df gcols true groups
                  (λ k, Is_true (key_selected f k)) Hg) as Hnil.
    rewrite orb_false_r, bool_decide_eq_true, Hfs. split.
    - intros Hx%fmap_nil_inv. by apply Hnil in Hx.
    - intros Hx. apply Hnil in Hx. by rewrite Hx. }
  assert (Hshape_fh : (rows fh = [] ∧ columns fh = []) ∨
                      columns fh = preprocess_enem.hist_keys).
  { destruct Hshape as [[Hr Hc]|Hc]; [left|by right].
    unfold fh. cbn [rows columns]. by rewrite Hr, Hc. }
  destruct (kpi_row_runs fs (filters.metric_column f) Hn Ht) as (k & Hk & Hknone).
  destruct (distribution_runs fh Hshape_fh) as (dres & Hd).
  destruct (participation_runs fs Hn Ht) as (chart & Hp).
  assert (Hrun : overview_tab.render_overview_tab stats hist f =
                 if empty fs then Ok None
                 else Ok (Some {| overview_tab.indicators := k;
                                  overview_tab.distribution := dres;
                                  overview_tab.participation := Some chart |})).
  { unfold overview_tab.render_overview_tab.
    rewrite (filter_stats_rows stats f Hgc Hone), ret_bind.
    rewrite (filter_hist_rows hist f Hshape Hone_h), ret_bind.
    fold fs fh. destruct (empty fs); [done|].
    cbv zeta. by rewrite Hk, ret_bind, Hd, ret_bind, Hp, ret_bind. }
  destruct (empty fs) eqn:Hemp.
  - exists None. split; [done|]. split; [|done]. split; [intros _|done].
    by apply Hempty.
  - eexists. split; [exact Hrun|]. split.
    + split; [done|]. intros Hnil. apply Hempty in Hnil. congruence.
    + intros w [= <-]. cbn [overview_tab.participation overview_tab.indicators].
      split; [by eexists|]. rewrite Hknone. unfold fs. cbn [columns]. rewrite Hcols.
      split.
      * intros Hno Hin. apply Hno. apply elem_of_app. right.
        apply list_elem_of_fmap.
        exists ("sum_" +:+ filters.metric_column f, (filters.metric_column f, Sum)).
        split; [done|]. right. apply list_elem_of_fmap.
        by exists (filters.metric_column f).
      * intros Hno. apply (sum_col_absent "n" gcols mc); [intros c; discriminate| |done].
        intros c Hin x. unfold gcols, preprocess_enem.group_cols in Hin.
        repeat (apply elem_of_cons in Hin as [->|Hin]; [discriminate|]).
        by apply elem_of_nil in Hin.
Qed.

(** ** The essay tab *)

Lemma get_metric_column_option label :
  get_metric_column label ∈ map snd DISCIPLINE_OPTIONS.
Proof.
  unfold get_metric_column.
  destruct (list_find _ DISCIPLINE_OPTIONS) as [[i kv]|] eqn:Hfind.
  - apply list_find_Some in Hfind as (Hi & _).
    change (map snd DISCIPLINE_OPTIONS) with (snd <$> DISCIPLINE_OPTIONS).
    apply list_elem_of_fmap. exists kv. split; [done|].
    by eapply list_elem_of_lookup_2.
  - by_compute.
Qed.

(** The row test of [apply_filters] on a table with the three dimension
    columns and without the metric column, read off the key. *)
Lemma passes_cell_selected cols sel c (i : nat) r :
  gcols !! i = Some c → c ∈ cols → one_kind r →
  passes cols sel c r = cell_selected (map_tab.active sel) (key_of gcols r !! i).
Proof.
  intros Hi Hc Hr. unfold passes. rewrite (bool_decide_eq_true_2 _ Hc), andb_true_r.
  destruct sel as [[|x l]|]; try done. cbn [filters.truthy default map_tab.active].
  by apply isin_cell_selected.
Qed.

Lemma keeps_key_selected cols f r :
  Forall (λ c, c ∈ cols) gcols → filters.metric_column f ∉ cols → one_kind r →
  keeps cols f r = key_selected (only_active f) (key_of gcols r).
Proof.
  intros Hgc Hm Hr. rewrite Forall_forall in Hgc. unfold keeps, key_selected, only_active.
  cbn [filters.redes filters.localizacoes filters.ufs].
  rewrite (passes_cell_selected cols _ "TIPO_ESCOLA" 0), (passes_cell_selected cols _ "LOCALIZACAO" 1),
    (passes_cell_selected cols _ "SG_UF_ESC" 2); try done; try (apply Hgc; set_solver).
  rewrite (bool_decide_eq_false_2 _ Hm). by rewrite andb_true_r.
Qed.

Lemma apply_filters_selected df f :
  Forall (λ c, c ∈ columns df) gcols → filters.metric_column f ∉ columns df →
  Forall one_kind (rows df) →
  filters.apply_filters df f =
    Ok (DF (columns df)
           (filter (λ r, key_selected (only_active f) (key_of gcols r)) (rows df))).
Proof.
  intros Hgc Hm Hone. rewrite apply_filters_rows. do 2 f_equal.
  apply length_filter_ext. intros r Hr. rewrite Forall_forall in Hone.
  by rewrite keeps_key_selected by auto.
Qed.

Lemma build_stats_shape df stats :
  preprocess_redacao.build_stats df = Ok stats →
  columns stats = gcols ++ ["n"; "sum_redacao"; "n_zero"; "n_900mais"; "media_redacao"] ∧
  Forall one_kind (rows stats).
Proof.
  intros Hrun. unfold preprocess_redacao.build_stats in Hrun.
  apply bind_Ok in Hrun as (agg & Hagg & [= <-]).
  apply groupby_agg_Ok in Hagg as (groups & _ & _ & Hcols & Hrows).
  split.
  - unfold setitem_num, setitem, add_col, has_col. cbn [columns]. rewrite Hcols.
    by_compute.
  - unfold setitem_num, setitem. cbn [rows]. rewrite Hrows.
    apply Forall_forall. intros r Hr.
    apply list_elem_of_fmap in Hr as (r' & -> & Hr').
    apply list_elem_of_fmap in Hr' as (g & -> & _).
    apply one_kind_set_cell, one_kind_agg_row.
Qed.

Lemma build_hist_shape df hist :
  preprocess_redacao.build_hist df = Ok hist →
  ((rows hist = [] ∧ columns hist = []) ∨ columns hist = preprocess_redacao.hist_keys) ∧
  Forall one_kind (rows hist).
Proof.
  intros Hh. split.
  - unfold preprocess_redacao.build_hist in Hh.
    apply bind_Ok in Hh as (groups & _ & Hh).
    apply bind_Ok in Hh as (records & _ & [= <-]).
    destruct (concat records); [by left|by right].
  - apply build_hist_rows in Hh as (groups & _ & ->).
    apply Forall_forall. intros r Hr.
    apply list_elem_of_concat in Hr as (l & Hr & Hl).
    apply list_elem_of_fmap in Hl as (g & -> & _).
    by eapply hist_block_one_kind.
Qed.

(** Sums of a count over the summary rows of some groups. *)
Lemma sumZ_additive (cnt : list row → nat) (gs : list (list cell * list row)) :
  cnt [] = 0%nat → (∀ a b, cnt (a ++ b) = (cnt a + cnt b)%nat) →
  sumZ ((λ g : list cell * list row, Z.of_nat (cnt g.2)) <$> gs) =
    Z.of_nat (cnt (concat (snd <$> gs))).
Proof.
  intros H0 Happ. induction gs as [|g gs IH]; [simpl; by rewrite H0|].
  rewrite !fmap_cons, sumZ_cons, IH. simpl. rewrite Happ. lia.
Qed.

Lemma metric_not_essay_column label :
  get_metric_column label ∉
    gcols ++ ["n"; "sum_redacao"; "n_zero"; "n_900mais"; "media_redacao"].
Proof.
  pose proof (get_metric_column_option label) as Hin. revert Hin.
  generalize (get_metric_column label). apply Forall_forall. by_compute.
Qed.

(** X22. The essay tab on the two essay artifacts of one frame, with filters
    as the sidebar builds them. The participants behind the tab are the frame
    rows that pass the filters, an empty selection counting as no selection
    and a row with a null network, locale or region passing where that
    dimension is not filtered. Without participants the tab shows its
    warning. With participants but an essay histogram without rows (no frame
    row has a network, a locale, a region and a score within [0, 1000]) the
    tab raises a [KeyError] for the column bin_idx. Otherwise it shows the
    number of participants, the sum of their essay scores over that number,
    and the shares of scores equal to 0 and of scores of at least 900. *)
Theorem essay_tab_indicators (df stats hist : DataFrame) (f : filters.GlobalFilters)
    (Hs : preprocess_redacao.build_stats df = Ok stats)
    (Hh : preprocess_redacao.build_hist df = Ok hist)
    (Hf : filters.metric_column f = get_metric_column (filters.disciplina_label f)) :
  ∃ part scores,
    part = filter (λ r, key_selected (only_active f) (key_of gcols r)) (rows df) ∧
    scores = nonnull "NU_NOTA_REDACAO" part ∧
    (part = [] → redacao_tab.render_redacao_tab stats hist f = Ok None) ∧
    (part ≠ [] → rows hist = [] →
     redacao_tab.render_redacao_tab stats hist f = Raise (KeyError "bin_idx")) ∧
    (part ≠ [] → rows hist ≠ [] →
     ∃ w, redacao_tab.render_redacao_tab stats hist f = Ok (Some w) ∧
       redacao_tab.total_n (redacao_tab.indicators w) = Z.of_nat (length part) ∧
       redacao_tab.media_redacao (redacao_tab.indicators w) =
         Some (sumQ scores / Qc_of_nat (length part))%Qc ∧
       redacao_tab.pct_zero (redacao_tab.indicators w) =
         Some (Qc_of_nat (length (filter (λ s, s = 0%Qc) scores)) /
               Qc_of_nat (length part))%Qc ∧
       redacao_tab.pct_900 (redacao_tab.indicators w) =
         Some (Qc_of_nat (length (filter (λ s, (Qc_of_Z 900 ≤ s)%Qc) scores)) /
               Qc_of_nat (length part))%Qc ∧
       is_Some (redacao_tab.zero_by_network w)).
Proof.
  destruct (build_stats_shape _ _ Hs) as [Hcols Hone].
  destruct (build_hist_shape _ _ Hh) as [Hshape _].
  apply build_stats_rows in Hs as (groups & fr & Hg & Hrows & Hfr).
  set (fa := only_active f).
  set (part := filter (λ r, key_selected fa (key_of gcols r)) (rows df)).
  exists part, (nonnull "NU_NOTA_REDACAO" part). split; [done|]. split; [done|].
  assert (Hgc : Forall (λ c, c ∈ columns stats) gcols).
  { apply Forall_forall. intros c Hc. rewrite Hcols. apply elem_of_app. by left. }
  assert (Hm : filters.metric_column f ∉ columns stats).
  { rewrite Hf, Hcols. apply metric_not_essay_column. }
  set (fs := DF (columns stats)
                (filter (λ r, key_selected fa (key_of gcols r)) (rows stats))).
  set (gsel := filter (λ g : list cell * list row, key_selected fa g.1) groups).
  assert (Hfs : rows fs = fr <$> gsel).
  { unfold fs. cbn [rows]. rewrite Hrows.
    change (fr <$> groups) with (map fr groups). rewrite filter_map_comm.
    change (map ?f ?l) with (f <$> l). f_equal.
    apply length_filter_ext. intros [k sub] Hin.
    destruct (Hfr k sub Hin) as (-> & _). done. }
  assert (Hsel_in : ∀ g, g ∈ gsel → g ∈ groups).
  { intros g Hin. by apply list_elem_of_filter in Hin as [_ ?]. }
  assert (Hperm : concat (snd <$> gsel) ≡ₚ part).
  { exact (selected_groups_rows df gcols false groups
             (λ k, Is_true (key_selected fa k)) Hg). }
  assert (Hempty : empty fs = true ↔ part = []).
  { unfold empty.
    rewrite (bool_decide_eq_false_2 (columns fs = []))
      by (unfold fs; cbn [columns]; by rewrite Hcols).
    pose proof (selected_groups_nil df gcols false groups
                  (λ k, Is_true (key_selected fa k)) Hg) as Hnil.
    rewrite orb_false_r, bool_decide_eq_true, Hfs. split.
    - intros Hx%fmap_nil_inv. by apply Hnil in Hx.
    - intros Hx. apply Hnil in Hx. unfold gsel. by rewrite Hx. }
  (* the totals *)
  assert (Hn : overview_tab.sum_int (λ r, code r !! "n") (rows fs) =
               Z.of_nat (length part)).
  { rewrite Hfs, (sum_int_fmap _ fr (λ g, Z.of_nat (length g.2))).
    - rewrite (sumZ_additive length) by (done || apply length_app). by rewrite Hperm.
    - intros [k sub] Hin. destruct (Hfr k sub (Hsel_in _ Hin)) as (_ & H & _).
      by apply cell_VInt. }
  assert (Hsum : overview_tab.sum_num (λ r, num r !! "sum_redacao") (rows fs) =
                 sumQ (nonnull "NU_NOTA_REDACAO" part)).
  { rewrite Hfs, (sum_num_fmap _ fr (λ g, sumQ (nonnull "NU_NOTA_REDACAO" g.2))).
    - transitivity (sumQ (sumQ <$> ((λ l : list row, nonnull "NU_NOTA_REDACAO" l) <$>
                                    (snd <$> gsel))));
        [by rewrite <-!list_fmap_compose|].
      rewrite <-sumQ_concat. unfold nonnull at 1. rewrite <-omap_concat.
      apply sumQ_perm. unfold nonnull. by rewrite Hperm.
    - intros [k sub] Hin. destruct (Hfr k sub (Hsel_in _ Hin)) as (_ & _ & H & _).
      by apply cell_VNum. }
  assert (Hcnt : ∀ (P : Qc → Prop) `{∀ s, Decision (P s)} name,
            (∀ k sub, (k, sub) ∈ groups →
               cell_of (fr (k, sub)) name =
                 Some (VInt (Z.of_nat (length (filter P (nonnull "NU_NOTA_REDACAO" sub)))))) →
            overview_tab.sum_int (λ r, code r !! name) (rows fs) =
            Z.of_nat (length (filter P (nonnull "NU_NOTA_REDACAO" part)))).
  { intros P HP name Hcell.
    rewrite Hfs, (sum_int_fmap _ fr
                    (λ g, Z.of_nat (length (filter P (nonnull "NU_NOTA_REDACAO" g.2))))).
    - rewrite (sumZ_additive (λ l, length (filter P (nonnull "NU_NOTA_REDACAO" l)))).
      + unfold nonnull. by rewrite Hperm.
      + done.
      + intros a b. unfold nonnull. by rewrite omap_app, filter_app, length_app.
    - intros [k sub] Hin. apply cell_VInt. apply Hcell. by apply Hsel_in. }
  assert (Hz : overview_tab.sum_int (λ r, code r !! "n_zero") (rows fs) =
               Z.of_nat (length (filter (λ s, s = 0%Qc) (nonnull "NU_NOTA_REDACAO" part)))).
  { apply (Hcnt (λ s, s = 0%Qc) _). intros k sub Hin.
    by destruct (Hfr k sub Hin) as (_ & _ & _ & H & _). }
  assert (H9 : overview_tab.sum_int (λ r, code r !! "n_900mais") (rows fs) =
               Z.of_nat (length (filter (λ s, (Qc_of_Z 900 ≤ s)%Qc)
                                        (nonnull "NU_NOTA_REDACAO" part)))).
  { apply (Hcnt (λ s, (Qc_of_Z 900 ≤ s)%Qc) _). intros k sub Hin.
    by destruct (Hfr k sub Hin) as (_ & _ & _ & _ & H & _). }
  assert (Hrun_s : filters.apply_filters stats f = Ok fs)
    by (by apply apply_filters_selected).
  assert (Hcol : ∀ c, c ∈ ["n"; "sum_redacao"; "n_zero"; "n_900mais"; "TIPO_ESCOLA"] →
                      has_col fs c = true).
  { intros c Hc. apply has_col_true. unfold fs. cbn [columns]. rewrite Hcols.
    revert c Hc. apply Forall_forall. by_compute. }
  split_and!.
  - intros Hnil. unfold redacao_tab.render_redacao_tab.
    rewrite Hrun_s, ret_bind, apply_filters_rows, ret_bind.
    by rewrite (proj2 Hempty Hnil).
  - intros Hne Hnil. unfold redacao_tab.render_redacao_tab.
    rewrite Hrun_s, ret_bind, apply_filters_rows, ret_bind.
    destruct (empty fs) eqn:Hemp; [exfalso; apply Hne, Hempty; reflexivity|].
    unfold getitem_code, getitem_num.
    rewrite !Hcol by set_solver. rewrite !ret_bind. cbv zeta.
    destruct Hshape as [[_ Hc]|Hc].
    + unfold groupby at 1. cbn [columns]. rewrite Hc. done.
    + exfalso. destruct hist as [cols rs]. simpl in *. subst.
      unfold preprocess_redacao.build_hist in Hh.
      apply bind_Ok in Hh as (groups_h & _ & Hh).
      apply bind_Ok in Hh as (records & _ & [= Hc']).
      unfold from_records in Hc'. by destruct (concat records).
  - intros Hne Hrows_h.
    destruct Hshape as [[Hr _]|Hc]; [done|].
    unfold redacao_tab.render_redacao_tab.
    rewrite Hrun_s, ret_bind, apply_filters_rows, ret_bind.
    destruct (empty fs) eqn:Hemp; [exfalso; apply Hne, Hempty; reflexivity|].
    unfold getitem_code, getitem_num.
    rewrite !Hcol by set_solver. rewrite !ret_bind. cbv zeta.
    match goal with
    | |- context [groupby ?fh ["bin_idx"; "bin_left"; "bin_right"] true] =>
        assert (Forall (λ c, c ∈ columns fh) ["bin_idx"; "bin_left"; "bin_right"])
          as Hok by (cbn [columns]; rewrite Hc; repeat constructor; by_compute);
        rewrite (proj2 (groupby_Ok fh _ true _) (conj Hok eq_refl)), ret_bind
    end.
    unfold has_col at 1. cbn [columns].
    rewrite (bool_decide_eq_true_2 ("count" ∈ columns hist)) by (rewrite Hc; by_compute).
    rewrite ret_bind.
    rewrite (proj2 (groupby_Ok fs ["TIPO_ESCOLA"] true _)
               (conj (proj2 (Forall_singleton (λ c, c ∈ columns fs) "TIPO_ESCOLA")
                            (proj1 (has_col_true fs _) (Hcol "TIPO_ESCOLA" ltac:(set_solver))))
                     eq_refl)), !ret_bind.
    eexists. split; [reflexivity|].
    cbn [redacao_tab.indicators redacao_tab.total_n redacao_tab.media_redacao
         redacao_tab.pct_zero redacao_tab.pct_900 redacao_tab.zero_by_network].
    rewrite Hn, Hsum, Hz, H9.
    rewrite bool_decide_eq_true_2 by (destruct part; [done|simpl; lia]).
    split_and!; done.
Qed.

(** ** The indicators of the school tab *)

Lemma Qc_of_nat_S n : Qc_of_nat (S n) = (1 + Qc_of_nat n)%Qc.
Proof.
  unfold Qc_of_nat. rewrite Nat2Z.inj_succ, <-Z.add_1_l, Z2Qc_inj_add. done.
Qed.

Lemma Qc_of_nat_0 : Qc_of_nat 0 = 0%Qc.
Proof. apply Z2Qc_inj_0. Qed.

Lemma Qc_of_nat_nonneg n : (0 ≤ Qc_of_nat n)%Qc.
Proof.
  unfold Qc_of_nat. rewrite <-Z2Qc_inj_0. apply (proj1 (Z2Qc_inj_le _ _)). lia.
Qed.

Lemma Qc_of_nat_pos n : (0 < n)%nat → (0 < Qc_of_nat n)%Qc.
Proof.
  intros Hn. unfold Qc_of_nat. rewrite <-Z2Qc_inj_0. apply (proj1 (Z2Qc_inj_lt _ _)). lia.
Qed.

Lemma Qc_of_nat_add n m : Qc_of_nat (n + m) = (Qc_of_nat n + Qc_of_nat m)%Qc.
Proof. unfold Qc_of_nat. by rewrite Nat2Z.inj_add, Z2Qc_inj_add. Qed.

(** Every value of [a] below every value of [b]: the sums, weighted by the
    other length, compare the same way. *)
Lemma sum_below (x : Qc) (b : list Qc) :
  (∀ y, y ∈ b → (x ≤ y)%Qc) → (Qc_of_nat (length b) * x ≤ sumQ b)%Qc.
Proof.
  induction b as [|y b IH]; intros Hb.
  - simpl length. rewrite Qc_of_nat_0, Qcmult_0_l. done.
  - simpl length. rewrite Qc_of_nat_S, sumQ_cons, Qcmult_plus_distr_l, Qcmult_1_l.
    apply Qcplus_le_compat; [apply Hb; by left|].
    apply IH. intros y' Hy'. apply Hb. by right.
Qed.

Lemma sums_below (a b : list Qc) :
  (∀ x y, x ∈ a → y ∈ b → (x ≤ y)%Qc) →
  (Qc_of_nat (length b) * sumQ a ≤ Qc_of_nat (length a) * sumQ b)%Qc.
Proof.
  induction a as [|x a IH]; intros Hab.
  - simpl length. simpl sumQ. rewrite Qc_of_nat_0, Qcmult_0_l, Qcmult_0_r. done.
  - simpl length. rewrite Qc_of_nat_S, sumQ_cons, Qcmult_plus_distr_r,
      Qcmult_plus_distr_l, Qcmult_1_l.
    apply Qcplus_le_compat.
    + apply sum_below. intros y Hy. apply Hab; [by left|done].
    + apply IH. intros x' y Hx' Hy. apply Hab; [by right|done].
Qed.

Lemma Qcdiv_le_cross (x y z w : Qc) :
  (0 < y)%Qc → (0 < w)%Qc → (x * w ≤ z * y)%Qc → (x / y ≤ z / w)%Qc.
Proof.
  intros Hy Hw Hle.
  assert (y ≠ 0%Qc) as Hy0 by (by apply not_eq_sym, Qclt_not_eq).
  assert (w ≠ 0%Qc) as Hw0 by (by apply not_eq_sym, Qclt_not_eq).
  assert (0 < / (y * w))%Qc as Hinv.
  { apply Qcinv_pos. by apply Qcmult_pos_pos. }
  apply (Qcmult_le_mono_nonneg_r _ _ (/ (y * w))%Qc) in Hle; [|by apply Qclt_le_weak].
  assert (x * w * / (y * w) = x / y)%Qc as Hl by (field; done).
  assert (z * y * / (y * w) = z / w)%Qc as Hr by (field; done).
  by rewrite Hl, Hr in Hle.
Qed.

Lemma mean_Some (l : list Qc) :
  l ≠ [] → mean l = Some (sumQ l / Qc_of_nat (length l))%Qc.
Proof. by destruct l. Qed.

(** The mean of the lower part of a list, of the whole list and of its upper
    part. *)
Lemma mean_app_le (a b : list Qc) :
  a ≠ [] → (∀ x y, x ∈ a → y ∈ b → (x ≤ y)%Qc) →
  (sumQ a / Qc_of_nat (length a) ≤ sumQ (a ++ b) / Qc_of_nat (length (a ++ b)))%Qc.
Proof.
  intros Ha Hab. pose proof (sums_below a b Hab) as Hs.
  rewrite sumQ_app, length_app, Qc_of_nat_add.
  assert (0 < Qc_of_nat (length a))%Qc as Hka.
  { apply Qc_of_nat_pos. destruct a; [done|simpl; lia]. }
  apply Qcdiv_le_cross; [done| |].
  - apply Qclt_le_trans with (Qc_of_nat (length a) + 0)%Qc; [by rewrite Qcplus_0_r|].
    apply Qcplus_le_compat; [done|apply Qc_of_nat_nonneg].
  - assert (sumQ a * (Qc_of_nat (length a) + Qc_of_nat (length b)) =
            sumQ a * Qc_of_nat (length a) + Qc_of_nat (length b) * sumQ a)%Qc
      as -> by ring.
    assert ((sumQ a + sumQ b) * Qc_of_nat (length a) =
            sumQ a * Qc_of_nat (length a) + Qc_of_nat (length a) * sumQ b)%Qc
      as -> by ring.
    by apply Qcplus_le_compat.
Qed.

Lemma mean_app_ge (a b : list Qc) :
  b ≠ [] → (∀ x y, x ∈ a → y ∈ b → (x ≤ y)%Qc) →
  (sumQ (a ++ b) / Qc_of_nat (length (a ++ b)) ≤ sumQ b / Qc_of_nat (length b))%Qc.
Proof.
  intros Hb Hab. pose proof (sums_below a b Hab) as Hs.
  rewrite sumQ_app, length_app, Qc_of_nat_add.
  assert (0 < Qc_of_nat (length b))%Qc as Hkb.
  { apply Qc_of_nat_pos. destruct b; [done|simpl; lia]. }
  apply Qcdiv_le_cross; [|done|].
  - apply Qclt_le_trans with (0 + Qc_of_nat (length b))%Qc; [by rewrite Qcplus_0_l|].
    apply Qcplus_le_compat; [apply Qc_of_nat_nonneg|done].
  - assert ((sumQ a + sumQ b) * Qc_of_nat (length b) =
            Qc_of_nat (length b) * sumQ a + sumQ b * Qc_of_nat (length b))%Qc
      as -> by ring.
    assert (sumQ b * (Qc_of_nat (length a) + Qc_of_nat (length b)) =
            Qc_of_nat (length a) * sumQ b + sumQ b * Qc_of_nat (length b))%Qc
      as -> by ring.
    by apply Qcplus_le_compat.
Qed.

(** The means of the [k] smallest and of the [k] largest values of a sorted
    list enclose the mean of the list. *)
Lemma sorted_means (l : list Qc) (k : nat) :
  StronglySorted Qcle l → (1 ≤ k)%nat → (k ≤ length l)%nat →
  ∃ b m t,
    mean (take k l) = Some b ∧ mean l = Some m ∧
    mean (drop (length l - k) l) = Some t ∧ (b ≤ m)%Qc ∧ (m ≤ t)%Qc.
Proof.
  intros Hs Hk Hkn.
  assert (take k l ≠ []) as Hb.
  { intros Hnil. apply (f_equal length) in Hnil. rewrite length_take in Hnil.
    simpl in Hnil. lia. }
  assert (drop (length l - k) l ≠ []) as Ht.
  { intros Hnil. apply (f_equal length) in Hnil. rewrite length_drop in Hnil.
    simpl in Hnil. lia. }
  assert (l ≠ []) as Hl by (intros ->; simpl in Hkn; lia).
  eexists _, _, _. rewrite (mean_Some _ Hb), (mean_Some _ Hl), (mean_Some _ Ht).
  split_and!; [done..| |].
  - rewrite <-(take_drop k l) at 3 4. apply mean_app_le; [done|].
    intros x y Hx Hy.
    apply (StronglySorted_app_1_elem_of Qcle (take k l) (drop k l)); [|done..].
    by rewrite take_drop.
  - rewrite <-(take_drop (length l - k) l) at 1 2. apply mean_app_ge; [done|].
    intros x y Hx Hy.
    apply (StronglySorted_app_1_elem_of Qcle (take (length l - k) l)
             (drop (length l - k) l)); [|done..].
    by rewrite take_drop.
Qed.

#[local] Instance le_cell_trans : Transitive schools_tab.le_cell.
Proof.
  intros [x|] [y|] [z|]; simpl; try done. apply Qcle_trans.
Qed.

#[local] Instance le_cell_total : Total schools_tab.le_cell.
Proof.
  intros [x|] [y|]; simpl; try tauto.
  destruct (Qclt_le_dec x y) as [Hlt|Hle]; [left; by apply Qclt_le_weak|by right].
Qed.

Lemma sorted_values (vals : list Qc) :
  StronglySorted schools_tab.le_cell (Some <$> vals) → StronglySorted Qcle vals.
Proof.
  induction vals as [|x vals IH]; [constructor|].
  rewrite fmap_cons, !StronglySorted_cons, Forall_fmap. intros [Hall Hs].
  split; [|by apply IH]. eapply Forall_impl; [exact Hall|]. done.
Qed.

Lemma omap_all_Some {A} (s : A → option Qc) (l : list A) :
  Forall (λ r, is_Some (s r)) l → Some <$> omap s l = s <$> l.
Proof.
  induction 1 as [|r l [q Hq] _ IH]; [done|].
  rewrite fmap_cons.
  change (omap s (r :: l)) with (match s r with Some y => y :: omap s l | None => omap s l end).
  by rewrite Hq, fmap_cons, IH.
Qed.

Lemma omap_all_Some_default {A} (s : A → option Qc) (l : list A) :
  Forall (λ r, is_Some (s r)) l → omap s l = (λ r, default 0%Qc (s r)) <$> l.
Proof.
  induction 1 as [|r l [q Hq] _ IH]; [done|].
  rewrite fmap_cons.
  change (omap s (r :: l)) with (match s r with Some y => y :: omap s l | None => omap s l end).
  by rewrite Hq, IH.
Qed.

Lemma mean_perm (l1 l2 : list Qc) : l1 ≡ₚ l2 → mean l1 = mean l2.
Proof.
  intros Hp. destruct l1 as [|x l1].
  - apply Permutation_nil_l in Hp. by subst.
  - destruct l2 as [|y l2]; [by apply Permutation_nil_r in Hp|].
    unfold mean. by rewrite (sumQ_perm _ _ Hp), Hp.
Qed.

(** X23. The indicators of the school tab on a table whose mean column
    holds numbers. The column is media_<metric>, or media_nota_final when
    the table has no such column; without it the tab raises a [KeyError].
    The schools behind the indicators are the rows that [apply_filters]
    keeps and that have a value in the column; without any the tab shows
    its notice. Otherwise the tab counts the schools and shows the mean of
    their values, the mean of the largest tenth of the values (of one value
    below twenty schools) and its distance to the mean of the smallest
    tenth; the mean lies between the two, so the distance is never
    negative. *)
Theorem schools_tab_indicators (schools_df : DataFrame) (f : filters.GlobalFilters)
    (c : string)
    (Hc : c = if has_col schools_df ("media_" +:+ filters.metric_column f)
              then "media_" +:+ filters.metric_column f else "media_nota_final")
    (Hnum : ∀ r, r ∈ rows schools_df → is_Some (cell_of r c) → is_Some (num r !! c)) :
  (c ∉ columns schools_df →
   schools_tab.render_schools_tab schools_df f = Raise (KeyError c)) ∧
  (c ∈ columns schools_df →
   ∃ filtered kept vals res,
     filters.apply_filters schools_df f = Ok filtered ∧
     kept = filter (λ r, is_Some (cell_of r c)) (rows filtered) ∧
     vals = omap (λ r, num r !! c) kept ∧
     schools_tab.render_schools_tab schools_df f = Ok res ∧
     (res = None ↔ kept = []) ∧
     ∀ k, res = Some k →
       schools_tab.n_schools k = length kept ∧
       length vals = length kept ∧
       ∃ b m t,
         mean (take (Nat.max 1 (length vals / 10)) (merge_sort Qcle vals)) = Some b ∧
         mean vals = Some m ∧
         mean (drop (length vals - Nat.max 1 (length vals / 10)) (merge_sort Qcle vals))
           = Some t ∧
         schools_tab.mean_metric k = Some m ∧
         schools_tab.top_mean k = Some t ∧
         schools_tab.gap k = Some (t - b)%Qc ∧
         (b ≤ m)%Qc ∧ (m ≤ t)%Qc ∧ (0 ≤ t - b)%Qc).
Proof.
  assert (Hcol : (if negb (has_col schools_df ("media_" +:+ filters.metric_column f))
                  then "media_nota_final"
                  else "media_" +:+ filters.metric_column f) = c).
  { rewrite Hc. by destruct (has_col schools_df _). }
  clear Hc. split.
  - intros Hno. unfold schools_tab.render_schools_tab. cbv zeta.
    rewrite Hcol, apply_filters_rows, ret_bind.
    unfold dropna, missing_col, has_col. cbn [columns].
    rewrite filter_cons_True by (by apply bool_decide_eq_false_2). done.
  - intros Hin.
    set (filtered := DF (columns schools_df)
                        (filter (λ r, keeps (columns schools_df) f r) (rows schools_df))).
    set (kept := filter (λ r, is_Some (cell_of r c)) (rows filtered)).
    set (s := λ r : row, num r !! c).
    assert (Hkept : filter (λ r, notnull_all [c] r) (rows filtered) = kept).
    { apply length_filter_ext. intros r _.
      by rewrite Is_true_true, notnull_all_single. }
    assert (Hsome : Forall (λ r, is_Some (s r)) kept).
    { apply Forall_forall. intros r [Hv Hr]%list_elem_of_filter.
      apply Hnum; [|done]. unfold filtered in Hr. cbn [rows] in Hr.
      by apply list_elem_of_filter in Hr as [_ ?]. }
    set (R := λ r1 r2 : row, schools_tab.le_cell (num r1 !! c) (num r2 !! c)).
    assert (HRt : Transitive R) by (intros x y z; apply le_cell_trans).
    assert (HRT : Total R) by (intros x y; apply le_cell_total).
    pose proof (merge_sort_Permutation R kept) as Hperm.
    pose proof (StronglySorted_merge_sort R kept) as Hsorted.
    assert (Hsome' : Forall (λ r, is_Some (s r)) (merge_sort R kept)).
    { by rewrite Hperm. }
    assert (Hvals : omap s (merge_sort R kept) = merge_sort Qcle (omap s kept)).
    { apply (StronglySorted_unique Qcle).
      - apply sorted_values. rewrite omap_all_Some by done.
        by apply (StronglySorted_fmap s R schools_tab.le_cell).
      - apply (StronglySorted_merge_sort Qcle).
      - rewrite (merge_sort_Permutation Qcle). by rewrite Hperm. }
    assert (Hlen : length (omap s kept) = length kept).
    { rewrite omap_all_Some_default by done. by rewrite length_fmap. }
    assert (Htake : ∀ k, omap s (take k (merge_sort R kept)) =
                         take k (merge_sort Qcle (omap s kept))).
    { intros k. rewrite <-Hvals, !omap_all_Some_default
        by (done || by apply Forall_take).
      by rewrite fmap_take. }
    assert (Hdrop : ∀ k, omap s (drop k (merge_sort R kept)) =
                         drop k (merge_sort Qcle (omap s kept))).
    { intros k. rewrite <-Hvals, !omap_all_Some_default
        by (done || by apply Forall_drop).
      by rewrite fmap_drop. }
    exists filtered, kept, (omap s kept).
    destruct (decide (kept = [])) as [Hnil|Hne].
    + exists None. split_and!; try done.
      * apply apply_filters_rows.
      * unfold schools_tab.render_schools_tab. cbv zeta.
        rewrite Hcol, apply_filters_rows, ret_bind. fold filtered.
        rewrite dropna_present by (by apply has_col_true). rewrite ret_bind.
        unfold empty. cbn [rows columns]. rewrite Hkept.
        by rewrite bool_decide_eq_true_2.
    + assert (1 ≤ Nat.max 1 (length (omap s kept) / 10))%nat as Hk1 by lia.
      assert (Nat.max 1 (length (omap s kept) / 10) ≤
              length (merge_sort Qcle (omap s kept)))%nat as Hk2.
      { rewrite (merge_sort_Permutation Qcle), Hlen.
        destruct kept; [done|]. simpl length.
        pose proof (Nat.Div0.div_le_upper_bound (S (length kept)) 10 (S (length kept))).
        lia. }
      destruct (sorted_means (merge_sort Qcle (omap s kept))
                  (Nat.max 1 (length (omap s kept) / 10))
                  (StronglySorted_merge_sort Qcle _) Hk1 Hk2)
        as (b & m & t & Hb & Hm & Ht & Hbm & Hmt).
      assert (length (merge_sort Qcle (omap s kept)) = length (omap s kept)) as Hlen2
        by (by rewrite (merge_sort_Permutation Qcle)).
      rewrite Hlen2 in Ht.
      rewrite (mean_perm _ _ (merge_sort_Permutation Qcle (omap s kept))) in Hm.
      exists (Some {| schools_tab.n_schools := length kept;
                      schools_tab.mean_metric := Some m;
                      schools_tab.top_mean := Some t;
                      schools_tab.gap := Some (t - b)%Qc |}).
      split_and!; try done.
      * apply apply_filters_rows.
      * unfold schools_tab.render_schools_tab. cbv zeta.
        rewrite Hcol, apply_filters_rows, ret_bind. fold filtered.
        rewrite dropna_present by (by apply has_col_true). rewrite ret_bind.
        unfold empty. cbn [rows columns]. rewrite Hkept.
        rewrite bool_decide_eq_false_2 by done.
        rewrite bool_decide_eq_false_2
          by (intros Hx; change (columns filtered) with (columns schools_df) in Hx;
              rewrite Hx in Hin; by apply elem_of_nil in Hin).
        cbn [orb]. unfold getitem_num, has_col. cbn [columns].
        rewrite bool_decide_eq_true_2 by done. rewrite ret_bind.
        unfold schools_tab.sort_values. cbn [rows]. fold s R.
        rewrite Htake, Hdrop, <-Hlen, Hb, Ht, Hm. reflexivity.
      * intros k [= <-].
        cbn [schools_tab.n_schools schools_tab.mean_metric schools_tab.top_mean
             schools_tab.gap].
        split; [done|]. split; [done|].
        exists b, m, t. split_and!; try done.
        apply (proj1 (Qcle_minus_iff b t)). by apply Qcle_trans with m.
Qed.

(** ** Runs of the summaries and tabs on the sample datasets *)

Lemma map_uf_main_runs_witness :
  (∃ msg, preprocess_map_uf.main
            {| RESULTADOS_2024_parquet := None; RESULTADOS_2024_csv := None |}
          = Raise (FileNotFoundError msg)) ∧
  preprocess_enem_df raw_700 = Ok normalized_700 ∧
  ∃ out, preprocess_map_uf.main d_700 = Ok out.
Proof.
  split.
  - exact (proj1 (map_uf_main_runs
                    {| RESULTADOS_2024_parquet := None; RESULTADOS_2024_csv := None |})
                 eq_refl).
  - apply and_intro_dep; [by_compute|]. intros Hnorm.
    apply (proj1 (proj2 (map_uf_main_runs d_700) raw_700 normalized_700 eq_refl Hnorm)).
    by_compute.
Defined.

Lemma map_uf_rows_witness :
  preprocess_map_uf.map_frame d_700 = Ok (overview_frame_of key_federal_df 700, metrics6) ∧
  preprocess_map_uf.main d_700 = Ok map_700 ∧
  NoDup (key_of preprocess_map_uf.group_cols <$> rows map_700).
Proof.
  apply and_intro_dep; [by_compute|]. intros Hframe.
  apply and_intro_dep; [by_compute|]. intros Hrun.
  exact (proj1 (map_uf_rows _ _ _ _ Hframe Hrun)).
Defined.

Lemma map_uf_counts_all_witness :
  preprocess_enem_df raw_700 = Ok normalized_700 ∧
  preprocess_map_uf.main d_700 = Ok map_700 ∧
  sumZ (int_field "n_participantes" <$> rows map_700) =
    Z.of_nat (length (filter (λ r, is_Some (cell_of r "nota_final") ∧
                                   is_Some (cell_of r "SG_UF_ESC"))
                             (rows normalized_700))).
Proof.
  apply and_intro_dep; [by_compute|]. intros Hnorm.
  apply and_intro_dep; [by_compute|]. intros Hrun.
  exact (map_uf_counts_all d_700 raw_700 normalized_700 map_700 eq_refl Hnorm Hrun).
Defined.

Lemma map_uf_agrees_with_overview_witness :
  preprocess_enem.main d_700 = Ok (stats_700, hist_700) ∧
  preprocess_map_uf.main d_700 = Ok map_700 ∧
  ∀ r, r ∈ rows stats_700 →
    ∃ r', r' ∈ rows map_700 ∧ cell_of r' "n_participantes" = cell_of r "n" ∧
          ∀ c, c ≠ "n" → c ≠ "n_participantes" → cell_of r' c = cell_of r c.
Proof.
  apply and_intro_dep; [by_compute|]. intros Hov.
  apply and_intro_dep; [by_compute|]. intros Hmap.
  exact (proj1 (map_uf_agrees_with_overview _ _ _ _ Hov Hmap)).
Defined.

Lemma overview_main_runs_witness :
  load_raw_enem d_700 = Ok raw_700 ∧
  preprocess_enem_df raw_700 = Ok normalized_700 ∧
  ∃ stats hist, preprocess_enem.main d_700 = Ok (stats, hist).
Proof.
  apply and_intro_dep; [by_compute|]. intros Hload.
  apply and_intro_dep; [by_compute|]. intros Hnorm.
  apply (proj1 (overview_main_runs d_700 raw_700 normalized_700 Hload Hnorm)).
  by_compute.
Defined.

Lemma essay_main_runs_witness :
  load_raw_enem d_700 = Ok raw_700 ∧
  preprocess_enem_df raw_700 = Ok normalized_700 ∧
  ∃ stats hist, preprocess_redacao.main d_700 = Ok (stats, hist).
Proof.
  apply and_intro_dep; [by_compute|]. intros Hload.
  apply and_intro_dep; [by_compute|]. intros Hnorm.
  apply (proj2 (essay_main_runs d_700 raw_700 normalized_700 Hload Hnorm));
    by_compute.
Defined.

Lemma essay_summary_rows_witness :
  preprocess_redacao.build_stats (essay_frame_of key_federal_df 700) = Ok essay_stats_700 ∧
  NoDup (key_of gcols <$> rows essay_stats_700).
Proof.
  apply and_intro_dep; [by_compute|]. intros Hrun.
  exact (proj1 (essay_summary_rows _ _ Hrun)).
Defined.

Lemma essay_hist_matches_summary_witness :
  preprocess_redacao.build_stats (essay_frame_of key_federal_df 700) = Ok essay_stats_700 ∧
  preprocess_redacao.build_hist (essay_frame_of key_federal_df 700) = Ok essay_hist_700 ∧
  essay_row_700 ∈ rows essay_stats_700 ∧
  ∃ sub,
    sub = rows_with_key (key_of gcols essay_row_700) (essay_frame_of key_federal_df 700) ∧
    cell_of essay_row_700 "n" = Some (VInt (Z.of_nat (length sub))).
Proof.
  apply and_intro_dep; [by_compute|]. intros Hs.
  apply and_intro_dep; [by_compute|]. intros Hh.
  apply and_intro_dep; [by_compute|]. intros Hr.
  destruct (essay_hist_matches_summary _ _ _ Hs Hh _ Hr) as (sub & Hsub & Hn & _).
  exists sub. split; [exact Hsub|exact Hn].
Defined.

Lemma overview_hist_matches_summary_witness :
  NoDup metrics6 ∧
  preprocess_enem.build_overview_stats (overview_frame_of key_federal_df 700) metrics6
    = Ok stats_700 ∧
  preprocess_enem.build_overview_hist (overview_frame_of key_federal_df 700) metrics6
    = Ok hist_700 ∧
  stats_row_700 ∈ rows stats_700 ∧
  ∃ sub,
    sub = rows_with_key (key_of gcols stats_row_700) (overview_frame_of key_federal_df 700) ∧
    sub ≠ [] ∧
    cell_of stats_row_700 "n" = Some (VInt (Z.of_nat (length sub))).
Proof.
  apply and_intro_dep; [by_compute|]. intros Hnd.
  apply and_intro_dep; [by_compute|]. intros Hs.
  apply and_intro_dep; [by_compute|]. intros Hh.
  apply and_intro_dep; [by_compute|]. intros Hr.
  destruct (overview_hist_matches_summary _ _ _ _ Hnd Hs Hh _ Hr)
    as (sub & Hsub & Hne & _ & Hn & _).
  exists sub. split; [exact Hsub|]. split; [exact Hne|exact Hn].
Defined.

Lemma school_main_runs_witness :
  load_raw_enem d_700 = Ok raw_700 ∧
  preprocess_enem_df raw_700 = Ok normalized_700 ∧
  ∃ e msg, preprocess_schools.main d_700 = Raise e ∧ e = ValueError msg.
Proof.
  apply and_intro_dep; [by_compute|]. intros Hload.
  apply and_intro_dep; [by_compute|]. intros Hnorm.
  destruct (preprocess_schools.main d_700) as [out|e] eqn:Hrun.
  - exfalso. vm_compute in Hrun. discriminate Hrun.
  - destruct (proj2 (school_main_runs d_700 raw_700 normalized_700 Hload Hnorm) e Hrun)
      as (msg & He & _).
    exists e, msg. split; [reflexivity|exact He].
Defined.

Lemma longitudinal_complete_witness :
  preprocess_ideb.read_excel [(preprocess_ideb.SHEET_NAME, sheet_sample)]
    preprocess_ideb.SHEET_NAME = Ok sheet_sample ∧
  list_find (λ c, c = preprocess_ideb.LStr "Rede") (preprocess_ideb.header sheet_sample)
    = Some (0%nat, preprocess_ideb.LStr "Rede") ∧
  preprocess_ideb.main parse_sample unicode_sample
    (Some [(preprocess_ideb.SHEET_NAME, sheet_sample)]) = Ok long_sample ∧
  {| preprocess_ideb.Rede := preprocess_ideb.XStr "Pública";
     preprocess_ideb.Ano := "2005";
     preprocess_ideb.IDEB_Score := Some (Q2Qc (31 # 10)) |} ∈ long_sample.
Proof.
  apply and_intro_dep; [reflexivity|]. intros Hsheet.
  apply and_intro_dep; [reflexivity|]. intros Hrede.
  apply and_intro_dep; [by_compute|]. intros Hrun.
  apply (proj1 (longitudinal_complete _ _ _ _ _ _ Hsheet Hrede Hrun)
           [preprocess_ideb.XStr "Pública"; preprocess_ideb.XNum (Q2Qc (31 # 10));
            preprocess_ideb.XStr "3.4"; preprocess_ideb.XStr "INEP"]
           1%nat (preprocess_ideb.LInt 2005) (Q2Qc (31 # 10))).
  - by left.
  - by left.
  - reflexivity.
  - reflexivity.
  - reflexivity.
Defined.

Lemma ideb_main_runs_witness :
  preprocess_ideb.main parse_sample unicode_sample None =
    Raise (FileNotFoundError preprocess_ideb.EXCEL_NAME) ∧
  (∃ msg, preprocess_ideb.main parse_sample unicode_sample
            (Some [("Planilha1", sheet_sample)]) = Raise (ValueError msg)) ∧
  preprocess_ideb.main parse_sample unicode_sample
    (Some [(preprocess_ideb.SHEET_NAME, sheet_no_rede)]) = Raise (KeyError "Rede") ∧
  preprocess_ideb.main parse_sample unicode_sample
    (Some [(preprocess_ideb.SHEET_NAME, sheet_no_years)]) =
    Raise (ValueError "Não encontrei colunas de anos (2005, 2007, etc.) no Excel.") ∧
  (∃ out, preprocess_ideb.main parse_sample unicode_sample
            (Some [(preprocess_ideb.SHEET_NAME, sheet_superscript)]) = Ok out) ∧
  preprocess_ideb.main parse_sample unicode_sample
    (Some [(preprocess_ideb.SHEET_NAME, sheet_superscript)]) =
    Ok [{| preprocess_ideb.Rede := preprocess_ideb.XStr "Pública";
           preprocess_ideb.Ano := "²";
           preprocess_ideb.IDEB_Score := Some (Q2Qc (31 # 10)) |}].
Proof.
  split_and!.
  - exact (proj1 (ideb_main_runs parse_sample unicode_sample None) eq_refl).
  - apply (proj1 (proj2 (ideb_main_runs parse_sample unicode_sample
                           (Some [("Planilha1", sheet_sample)])) _ eq_refl)).
    by_compute.
  - apply (proj1 (proj2 (proj2 (ideb_main_runs parse_sample unicode_sample
                                  (Some [(preprocess_ideb.SHEET_NAME, sheet_no_rede)]))
                           _ eq_refl) sheet_no_rede eq_refl)).
    by_compute.
  - apply (proj1 (proj2 (proj2 (proj2 (ideb_main_runs parse_sample unicode_sample
                                  (Some [(preprocess_ideb.SHEET_NAME, sheet_no_years)]))
                           _ eq_refl) sheet_no_years eq_refl))).
    + by_compute.
    + repeat constructor.
  - apply (proj2 (proj2 (proj2 (proj2 (ideb_main_runs parse_sample unicode_sample
                                  (Some [(preprocess_ideb.SHEET_NAME, sheet_superscript)]))
                           _ eq_refl) sheet_superscript eq_refl))).
    + by_compute.
    + apply Exists_cons_tl, Exists_cons_hd. reflexivity.
  - by_compute.
Defined.

Lemma overview_kpis_witness :
  preprocess_enem.build_overview_stats (overview_frame_of key_federal_df 700) metrics6
    = Ok stats_700 ∧
  "nota_final" ∈ metrics6 ∧
  ∃ fs k,
    overview_tab._filter_stats stats_700 filters_federal = Ok fs ∧
    overview_tab._render_kpi_row fs "nota_final" = Ok (Some k) ∧
    overview_tab.total_n k =
      Z.of_nat (length (participants filters_federal
                          (overview_frame_of key_federal_df 700))).
Proof.
  apply and_intro_dep; [by_compute|]. intros Hs.
  apply and_intro_dep; [by_compute|]. intros Hm.
  destruct (overview_kpis _ _ _ filters_federal _ Hs Hm) as (fs & k & Hfs & Hk & _ & Hn & _).
  exists fs, k. split; [exact Hfs|]. split; [exact Hk|exact Hn].
Defined.

Lemma normalize_selection_cases_witness :
  NoDup ["Federal"] ∧ NoDup ["Federal"; "Privada"] ∧
  (∀ x, x ∈ ["Federal"] → x ∈ ["Federal"; "Privada"]) ∧
  (filters._normalize_selection ["Federal"] ["Federal"; "Privada"] = Some [] ↔
   ["Federal"; "Privada"] ≠ [] ∧ ["Federal"] = []).
Proof.
  apply and_intro_dep; [by_compute|]. intros Hsel.
  apply and_intro_dep; [by_compute|]. intros Hopt.
  apply and_intro_dep.
  { intros x Hx. apply list_elem_of_singleton in Hx. rewrite Hx. by left. }
  intros Hsub.
  exact (proj1 (proj2 (normalize_selection_cases _ _ Hsel Hsub Hopt))).
Defined.

Lemma apply_filters_spec_witness :
  ∃ out,
    filters.apply_filters essay_stats_700 filters_federal = Ok out ∧
    columns out = columns essay_stats_700.
Proof.
  destruct (apply_filters_spec essay_stats_700 filters_federal) as (out & Hrun & Hc & _).
  exists out. split; [exact Hrun|exact Hc].
Defined.

Lemma empty_selection_witness :
  filters.redes filters_nothing = Some [] ∧ "TIPO_ESCOLA" ∈ columns stats_700 ∧
  ∃ out, overview_tab._filter_stats stats_700 filters_nothing = Ok out ∧ rows out = [].
Proof.
  apply and_intro_dep; [reflexivity|]. intros Hsel.
  apply and_intro_dep; [by_compute|]. intros Hc.
  apply (proj2 (proj2 (empty_selection stats_700 filters_nothing))).
  left. split; [exact Hsel|exact Hc].
Defined.

Lemma metric_not_in_data_witness :
  preprocess_enem.build_overview_stats (overview_frame_of key_federal_df 700) metrics6
    = Ok stats_700 ∧
  ("nota_geral" ∉ metrics6) ∧
  overview_tab._render_kpi_row stats_700 "nota_geral" = Ok None.
Proof.
  apply and_intro_dep; [by_compute|]. intros Hs.
  apply and_intro_dep; [by_compute|]. intros Hm.
  exact (proj1 (metric_not_in_data "nota_geral") _ _ _ stats_700 Hs Hm eq_refl).
Defined.

Lemma overview_participation_witness :
  preprocess_enem.build_overview_stats (overview_frame_of key_federal_df 700) metrics6
    = Ok stats_700 ∧
  ∃ fs chart,
    overview_tab._filter_stats stats_700 filters_federal = Ok fs ∧
    overview_tab._render_participation_by_school_type fs = Ok (Some chart) ∧
    NoDup ((λ r, cell_of r "TIPO_ESCOLA") <$> rows chart).
Proof.
  apply and_intro_dep; [by_compute|]. intros Hs.
  destruct (overview_participation _ _ _ filters_federal Hs)
    as (fs & chart & Hfs & Hc & Hnd & _).
  exists fs, chart. split; [exact Hfs|]. split; [exact Hc|exact Hnd].
Defined.

Lemma overview_distribution_witness :
  preprocess_enem.build_overview_hist (overview_frame_of key_federal_df 700) metrics6
    = Ok hist_700 ∧
  NoDup metrics6 ∧
  filters.metric_column filters_federal ∈ metrics6 ∧
  ∃ fh res,
    overview_tab._filter_hist hist_700 filters_federal = Ok fh ∧
    overview_tab._render_distribution_chart_from_hist fh = Ok res.
Proof.
  apply and_intro_dep; [by_compute|]. intros Hh.
  apply and_intro_dep; [by_compute|]. intros Hnd.
  apply and_intro_dep; [by_compute|]. intros Hm.
  destruct (overview_distribution _ _ _ filters_federal Hh Hnd Hm)
    as (fh & res & Hfh & Hres & _).
  exists fh, res. split; [exact Hfh|exact Hres].
Defined.

Lemma map_tab_summary_witness :
  preprocess_map_uf.map_frame d_700 = Ok (overview_frame_of key_federal_df 700, metrics6) ∧
  preprocess_map_uf.main d_700 = Ok map_700 ∧
  "nota_final" ∈ metrics6 ∧
  ∃ fo s,
    map_tab._apply_map_filters map_700 filters_federal = Ok fo ∧
    map_tab._build_uf_summary fo "nota_final" = Ok s ∧
    NoDup ((λ r, cell_of r "SG_UF_ESC") <$> rows s).
Proof.
  apply and_intro_dep; [by_compute|]. intros Hframe.
  apply and_intro_dep; [by_compute|]. intros Hrun.
  apply and_intro_dep; [by_compute|]. intros Hm.
  destruct (map_tab_summary _ _ _ _ filters_federal _ Hframe Hrun Hm)
    as (fo & s & part & Hfo & Hs & _ & _ & Hnd & _).
  exists fo, s. split; [exact Hfo|]. split; [exact Hs|exact Hnd].
Defined.

Lemma overview_tab_runs_witness :
  preprocess_enem.build_overview_stats (overview_frame_of key_federal_df 700) metrics6
    = Ok stats_700 ∧
  preprocess_enem.build_overview_hist (overview_frame_of key_federal_df 700) metrics6
    = Ok hist_700 ∧
  ∃ v, overview_tab.render_overview_tab stats_700 hist_700 filters_federal = Ok v.
Proof.
  apply and_intro_dep; [by_compute|]. intros Hs.
  apply and_intro_dep; [by_compute|]. intros Hh.
  destruct (overview_tab_runs _ _ _ _ filters_federal Hs Hh) as (v & Hv & _).
  exists v. exact Hv.
Defined.

Lemma essay_tab_indicators_witness :
  preprocess_redacao.essay_frame d_code5 = Ok (essay_frame_of key_null_df 300) ∧
  preprocess_redacao.build_stats (essay_frame_of key_null_df 300) = Ok essay_stats_null ∧
  preprocess_redacao.build_hist (essay_frame_of key_null_df 300) = Ok (DF [] []) ∧
  filters.metric_column filters_all =
    get_metric_column (filters.disciplina_label filters_all) ∧
  redacao_tab.render_redacao_tab essay_stats_null (DF [] []) filters_all =
    Raise (KeyError "bin_idx").
Proof.
  split; [by_compute|].
  apply and_intro_dep; [by_compute|]. intros Hs.
  apply and_intro_dep; [by_compute|]. intros Hh.
  apply and_intro_dep; [reflexivity|]. intros Hf.
  destruct (essay_tab_indicators _ _ _ filters_all Hs Hh Hf)
    as (part & scores & Hpart & _ & _ & Hkey & _).
  apply Hkey; [|reflexivity].
  rewrite Hpart. by_compute.
Defined.

Lemma schools_tab_indicators_witness :
  "media_nota_final" =
    (if has_col schools_sample ("media_" +:+ filters.metric_column filters_federal)
     then "media_" +:+ filters.metric_column filters_federal else "media_nota_final") ∧
  (∀ r, r ∈ rows schools_sample → is_Some (cell_of r "media_nota_final") →
        is_Some (num r !! "media_nota_final")) ∧
  "media_nota_final" ∈ columns schools_sample ∧
  ∃ k, schools_tab.render_schools_tab schools_sample filters_federal = Ok (Some k) ∧
       schools_tab.n_schools k = 3%nat.
Proof.
  apply and_intro_dep; [reflexivity|]. intros Hc.
  apply and_intro_dep.
  { apply (proj1 (Forall_forall
                    (λ r, is_Some (cell_of r "media_nota_final") →
                          is_Some (num r !! "media_nota_final")) _)).
    by_compute. }
  intros Hnum.
  apply and_intro_dep; [by_compute|]. intros Hin.
  destruct (proj2 (schools_tab_indicators schools_sample filters_federal
                     "media_nota_final" Hc Hnum) Hin)
    as (filtered & kept & vals & res & Hf & Hkept & _ & Hrun & Hnone & Hk).
  destruct res as [k|].
  - exists k. split; [exact Hrun|].
    destruct (Hk k eq_refl) as (Hn & _). rewrite Hn, Hkept.
    revert Hf. vm_compute. intros [= <-]. reflexivity.
  - exfalso. revert Hrun. vm_compute. discriminate.
Defined.
